(** * maedatimetool: delivery-date calculator and hourglass sand model

    A shallow embedding of the two numeric cores of [app.js]:
    - [isHoliday] / [calculateDelivery]: the holiday table, its string keys,
      and the three lead-time counting loops over a JavaScript [Date];
    - [SandPhysicsEngine]: [calculateSandHeights] and [volumeToHeight].

    Conventions of the embedding.
    - A JavaScript number that holds an integer is a [Z]; a number that holds
      a measurement (progress, volume, height) is an [R].  Rounding of IEEE
      doubles is outside the model, except at the counters of the loops
      (below).  A number that may be [NaN] is an [option]: what [parseInt]
      returns, and the fields of a [Date], which are [NaN] on an invalid
      date.
    - A calendar day is its day number: whole days since 1970-01-01, with
      the day-level functions of ECMA-262 (YearFromTime, MonthFromTime,
      DateFromTime, WeekDay, MakeDay).  A [Date] object holds a time value in
      milliseconds, clipped to the range of [Date] (10^8 days either side of
      the epoch), or is invalid; local time is the time value plus a fixed
      offset [LocalTZA].
    - The counter of a loop is a number holding a whole value: [++] adds one
      up to 2^53 and leaves 2^53 as it is.
    - A loop carries a bound on its iterations ([fuel]) and returns [None]
      when the bound is reached; the theorems give the bound that suffices,
      or show that none does. *)

From Stdlib Require Import ZArith Lia List Bool String Ascii.
From Stdlib Require Import DecimalString DecimalZ.
From Stdlib Require Import Reals Lra.
Import ListNotations.

Local Open Scope Z_scope.

(** ** Day-level model of the JavaScript [Date] object *)

Module JSDate.

(** The time value of a [Date], in days since the epoch. *)
Definition t := Z.

Definition DaysInYear (y : Z) : Z :=
  if negb (y mod 4 =? 0) then 365
  else if negb (y mod 100 =? 0) then 366
  else if negb (y mod 400 =? 0) then 365
  else 366.

Definition DayFromYear (y : Z) : Z :=
  365 * (y - 1970) + (y - 1969) / 4 - (y - 1901) / 100 + (y - 1601) / 400.

(** YearFromTime: the largest [y] with [DayFromYear y <= d].  The mean
    Gregorian year has 146097/400 days; the estimate is off by at most one. *)
Definition YearFromTime (d : t) : Z :=
  let y0 := 1970 + (400 * d) / 146097 in
  if DayFromYear (y0 + 1) <=? d then y0 + 1
  else if DayFromYear y0 <=? d then y0
  else y0 - 1.

Definition InLeapYear (d : t) : bool :=
  DaysInYear (YearFromTime d) =? 366.

Definition DayWithinYear (d : t) : Z :=
  d - DayFromYear (YearFromTime d).

(** First day within the year of month [m] (0 = January). *)
Definition monthStart (leap : bool) (m : Z) : Z :=
  let l := if leap then 1 else 0 in
  if m <=? 0 then 0
  else if m =? 1 then 31
  else if m =? 2 then 59 + l
  else if m =? 3 then 90 + l
  else if m =? 4 then 120 + l
  else if m =? 5 then 151 + l
  else if m =? 6 then 181 + l
  else if m =? 7 then 212 + l
  else if m =? 8 then 243 + l
  else if m =? 9 then 273 + l
  else if m =? 10 then 304 + l
  else 334 + l.

Definition MonthFromTime (d : t) : Z :=
  let w := DayWithinYear d in
  let l := if InLeapYear d then 1 else 0 in
  if w <? 31 then 0
  else if w <? 59 + l then 1
  else if w <? 90 + l then 2
  else if w <? 120 + l then 3
  else if w <? 151 + l then 4
  else if w <? 181 + l then 5
  else if w <? 212 + l then 6
  else if w <? 243 + l then 7
  else if w <? 273 + l then 8
  else if w <? 304 + l then 9
  else if w <? 334 + l then 10
  else 11.

Definition DateFromTime (d : t) : Z :=
  DayWithinYear d - monthStart (InLeapYear d) (MonthFromTime d) + 1.

Definition WeekDay (d : t) : Z := (d + 4) mod 7.

(** MakeDay(year, month, date): the day number of the first of the month,
    plus [date - 1]; a month outside 0..11 carries into the year. *)
Definition MakeDay (year month date : Z) : t :=
  let ym := year + month / 12 in
  let mn := month mod 12 in
  DayFromYear ym + monthStart (DaysInYear ym =? 366) mn + date - 1.

(** Number of days of month [m] (0 = January). *)
Definition DaysInMonth (leap : bool) (m : Z) : Z :=
  if m =? 1 then (if leap then 29 else 28)
  else if (m =? 3) || (m =? 5) || (m =? 8) || (m =? 10) then 30
  else 31.

(** [new Date(y, m, d)]: a year in 0..99 is read as 1900 + y. *)
Definition make (y m d : Z) : t :=
  let yr := if (0 <=? y) && (y <=? 99) then 1900 + y else y in
  MakeDay yr m d.

Definition getFullYear (d : t) : Z := YearFromTime d.
Definition getMonth (d : t) : Z := MonthFromTime d.
Definition getDate (d : t) : Z := DateFromTime d.
Definition getDay (d : t) : Z := WeekDay d.

(** [this.setDate(dt)] keeps the year and month and replaces the day of the
    month, renormalising through MakeDay. *)
Definition setDate (d : t) (dt : Z) : t :=
  MakeDay (YearFromTime d) (MonthFromTime d) dt.

End JSDate.


(** ** JavaScript strings and objects used by the holiday lookup *)

Local Open Scope string_scope.

(** [String(n)] for an integral number: decimal digits, a leading minus sign
    for a negative number.  (JavaScript switches to an exponent from 10^21
    on; no year, month or day of a [Date] is that large.) *)
Definition ToString (n : Z) : string := NilZero.string_of_int (Z.to_int n).

(** The first [n] characters of [fill] repeated for ever; [cur] is what is
    left of the current copy. *)
Fixpoint filler (fill cur : string) (n : nat) : string :=
  match n with
  | O => EmptyString
  | S n' =>
      match cur with
      | String c rest => String c (filler fill rest n')
      | EmptyString =>
          match fill with
          | String c rest => String c (filler fill rest n')
          | EmptyString => EmptyString
          end
      end
  end.

(** [s.padStart(targetLength, padString)] *)
Definition padStart (s : string) (targetLength : nat) (padString : string) : string :=
  filler padString padString (targetLength - String.length s) ++ s.

(** What a property read can yield here: [undefined], a string stored in the
    object, or a member inherited from [Object.prototype]. *)
Inductive value : Type :=
| Undefined
| Str (s : string)
| Inherited (name : string).

(** ToBoolean: [undefined] and the empty string are falsy. *)
Definition truthy (v : value) : bool :=
  match v with
  | Undefined => false
  | Str s => negb (s =? "")
  | Inherited _ => true
  end.

(** An object literal with string values: own properties in source order. *)
Definition object := list (string * string).

Definition ObjectPrototype : list string :=
  [ "constructor"; "__defineGetter__"; "__defineSetter__"; "hasOwnProperty";
    "__lookupGetter__"; "__lookupSetter__"; "isPrototypeOf";
    "propertyIsEnumerable"; "toString"; "valueOf"; "__proto__";
    "toLocaleString" ].

Fixpoint ownProperty (o : object) (key : string) : option string :=
  match o with
  | [] => None
  | (k, v) :: rest => if k =? key then Some v else ownProperty rest key
  end.

(** [o[key]]: an own property, else a member of [Object.prototype], else
    [undefined]. *)
Definition getProperty (o : object) (key : string) : value :=
  match ownProperty o key with
  | Some v => Str v
  | None => if existsb (String.eqb key) ObjectPrototype then Inherited key else Undefined
  end.

(** ** The holiday table (2025-2028) *)

Definition HOLIDAY_DATA_MIN_YEAR : Z := 2025.
Definition HOLIDAY_DATA_MAX_YEAR : Z := 2028.

Definition holidays : object :=
  [ ("2025-01-01", "元日");
    ("2025-01-13", "成人の日");
    ("2025-02-11", "建国記念の日");
    ("2025-02-23", "天皇誕生日");
    ("2025-02-24", "振替休日");
    ("2025-03-20", "春分の日");
    ("2025-04-29", "昭和の日");
    ("2025-05-03", "憲法記念日");
    ("2025-05-04", "みどりの日");
    ("2025-05-05", "こどもの日");
    ("2025-05-06", "振替休日");
    ("2025-07-21", "海の日");
    ("2025-08-11", "山の日");
    ("2025-09-15", "敬老の日");
    ("2025-09-23", "秋分の日");
    ("2025-10-13", "スポーツの日");
    ("2025-11-03", "文化の日");
    ("2025-11-23", "勤労感謝の日");
    ("2025-11-24", "振替休日");
    ("2026-01-01", "元日");
    ("2026-01-12", "成人の日");
    ("2026-02-11", "建国記念の日");
    ("2026-02-23", "天皇誕生日");
    ("2026-03-20", "春分の日");
    ("2026-04-29", "昭和の日");
    ("2026-05-03", "憲法記念日");
    ("2026-05-04", "みどりの日");
    ("2026-05-05", "こどもの日");
    ("2026-05-06", "振替休日");
    ("2026-07-20", "海の日");
    ("2026-08-11", "山の日");
    ("2026-09-21", "敬老の日");
    ("2026-09-22", "国民の休日");
    ("2026-09-23", "秋分の日");
    ("2026-10-12", "スポーツの日");
    ("2026-11-03", "文化の日");
    ("2026-11-23", "勤労感謝の日");
    ("2027-01-01", "元日");
    ("2027-01-11", "成人の日");
    ("2027-02-11", "建国記念の日");
    ("2027-02-23", "天皇誕生日");
    ("2027-03-21", "春分の日");
    ("2027-03-22", "振替休日");
    ("2027-04-29", "昭和の日");
    ("2027-05-03", "憲法記念日");
    ("2027-05-04", "みどりの日");
    ("2027-05-05", "こどもの日");
    ("2027-07-19", "海の日");
    ("2027-08-11", "山の日");
    ("2027-09-20", "敬老の日");
    ("2027-09-23", "秋分の日");
    ("2027-10-11", "スポーツの日");
    ("2027-11-03", "文化の日");
    ("2027-11-23", "勤労感謝の日");
    ("2028-01-01", "元日");
    ("2028-01-10", "成人の日");
    ("2028-02-11", "建国記念の日");
    ("2028-02-23", "天皇誕生日");
    ("2028-03-20", "春分の日");
    ("2028-04-29", "昭和の日");
    ("2028-05-03", "憲法記念日");
    ("2028-05-04", "みどりの日");
    ("2028-05-05", "こどもの日");
    ("2028-07-17", "海の日");
    ("2028-08-11", "山の日");
    ("2028-09-18", "敬老の日");
    ("2028-09-22", "秋分の日");
    ("2028-10-09", "スポーツの日");
    ("2028-11-03", "文化の日");
    ("2028-11-23", "勤労感謝の日") ].

(** The template literal of [isHoliday]. *)
Definition dateStr (year month day : Z) : string :=
  ToString year ++ "-" ++ padStart (ToString (month + 1)) 2 "0"
                ++ "-" ++ padStart (ToString day) 2 "0".

Definition isHoliday (year month day : Z) : value :=
  getProperty holidays (dateStr year month day).

(** The calendar date a table key stands for: the decimal fields of
    ['YYYY-MM-DD'], month counted from 1.  Used only to state what the table
    says; [isHoliday] never parses a key. *)
Fixpoint splitDash (s : string) (cur : string) : list string :=
  match s with
  | EmptyString => [cur]
  | String c rest =>
      if Ascii.eqb c "-" then cur :: splitDash rest EmptyString
      else splitDash rest (cur ++ String c EmptyString)
  end.

Definition decimalField (s : string) : option Z :=
  option_map Z.of_uint (NilZero.uint_of_string s).

Definition keyDate (key : string) : option (Z * Z * Z) :=
  match map decimalField (splitDash key EmptyString) with
  | [Some y; Some m; Some d] => Some (y, m, d)
  | _ => None
  end.

(** The name the table gives to the calendar date [y]-[m]-[d] ([m] from 1). *)
Fixpoint holidayOfDate (o : object) (y m d : Z) : option string :=
  match o with
  | [] => None
  | (k, v) :: rest =>
      match keyDate k with
      | Some (y', m', d') =>
          if (y' =? y)%Z && (m' =? m)%Z && (d' =? d)%Z then Some v
          else holidayOfDate rest y m d
      | None => holidayOfDate rest y m d
      end
  end.

(** ** The delivery-date calculator *)

Import JSDate.

Local Open Scope Z_scope.


(** *** The [Date] object

    A [Date] holds a time value: the milliseconds since 1970-01-01T00:00Z, at
    most 8.64e15 either side of it, or [NaN], which makes it an invalid date.
    Local time is the time value plus the offset [LocalTZA] of the time zone.
    The methods follow ECMA-262: a getter reads a field of the local time and
    returns [NaN] ([None]) on an invalid date; [setDate] rebuilds the time
    value through MakeDay, MakeDate and TimeClip, and leaves an invalid date
    invalid. *)

Module DateObject.

Definition msPerDay : Z := 86400000.

Inductive Date : Type :=
| InvalidDate
| TimeValue (t : Z).

Definition Day (t : Z) : JSDate.t := t / msPerDay.

Definition TimeWithinDay (t : Z) : Z := t mod msPerDay.

Definition MakeDate (day time : Z) : Z := day * msPerDay + time.

Definition TimeClip (time : Z) : Date :=
  if Z.abs time <=? 8640000000000000 then TimeValue time else InvalidDate.

Section Zone.

Variable LocalTZA : Z.

Definition LocalTime (t : Z) : Z := t + LocalTZA.

Definition UTC (t : Z) : Z := t - LocalTZA.

(** [new Date(year, month, date)]: local midnight of that day. *)
Definition fromFields (year month date : Z) : Date :=
  TimeClip (UTC (MakeDate (JSDate.make year month date) 0)).

(** [new Date('YYYY-MM-DD')] for the text of a calendar date with a
    four-digit year, as a date input gives it: midnight of that day in UTC.
    ([month] counts from 1, as in the text.) *)
Definition fromDateOnly (year month date : Z) : Date :=
  TimeClip (MakeDate (JSDate.MakeDay year (month - 1) date) 0).

Definition field (f : JSDate.t -> Z) (date : Date) : option Z :=
  match date with
  | TimeValue t => Some (f (Day (LocalTime t)))
  | InvalidDate => None
  end.

Definition getFullYear : Date -> option Z := field JSDate.YearFromTime.
Definition getMonth : Date -> option Z := field JSDate.MonthFromTime.
Definition getDate : Date -> option Z := field JSDate.DateFromTime.
Definition getDay : Date -> option Z := field JSDate.WeekDay.

(** [date.setDate(dt)], [dt] being a whole number or [NaN]. *)
Definition setDate (date : Date) (dt : option Z) : Date :=
  match date, dt with
  | TimeValue t, Some dt =>
      let t := LocalTime t in
      let newDate :=
        MakeDate
          (JSDate.MakeDay (JSDate.YearFromTime (Day t))
             (JSDate.MonthFromTime (Day t)) dt)
          (TimeWithinDay t) in
      TimeClip (UTC newDate)
  | _, _ => InvalidDate
  end.

End Zone.

End DateObject.

(** [a + b] for [a] a whole number or [NaN].  The sum is exact up to 2^53;
    beyond, where JavaScript rounds it, [setDate] is given a day outside the
    range of [Date] with the rounded and with the exact sum alike. *)
Definition plus (a : option Z) (b : Z) : option Z :=
  match a with
  | Some a => Some (a + b)
  | None => None
  end.

(** [a !== k] for [a] a whole number or [NaN]. *)
Definition differs (a : option Z) (k : Z) : bool :=
  match a with
  | Some a => negb (a =? k)
  | None => true
  end.

(** [n++] on a counter: a number holding a whole value from 0 to 2^53.  The
    sum 2^53 + 1 is not a number of JavaScript and is rounded back to 2^53. *)
Definition increment (n : Z) : Z :=
  if n <? 9007199254740992 then n + 1 else n.

Definition dayNames : list string :=
  [ "日"; "月"; "火"; "水"; "木"; "金"; "土" ]%string.

Inductive outcome : Type :=
| alert (message : string)
| shown (business holidayAware calendar : string).

Section Calculator.

Variable LocalTZA : Z.

(** [isHoliday(date.getFullYear(), date.getMonth(), date.getDate())].  On an
    invalid date the three arguments are [NaN], and the key [isHoliday]
    builds from them is ['NaN-NaN-NaN']. *)
Definition isHolidayOn (date : DateObject.Date) : value :=
  match DateObject.getFullYear LocalTZA date,
        DateObject.getMonth LocalTZA date,
        DateObject.getDate LocalTZA date with
  | Some year, Some month, Some day => isHoliday year month day
  | _, _, _ => getProperty holidays "NaN-NaN-NaN"
  end.

(** Business days: [while (businessDays < leadTime) { ... }].  [fuel] bounds
    the number of iterations; [None] means the bound was reached. *)
Fixpoint businessLoop (fuel : nat) (businessDate : DateObject.Date)
    (businessDays leadTime : Z) : option DateObject.Date :=
  if businessDays <? leadTime then
    match fuel with
    | O => None
    | S fuel' =>
        let businessDate :=
          DateObject.setDate LocalTZA businessDate
            (plus (DateObject.getDate LocalTZA businessDate) 1) in
        let dayOfWeek := DateObject.getDay LocalTZA businessDate in
        let isHol := isHolidayOn businessDate in
        if differs dayOfWeek 0 && differs dayOfWeek 6 && negb (truthy isHol)
        then businessLoop fuel' businessDate (increment businessDays) leadTime
        else businessLoop fuel' businessDate businessDays leadTime
    end
  else Some businessDate.

(** Holiday-aware days: weekends count, listed holidays do not. *)
Fixpoint holidayAwareLoop (fuel : nat) (holidayAwareDate : DateObject.Date)
    (holidayAwareDays leadTime : Z) : option DateObject.Date :=
  if holidayAwareDays <? leadTime then
    match fuel with
    | O => None
    | S fuel' =>
        let holidayAwareDate :=
          DateObject.setDate LocalTZA holidayAwareDate
            (plus (DateObject.getDate LocalTZA holidayAwareDate) 1) in
        let isHol := isHolidayOn holidayAwareDate in
        if negb (truthy isHol)
        then holidayAwareLoop fuel' holidayAwareDate
               (increment holidayAwareDays) leadTime
        else holidayAwareLoop fuel' holidayAwareDate holidayAwareDays leadTime
    end
  else Some holidayAwareDate.

(** Calendar days: [calendarDate.setDate(calendarDate.getDate() + leadTime)]. *)
Definition calendarStep (orderDate : DateObject.Date) (leadTime : Z)
    : DateObject.Date :=
  DateObject.setDate LocalTZA orderDate
    (plus (DateObject.getDate LocalTZA orderDate) leadTime).

Record DeliveryDates : Type := mkDeliveryDates {
  businessDate : DateObject.Date;
  holidayAwareDate : DateObject.Date;
  calendarDate : DateObject.Date
}.

(** The three dates [calculateDelivery] computes once its inputs are
    validated and parsed. *)
Definition deliveryDates (fuel : nat) (orderDate : DateObject.Date)
    (leadTime : Z) : option DeliveryDates :=
  match businessLoop fuel orderDate 0 leadTime with
  | None => None
  | Some b =>
      match holidayAwareLoop fuel orderDate 0 leadTime with
      | None => None
      | Some h => Some (mkDeliveryDates b h (calendarStep orderDate leadTime))
      end
  end.

(** [formatResult]: on an invalid date the three getters return [NaN], and
    [dayNames[NaN]] is [undefined]. *)
Definition formatResult (d : DateObject.Date) : string :=
  match DateObject.getMonth LocalTZA d, DateObject.getDate LocalTZA d,
        DateObject.getDay LocalTZA d with
  | Some month, Some date, Some day =>
      (ToString (month + 1) ++ "/" ++ ToString date ++ "（"
         ++ nth (Z.to_nat day) dayNames "undefined" ++ "）")%string
  | _, _, _ => "NaN/NaN（undefined）"%string
  end.

(** [calculateDelivery]: [orderDateStr] is the value of the date input, empty
    ([None]) or the fields of ['YYYY-MM-DD']; [leadTime] is the result of
    [parseInt], [NaN] ([None]) or a whole number. *)
Definition calculateDelivery (fuel : nat) (orderDateStr : option (Z * Z * Z))
    (leadTime : option Z) : option outcome :=
  match orderDateStr with
  | None => Some (alert "発注日を選択してください")
  | Some (y, m, d) =>
      match leadTime with
      | None => Some (alert "リードタイムを入力してください")
      | Some leadTime =>
          if (leadTime =? 0) || (leadTime <? 1)
          then Some (alert "リードタイムを入力してください")
          else
            let orderDate := DateObject.fromFields LocalTZA y (m - 1) d in
            match deliveryDates fuel orderDate leadTime with
            | None => None
            | Some r =>
                Some (shown (formatResult (businessDate r))
                            (formatResult (holidayAwareDate r))
                            (formatResult (calendarDate r)))
            end
      end
  end.

End Calculator.

(** ** The earlier calculator (one result, chosen by a mode selector)

    The repository also holds an earlier script with its own table
    (2025-2026) and a [calculateDelivery] that computes a single date: by
    the business loop when the mode is ['business'], by [setDate] otherwise.
    It parses the order date with [new Date(orderDateStr)], which reads a
    date-only text as midnight in UTC. *)

Module Legacy.

(** What this calculator leaves on the page: an alert or the text of the
    result. *)
Inductive outcome : Type :=
| alert (message : string)
| shown (result : string).

Definition holidays : object :=
  [ ("2025-01-01", "元日");
    ("2025-01-13", "成人の日");
    ("2025-02-11", "建国記念の日");
    ("2025-02-23", "天皇誕生日");
    ("2025-02-24", "振替休日");
    ("2025-03-20", "春分の日");
    ("2025-04-29", "昭和の日");
    ("2025-05-03", "憲法記念日");
    ("2025-05-04", "みどりの日");
    ("2025-05-05", "こどもの日");
    ("2025-05-06", "振替休日");
    ("2025-07-21", "海の日");
    ("2025-08-11", "山の日");
    ("2025-09-15", "敬老の日");
    ("2025-09-23", "秋分の日");
    ("2025-10-13", "スポーツの日");
    ("2025-11-03", "文化の日");
    ("2025-11-23", "勤労感謝の日");
    ("2025-11-24", "振替休日");
    ("2026-01-01", "元日");
    ("2026-01-12", "成人の日");
    ("2026-02-11", "建国記念の日");
    ("2026-02-23", "天皇誕生日");
    ("2026-03-20", "春分の日");
    ("2026-04-29", "昭和の日");
    ("2026-05-03", "憲法記念日");
    ("2026-05-04", "みどりの日");
    ("2026-05-05", "こどもの日");
    ("2026-05-06", "振替休日");
    ("2026-07-20", "海の日");
    ("2026-08-11", "山の日");
    ("2026-09-21", "敬老の日");
    ("2026-09-22", "国民の休日");
    ("2026-09-23", "秋分の日");
    ("2026-10-12", "スポーツの日");
    ("2026-11-03", "文化の日");
    ("2026-11-23", "勤労感謝の日") ].

Definition isHoliday (year month day : Z) : value :=
  getProperty holidays (dateStr year month day).

Section Calculator.

Variable LocalTZA : Z.

Definition isHolidayOn (date : DateObject.Date) : value :=
  match DateObject.getFullYear LocalTZA date,
        DateObject.getMonth LocalTZA date,
        DateObject.getDate LocalTZA date with
  | Some year, Some month, Some day => isHoliday year month day
  | _, _, _ => getProperty holidays "NaN-NaN-NaN"
  end.

Fixpoint businessLoop (fuel : nat) (currentDate : DateObject.Date)
    (businessDays leadTime : Z) : option DateObject.Date :=
  if businessDays <? leadTime then
    match fuel with
    | O => None
    | S fuel' =>
        let currentDate :=
          DateObject.setDate LocalTZA currentDate
            (plus (DateObject.getDate LocalTZA currentDate) 1) in
        let dayOfWeek := DateObject.getDay LocalTZA currentDate in
        let isHol := isHolidayOn currentDate in
        if differs dayOfWeek 0 && differs dayOfWeek 6 && negb (truthy isHol)
        then businessLoop fuel' currentDate (increment businessDays) leadTime
        else businessLoop fuel' currentDate businessDays leadTime
    end
  else Some currentDate.

(** The date the calculator ends on. *)
Definition deliveryDate (fuel : nat) (orderDate : DateObject.Date)
    (leadTime : Z) (mode : string) : option DateObject.Date :=
  if (mode =? "business")%string
  then businessLoop fuel orderDate 0 leadTime
  else
    Some (DateObject.setDate LocalTZA orderDate
            (plus (DateObject.getDate LocalTZA orderDate) leadTime)).

(** [orderDateStr] is the value of the date input, empty ([None]) or the
    fields of ['YYYY-MM-DD']. *)
Definition calculateDelivery (fuel : nat) (orderDateStr : option (Z * Z * Z))
    (leadTime : option Z) (mode : string) : option outcome :=
  match orderDateStr with
  | None => Some (alert "発注日を選択してください")
  | Some (y, m, d) =>
      match leadTime with
      | None => Some (alert "リードタイムを入力してください")
      | Some leadTime =>
          if (leadTime =? 0) || (leadTime <? 1)
          then Some (alert "リードタイムを入力してください")
          else
            let orderDate := DateObject.fromDateOnly y m d in
            match deliveryDate fuel orderDate leadTime mode with
            | None => None
            | Some currentDate =>
                match DateObject.getMonth LocalTZA currentDate,
                      DateObject.getDate LocalTZA currentDate,
                      DateObject.getDay LocalTZA currentDate with
                | Some month, Some date, Some day =>
                    Some (shown ("→ " ++ ToString (month + 1) ++ "/"
                                    ++ ToString date ++ "（"
                                    ++ nth (Z.to_nat day) dayNames "undefined"
                                    ++ "）")%string)
                | _, _, _ => Some (shown "→ NaN/NaN（undefined）")
                end
            end
      end
  end.

End Calculator.

(** The same tests on a calendar day, for the statements below. *)
Definition holidayAt (date : JSDate.t) : value :=
  isHoliday (getFullYear date) (getMonth date) (getDate date).

Definition isBusinessDay (date : JSDate.t) : bool :=
  negb (getDay date =? 0) && negb (getDay date =? 6)
  && negb (truthy (holidayAt date)).

Definition listedInTable (date : JSDate.t) : Prop :=
  holidayOfDate holidays (getFullYear date) (getMonth date + 1) (getDate date)
  <> None.

End Legacy.


(** ** The hourglass sand model *)

Module SandPhysicsEngine.

Local Open Scope R_scope.

Definition VOLUME_CURVE_EXPONENT : R := 7 / 10.
Definition EPSILON : R := / 10 ^ 10.

(** [Math.pow(volume, e)], called only with [0 < volume < 1]. *)
Definition volumeToHeight (volume : R) (type : string) : R :=
  if Rle_dec volume 0 then 0
  else if Rge_dec volume 1 then 1
  else if (type =? "lower")%string
       then Rpower volume VOLUME_CURVE_EXPONENT
       else Rpower volume VOLUME_CURVE_EXPONENT.

Record SandHeights : Type := mkSandHeights {
  upperHeight : R;
  lowerHeight : R;
  upperVolume : R;
  lowerVolume : R
}.

Definition calculateSandHeights (progress : R) : SandHeights :=
  let lowerVolume := Rmax 0 (Rmin 1 progress) in
  let upperVolume := 1 - lowerVolume in
  let upperHeight := volumeToHeight upperVolume "upper" in
  let lowerHeight := volumeToHeight lowerVolume "lower" in
  mkSandHeights upperHeight lowerHeight upperVolume lowerVolume.

(** The guard of the [console.warn] inside [calculateSandHeights]. *)
Definition conservationWarning (progress : R) : Prop :=
  let r := calculateSandHeights progress in
  let totalVolume := upperVolume r + lowerVolume r in
  Rabs (totalVolume - 1) > EPSILON.

End SandPhysicsEngine.

(** ** Auxiliary definitions for the statements and proofs *)

Local Open Scope string_scope.

(** Two-digit fields: what [String(n).padStart(2, '0')] is for 0..99. *)
Definition pad2 (n : Z) : string := padStart (ToString n) 2 "0".

Definition twoDigitOk (n : nat) : bool :=
  (String.length (pad2 (Z.of_nat n)) =? 2)%nat
  && match decimalField (pad2 (Z.of_nat n)) with
     | Some k => (k =? Z.of_nat n)%Z
     | None => false
     end.

Fixpoint hasDash (s : string) : bool :=
  match s with
  | EmptyString => false
  | String c rest => Ascii.eqb c "-" || hasDash rest
  end.

(** A table entry is canonical when its key is the one [isHoliday] builds for
    the calendar date the key stands for. *)
Definition canonicalEntry (e : string * string) : bool :=
  match keyDate (fst e) with
  | Some (y, m, d) =>
      (fst e =? dateStr y (m - 1) d)
      && (1 <=? m)%Z && (m <=? 12)%Z && (1 <=? d)%Z && (d <=? 31)%Z
  | None => false
  end.

(** A property read seen as a value: a stored name or [undefined]. *)
Definition ofName (name : option string) : value :=
  match name with
  | Some s => Str s
  | None => Undefined
  end.

Local Open Scope Z_scope.

(** The lookup both loops make for a candidate day. *)
Definition holidayAt (date : JSDate.t) : value :=
  isHoliday (getFullYear date) (getMonth date) (getDate date).

Definition isListedHoliday (date : JSDate.t) : bool := truthy (holidayAt date).

Definition isWeekday (date : JSDate.t) : bool :=
  negb (getDay date =? 0) && negb (getDay date =? 6).

(** The test under which the business loop increments its counter. *)
Definition isBusinessDay (date : JSDate.t) : bool :=
  negb (getDay date =? 0) && negb (getDay date =? 6)
  && negb (truthy (holidayAt date)).

(** The test under which the holiday-aware loop increments its counter. *)
Definition isNonHoliday (date : JSDate.t) : bool :=
  negb (truthy (holidayAt date)).

(** How many of the [k] days after [date] pass the test [counts]. *)
Fixpoint counted (counts : JSDate.t -> bool) (date : JSDate.t) (k : nat) : Z :=
  match k with
  | O => 0
  | S k' => (if counts (date + 1) then 1 else 0) + counted counts (date + 1) k'
  end.

(** How many of them fail it: the days a loop steps over without counting. *)
Definition skipped (counts : JSDate.t -> bool) (date : JSDate.t) (k : nat) : Z :=
  Z.of_nat k - counted counts date k.

(** The shape the two loops share, with the test as a parameter. *)
Fixpoint countLoop (counts : JSDate.t -> bool) (fuel : nat) (date : JSDate.t)
    (n leadTime : Z) : option JSDate.t :=
  if n <? leadTime then
    match fuel with
    | O => None
    | S fuel' =>
        if counts (date + 1)
        then countLoop counts fuel' (date + 1) (n + 1) leadTime
        else countLoop counts fuel' (date + 1) n leadTime
    end
  else Some date.

(** The day numbers of the table's entries. *)
Definition holidayDays : list JSDate.t :=
  map (fun e : string * string =>
         match keyDate (fst e) with
         | Some (y, m, d) => MakeDay y (m - 1) d
         | None => 0
         end) holidays.

(** [k] is the first number of steps after which the counter, started at [n]
    on day [d], has reached [leadTime]. *)
Definition reaches (counts : JSDate.t -> bool) (d : JSDate.t) (n leadTime : Z)
    (k : nat) : Prop :=
  (forall j, (j < k)%nat -> n + counted counts d j < leadTime)
  /\ leadTime <= n + counted counts d k.

(** [result] is the [leadTime]-th day after [orderDate] that passes the test
    [counts]: a day that passes it, with exactly [leadTime] such days from
    [orderDate + 1] up to it. *)
Definition nthDayAfter (counts : JSDate.t -> bool) (orderDate : JSDate.t)
    (leadTime : Z) (result : JSDate.t) : Prop :=
  exists k : nat,
    (1 <= k)%nat /\ result = orderDate + Z.of_nat k
    /\ counts result = true /\ counted counts orderDate k = leadTime.

(** The table lists the calendar day of [date] (month counted from 1). *)
Definition listedInTable (date : JSDate.t) : Prop :=
  holidayOfDate holidays (getFullYear date) (getMonth date + 1) (getDate date)
  <> None.

(** ** Calendar days and [Date] objects

    Notions used to state what the calculator computes. *)

(** The [Date] at local midnight of the calendar day [day]. *)
Definition atMidnight (LocalTZA : Z) (day : JSDate.t) : DateObject.Date :=
  DateObject.TimeValue (day * DateObject.msPerDay - LocalTZA).

(** That midnight lies in the range of [Date]. *)
Definition inRange (LocalTZA : Z) (day : JSDate.t) : Prop :=
  Z.abs (day * DateObject.msPerDay - LocalTZA) <= 8640000000000000.

(** A [Date] as the constructors and [setDate] leave it: within the range. *)
Definition clipped (date : DateObject.Date) : Prop :=
  match date with
  | DateObject.TimeValue t => Z.abs t <= 8640000000000000
  | DateObject.InvalidDate => True
  end.

(** The [Date] [j] days on from [start], at the same time of day; invalid
    when [start] is or when that leaves the range. *)
Definition afterDays (start : DateObject.Date) (j : Z) : DateObject.Date :=
  match start with
  | DateObject.TimeValue t =>
      DateObject.TimeClip (t + j * DateObject.msPerDay)
  | DateObject.InvalidDate => DateObject.InvalidDate
  end.

(** The calendar day on which the time value [t] falls in local time. *)
Definition localDay (LocalTZA t : Z) : JSDate.t :=
  DateObject.Day (DateObject.LocalTime LocalTZA t).

(** The tests under which the loops increment their counters, on the
    candidate [Date]. *)
Definition businessCounts (LocalTZA : Z) (date : DateObject.Date) : bool :=
  differs (DateObject.getDay LocalTZA date) 0
  && differs (DateObject.getDay LocalTZA date) 6
  && negb (truthy (isHolidayOn LocalTZA date)).

Definition holidayAwareCounts (LocalTZA : Z) (date : DateObject.Date) : bool :=
  negb (truthy (isHolidayOn LocalTZA date)).

Definition legacyCounts (LocalTZA : Z) (date : DateObject.Date) : bool :=
  differs (DateObject.getDay LocalTZA date) 0
  && differs (DateObject.getDay LocalTZA date) 6
  && negb (truthy (Legacy.isHolidayOn LocalTZA date)).

(** The shape the loops share on [Date] objects, with the test as a
    parameter. *)
Fixpoint dateLoop (LocalTZA : Z) (counts : DateObject.Date -> bool)
    (fuel : nat) (date : DateObject.Date) (n leadTime : Z)
    : option DateObject.Date :=
  if n <? leadTime then
    match fuel with
    | O => None
    | S fuel' =>
        let date :=
          DateObject.setDate LocalTZA date
            (plus (DateObject.getDate LocalTZA date) 1) in
        if counts date
        then dateLoop LocalTZA counts fuel' date (increment n) leadTime
        else dateLoop LocalTZA counts fuel' date n leadTime
    end
  else Some date.

(** The test a loop makes on its [i]-th candidate after [start]. *)
Definition candidate (counts : DateObject.Date -> bool)
    (start : DateObject.Date) (i : Z) : bool :=
  counts (afterDays start i).

(** The text [formatResult] writes for a calendar day. *)
Definition dayText (day : JSDate.t) : string :=
  (ToString (getMonth day + 1) ++ "/" ++ ToString (getDate day) ++ "（"
     ++ nth (Z.to_nat (getDay day)) dayNames "undefined" ++ "）")%string.

(** What is shown for the calendar day [day]: its text, or the text of an
    invalid [Date] when its midnight is outside the range. *)
Definition shownText (LocalTZA : Z) (day : JSDate.t) : string :=
  if Z.abs (day * DateObject.msPerDay - LocalTZA) <=? 8640000000000000
  then dayText day
  else "NaN/NaN（undefined）"%string.

(** The table [o] has no entry for the calendar date of [day], months
    counted from 1 as its keys count them. *)
Definition unlisted (o : object) (day : JSDate.t) : bool :=
  match holidayOfDate o (getFullYear day) (getMonth day + 1) (getDate day) with
  | Some _ => false
  | None => true
  end.

(** The text of a calendar date that a date input can give to
    [new Date(text)]: a four-digit year and a day of the month. *)
Definition calendarDate4 (y m d : Z) : Prop :=
  0 <= y <= 9999 /\ 1 <= m <= 12
  /\ 1 <= d <= JSDate.DaysInMonth (JSDate.DaysInYear y =? 366) (m - 1).

(** [clamp(progress, 0, 1)] as the specification words it. *)
Definition clamp01 (progress : R) : R :=
  if Rlt_dec progress 0 then 0%R
  else if Rlt_dec 1 progress then 1%R
  else progress.

(** ** Further functions of the script: HTML escaping

    Strings are byte strings in UTF-8.  The five characters [escapeHtml]
    replaces are ASCII, and no byte of a multi-byte UTF-8 sequence is ASCII,
    so replacing them byte by byte is replacing them in the JavaScript
    string. *)

Local Open Scope string_scope.

(** [s.replace(/c/g, by)] for a pattern that is the single character [c] and
    a replacement without [$]. *)
Fixpoint replaceAll (c : ascii) (rep : string) (s : string) : string :=
  match s with
  | EmptyString => EmptyString
  | String a rest =>
      if Ascii.eqb a c then rep ++ replaceAll c rep rest
      else String a (replaceAll c rep rest)
  end.

(** The double quote character. *)
Definition dquote : ascii := ascii_of_nat 34.

Definition escapeHtml (str : string) : string :=
  replaceAll "'" "&#39;"
    (replaceAll dquote "&quot;"
       (replaceAll ">" "&gt;"
          (replaceAll "<" "&lt;"
             (replaceAll "&" "&amp;" str)))).

(** What one character becomes. *)
Definition entity (c : ascii) : string :=
  if Ascii.eqb c "&" then "&amp;"
  else if Ascii.eqb c "<" then "&lt;"
  else if Ascii.eqb c ">" then "&gt;"
  else if Ascii.eqb c dquote then "&quot;"
  else if Ascii.eqb c "'" then "&#39;"
  else String c EmptyString.

Fixpoint escapeEach (s : string) : string :=
  match s with
  | EmptyString => EmptyString
  | String c rest => entity c ++ escapeEach rest
  end.

Definition isSpecial (c : ascii) : bool :=
  Ascii.eqb c "&" || Ascii.eqb c "<" || Ascii.eqb c ">"
  || Ascii.eqb c dquote || Ascii.eqb c "'".

Fixpoint hasSpecial (s : string) : bool :=
  match s with
  | EmptyString => false
  | String c rest => isSpecial c || hasSpecial rest
  end.

(** [s] starts with [p]: the rest of [s] after it. *)
Fixpoint stripPrefix (p s : string) : option string :=
  match p, s with
  | EmptyString, _ => Some s
  | String a p', String b s' =>
      if Ascii.eqb a b then stripPrefix p' s' else None
  | String _ _, EmptyString => None
  end.

(** How HTML reads the five references back; anything else is kept.  [fuel]
    is the length of the input. *)
Fixpoint decodeEntities (fuel : nat) (s : string) : string :=
  match fuel with
  | O => EmptyString
  | S fuel' =>
      match stripPrefix "&amp;" s with
      | Some r => String "&" (decodeEntities fuel' r)
      | None =>
      match stripPrefix "&lt;" s with
      | Some r => String "<" (decodeEntities fuel' r)
      | None =>
      match stripPrefix "&gt;" s with
      | Some r => String ">" (decodeEntities fuel' r)
      | None =>
      match stripPrefix "&quot;" s with
      | Some r => String dquote (decodeEntities fuel' r)
      | None =>
      match stripPrefix "&#39;" s with
      | Some r => String "'" (decodeEntities fuel' r)
      | None =>
      match s with
      | EmptyString => EmptyString
      | String c r => String c (decodeEntities fuel' r)
      end end end end end end
  end.

Definition unescapeHtml (s : string) : string :=
  decodeEntities (String.length s) s.

(** Every ampersand of [s] starts one of the five references. *)
Fixpoint ampersandsEscaped (s : string) : bool :=
  match s with
  | EmptyString => true
  | String c rest =>
      (negb (Ascii.eqb c "&")
       || match stripPrefix "amp;" rest, stripPrefix "lt;" rest,
                stripPrefix "gt;" rest, stripPrefix "quot;" rest,
                stripPrefix "#39;" rest with
          | None, None, None, None, None => false
          | _, _, _, _, _ => true
          end)
      && ampersandsEscaped rest
  end.

Fixpoint hasMarkup (s : string) : bool :=
  match s with
  | EmptyString => false
  | String c rest =>
      Ascii.eqb c "<" || Ascii.eqb c ">" || Ascii.eqb c dquote
      || Ascii.eqb c "'" || hasMarkup rest
  end.

(** ** Date strings of the shipment and arrival data *)

(** [\d]: an ASCII digit. *)
Definition isDigit (c : ascii) : bool :=
  (48 <=? nat_of_ascii c)%nat && (nat_of_ascii c <=? 57)%nat.

Fixpoint allDigits (s : string) : bool :=
  match s with
  | EmptyString => true
  | String c rest => isDigit c && allDigits rest
  end.

(** The longest run of digits a string starts with, and what follows it. *)
Fixpoint spanDigits (s : string) : string * string :=
  match s with
  | EmptyString => (EmptyString, EmptyString)
  | String c rest =>
      if isDigit c
      then let (d, r) := spanDigits rest in (String c d, r)
      else (EmptyString, s)
  end.

(** [/^\d{4}S\d{1,2}S\d{1,2}$/.test(s)] for a separator [S] that is not a
    digit: four digits, [S], one or two digits, [S], one or two digits, and
    nothing more. *)
Definition testDate (sep : ascii) (s : string) : bool :=
  let (y, r1) := spanDigits s in
  (String.length y =? 4)%nat
  && match r1 with
     | EmptyString => false
     | String c1 r1' =>
         Ascii.eqb c1 sep
         && let (m, r2) := spanDigits r1' in
            (1 <=? String.length m)%nat && (String.length m <=? 2)%nat
            && match r2 with
               | EmptyString => false
               | String c2 r2' =>
                   Ascii.eqb c2 sep
                   && let (d, r3) := spanDigits r2' in
                      (1 <=? String.length d)%nat
                      && (String.length d <=? 2)%nat
                      && (r3 =? "")
               end
     end.

(** [s.split(S)] for a one-character separator; [cur] is the part being
    read. *)
Fixpoint splitOn (sep : ascii) (s cur : string) : list string :=
  match s with
  | EmptyString => [cur]
  | String c rest =>
      if Ascii.eqb c sep then cur :: splitOn sep rest EmptyString
      else splitOn sep rest (cur ++ String c EmptyString)
  end.

Definition split (s : string) (sep : ascii) : list string :=
  splitOn sep s EmptyString.

(** [parts[i]] inside a template literal. *)
Definition part (parts : list string) (i : nat) : string :=
  nth i parts "undefined".

Definition normalizeDateString (dateStr : string) : string :=
  if dateStr =? "" then ""
  else if testDate "/" dateStr then
    let parts := split dateStr "/" in
    part parts 0 ++ "/" ++ padStart (part parts 1) 2 "0"
                 ++ "/" ++ padStart (part parts 2) 2 "0"
  else if testDate "-" dateStr then
    let parts := split dateStr "-" in
    part parts 0 ++ "/" ++ padStart (part parts 1) 2 "0"
                 ++ "/" ++ padStart (part parts 2) 2 "0"
  else dateStr.

(** The key [getShipmentQuantityForDate] and [getArrivalQuantityForDate]
    build for a day: [`${year}/${...padStart(2, '0')}/${...}`]. *)
Definition targetDate (year month day : Z) : string :=
  ToString year ++ "/" ++ padStart (ToString (month + 1)) 2 "0"
                ++ "/" ++ padStart (ToString day) 2 "0".

(** [getTodayDate()], for the [Date] [now]. *)
Definition getTodayDate (now : JSDate.t) : string :=
  let year := getFullYear now in
  let month := padStart (ToString (getMonth now + 1)) 2 "0" in
  let day := padStart (ToString (getDate now)) 2 "0" in
  ToString year ++ "/" ++ month ++ "/" ++ day.

(** [r] is empty or starts with a character that is not a digit. *)
Definition digitsEnd (r : string) : Prop :=
  match r with
  | EmptyString => True
  | String c _ => isDigit c = false
  end.

(** The shape a date text must have: four digits, one or two, one or two. *)
Definition dateFields (y m d : string) : Prop :=
  allDigits y = true /\ allDigits m = true /\ allDigits d = true
  /\ String.length y = 4%nat
  /\ (1 <= String.length m <= 2)%nat /\ (1 <= String.length d <= 2)%nat.

(** Checks run over the finitely many years and fields of a date. *)
Definition yearDigitsOk (y : Z) : bool :=
  allDigits (ToString y) && (String.length (ToString y) =? 4)%nat.

(** The years 1000..9999, a hundred at a time. *)
Definition yearOf (a b : nat) : Z := (1000 + 100 * Z.of_nat a + Z.of_nat b)%Z.

Definition fieldDigitsOk (n : nat) : bool :=
  allDigits (ToString (Z.of_nat n))
  && (1 <=? String.length (ToString (Z.of_nat n)))%nat
  && (String.length (ToString (Z.of_nat n)) <=? 2)%nat.

(** ** Shipment rows per calendar day *)

(** [row[name] || '']: the text of a column of a parsed CSV row, empty when
    the row has no such column. *)
Definition column (row : object) (name : string) : string :=
  match ownProperty row name with
  | Some s => s
  | None => ""
  end.

(** [!currentWarehouse]: nothing selected ([null]) or an empty name. *)
Definition notSelected (currentWarehouse : option string) : bool :=
  match currentWarehouse with
  | None => true
  | Some w => w =? ""
  end.

(** [warehouse === currentWarehouse] *)
Definition isCurrent (warehouse : string) (currentWarehouse : option string)
  : bool :=
  match currentWarehouse with
  | None => false
  | Some w => warehouse =? w
  end.

(** [getShipmentQuantityForDate]: [shipmentData] is [null] ([None]) or the
    rows read from the CSV file. *)
Definition getShipmentQuantityForDate (shipmentData : option (list object))
    (currentWarehouse : option string) (year month day : Z) : Z :=
  match shipmentData with
  | None => 0%Z
  | Some rows =>
      let targetDate := targetDate year month day in
      fold_left
        (fun totalQuantity row =>
           let dateStr := column row "出荷希望日" in
           let warehouse := column row "倉庫名" in
           if dateStr =? targetDate then
             if notSelected currentWarehouse
                || isCurrent warehouse currentWarehouse
             then (totalQuantity + 1)%Z
             else totalQuantity
           else totalQuantity)
        rows 0%Z
  end.

(** ** Durations and clocks *)

(** [formatDuration(seconds)] for a whole number of seconds: [Math.floor] of
    a quotient is [Z.div], the remainder operator is [Z.rem]. *)
Definition formatDuration (seconds : Z) : string :=
  let hours := (seconds / 3600)%Z in
  let minutes := (Z.rem seconds 3600 / 60)%Z in
  let secs := Z.rem seconds 60 in
  if (0 <? hours)%Z then ToString hours ++ "時間" ++ ToString minutes ++ "分"
  else if (0 <? minutes)%Z then ToString minutes ++ "分" ++ ToString secs ++ "秒"
  else ToString secs ++ "秒".

(** The text [updateTaskTimer] writes, for [elapsed] whole seconds. *)
Definition taskTimerText (elapsed : Z) : string :=
  let hours := (elapsed / 3600)%Z in
  let minutes := (Z.rem elapsed 3600 / 60)%Z in
  let seconds := Z.rem elapsed 60 in
  padStart (ToString hours) 2 "0" ++ ":" ++ padStart (ToString minutes) 2 "0"
    ++ ":" ++ padStart (ToString seconds) 2 "0".

(** [updateTaskTimer]: nothing without a start time; else the text for the
    whole seconds from [taskStartTime] to [now], both in milliseconds. *)
Definition updateTaskTimer (taskStartTime : option Z) (now : Z) : option string :=
  match taskStartTime with
  | None => None
  | Some start => Some (taskTimerText ((now - start) / 1000)%Z)
  end.

(** Reading a clock text back: the seconds that [h:m:s] stands for. *)
Definition clockSeconds (text : string) : option Z :=
  match map decimalField (split text ":") with
  | [Some h; Some m; Some s] => Some (h * 3600 + m * 60 + s)%Z
  | _ => None
  end.

Definition padDigitsOk (n : nat) : bool :=
  allDigits (padStart (ToString (Z.of_nat n)) 2 "0").

(** Whether [getShipmentQuantityForDate] counts a row for the key [target]. *)
Definition rowCounts (currentWarehouse : option string) (target : string)
    (row : object) : bool :=
  (column row "出荷希望日" =? target)
  && (notSelected currentWarehouse
      || isCurrent (column row "倉庫名") currentWarehouse).

(** ** Working hours and the hourglass of the day *)

Local Open Scope Z_scope.

(** The four module-level settings. *)
Record WorkTime : Type := mkWorkTime {
  WORK_START_HOUR : Z;
  WORK_START_MINUTE : Z;
  WORK_END_HOUR : Z;
  WORK_END_MINUTE : Z
}.

(** The values the script starts with: 8:30 to 17:30. *)
Definition defaultWorkTime : WorkTime := mkWorkTime 8 30 17 30.

Inductive settingsResult : Type :=
| settingsAlert (message : string)
| settingsSaved (w : WorkTime).

(** [updateWorkTimeSettings]: the two time inputs are empty ([None]) or the
    numbers of ['HH:MM']. *)
Definition updateWorkTimeSettings (startTime endTime : option (Z * Z))
  : settingsResult :=
  match startTime, endTime with
  | Some (startHour, startMinute), Some (endHour, endMinute) =>
      let startMinutes := startHour * 60 + startMinute in
      let endMinutes := endHour * 60 + endMinute in
      if endMinutes <=? startMinutes
      then settingsAlert "終了時刻は開始時刻より後に設定してください"
      else settingsSaved (mkWorkTime startHour startMinute endHour endMinute)
  | _, _ => settingsAlert "開始時刻と終了時刻を入力してください"
  end.

Record WorkProgress : Type := mkWorkProgress {
  elapsedSeconds : Z;
  remainingSeconds : Z;
  progressPercent : R;
  paused : bool
}.

(** The working-time part of [updateWorkTimeDisplay], at [hours]:[minutes]:
    [seconds] of the day.  (With equal start and end times the script divides
    zero by zero; the settings dialog never saves such times.) *)
Definition workProgress (w : WorkTime) (hours minutes seconds : Z)
  : WorkProgress :=
  let currentSeconds := hours * 3600 + minutes * 60 + seconds in
  let workStartSeconds := WORK_START_HOUR w * 3600 + WORK_START_MINUTE w * 60 in
  let workEndSeconds := WORK_END_HOUR w * 3600 + WORK_END_MINUTE w * 60 in
  let totalWorkSeconds := workEndSeconds - workStartSeconds in
  let paused :=
    (currentSeconds <? workStartSeconds) || (workEndSeconds <? currentSeconds) in
  if currentSeconds <? workStartSeconds then
    mkWorkProgress 0 totalWorkSeconds 0%R paused
  else if workEndSeconds <? currentSeconds then
    mkWorkProgress totalWorkSeconds 0 100%R paused
  else
    let elapsedSeconds := currentSeconds - workStartSeconds in
    let remainingSeconds := workEndSeconds - currentSeconds in
    mkWorkProgress elapsedSeconds remainingSeconds
      (IZR elapsedSeconds / IZR totalWorkSeconds * 100)%R paused.

(** The two labels under the clock. *)
Definition elapsedText (p : WorkProgress) : string :=
  let elapsedHours := elapsedSeconds p / 3600 in
  let elapsedMins := Z.rem (elapsedSeconds p) 3600 / 60 in
  ("経過: " ++ ToString elapsedHours ++ ":"
     ++ padStart (ToString elapsedMins) 2 "0")%string.

Definition remainingText (p : WorkProgress) : string :=
  let remainingHours := remainingSeconds p / 3600 in
  let remainingMins := Z.rem (remainingSeconds p) 3600 / 60 in
  ("残り: " ++ ToString remainingHours ++ ":"
     ++ padStart (ToString remainingMins) 2 "0")%string.

(** The heights given to the hourglass of the day. *)
Definition dayHourglass (w : WorkTime) (hours minutes seconds : Z)
  : SandPhysicsEngine.SandHeights :=
  let progressRatio := (progressPercent (workProgress w hours minutes seconds)
                        / 100)%R in
  SandPhysicsEngine.calculateSandHeights progressRatio.

(** The settings the dialog can leave behind: a start before the end. *)
Definition startsBeforeEnd (w : WorkTime) : Prop :=
  WORK_START_HOUR w * 60 + WORK_START_MINUTE w
  < WORK_END_HOUR w * 60 + WORK_END_MINUTE w.

(** ** The countdown timer *)

Inductive countdownStart : Type :=
| countdownAlert (message : string)
| countdownSet (countdownTotalSeconds : Z).

(** [startCountdownTimer]: [minutes] is what [parseInt] made of the input,
    [NaN] being [None]. *)
Definition startCountdownTimer (minutes : option Z) : countdownStart :=
  match minutes with
  | None => countdownAlert "1分以上を入力してください"
  | Some minutes =>
      if (minutes =? 0) || (minutes <? 1)
      then countdownAlert "1分以上を入力してください"
      else countdownSet (minutes * 60)
  end.

Inductive countdownView : Type :=
| countdownIdle
| countdownFinished
| countdownRunning (text : string) (progressRatio : R).

(** [Math.ceil(a / b)] for whole [a] and positive [b]. *)
Definition ceilDiv (a b : Z) : Z := - ((- a) / b).

(** [updateCountdownTimer] at the time [now]; [countdownStartTime] is [null]
    ([None]) or the milliseconds recorded when the countdown started. *)
Definition updateCountdownTimer (countdownStartTime : option Z)
    (countdownTotalSeconds now : Z) : countdownView :=
  match countdownStartTime with
  | None => countdownIdle
  | Some start =>
      if start =? 0 then countdownIdle
      else
        let elapsedMs := now - start in
        let totalMs := countdownTotalSeconds * 1000 in
        let remainingMs := totalMs - elapsedMs in
        if remainingMs <=? 0 then countdownFinished
        else
          let remainingSeconds := ceilDiv remainingMs 1000 in
          let minutes := remainingSeconds / 60 in
          let seconds := Z.rem remainingSeconds 60 in
          countdownRunning
            (ToString minutes ++ ":" ++ padStart (ToString seconds) 2 "0")%string
            (IZR elapsedMs / IZR totalMs)%R
  end.

(** ** The shape of the sand pile ([SandPhysicsEngine], continued) *)

Module SandPile.

Local Open Scope R_scope.

Definition MAX_PILE_HEIGHT : R := 3 / 100.

(** [Math.pow(x, y)] for [x >= 0] and [y > 0]: zero at zero, [x ^ y]
    elsewhere. *)
Definition pow (x y : R) : R :=
  if Req_dec_T x 0 then 0 else Rpower x y.

Definition getGlassHeightAtPosition (xPercent : R) : R :=
  let centerX := 50 in
  let distanceFromCenter := Rabs (xPercent - centerX) in
  let normalizedDistance := distanceFromCenter / centerX in
  1 - pow normalizedDistance (3 / 2).

(** [Math.min] of three numbers. *)
Definition min3 (a b c : R) : R := Rmin (Rmin a b) c.

Definition getSandHeightAtPosition
    (xPercent averageHeight maxHeight glassWidth : R) : R :=
  let centerX := 50 in
  let distanceFromCenter := Rabs (xPercent - centerX) in
  let slopeHeight :=
    averageHeight + MAX_PILE_HEIGHT * (1 - distanceFromCenter / centerX) in
  let glassHeightAtPosition := getGlassHeightAtPosition xPercent in
  min3 slopeHeight glassHeightAtPosition maxHeight.

End SandPile.

(** ** The calendar grid

    [renderSingleMonth] writes one [<div>] per cell; a cell is kept here as
    its class, its tooltip and the day number it shows.  What a day holds
    (work records, shipment and arrival quantities) comes from storage and
    from the loaded files and is a parameter. *)

Local Open Scope Z_scope.

Record DayData : Type := mkDayData {
  hasWork : bool;
  shipmentQty : Z;
  arrivalQty : Z
}.

Inductive calendarCell : Type :=
| otherMonthCell (day : Z)
| dayCell (className : string) (title : option string) (day : Z).

(** The class of a day of the month, built up as the script does. *)
Definition dayClassName (year month day : Z) (today : JSDate.t)
    (data : DayData) : string :=
  let currentDate := JSDate.make year month day in
  let dayOfWeek := getDay currentDate in
  let isToday :=
    (getFullYear today =? year) && (getMonth today =? month)
    && (getDate today =? day) in
  let holidayName := isHoliday year month day in
  let className := "calendar-day"%string in
  let className :=
    if truthy holidayName then (className ++ " holiday")%string
    else if dayOfWeek =? 0 then (className ++ " sunday")%string
    else if dayOfWeek =? 6 then (className ++ " saturday")%string
    else (className ++ " weekday")%string in
  let className :=
    if isToday then (className ++ " today")%string else className in
  if hasWork data || (0 <? shipmentQty data) || (0 <? arrivalQty data)
  then (className ++ " has-data")%string
  else className.

(** [title="${holidayName}"] when the day is a holiday. *)
Definition dayTitle (year month day : Z) : option string :=
  match isHoliday year month day with
  | Str name => if truthy (Str name) then Some name else None
  | Inherited name => Some name
  | Undefined => None
  end.

Definition renderSingleMonth (dataOf : Z -> DayData) (today : JSDate.t)
    (year month : Z) : list calendarCell :=
  let firstDay := JSDate.make year month 1 in
  let lastDay := JSDate.make year (month + 1) 0 in
  let prevLastDay := JSDate.make year month 0 in
  let firstDayOfWeek := getDay firstDay in
  (* for (let i = firstDayOfWeek - 1; i >= 0; i--) *)
  let before :=
    map (fun i => otherMonthCell (getDate prevLastDay - Z.of_nat i))
        (rev (seq 0 (Z.to_nat firstDayOfWeek))) in
  (* for (let day = 1; day <= lastDay.getDate(); day++) *)
  let days :=
    map (fun k =>
           let day := Z.of_nat k in
           dayCell (dayClassName year month day today (dataOf day))
                   (dayTitle year month day) day)
        (seq 1 (Z.to_nat (getDate lastDay))) in
  let totalCells := firstDayOfWeek + getDate lastDay in
  let remainingCells :=
    if Z.rem totalCells 7 =? 0 then 0 else 7 - Z.rem totalCells 7 in
  (* for (let day = 1; day <= remainingCells; day++) *)
  let after :=
    map (fun k => otherMonthCell (Z.of_nat k))
        (seq 1 (Z.to_nat remainingCells)) in
  (before ++ days ++ after)%list.

(** The year and month [renderSixMonthCalendar] passes for its [i]-th
    month. *)
Definition sixMonthCalendarMonth (today : JSDate.t) (calendarStartOffset : Z)
    (i : Z) : Z * Z :=
  let year := getFullYear today in
  let month := getMonth today + calendarStartOffset + i in
  let adjustedDate := JSDate.make year month 1 in
  let adjustedYear := getFullYear adjustedDate in
  let adjustedMonth := getMonth adjustedDate in
  (adjustedYear, adjustedMonth).

(** [for (let i = 0; i < 6; i++)]: the six months, with their grids. *)
Definition renderSixMonthCalendar (dataOf : Z -> Z -> Z -> DayData)
    (today : JSDate.t) (calendarStartOffset : Z)
  : list (Z * Z * list calendarCell) :=
  map (fun i =>
         let (adjustedYear, adjustedMonth) :=
           sixMonthCalendarMonth today calendarStartOffset (Z.of_nat i) in
         (adjustedYear, adjustedMonth,
          renderSingleMonth (dataOf adjustedYear adjustedMonth) today
            adjustedYear adjustedMonth))
      (seq 0 6).

(** The base class of a day cell is ['calendar-day weekday']. *)
Definition styledWeekday (className : string) : bool :=
  match stripPrefix "calendar-day weekday" className with
  | Some _ => true
  | None => false
  end.

Definition cellDay (c : calendarCell) : Z :=
  match c with
  | otherMonthCell day => day
  | dayCell _ _ day => day
  end.

Definition isDayCell (c : calendarCell) : bool :=
  match c with
  | otherMonthCell _ => false
  | dayCell _ _ _ => true
  end.

(** The class of a day cell as a function of the five tests it depends on. *)
Definition classOf (h s0 s6 t d : bool) : string :=
  let className := "calendar-day"%string in
  let className :=
    if h then (className ++ " holiday")%string
    else if s0 then (className ++ " sunday")%string
    else if s6 then (className ++ " saturday")%string
    else (className ++ " weekday")%string in
  let className :=
    if t then (className ++ " today")%string else className in
  if d then (className ++ " has-data")%string else className.

From Stdlib Require Import Sorted Permutation.

(** ** Task recording: [quickStartTask], [startTaskWithName], [stopTask]

    Times are the millisecond values of the [Date] objects the script makes
    with [new Date()]; a record keeps its start and end as those values (the
    script stores them with [toISOString], which keeps the millisecond).
    [taskRecords] is the list kept under ['task-records'], newest first;
    [intervals] are the interval timers started by this code that are still
    running, and [nextInterval] the handle [setInterval] returns next. *)

Module TaskLog.

Local Open Scope Z_scope.

Record TaskRecord : Type := mkTaskRecord {
  task : string;
  startTime : Z;
  endTime : Z;
  duration : Z
}.

Record State : Type := mkState {
  currentTask : option string;
  taskStartTime : option Z;
  taskTimerInterval : option Z;
  taskRecords : list TaskRecord;
  intervals : list Z;
  nextInterval : Z
}.

(** [if (currentTask)]: [null] and the empty string are falsy. *)
Definition nameTruthy (name : option string) : bool :=
  match name with
  | Some EmptyString => false
  | Some _ => true
  | None => false
  end.

(** [if (taskTimerInterval)]: [null] and [0] are falsy. *)
Definition handleTruthy (handle : option Z) : bool :=
  match handle with
  | Some h => negb (h =? 0)
  | None => false
  end.

(** [currentTask === taskName] *)
Definition sameTask (name : option string) (taskName : string) : bool :=
  match name with
  | Some s => String.eqb s taskName
  | None => false
  end.

(** [clearInterval(handle)]; clearing [null] does nothing. *)
Definition clearInterval (handle : option Z) (live : list Z) : list Z :=
  match handle with
  | Some h => filter (fun x => negb (x =? h)) live
  | None => live
  end.

Definition startTaskWithName (taskName : string) (now : Z) (st : State)
    : State :=
  let live :=
    if handleTruthy (taskTimerInterval st)
    then clearInterval (taskTimerInterval st) (intervals st)
    else intervals st in
  mkState (Some taskName) (Some now) (Some (nextInterval st))
    (taskRecords st) (nextInterval st :: live) (nextInterval st + 1).

(** [None] is the [TypeError] of [taskStartTime.toISOString()] on [null],
    thrown before anything is saved. *)
Definition stopTask (now : Z) (st : State) : option State :=
  if negb (nameTruthy (currentTask st)) then Some st
  else
    match currentTask st, taskStartTime st with
    | Some name, Some started =>
        let duration := (now - started) / 1000 in
        Some (mkState None None None
                (mkTaskRecord name started now duration :: taskRecords st)
                (clearInterval (taskTimerInterval st) (intervals st))
                (nextInterval st))
    | _, _ => None
    end.

(** [now] is the clock as [stopTask] reads it, [now'] as
    [startTaskWithName] reads it afterwards. *)
Definition quickStartTask (taskName : string) (now now' : Z) (st : State)
    : option State :=
  if sameTask (currentTask st) taskName then stopTask now st
  else
    match (if nameTruthy (currentTask st) then stopTask now st else Some st)
    with
    | Some st' => Some (startTaskWithName taskName now' st')
    | None => None
    end.

(** What the user does: a click on a quick task button or on the stop
    button, with the clock readings of the call. *)
Inductive event : Type :=
  | QuickStart (taskName : string) (now now' : Z)
  | Stop (now : Z).

Definition step (e : event) (st : State) : option State :=
  match e with
  | QuickStart taskName now now' => quickStartTask taskName now now' st
  | Stop now => stopTask now st
  end.

Fixpoint run (events : list event) (st : State) : option State :=
  match events with
  | [] => Some st
  | e :: events =>
      match step e st with
      | Some st' => run events st'
      | None => None
      end
  end.

(** The state the page starts in, with the records found in storage. *)
Definition idle (saved : list TaskRecord) (next : Z) : State :=
  mkState None None None saved [] next.

(** The clock never goes back, from [t] on through the events. *)
Fixpoint clockOk (t : Z) (events : list event) : Prop :=
  match events with
  | [] => True
  | QuickStart _ now now' :: events =>
      t <= now /\ now <= now' /\ clockOk now' events
  | Stop now :: events => t <= now /\ clockOk now events
  end.

Definition named (e : event) : Prop :=
  match e with
  | QuickStart taskName _ _ => taskName <> EmptyString
  | Stop _ => True
  end.

(** Records newest first, none ending after [t], each ending before the one
    filed after it starts, each with its duration in whole seconds. *)
Fixpoint chain (t : Z) (rs : list TaskRecord) : Prop :=
  match rs with
  | [] => True
  | r :: rs =>
      startTime r <= endTime r /\ endTime r <= t
      /\ duration r = (endTime r - startTime r) / 1000
      /\ chain (startTime r) rs
  end.

(** What holds between two calls: idle with no timer, or one named task
    running since [s] with exactly one timer. *)
Definition Inv (t0 t : Z) (old : list TaskRecord) (st : State) : Prop :=
  exists new,
    taskRecords st = (new ++ old)%list
    /\ Forall (fun r => t0 <= startTime r) new
    /\ ((currentTask st = None /\ taskStartTime st = None
         /\ taskTimerInterval st = None /\ intervals st = []
         /\ chain t new)
        \/ (exists name s h,
              currentTask st = Some name /\ name <> EmptyString
              /\ taskStartTime st = Some s /\ t0 <= s <= t
              /\ taskTimerInterval st = Some h /\ intervals st = [h]
              /\ chain s new)).

End TaskLog.

(** ** [checkHolidayDataRange]

    The flag [holidayWarningShown] after the call, and whether the warning
    was written; [currentYear] is [new Date().getFullYear()]. *)

Local Open Scope Z_scope.

Definition checkHolidayDataRange (currentYear : Z) (holidayWarningShown : bool)
    : bool * bool :=
  if (HOLIDAY_DATA_MAX_YEAR <? currentYear) && negb holidayWarningShown
  then (true, true)
  else (holidayWarningShown, false).

(** The number of warnings written by calls made in the years [years]. *)
Fixpoint warningsWritten (years : list Z) (holidayWarningShown : bool) : Z :=
  match years with
  | [] => 0
  | currentYear :: years =>
      let (shown, written) :=
        checkHolidayDataRange currentYear holidayWarningShown in
      (if written then 1 else 0) + warningsWritten years shown
  end.

(** The year of a table key lies in the range the two constants give. *)
Definition yearInRange (e : string * string) : bool :=
  match keyDate (fst e) with
  | Some (y, _, _) =>
      (HOLIDAY_DATA_MIN_YEAR <=? y) && (y <=? HOLIDAY_DATA_MAX_YEAR)
  | None => false
  end.

(** ** The analysis page: [filterRecordsByPeriod], [aggregateByTask],
    [aggregateByDay]

    The page reads the records the task recorder has stored.  A time is a
    time value in milliseconds, taken in local time (the time zone has a
    fixed offset, which is added once and for all); [Day] is the day it
    falls on, and [midnight] the time value at which a day starts. *)

Module Analysis.

Import JSDate.

Local Open Scope Z_scope.

Definition msPerDay : Z := 86400000.

Definition Day (t : Z) : JSDate.t := t / msPerDay.

Definition midnight (d : JSDate.t) : Z := d * msPerDay.

(** [now] is the time value of [new Date()]. *)
Definition filterRecordsByPeriod (now : Z) (records : list TaskLog.TaskRecord)
    (period : string) : list TaskLog.TaskRecord :=
  let today :=
    JSDate.make (getFullYear (Day now)) (getMonth (Day now))
      (getDate (Day now)) in
  if (period =? "today")%string then
    filter (fun record => midnight today <=? TaskLog.startTime record) records
  else if (period =? "week")%string then
    let weekAgo := setDate today (getDate today - 7) in
    filter (fun record => midnight weekAgo <=? TaskLog.startTime record)
      records
  else if (period =? "month")%string then
    let monthStart :=
      JSDate.make (getFullYear (Day now)) (getMonth (Day now)) 1 in
    filter (fun record => midnight monthStart <=? TaskLog.startTime record)
      records
  else records.

(** [records.reduce((sum, r) => sum + r.duration, 0)] *)
Definition totalDuration (records : list TaskLog.TaskRecord) : Z :=
  fold_left (fun sum r => sum + TaskLog.duration r) records 0.

(** *** Objects used as maps

    The own properties of an object, in the order [Object.values] and
    [Object.keys] go through them: the keys that are array indices first, by
    value, then the other keys in the order they were created. *)

Definition arrayIndex (key : string) : option Z :=
  match decimalField key with
  | Some n =>
      if (ToString n =? key)%string && (n <? 4294967295) then Some n else None
  | None => None
  end.

Fixpoint own {A : Type} (o : list (string * A)) (key : string) : option A :=
  match o with
  | [] => None
  | (k, v) :: rest => if (k =? key)%string then Some v else own rest key
  end.

(** Creating the property [key]. *)
Fixpoint define {A : Type} (key : string) (v : A) (o : list (string * A))
    : list (string * A) :=
  match o with
  | [] => [(key, v)]
  | (k, w) :: rest =>
      match arrayIndex key, arrayIndex k with
      | Some n, Some m =>
          if n <? m then (key, v) :: o else (k, w) :: define key v rest
      | Some _, None => (key, v) :: o
      | None, _ => (k, w) :: define key v rest
      end
  end.

(** Changing the value of the property [key], which stays in its place. *)
Fixpoint update {A : Type} (key : string) (f : A -> A) (o : list (string * A))
    : list (string * A) :=
  match o with
  | [] => []
  | (k, w) :: rest =>
      if (k =? key)%string then (k, f w) :: rest
      else (k, w) :: update key f rest
  end.

(** [o[key] = v] *)
Definition assign {A : Type} (key : string) (v : A) (o : list (string * A))
    : list (string * A) :=
  match own o key with
  | Some _ => update key (fun _ => v) o
  | None => define key v o
  end.

(** *** [aggregateByTask] *)

Record TaskTotal : Type := mkTaskTotal {
  task : string;
  count : Z;
  totalSeconds : Z
}.

Definition inherited (key : string) : bool :=
  existsb (String.eqb key) ObjectPrototype.

(** One turn of the [forEach].  For a name that [Object.prototype] has a
    member for, [taskMap[record.task]] is that member, which is truthy, and
    the two updates are made on it: [taskMap] gets no property. *)
Definition addRecord (taskMap : list (string * TaskTotal))
    (record : TaskLog.TaskRecord) : list (string * TaskTotal) :=
  let bump t :=
    mkTaskTotal (task t) (count t + 1)
      (totalSeconds t + TaskLog.duration record) in
  match own taskMap (TaskLog.task record) with
  | Some _ => update (TaskLog.task record) bump taskMap
  | None =>
      if inherited (TaskLog.task record) then taskMap
      else
        update (TaskLog.task record) bump
          (define (TaskLog.task record)
             (mkTaskTotal (TaskLog.task record) 0 0) taskMap)
  end.

(** [sort] with the comparator [(a, b) => b.totalSeconds - a.totalSeconds]:
    the order is by falling total, and entries of equal total keep their
    order. *)
Fixpoint insertSorted (a : TaskTotal) (sorted : list TaskTotal)
    : list TaskTotal :=
  match sorted with
  | [] => [a]
  | b :: rest =>
      if totalSeconds b <=? totalSeconds a then a :: sorted
      else b :: insertSorted a rest
  end.

Definition sort (taskArray : list TaskTotal) : list TaskTotal :=
  fold_right insertSorted [] taskArray.

Definition aggregateByTask (records : list TaskLog.TaskRecord)
    : list TaskTotal :=
  let taskMap := fold_left addRecord records [] in
  let taskArray := map snd taskMap in
  sort taskArray.

(** The records [aggregateByTask] files under [name]. *)
Definition recordsOf (name : string) (records : list TaskLog.TaskRecord)
    : list TaskLog.TaskRecord :=
  filter (fun r => (TaskLog.task r =? name)%string) records.

Definition sumDurations (records : list TaskLog.TaskRecord) : Z :=
  fold_right (fun r sum => TaskLog.duration r + sum) 0 records.

(** *** [aggregateByDay] *)

Definition dateKey (date : JSDate.t) : string :=
  (ToString (getMonth date + 1) ++ "/" ++ ToString (getDate date))%string.

Definition aggregateByDay (now : Z) (records : list TaskLog.TaskRecord)
    : list (string * Z) :=
  let today := Day now in
  let dailyMap :=
    fold_left
      (fun dailyMap i =>
         let date := setDate today (getDate today - i) in
         assign (dateKey date) 0 dailyMap)
      [6; 5; 4; 3; 2; 1; 0] [] in
  fold_left
    (fun dailyMap record =>
       let dateStr := dateKey (Day (TaskLog.startTime record)) in
       match own dailyMap dateStr with
       | Some _ =>
           update dateStr (fun v => v + TaskLog.duration record) dailyMap
       | None => dailyMap
       end)
    records dailyMap.

(** The records that fall on the month and day of [date], in any year. *)
Definition sameMonthDay (date : JSDate.t) (record : TaskLog.TaskRecord)
    : bool :=
  (getMonth (Day (TaskLog.startTime record)) =? getMonth date)
  && (getDate (Day (TaskLog.startTime record)) =? getDate date).

(** *** Notions used to state the properties of [aggregateByTask] *)

Definition descending (a b : TaskTotal) : Prop :=
  totalSeconds b <= totalSeconds a.

(** No key twice, every entry filed under its own name, and no name that
    [Object.prototype] has. *)
Definition wellKeyed (m : list (string * TaskTotal)) : Prop :=
  NoDup (map fst m)
  /\ Forall (fun e => task (snd e) = fst e /\ inherited (fst e) = false) m.

(** [taskAgg.reduce((sum, t) => sum + f(t), 0)] *)
Definition total (f : TaskTotal -> Z) (l : list TaskTotal) : Z :=
  fold_right (fun t sum => f t + sum) 0 l.

End Analysis.

(** ** Quick task buttons: [getQuickTasks], [addQuickTaskButton],
    [deleteQuickTaskButton]

    [defaultQuickTasks] is the array the constant is bound to; what is kept
    under ['quick-tasks'] is missing (or empty), not readable as JSON, or a
    saved list. *)

Module QuickTasks.

Inductive storage : Type :=
  | Absent
  | Unreadable
  | Saved (tasks : list string).

Record State : Type := mkState {
  defaultQuickTasks : list string;
  quickTasks : storage
}.

Definition initialQuickTasks : list string :=
  [ "見積業務"; "発注業務"; "問い合わせ対応"; "会議"; "資料等作成";
    "倉庫業務" ]%string.

(** What [getQuickTasks] returns: a new array read from storage, or the
    array [defaultQuickTasks] itself. *)
Inductive tasksRef : Type :=
  | Parsed (tasks : list string)
  | Defaults.

Definition getQuickTasks (st : State) : tasksRef * State :=
  match quickTasks st with
  | Saved tasks => (Parsed tasks, st)
  | Unreadable => (Defaults, mkState (defaultQuickTasks st) Absent)
  | Absent => (Defaults, st)
  end.

Definition contents (st : State) (ref : tasksRef) : list string :=
  match ref with
  | Parsed tasks => tasks
  | Defaults => defaultQuickTasks st
  end.

(** A change made to the array [ref] stands for, then [saveQuickTasks]. *)
Definition mutateAndSave (st : State) (ref : tasksRef) (tasks : list string)
    : State :=
  match ref with
  | Parsed _ => mkState (defaultQuickTasks st) (Saved tasks)
  | Defaults => mkState tasks (Saved tasks)
  end.

Definition includes (tasks : list string) (taskName : string) : bool :=
  existsb (String.eqb taskName) tasks.

(** [tasks.splice(tasks.indexOf(taskName), 1)] for a name that is there. *)
Fixpoint spliceFirst (taskName : string) (tasks : list string) : list string :=
  match tasks with
  | [] => []
  | t :: rest =>
      if String.eqb t taskName then rest else t :: spliceFirst taskName rest
  end.

(** [taskName] is the trimmed value of the input field. *)
Definition addQuickTaskButton (taskName : string) (st : State) : State :=
  match taskName with
  | EmptyString => st
  | _ =>
      let (ref, st) := getQuickTasks st in
      let tasks := contents st ref in
      if includes tasks taskName then st
      else mutateAndSave st ref (tasks ++ [taskName])
  end.

Definition deleteQuickTaskButton (taskName : string) (confirmed : bool)
    (st : State) : State :=
  if negb confirmed then st
  else
    let (ref, st) := getQuickTasks st in
    let tasks := contents st ref in
    if includes tasks taskName
    then mutateAndSave st ref (spliceFirst taskName tasks)
    else st.

(** The buttons [renderQuickTaskButtons] shows. *)
Definition shown (st : State) : list string :=
  let (ref, st) := getQuickTasks st in contents st ref.

Inductive action : Type :=
  | Add (taskName : string)
  | Delete (taskName : string) (confirmed : bool).

Definition act (st : State) (a : action) : State :=
  match a with
  | Add taskName => addQuickTaskButton taskName st
  | Delete taskName confirmed => deleteQuickTaskButton taskName confirmed st
  end.

End QuickTasks.

(** ** Editing records: [saveEditedRecord], [saveEditedCurrentTask]

    [newTask] is the trimmed name field; a time field gives its two numbers,
    [None] where [Number] yields [NaN]. *)

Module RecordEditing.

Local Open Scope Z_scope.

(** [date.setHours(hour, min, 0, 0)]: the same day, at that time. *)
Definition setHours (t hour min : Z) : Z :=
  Analysis.Day t * Analysis.msPerDay + hour * 3600000 + min * 60000.

Inductive outcome (A : Type) : Type :=
  | alertName
  | alertTime
  | alertOrder
  | typeError
  | saved (result : A).

Arguments alertName {A}.
Arguments alertTime {A}.
Arguments alertOrder {A}.
Arguments typeError {A}.
Arguments saved {A} result.

(** [records[index] = record] for an index within the array. *)
Fixpoint setAt (index : nat) (record : TaskLog.TaskRecord)
    (records : list TaskLog.TaskRecord) : list TaskLog.TaskRecord :=
  match records, index with
  | [], _ => []
  | _ :: rest, O => record :: rest
  | r :: rest, S index => r :: setAt index record rest
  end.

Definition saveEditedRecord (index : nat) (newTask : string)
    (newStart newEnd : option Z * option Z)
    (records : list TaskLog.TaskRecord)
    : outcome (list TaskLog.TaskRecord) :=
  match newTask with
  | EmptyString => alertName
  | _ =>
      match newStart, newEnd with
      | (Some startHour, Some startMin), (Some endHour, Some endMin) =>
          match nth_error records index with
          | None => typeError
          | Some record =>
              let newStart :=
                setHours (TaskLog.startTime record) startHour startMin in
              let newEnd :=
                setHours (TaskLog.endTime record) endHour endMin in
              if newEnd <=? newStart then alertOrder
              else
                let duration := (newEnd - newStart) / 1000 in
                saved
                  (setAt index
                     (TaskLog.mkTaskRecord newTask newStart newEnd duration)
                     records)
          end
      | _, _ => alertTime
      end
  end.

(** [new Date(taskStartTime)] is the epoch when [taskStartTime] is [null];
    [epoch] is its time value in local time. *)
Definition saveEditedCurrentTask (epoch : Z) (newTask : string)
    (newStart : option Z * option Z) (now : Z) (st : TaskLog.State)
    : outcome TaskLog.State :=
  match newTask with
  | EmptyString => alertName
  | _ =>
      match newStart with
      | (Some startHour, Some startMin) =>
          let newStartTime :=
            setHours
              (match TaskLog.taskStartTime st with
               | Some started => started
               | None => epoch
               end) startHour startMin in
          if now <? newStartTime then alertOrder
          else
            saved
              (TaskLog.mkState (Some newTask) (Some newStartTime)
                 (TaskLog.taskTimerInterval st) (TaskLog.taskRecords st)
                 (TaskLog.intervals st) (TaskLog.nextInterval st))
      | _ => alertTime
      end
  end.

End RecordEditing.

Local Open Scope Z_scope.
(** ** Facts about the day-level [Date] model *)

Example epoch_is_thursday :
  JSDate.make 1970 0 1 = 0 /\ JSDate.getDay (JSDate.make 1970 0 1) = 4.
Proof. split; reflexivity. Qed.

Example new_year_2025_is_wednesday :
  JSDate.make 2025 0 1 = 20089
  /\ JSDate.getDay (JSDate.make 2025 0 1) = 3
  /\ dayText (JSDate.make 2025 0 1) = "1/1（水）"%string.
Proof. repeat split; vm_compute; reflexivity. Qed.

Example leap_day_2028 :
  JSDate.setDate (JSDate.make 2028 1 28) 29 = JSDate.make 2028 1 29
  /\ JSDate.setDate (JSDate.make 2028 1 28) 30 = JSDate.make 2028 2 1
  /\ JSDate.setDate (JSDate.make 2027 1 28) 29 = JSDate.make 2027 2 1.
Proof. repeat split; vm_compute; reflexivity. Qed.

Example month_carries_into_year :
  JSDate.make 2025 12 1 = JSDate.make 2026 0 1
  /\ JSDate.make 2025 (-1) 31 = JSDate.make 2024 11 31
  /\ JSDate.make 50 0 1 = JSDate.make 1950 0 1.
Proof. repeat split; vm_compute; reflexivity. Qed.

Module JSDateFacts.
Import JSDate.

Ltac zdiv := Z.to_euclidean_division_equations; lia.

Lemma DayFromYear_succ y : DayFromYear (y + 1) = DayFromYear y + DaysInYear y.
Proof.
  unfold DayFromYear, DaysInYear.
  destruct (Z.eqb_spec (y mod 4) 0), (Z.eqb_spec (y mod 100) 0),
    (Z.eqb_spec (y mod 400) 0); cbn [negb]; zdiv.
Qed.

Lemma DaysInYear_range y : 365 <= DaysInYear y <= 366.
Proof.
  unfold DaysInYear.
  destruct (negb _); [lia|]. destruct (negb _); [lia|]. destruct (negb _); lia.
Qed.

Lemma YearFromTime_spec d :
  DayFromYear (YearFromTime d) <= d < DayFromYear (YearFromTime d + 1).
Proof.
  unfold YearFromTime.
  set (y0 := 1970 + 400 * d / 146097).
  destruct (Z.leb_spec (DayFromYear (y0 + 1)) d) as [H1|H1].
  - split; [exact H1|]. unfold DayFromYear in *. subst y0. zdiv.
  - destruct (Z.leb_spec (DayFromYear y0) d) as [H0|H0].
    + split; assumption.
    + replace (y0 - 1 + 1) with y0 by lia. split; [|exact H0].
      unfold DayFromYear in *. subst y0. zdiv.
Qed.

Lemma DayWithinYear_range d :
  0 <= DayWithinYear d < DaysInYear (YearFromTime d).
Proof.
  unfold DayWithinYear.
  pose proof (YearFromTime_spec d) as H.
  rewrite DayFromYear_succ in H. lia.
Qed.

Lemma YearFromTime_unique d y :
  DayFromYear y <= d < DayFromYear (y + 1) -> YearFromTime d = y.
Proof.
  intros H. pose proof (YearFromTime_spec d) as S.
  assert (mono : forall a b, a + 1 <= b -> DayFromYear (a + 1) <= DayFromYear b).
  { intros a b Hab. unfold DayFromYear. zdiv. }
  destruct (Z.lt_trichotomy (YearFromTime d) y) as [L|[E|G]]; [|exact E|].
  - specialize (mono (YearFromTime d) y ltac:(lia)). lia.
  - specialize (mono y (YearFromTime d) ltac:(lia)). lia.
Qed.

Lemma MonthFromTime_range d : 0 <= MonthFromTime d <= 11.
Proof.
  unfold MonthFromTime.
  repeat match goal with |- context [if ?b then _ else _] => destruct b end; lia.
Qed.

Lemma DateFromTime_range d : 1 <= DateFromTime d <= 31.
Proof.
  pose proof (DayWithinYear_range d) as W.
  unfold DateFromTime, MonthFromTime, monthStart, InLeapYear in *.
  destruct (Z.eqb_spec (DaysInYear (YearFromTime d)) 366) as [E|E];
    [rewrite E in W | pose proof (DaysInYear_range (YearFromTime d))];
    repeat match goal with
      | |- context [if (?a <? ?b) then _ else _] => destruct (Z.ltb_spec a b)
      end; cbn; lia.
Qed.

(** Writing back a date's own fields, shifted by [k] days, moves the day
    number by [k]. *)
Lemma MakeDay_fields d k :
  MakeDay (YearFromTime d) (MonthFromTime d) (DateFromTime d + k) = d + k.
Proof.
  pose proof (MonthFromTime_range d) as M.
  unfold MakeDay.
  replace (MonthFromTime d / 12) with 0 by zdiv.
  replace (MonthFromTime d mod 12) with (MonthFromTime d) by zdiv.
  rewrite Z.add_0_r.
  unfold DateFromTime, DayWithinYear, InLeapYear. lia.
Qed.

Lemma setDate_getDate_plus d k : setDate d (getDate d + k) = d + k.
Proof. unfold setDate, getDate. apply MakeDay_fields. Qed.

(** MakeDay of a calendar date is the day whose fields are that date: the
    day numbers and the calendar dates correspond one to one. *)
Lemma fields_MakeDay y m dt :
  0 <= m <= 11 -> 1 <= dt <= DaysInMonth (DaysInYear y =? 366) m ->
  YearFromTime (MakeDay y m dt) = y
  /\ MonthFromTime (MakeDay y m dt) = m
  /\ DateFromTime (MakeDay y m dt) = dt.
Proof.
  intros Hm Hd.
  assert (E : MakeDay y m dt
              = DayFromYear y + monthStart (DaysInYear y =? 366) m + dt - 1).
  { unfold MakeDay. replace (m / 12) with 0 by zdiv.
    replace (m mod 12) with m by zdiv. now rewrite Z.add_0_r. }
  pose proof (DaysInYear_range y) as R.
  assert (C : m = 0 \/ m = 1 \/ m = 2 \/ m = 3 \/ m = 4 \/ m = 5 \/ m = 6
              \/ m = 7 \/ m = 8 \/ m = 9 \/ m = 10 \/ m = 11) by lia.
  assert (Y : YearFromTime (MakeDay y m dt) = y).
  { apply YearFromTime_unique. rewrite DayFromYear_succ, E.
    destruct (Z.eqb_spec (DaysInYear y) 366) as [L|L];
      repeat (destruct C as [C|C]; [subst m; cbn in *; lia|]);
      subst m; cbn in *; lia. }
  assert (M : MonthFromTime (MakeDay y m dt) = m).
  { unfold MonthFromTime, DayWithinYear, InLeapYear. rewrite Y, E.
    destruct (Z.eqb_spec (DaysInYear y) 366) as [L|L];
      repeat (destruct C as [C|C];
              [subst m; cbn in *;
               repeat match goal with
                 | |- context [if (?a <? ?b) then _ else _] =>
                     destruct (Z.ltb_spec a b); try lia
                 end|]);
      subst m; cbn in *;
      repeat match goal with
        | |- context [if (?a <? ?b) then _ else _] =>
            destruct (Z.ltb_spec a b); try lia
        end. }
  split; [exact Y|]. split; [exact M|].
  unfold DateFromTime, DayWithinYear, InLeapYear. rewrite M, Y, E. lia.
Qed.

Lemma make_fields y m dt :
  100 <= y -> 0 <= m <= 11 -> 1 <= dt <= DaysInMonth (DaysInYear y =? 366) m ->
  getFullYear (JSDate.make y m dt) = y /\ getMonth (JSDate.make y m dt) = m
  /\ getDate (JSDate.make y m dt) = dt.
Proof.
  intros Hy Hm Hd. unfold JSDate.make.
  destruct (Z.leb_spec 0 y), (Z.leb_spec y 99); cbn [andb]; try lia;
    now apply fields_MakeDay.
Qed.

Lemma WeekDay_range d : 0 <= WeekDay d <= 6.
Proof. unfold WeekDay. zdiv. Qed.

End JSDateFacts.

(** ** Facts about the strings *)

Module StringFacts.

Local Open Scope string_scope.

Lemma length_app (a b : string) :
  String.length (a ++ b) = (String.length a + String.length b)%nat.
Proof. induction a as [|c a IH]; simpl; [reflexivity | now rewrite IH]. Qed.

(** Two concatenations with tails of equal length agree part by part. *)
Lemma app_inv_tail_length (a a' s s' : string) :
  a ++ s = a' ++ s' -> String.length s = String.length s' ->
  a = a' /\ s = s'.
Proof.
  revert a'. induction a as [|c a IH]; intros [|c' a'] E L; simpl in E.
  - now split.
  - exfalso. rewrite E in L. simpl in L. rewrite length_app in L. lia.
  - exfalso. rewrite <- E in L. simpl in L. rewrite length_app in L. lia.
  - injection E as -> E. destruct (IH _ E L) as [-> ->]. now split.
Qed.

Lemma ToString_inj (a b : Z) : ToString a = ToString b -> a = b.
Proof.
  unfold ToString. intros E. apply DecimalZ.to_int_inj.
  assert (ok : forall n, NilZero.int_of_string
              (NilZero.string_of_int (Z.to_int n)) = Some (Z.to_int n)).
  { intros n. apply NilZero.isi; destruct n; simpl; try discriminate;
      intros [= H]; now apply DecimalPos.Unsigned.to_uint_nonnil in H. }
  pose proof (ok a) as Ha. rewrite E, ok in Ha. now injection Ha.
Qed.

Lemma twoDigit_table : forallb twoDigitOk (seq 0 100) = true.
Proof. vm_compute. reflexivity. Qed.

Lemma pad2_spec (n : Z) :
  (0 <= n <= 99)%Z ->
  String.length (pad2 n) = 2%nat /\ decimalField (pad2 n) = Some n.
Proof.
  intros H.
  pose proof (proj1 (forallb_forall _ _) twoDigit_table (Z.to_nat n)) as T.
  unfold twoDigitOk in T. rewrite Z2Nat.id in T by lia.
  specialize (T ltac:(apply in_seq; lia)).
  apply andb_true_iff in T as [T1 T2]. apply Nat.eqb_eq in T1.
  split; [exact T1|].
  destruct (decimalField (pad2 n)); [|discriminate].
  apply Z.eqb_eq in T2. now subst.
Qed.

Lemma pad2_inj (a b : Z) :
  (0 <= a <= 99)%Z -> (0 <= b <= 99)%Z -> pad2 a = pad2 b -> a = b.
Proof.
  intros Ha Hb E.
  destruct (pad2_spec a Ha) as [_ Pa], (pad2_spec b Hb) as [_ Pb].
  rewrite E, Pb in Pa. now injection Pa.
Qed.

Lemma dateStr_eq year month day :
  dateStr year month day
  = ToString year ++ ("-" ++ pad2 (month + 1) ++ "-" ++ pad2 day).
Proof. reflexivity. Qed.

(** The key of [isHoliday] determines the date it was built from. *)
Lemma dateStr_inj y m d y' m' d' :
  (0 <= m + 1 <= 99)%Z -> (0 <= d <= 99)%Z ->
  (0 <= m' + 1 <= 99)%Z -> (0 <= d' <= 99)%Z ->
  dateStr y m d = dateStr y' m' d' -> y = y' /\ m = m' /\ d = d'.
Proof.
  intros Hm Hd Hm' Hd' E. rewrite !dateStr_eq in E.
  destruct (pad2_spec _ Hm) as [Lm _], (pad2_spec _ Hd) as [Ld _],
    (pad2_spec _ Hm') as [Lm' _], (pad2_spec _ Hd') as [Ld' _].
  apply app_inv_tail_length in E as [Ey Et].
  2:{ cbn [String.length String.append]. rewrite !length_app.
      cbn [String.length]. lia. }
  apply ToString_inj in Ey. cbn [String.append] in Et. injection Et as Et.
  apply app_inv_tail_length in Et as [Em Et].
  2:{ cbn [String.length]. lia. }
  injection Et as Et.
  apply pad2_inj in Em; [|assumption..]. apply pad2_inj in Et; [|assumption..].
  repeat split; lia.
Qed.

Lemma hasDash_app a b : hasDash (a ++ String "-" b) = true.
Proof.
  induction a as [|c a IH]; simpl; [reflexivity|].
  rewrite IH. apply orb_true_r.
Qed.

Lemma dateStr_hasDash y m d : hasDash (dateStr y m d) = true.
Proof. rewrite dateStr_eq. apply hasDash_app. Qed.

(** No member of [Object.prototype] is spelled with a dash, so a date key
    never reaches one. *)
Lemma dateStr_not_inherited y m d :
  existsb (String.eqb (dateStr y m d)) ObjectPrototype = false.
Proof.
  destruct (existsb _ _) eqn:E; [|reflexivity].
  apply existsb_exists in E as (p & Hin & Heq).
  apply String.eqb_eq in Heq. pose proof (dateStr_hasDash y m d) as D.
  rewrite Heq in D.
  assert (F : forallb (fun p => negb (hasDash p)) ObjectPrototype = true)
    by (vm_compute; reflexivity).
  rewrite forallb_forall in F. specialize (F p Hin).
  rewrite D in F. discriminate.
Qed.

End StringFacts.

(** ** Facts about the holiday table and [isHoliday] *)

Module HolidayFacts.
Import StringFacts JSDateFacts.

Lemma holidays_canonical : forallb canonicalEntry holidays = true.
Proof. vm_compute. reflexivity. Qed.

(** On a canonical table, reading the key built from a zero-based month is
    reading the entry of that calendar date. *)
Lemma ownProperty_canonical (o : object) y m d :
  forallb canonicalEntry o = true ->
  0 <= m <= 11 -> 1 <= d <= 31 ->
  ownProperty o (dateStr y m d) = holidayOfDate o y (m + 1) d.
Proof.
  intros C Hm Hd. induction o as [|[k v] o IH]; [reflexivity|].
  cbn [forallb] in C. apply andb_true_iff in C as [Ck Co].
  specialize (IH Co). cbn [ownProperty holidayOfDate].
  unfold canonicalEntry in Ck. cbn [fst] in Ck.
  destruct (keyDate k) as [[[y' m'] d']|]; [|discriminate].
  rewrite !andb_true_iff, !Z.leb_le in Ck.
  destruct Ck as [[[[Ck ?] ?] ?] ?].
  apply String.eqb_eq in Ck.
  destruct (String.eqb_spec k (dateStr y m d)) as [E|N].
  - rewrite Ck in E. apply dateStr_inj in E as (-> & E2 & ->); [|lia..].
    replace (m + 1) with m' by lia. now rewrite !Z.eqb_refl.
  - destruct (Z.eqb_spec y' y), (Z.eqb_spec m' (m + 1)), (Z.eqb_spec d' d);
      cbn [andb]; try exact IH.
    exfalso. apply N. subst. f_equal. lia.
Qed.

Lemma getProperty_dateStr (o : object) year month day :
  getProperty o (dateStr year month day)
  = ofName (ownProperty o (dateStr year month day)).
Proof.
  unfold getProperty.
  destruct (ownProperty _ _); [reflexivity|].
  now rewrite dateStr_not_inherited.
Qed.

Lemma isHoliday_own year month day :
  isHoliday year month day = ofName (ownProperty holidays (dateStr year month day)).
Proof. apply getProperty_dateStr. Qed.

Lemma isHoliday_calendar year m day :
  0 <= m <= 11 -> 1 <= day <= 31 ->
  isHoliday year m day = ofName (holidayOfDate holidays year (m + 1) day).
Proof.
  intros Hm Hd. rewrite isHoliday_own.
  now rewrite (ownProperty_canonical holidays year m day holidays_canonical).
Qed.

Lemma ownProperty_None (o : object) key :
  ~ In key (map fst o) -> ownProperty o key = None.
Proof.
  induction o as [|[k v] o IH]; intros N; [reflexivity|].
  cbn in *. destruct (String.eqb_spec k key); [tauto|]. apply IH. tauto.
Qed.

End HolidayFacts.

(** ** The counting loops *)

Section CountingLoop.

Variable counts : JSDate.t -> bool.

Lemma counted_range d k : 0 <= counted counts d k <= Z.of_nat k.
Proof.
  revert d. induction k as [|k IH]; intros d; cbn [counted]; [lia|].
  specialize (IH (d + 1)). destruct (counts (d + 1)); lia.
Qed.

Lemma counted_app d a b :
  counted counts d (a + b)
  = counted counts d a + counted counts (d + Z.of_nat a) b.
Proof.
  revert d. induction a as [|a IH]; intros d.
  - cbn. now rewrite Z.add_0_r.
  - cbn [Nat.add counted]. rewrite IH.
    replace (d + 1 + Z.of_nat a) with (d + Z.of_nat (S a)) by lia. lia.
Qed.

Lemma counted_last d k :
  counted counts d (S k)
  = counted counts d k + (if counts (d + Z.of_nat (S k)) then 1 else 0).
Proof.
  replace (S k) with (k + 1)%nat at 1 by lia. rewrite counted_app.
  cbn [counted]. replace (d + Z.of_nat k + 1) with (d + Z.of_nat (S k)) by lia.
  lia.
Qed.

Lemma counted_mono d j k :
  (j <= k)%nat -> counted counts d j <= counted counts d k.
Proof.
  intros H. replace k with (j + (k - j))%nat by lia. rewrite counted_app.
  pose proof (counted_range (d + Z.of_nat j) (k - j)). lia.
Qed.

Lemma reaches_exists d n leadTime K :
  leadTime <= n + counted counts d K ->
  exists k, (k <= K)%nat /\ reaches counts d n leadTime k.
Proof.
  induction K as [|K IH]; intros H.
  - exists O. split; [lia|]. split; [lia | exact H].
  - destruct (Z_le_gt_dec leadTime (n + counted counts d K)) as [L|G].
    + destruct (IH L) as (k & Hk & R). exists k. split; [lia | exact R].
    + exists (S K). split; [lia|]. split; [|exact H].
      intros j Hj. pose proof (counted_mono d j K ltac:(lia)). lia.
Qed.

(** The loop runs exactly [k] iterations and stops on day [d + k]. *)
Lemma countLoop_run k :
  forall d n leadTime, reaches counts d n leadTime k ->
  forall fuel,
    ((k <= fuel)%nat ->
       countLoop counts fuel d n leadTime = Some (d + Z.of_nat k))
    /\ ((fuel < k)%nat -> countLoop counts fuel d n leadTime = None).
Proof.
  induction k as [|k IH]; intros d n leadTime [Hlt Hge] fuel.
  - cbn [counted] in Hge. split; [|lia]. intros _.
    destruct fuel; cbn [countLoop];
      (destruct (Z.ltb_spec n leadTime); [lia|]); now rewrite Z.add_0_r.
  - pose proof (Hlt O ltac:(lia)) as H0. cbn [counted] in H0.
    assert (R : reaches counts (d + 1)
                  (n + (if counts (d + 1) then 1 else 0)) leadTime k).
    { split.
      - intros j Hj. specialize (Hlt (S j) ltac:(lia)).
        cbn [counted] in Hlt. lia.
      - cbn [counted] in Hge. lia. }
    destruct fuel as [|fuel]; cbn [countLoop];
      (destruct (Z.ltb_spec n leadTime); [|lia]).
    + split; [lia | reflexivity].
    + destruct (IH _ _ _ R fuel) as [I1 I2].
      replace (d + Z.of_nat (S k)) with (d + 1 + Z.of_nat k) by lia.
      destruct (counts (d + 1)); rewrite ?Z.add_0_r in *;
        (split; intros; [apply I1 | apply I2]; lia).
Qed.

(** Started at zero with a positive lead time, the counter reaches it on a
    counted day, and the count up to that day is the lead time. *)
Lemma reaches_from_zero d leadTime k :
  1 <= leadTime -> reaches counts d 0 leadTime k ->
  (1 <= k)%nat /\ counted counts d k = leadTime
  /\ counts (d + Z.of_nat k) = true.
Proof.
  intros HL [Hlt Hge]. destruct k as [|k]; [cbn in Hge; lia|].
  specialize (Hlt k ltac:(lia)). rewrite counted_last in *.
  destruct (counts (d + Z.of_nat (S k))); [|lia].
  repeat split; lia.
Qed.

End CountingLoop.

(** ** How many days a window can lose to weekends and holidays *)

Module WindowFacts.
Import JSDateFacts HolidayFacts.

Lemma counted_le (P Q : JSDate.t -> bool) d k :
  (forall x, P x = true -> Q x = true) ->
  counted P d k <= counted Q d k.
Proof.
  intros H. revert d. induction k as [|k IH]; intros d; cbn [counted]; [lia|].
  specialize (IH (d + 1)). specialize (H (d + 1)).
  destruct (P (d + 1)), (Q (d + 1)); first [lia | discriminate (H eq_refl)].
Qed.

Lemma counted_orb (P Q : JSDate.t -> bool) d k :
  counted (fun x => P x || Q x) d k <= counted P d k + counted Q d k.
Proof.
  revert d. induction k as [|k IH]; intros d; cbn [counted]; [lia|].
  specialize (IH (d + 1)). destruct (P (d + 1)), (Q (d + 1)); cbn [orb]; lia.
Qed.

Lemma counted_andb_negb (P Q : JSDate.t -> bool) d k :
  counted P d k - counted Q d k <= counted (fun x => P x && negb (Q x)) d k.
Proof.
  revert d. induction k as [|k IH]; intros d; cbn [counted]; [lia|].
  specialize (IH (d + 1)).
  destruct (P (d + 1)), (Q (d + 1)); cbn [andb negb]; lia.
Qed.

Lemma counted_negb (Q : JSDate.t -> bool) d k :
  counted (fun x => negb (Q x)) d k = Z.of_nat k - counted Q d k.
Proof.
  revert d. induction k as [|k IH]; intros d; cbn [counted]; [lia|].
  rewrite IH. destruct (Q (d + 1)); cbn [negb]; lia.
Qed.

Lemma counted_none (P : JSDate.t -> bool) d k :
  (forall i, (1 <= i <= k)%nat -> P (d + Z.of_nat i) = false) ->
  counted P d k = 0.
Proof.
  revert d. induction k as [|k IH]; intros d H; cbn [counted]; [lia|].
  rewrite (IH (d + 1)).
  - specialize (H 1%nat ltac:(lia)). cbn in H. now rewrite H.
  - intros i Hi. specialize (H (S i) ltac:(lia)).
    now replace (d + 1 + Z.of_nat i) with (d + Z.of_nat (S i)) by lia.
Qed.

(** A single day occurs at most once in a window. *)
Lemma counted_point h d k : counted (fun x => x =? h) d k <= 1.
Proof.
  revert d. induction k as [|k IH]; intros d; cbn [counted]; [lia|].
  destruct (Z.eqb_spec (d + 1) h) as [E|N]; [|specialize (IH (d + 1)); lia].
  rewrite counted_none; [lia|].
  intros i Hi. apply Z.eqb_neq. lia.
Qed.

Lemma counted_member (H : list JSDate.t) d k :
  counted (fun x => existsb (Z.eqb x) H) d k <= Z.of_nat (List.length H).
Proof.
  induction H as [|h H IH].
  - rewrite counted_none; [cbn; lia | reflexivity].
  - cbn [existsb List.length].
    pose proof (counted_orb (fun x => x =? h)
                  (fun x => existsb (Z.eqb x) H) d k) as O.
    cbv beta in O. pose proof (counted_point h d k). lia.
Qed.

Lemma holidayOfDate_entry (o : object) y m d v :
  holidayOfDate o y m d = Some v ->
  exists k, In (k, v) o /\ keyDate k = Some (y, m, d).
Proof.
  induction o as [|[k w] o IH]; [discriminate|]. cbn [holidayOfDate].
  destruct (keyDate k) as [[[y' m'] d']|] eqn:K.
  - destruct (Z.eqb_spec y' y), (Z.eqb_spec m' m), (Z.eqb_spec d' d);
      cbn [andb]; intros E;
      try (destruct (IH E) as (k0 & I & Kd); exists k0; split;
           [now right | exact Kd]).
    injection E as ->. subst. exists k. split; [now left | exact K].
  - intros E. destruct (IH E) as (k0 & I & Kd). exists k0.
    split; [now right | exact Kd].
Qed.

Lemma holidayAt_calendar date :
  holidayAt date
  = ofName (holidayOfDate holidays (getFullYear date) (getMonth date + 1)
              (getDate date)).
Proof.
  apply isHoliday_calendar;
    [apply MonthFromTime_range | apply DateFromTime_range].
Qed.

(** A day the loops treat as a holiday is one of the table's days. *)
Lemma isListedHoliday_In date :
  isListedHoliday date = true -> In date holidayDays.
Proof.
  unfold isListedHoliday. rewrite holidayAt_calendar.
  destruct (holidayOfDate _ _ _ _) as [v|] eqn:E; [|discriminate]. intros _.
  apply holidayOfDate_entry in E as (k & I & K).
  unfold holidayDays. apply in_map_iff. exists (k, v). split; [|exact I].
  cbn [fst]. rewrite K. replace (getMonth date + 1 - 1) with (getMonth date) by lia.
  pose proof (MakeDay_fields date 0) as F. rewrite !Z.add_0_r in F. exact F.
Qed.

Lemma holidays_length : List.length holidayDays = 70%nat.
Proof. reflexivity. Qed.

Lemma counted_listed d k : counted isListedHoliday d k <= 70.
Proof.
  pose proof (counted_member holidayDays d k) as M.
  rewrite holidays_length in M.
  etransitivity; [|exact M]. apply counted_le. intros x Hx.
  apply existsb_exists. exists x. split; [|apply Z.eqb_refl].
  now apply isListedHoliday_In.
Qed.

Lemma WeekDay_add d i : WeekDay (d + i) = (WeekDay d + i) mod 7.
Proof. unfold WeekDay. zdiv. Qed.

(** Any seven consecutive days hold five weekdays. *)
Lemma counted_week d : counted isWeekday d 7 = 5.
Proof.
  cbn [counted]. unfold isWeekday, getDay.
  replace (d + 1 + 1) with (d + 2) by lia.
  replace (d + 2 + 1) with (d + 3) by lia.
  replace (d + 3 + 1) with (d + 4) by lia.
  replace (d + 4 + 1) with (d + 5) by lia.
  replace (d + 5 + 1) with (d + 6) by lia.
  replace (d + 6 + 1) with (d + 7) by lia.
  rewrite !WeekDay_add.
  pose proof (WeekDay_range d) as R.
  assert (C : WeekDay d = 0 \/ WeekDay d = 1 \/ WeekDay d = 2 \/ WeekDay d = 3
              \/ WeekDay d = 4 \/ WeekDay d = 5 \/ WeekDay d = 6) by lia.
  destruct C as [E|[E|[E|[E|[E|[E|E]]]]]]; rewrite E; reflexivity.
Qed.

Lemma counted_weeks d j : counted isWeekday d (7 * j) = 5 * Z.of_nat j.
Proof.
  revert d. induction j as [|j IH]; intros d; [reflexivity|].
  replace (7 * S j)%nat with (7 + 7 * j)%nat by lia.
  rewrite counted_app, counted_week, IH. lia.
Qed.

Lemma isBusinessDay_split x :
  isBusinessDay x = isWeekday x && negb (isListedHoliday x).
Proof. reflexivity. Qed.

(** Enough business days: [7 * (leadTime + 70)] days hold [leadTime]. *)
Lemma business_window d leadTime :
  0 <= leadTime ->
  leadTime <= counted isBusinessDay d (7 * Z.to_nat (leadTime + 70)).
Proof.
  intros H. set (K := (7 * Z.to_nat (leadTime + 70))%nat).
  pose proof (counted_andb_negb isWeekday isListedHoliday d K) as A.
  pose proof (counted_listed d K) as Hh.
  unfold K in A at 1. rewrite counted_weeks in A.
  assert (E : counted (fun x => isWeekday x && negb (isListedHoliday x)) d K
              = counted isBusinessDay d K).
  { apply Z.le_antisymm; apply counted_le; intros x;
      now rewrite isBusinessDay_split. }
  lia.
Qed.

(** Enough non-holidays: [leadTime + 70] days hold [leadTime]. *)
Lemma nonHoliday_window d leadTime :
  0 <= leadTime ->
  leadTime <= counted isNonHoliday d (Z.to_nat (leadTime + 70)).
Proof.
  intros H. unfold isNonHoliday. fold isListedHoliday.
  change (fun date => negb (truthy (holidayAt date)))
    with (fun x => negb (isListedHoliday x)).
  rewrite counted_negb.
  pose proof (counted_listed d (Z.to_nat (leadTime + 70))). lia.
Qed.

End WindowFacts.

(** ** The three counting modes *)

Module DeliveryFacts.
Import JSDateFacts HolidayFacts WindowFacts.

Lemma names_nonempty :
  forallb (fun e : string * string => negb (snd e =? "")%string) holidays = true.
Proof. vm_compute. reflexivity. Qed.

Lemma isListedHoliday_iff date :
  isListedHoliday date = true <-> listedInTable date.
Proof.
  unfold isListedHoliday, listedInTable. rewrite holidayAt_calendar.
  destruct (holidayOfDate _ _ _ _) as [v|] eqn:E; cbn [ofName truthy].
  - split; [discriminate|]. intros _.
    apply holidayOfDate_entry in E as (k & I & _).
    pose proof (proj1 (forallb_forall _ _) names_nonempty _ I) as N.
    exact N.
  - split; [discriminate | congruence].
Qed.

Lemma isBusinessDay_iff date :
  isBusinessDay date = true
  <-> getDay date <> 6 /\ getDay date <> 0 /\ ~ listedInTable date.
Proof.
  rewrite <- isListedHoliday_iff. unfold isBusinessDay.
  fold (isListedHoliday date).
  destruct (Z.eqb_spec (getDay date) 0), (Z.eqb_spec (getDay date) 6),
    (isListedHoliday date); cbn; intuition congruence.
Qed.

Lemma isNonHoliday_iff date :
  isNonHoliday date = true <-> ~ listedInTable date.
Proof.
  rewrite <- isListedHoliday_iff. unfold isNonHoliday.
  fold (isListedHoliday date).
  destruct (isListedHoliday date); cbn; intuition congruence.
Qed.

Lemma nthDayAfter_unique counts orderDate leadTime r r' :
  nthDayAfter counts orderDate leadTime r ->
  nthDayAfter counts orderDate leadTime r' -> r = r'.
Proof.
  assert (W : forall k k' : nat, (1 <= k)%nat -> (k < k')%nat ->
            counts (orderDate + Z.of_nat k') = true ->
            counted counts orderDate k < counted counts orderDate k').
  { intros k k' _ Hlt Hc. destruct k' as [|k']; [lia|].
    rewrite (counted_last counts orderDate k'), Hc.
    pose proof (counted_mono counts orderDate k k' ltac:(lia)). lia. }
  intros (k & Hk & -> & Hc & Hn) (k' & Hk' & -> & Hc' & Hn').
  destruct (Nat.lt_trichotomy k k') as [L|[E|G]]; [|now subst|].
  - pose proof (W k k' Hk L Hc'). lia.
  - pose proof (W k' k Hk' G Hc). lia.
Qed.

(** A loop started at zero with a positive lead time stops after a
    definite number of iterations, on the [leadTime]-th counted day. *)
Lemma countLoop_result counts orderDate leadTime K :
  1 <= leadTime -> leadTime <= counted counts orderDate K ->
  exists n : nat,
    (n <= K)%nat
    /\ nthDayAfter counts orderDate leadTime (orderDate + Z.of_nat n)
    /\ (forall fuel, (n <= fuel)%nat ->
          countLoop counts fuel orderDate 0 leadTime
          = Some (orderDate + Z.of_nat n))
    /\ (forall fuel, (fuel < n)%nat ->
          countLoop counts fuel orderDate 0 leadTime = None)
    /\ Z.of_nat n = leadTime + skipped counts orderDate n.
Proof.
  intros HL HK.
  destruct (reaches_exists counts orderDate 0 leadTime K ltac:(lia))
    as (n & HnK & R).
  destruct (reaches_from_zero counts orderDate leadTime n HL R)
    as (H1 & Hc & Ht).
  exists n. split; [exact HnK|]. split.
  - exists n. repeat split; assumption.
  - repeat split.
    + intros fuel Hf.
      now apply (proj1 (countLoop_run counts n _ _ _ R fuel)).
    + intros fuel Hf.
      now apply (proj2 (countLoop_run counts n _ _ _ R fuel)).
    + unfold skipped. lia.
Qed.

End DeliveryFacts.

(** ** [Date] objects and calendar days *)

Module DateFacts.
Import JSDateFacts HolidayFacts WindowFacts DeliveryFacts.

Ltac range := unfold inRange, clipped, DateObject.msPerDay in *; lia.

Lemma TimeClip_cases t :
  (Z.abs t <= 8640000000000000
   /\ DateObject.TimeClip t = DateObject.TimeValue t)
  \/ (8640000000000000 < Z.abs t
      /\ DateObject.TimeClip t = DateObject.InvalidDate).
Proof.
  unfold DateObject.TimeClip.
  destruct (Z.leb_spec (Z.abs t) 8640000000000000); [left | right];
    split; (lia || reflexivity).
Qed.

Lemma clipped_TimeClip t : clipped (DateObject.TimeClip t).
Proof.
  destruct (TimeClip_cases t) as [[H ->]|[H ->]]; cbn; [exact H | exact I].
Qed.

Lemma clipped_afterDays start j : clipped (afterDays start j).
Proof. destruct start; cbn; [exact I | apply clipped_TimeClip]. Qed.

(** [setDate(getDate() + k)] moves the time value by [k] days. *)
Lemma setDate_plus tz date k :
  DateObject.setDate tz date (plus (DateObject.getDate tz date) k)
  = afterDays date k.
Proof.
  destruct date as [|t]; [reflexivity|].
  cbn [DateObject.getDate DateObject.field plus DateObject.setDate afterDays].
  cbv zeta. f_equal.
  rewrite (MakeDay_fields (DateObject.Day (DateObject.LocalTime tz t)) k).
  unfold DateObject.UTC, DateObject.MakeDate, DateObject.TimeWithinDay,
    DateObject.Day, DateObject.LocalTime, DateObject.msPerDay.
  zdiv.
Qed.

(** Once past the range, a date stays invalid. *)
Lemma afterDays_next start j :
  clipped start -> 0 <= j ->
  afterDays (afterDays start j) 1 = afterDays start (j + 1).
Proof.
  intros C J. destruct start as [|t]; [reflexivity|]. cbn in C.
  cbn [afterDays].
  destruct (TimeClip_cases (t + j * DateObject.msPerDay)) as [[H ->]|[H ->]];
    cbn [afterDays].
  - f_equal. lia.
  - destruct (TimeClip_cases (t + (j + 1) * DateObject.msPerDay))
      as [[H' ->]|[H' ->]]; [|reflexivity].
    unfold DateObject.msPerDay in *. lia.
Qed.

Lemma afterDays_zero start : clipped start -> afterDays start 0 = start.
Proof.
  destruct start as [|t]; [reflexivity|]. cbn. intros C.
  rewrite Z.add_0_r. destruct (TimeClip_cases t) as [[_ ->]|[H _]];
    [reflexivity | lia].
Qed.

Lemma afterDays_invalid_later start j k :
  clipped start -> 0 <= j <= k ->
  afterDays start j = DateObject.InvalidDate ->
  afterDays start k = DateObject.InvalidDate.
Proof.
  intros C J. destruct start as [|t]; [reflexivity|]. cbn in C |- *.
  destruct (TimeClip_cases (t + j * DateObject.msPerDay)) as [[H ->]|[H ->]];
    [discriminate|]. intros _.
  destruct (TimeClip_cases (t + k * DateObject.msPerDay))
    as [[H' ->]|[H' ->]]; [|reflexivity].
  unfold DateObject.msPerDay in *. lia.
Qed.

(** *** The loops of the source are instances of [dateLoop] *)

Lemma businessLoop_dateLoop tz fuel : forall date n leadTime,
  businessLoop tz fuel date n leadTime
  = dateLoop tz (businessCounts tz) fuel date n leadTime.
Proof.
  induction fuel as [|fuel IH]; intros date n leadTime;
    cbn [businessLoop dateLoop]; [reflexivity|].
  cbv zeta. fold (businessCounts tz
                    (DateObject.setDate tz date
                       (plus (DateObject.getDate tz date) 1))).
  now rewrite !IH.
Qed.

Lemma holidayAwareLoop_dateLoop tz fuel : forall date n leadTime,
  holidayAwareLoop tz fuel date n leadTime
  = dateLoop tz (holidayAwareCounts tz) fuel date n leadTime.
Proof.
  induction fuel as [|fuel IH]; intros date n leadTime;
    cbn [holidayAwareLoop dateLoop]; [reflexivity|].
  cbv zeta. fold (holidayAwareCounts tz
                    (DateObject.setDate tz date
                       (plus (DateObject.getDate tz date) 1))).
  now rewrite !IH.
Qed.

Lemma legacyLoop_dateLoop tz fuel : forall date n leadTime,
  Legacy.businessLoop tz fuel date n leadTime
  = dateLoop tz (legacyCounts tz) fuel date n leadTime.
Proof.
  induction fuel as [|fuel IH]; intros date n leadTime;
    cbn [Legacy.businessLoop dateLoop]; [reflexivity|].
  cbv zeta. fold (legacyCounts tz
                    (DateObject.setDate tz date
                       (plus (DateObject.getDate tz date) 1))).
  now rewrite !IH.
Qed.

Section Loop.

Variable tz : Z.
Variable counts : DateObject.Date -> bool.

(** One iteration: the candidate is the next day, and the counter moves by
    [increment] or stays. *)
Lemma dateLoop_step fuel date n leadTime :
  n < leadTime ->
  dateLoop tz counts (S fuel) date n leadTime
  = dateLoop tz counts fuel (afterDays date 1)
      (if counts (afterDays date 1) then increment n else n) leadTime.
Proof.
  intros H. cbn [dateLoop]. destruct (Z.ltb_spec n leadTime); [|lia].
  cbv zeta. rewrite setDate_plus. now destruct (counts (afterDays date 1)).
Qed.

Lemma increment_exact n : n < 9007199254740992 -> increment n = n + 1.
Proof. intros H. unfold increment. destruct (Z.ltb_spec n 9007199254740992); lia. Qed.

Lemma increment_range n : n <= increment n <= n + 1.
Proof. unfold increment. destruct (_ <? _); lia. Qed.

(** With a lead time of 2^53 at most, the loop is the counting loop over the
    number of days from [start]. *)
Lemma dateLoop_countLoop start leadTime :
  clipped start -> leadTime <= 9007199254740992 ->
  forall fuel j n, 0 <= j ->
    dateLoop tz counts fuel (afterDays start j) n leadTime
    = option_map (afterDays start)
        (countLoop (candidate counts start) fuel j n leadTime).
Proof.
  intros C L. induction fuel as [|fuel IH]; intros j n J.
  - cbn [dateLoop countLoop]. now destruct (n <? leadTime).
  - destruct (Z.ltb_spec n leadTime) as [H|H].
    + rewrite dateLoop_step by exact H. cbn [countLoop].
      destruct (Z.ltb_spec n leadTime); [|lia].
      rewrite afterDays_next by assumption. unfold candidate at 1.
      rewrite increment_exact by lia.
      destruct (counts (afterDays start (j + 1))); apply IH; lia.
    + cbn [dateLoop countLoop]. destruct (Z.ltb_spec n leadTime); [lia|].
      reflexivity.
Qed.

(** Above 2^53 the counter never reaches the lead time. *)
Lemma dateLoop_stalls leadTime :
  9007199254740992 < leadTime ->
  forall fuel date n, n <= 9007199254740992 ->
    dateLoop tz counts fuel date n leadTime = None.
Proof.
  intros L. induction fuel as [|fuel IH]; intros date n N.
  - cbn [dateLoop]. destruct (Z.ltb_spec n leadTime); [reflexivity | lia].
  - rewrite dateLoop_step by lia.
    destruct (counts (afterDays date 1)); apply IH; [|lia].
    unfold increment. destruct (Z.ltb_spec n 9007199254740992); lia.
Qed.

(** Termination for a lead time from 1 to 2^53, given enough counted
    candidates among the first [K]. *)
Lemma dateLoop_terminates start leadTime K :
  clipped start -> 1 <= leadTime <= 9007199254740992 ->
  leadTime <= counted (candidate counts start) 0 K ->
  exists n : nat,
    (n <= K)%nat /\ (1 <= n)%nat
    /\ reaches (candidate counts start) 0 0 leadTime n
    /\ counts (afterDays start (Z.of_nat n)) = true
    /\ (forall fuel, (n <= fuel)%nat ->
          dateLoop tz counts fuel start 0 leadTime
          = Some (afterDays start (Z.of_nat n)))
    /\ (forall fuel, (fuel < n)%nat ->
          dateLoop tz counts fuel start 0 leadTime = None)
    /\ Z.of_nat n = leadTime + skipped (candidate counts start) 0 n.
Proof.
  intros C [L1 L2] HK.
  destruct (reaches_exists (candidate counts start) 0 0 leadTime K
              ltac:(lia)) as (n & HnK & R).
  destruct (reaches_from_zero (candidate counts start) 0 leadTime n L1 R)
    as (H1 & Hc & Ht).
  exists n. split; [exact HnK|]. split; [exact H1|]. split; [exact R|].
  split; [exact Ht|].
  assert (E : forall fuel,
            dateLoop tz counts fuel start 0 leadTime
            = option_map (afterDays start)
                (countLoop (candidate counts start) fuel 0 0 leadTime)).
  { intros fuel. rewrite <- (dateLoop_countLoop start leadTime C L2 fuel 0 0)
      by lia. now rewrite afterDays_zero. }
  repeat split.
  - intros fuel Hf. rewrite E.
    now rewrite (proj1 (countLoop_run _ n _ _ _ R fuel) Hf).
  - intros fuel Hf. rewrite E.
    now rewrite (proj2 (countLoop_run _ n _ _ _ R fuel) Hf).
  - unfold skipped. lia.
Qed.

End Loop.

End DateFacts.

Module CalendarDayFacts.
Import JSDateFacts HolidayFacts WindowFacts DeliveryFacts DateFacts.

Lemma isHolidayOn_valid tz t :
  isHolidayOn tz (DateObject.TimeValue t) = holidayAt (localDay tz t).
Proof.
  unfold isHolidayOn, holidayAt, DateObject.getFullYear, DateObject.getMonth,
    DateObject.getDate. cbn [DateObject.field]. reflexivity.
Qed.

Lemma isHolidayOn_invalid tz :
  isHolidayOn tz DateObject.InvalidDate = Undefined.
Proof.
  unfold isHolidayOn. cbn [DateObject.getFullYear DateObject.field].
  vm_compute. reflexivity.
Qed.

Lemma legacy_isHolidayOn_valid tz t :
  Legacy.isHolidayOn tz (DateObject.TimeValue t)
  = Legacy.holidayAt (localDay tz t).
Proof.
  unfold Legacy.isHolidayOn, Legacy.holidayAt, DateObject.getFullYear,
    DateObject.getMonth, DateObject.getDate. cbn [DateObject.field].
  reflexivity.
Qed.

Lemma legacy_isHolidayOn_invalid tz :
  Legacy.isHolidayOn tz DateObject.InvalidDate = Undefined.
Proof.
  unfold Legacy.isHolidayOn. cbn [DateObject.getFullYear DateObject.field].
  vm_compute. reflexivity.
Qed.

Lemma businessCounts_valid tz t :
  businessCounts tz (DateObject.TimeValue t) = isBusinessDay (localDay tz t).
Proof.
  unfold businessCounts, isBusinessDay. rewrite isHolidayOn_valid.
  unfold DateObject.getDay. cbn [DateObject.field differs]. reflexivity.
Qed.

Lemma businessCounts_invalid tz :
  businessCounts tz DateObject.InvalidDate = true.
Proof. unfold businessCounts. now rewrite isHolidayOn_invalid. Qed.

Lemma holidayAwareCounts_valid tz t :
  holidayAwareCounts tz (DateObject.TimeValue t)
  = isNonHoliday (localDay tz t).
Proof.
  unfold holidayAwareCounts, isNonHoliday. now rewrite isHolidayOn_valid.
Qed.

Lemma holidayAwareCounts_invalid tz :
  holidayAwareCounts tz DateObject.InvalidDate = true.
Proof. unfold holidayAwareCounts. now rewrite isHolidayOn_invalid. Qed.

Lemma legacyCounts_valid tz t :
  legacyCounts tz (DateObject.TimeValue t)
  = Legacy.isBusinessDay (localDay tz t).
Proof.
  unfold legacyCounts, Legacy.isBusinessDay.
  rewrite legacy_isHolidayOn_valid.
  unfold DateObject.getDay. cbn [DateObject.field differs]. reflexivity.
Qed.

Lemma legacyCounts_invalid tz :
  legacyCounts tz DateObject.InvalidDate = true.
Proof. unfold legacyCounts. now rewrite legacy_isHolidayOn_invalid. Qed.

Lemma formatResult_valid tz t :
  formatResult tz (DateObject.TimeValue t) = dayText (localDay tz t).
Proof.
  unfold formatResult, dayText, DateObject.getMonth, DateObject.getDate,
    DateObject.getDay. cbn [DateObject.field]. reflexivity.
Qed.

Lemma localDay_midnight tz day :
  localDay tz (day * DateObject.msPerDay - tz) = day.
Proof.
  unfold localDay, DateObject.Day, DateObject.LocalTime, DateObject.msPerDay.
  zdiv.
Qed.

Lemma localDay_utc tz day :
  0 <= tz < DateObject.msPerDay ->
  localDay tz (day * DateObject.msPerDay) = day.
Proof.
  unfold localDay, DateObject.Day, DateObject.LocalTime, DateObject.msPerDay.
  zdiv.
Qed.

Lemma localDay_add tz t i :
  localDay tz (t + i * DateObject.msPerDay) = localDay tz t + i.
Proof.
  unfold localDay, DateObject.Day, DateObject.LocalTime, DateObject.msPerDay.
  zdiv.
Qed.

(** *** Counting by index and counting by day *)

Lemma counted_index_le (P Q : JSDate.t -> bool) a k :
  (forall i, 1 <= i <= Z.of_nat k -> P (a + i) = true -> Q i = true) ->
  counted P a k <= counted Q 0 k.
Proof.
  induction k as [|k IH]; intros H; [cbn; lia|].
  rewrite (counted_last P), (counted_last Q). rewrite Z.add_0_l.
  specialize (IH ltac:(intros i Hi; apply H; lia)).
  specialize (H (Z.of_nat (S k)) ltac:(lia)).
  destruct (P (a + Z.of_nat (S k))), (Q (Z.of_nat (S k)));
    first [lia | discriminate (H eq_refl)].
Qed.

Lemma counted_index_eq (P Q : JSDate.t -> bool) a k :
  (forall i, 1 <= i <= Z.of_nat k -> Q i = P (a + i)) ->
  counted Q 0 k = counted P a k.
Proof.
  induction k as [|k IH]; intros H; [reflexivity|].
  rewrite (counted_last P), (counted_last Q). rewrite Z.add_0_l.
  rewrite IH by (intros i Hi; apply H; lia).
  now rewrite (H (Z.of_nat (S k)) ltac:(lia)).
Qed.

Lemma reaches_unique (P : JSDate.t -> bool) d n leadTime k k' :
  reaches P d n leadTime k -> reaches P d n leadTime k' -> k = k'.
Proof.
  intros [A B] [A' B'].
  destruct (Nat.lt_trichotomy k k') as [L|[E|G]]; [|exact E|].
  - specialize (A' k L). lia.
  - specialize (A k' G). lia.
Qed.

Section Refinement.

Variable tz : Z.
Variable counts : DateObject.Date -> bool.
Variable dayCounts : JSDate.t -> bool.

Hypothesis counts_valid :
  forall t, counts (DateObject.TimeValue t) = dayCounts (localDay tz t).
Hypothesis counts_invalid : counts DateObject.InvalidDate = true.

Variable t0 : Z.
Hypothesis t0_clipped : Z.abs t0 <= 8640000000000000.

Lemma candidate_in i :
  Z.abs (t0 + i * DateObject.msPerDay) <= 8640000000000000 ->
  candidate counts (DateObject.TimeValue t0) i
  = dayCounts (localDay tz t0 + i).
Proof.
  intros H. unfold candidate. cbn [afterDays].
  destruct (TimeClip_cases (t0 + i * DateObject.msPerDay)) as [[_ ->]|[G _]];
    [|lia]. now rewrite counts_valid, localDay_add.
Qed.

Lemma candidate_ge i :
  dayCounts (localDay tz t0 + i) = true ->
  candidate counts (DateObject.TimeValue t0) i = true.
Proof.
  intros H. unfold candidate. cbn [afterDays].
  destruct (TimeClip_cases (t0 + i * DateObject.msPerDay)) as [[_ ->]|[_ ->]];
    [|exact counts_invalid]. now rewrite counts_valid, localDay_add.
Qed.

Lemma counted_candidate_ge K :
  counted dayCounts (localDay tz t0) K
  <= counted (candidate counts (DateObject.TimeValue t0)) 0 K.
Proof. apply counted_index_le. intros i _. apply candidate_ge. Qed.

Lemma counted_candidate_in (k : nat) :
  t0 + Z.of_nat k * DateObject.msPerDay <= 8640000000000000 ->
  counted (candidate counts (DateObject.TimeValue t0)) 0 k
  = counted dayCounts (localDay tz t0) k.
Proof.
  intros H. apply counted_index_eq. intros i Hi. apply candidate_in.
  unfold DateObject.msPerDay in *. lia.
Qed.

Lemma reaches_candidate_in leadTime (n : nat) :
  t0 + Z.of_nat n * DateObject.msPerDay <= 8640000000000000 ->
  reaches (candidate counts (DateObject.TimeValue t0)) 0 0 leadTime n
  <-> reaches dayCounts (localDay tz t0) 0 leadTime n.
Proof.
  intros H. unfold reaches.
  rewrite (counted_candidate_in n H).
  split; intros [A B]; (split; [|exact B]); intros j Hj;
    specialize (A j Hj);
    rewrite (counted_candidate_in j) in *;
    try assumption; unfold DateObject.msPerDay in *; lia.
Qed.

(** The result of a loop started on a valid date at zero: the day-level
    answer when that day is within the range, an invalid date when it is
    not. *)
Lemma dateLoop_result leadTime K :
  1 <= leadTime ->
  leadTime <= counted dayCounts (localDay tz t0) K ->
  exists n : nat,
    (n <= K)%nat /\ (1 <= n)%nat
    /\ nthDayAfter dayCounts (localDay tz t0) leadTime
         (localDay tz t0 + Z.of_nat n)
    /\ Z.of_nat n = leadTime + skipped dayCounts (localDay tz t0) n
    /\ (t0 + Z.of_nat n * DateObject.msPerDay <= 8640000000000000 ->
        leadTime <= 9007199254740992
        /\ (forall fuel, (n <= fuel)%nat ->
              dateLoop tz counts fuel (DateObject.TimeValue t0) 0 leadTime
              = Some (DateObject.TimeValue
                        (t0 + Z.of_nat n * DateObject.msPerDay)))
        /\ (forall fuel, (fuel < n)%nat ->
              dateLoop tz counts fuel (DateObject.TimeValue t0) 0 leadTime
              = None))
    /\ (8640000000000000 < t0 + Z.of_nat n * DateObject.msPerDay ->
        leadTime <= 9007199254740992 ->
        exists n' : nat,
          (n' <= n)%nat
          /\ (forall fuel, (n' <= fuel)%nat ->
                dateLoop tz counts fuel (DateObject.TimeValue t0) 0 leadTime
                = Some DateObject.InvalidDate)
          /\ (forall fuel, (fuel < n')%nat ->
                dateLoop tz counts fuel (DateObject.TimeValue t0) 0 leadTime
                = None)).
Proof.
  intros L HK.
  destruct (reaches_exists dayCounts (localDay tz t0) 0 leadTime K
              ltac:(lia)) as (n & HnK & R).
  destruct (reaches_from_zero dayCounts (localDay tz t0) leadTime n L R)
    as (H1 & Hc & Ht).
  pose proof (counted_range dayCounts (localDay tz t0) n) as Cr.
  exists n. split; [exact HnK|]. split; [exact H1|].
  split; [exists n; repeat split; assumption|].
  split; [unfold skipped; lia|].
  assert (Cl : clipped (DateObject.TimeValue t0)) by exact t0_clipped.
  split.
  - intros In.
    assert (L2 : leadTime <= 9007199254740992)
      by (unfold DateObject.msPerDay in *; lia).
    split; [exact L2|].
    apply reaches_candidate_in in R; [|exact In].
    assert (E : forall fuel,
              dateLoop tz counts fuel (DateObject.TimeValue t0) 0 leadTime
              = option_map (afterDays (DateObject.TimeValue t0))
                  (countLoop (candidate counts (DateObject.TimeValue t0))
                     fuel 0 0 leadTime)).
    { intros fuel.
      rewrite <- (dateLoop_countLoop tz counts _ leadTime Cl L2 fuel 0 0)
        by lia. now rewrite afterDays_zero. }
    split; intros fuel Hf; rewrite E.
    + rewrite (proj1 (countLoop_run _ n _ _ _ R fuel) Hf).
      cbn [option_map afterDays]. rewrite Z.add_0_l.
      destruct (TimeClip_cases (t0 + Z.of_nat n * DateObject.msPerDay))
        as [[_ ->]|[G _]]; [reflexivity|].
      unfold DateObject.msPerDay in *. lia.
    + now rewrite (proj2 (countLoop_run _ n _ _ _ R fuel) Hf).
  - intros Out L2.
    destruct (dateLoop_terminates tz counts (DateObject.TimeValue t0)
                leadTime n Cl ltac:(lia))
      as (n' & Hn' & _ & R' & _ & S1 & S2 & _).
    { pose proof (counted_candidate_ge n). lia. }
    exists n'. split; [exact Hn'|].
    assert (Inv : afterDays (DateObject.TimeValue t0) (Z.of_nat n')
                  = DateObject.InvalidDate).
    { cbn [afterDays].
      destruct (TimeClip_cases (t0 + Z.of_nat n' * DateObject.msPerDay))
        as [[V _]|[_ ->]]; [exfalso | reflexivity].
      assert (In' : t0 + Z.of_nat n' * DateObject.msPerDay
                    <= 8640000000000000) by lia.
      apply (reaches_candidate_in leadTime n' In') in R'.
      pose proof (reaches_unique _ _ _ _ _ _ R R'). subst n'. lia. }
    split; intros fuel Hf; [rewrite (S1 fuel Hf); now rewrite Inv|].
    now apply S2.
Qed.

End Refinement.

End CalendarDayFacts.

Module CalculatorFacts.
Import JSDateFacts HolidayFacts WindowFacts DeliveryFacts DateFacts
  CalendarDayFacts.

Lemma counted_day_lt (P : JSDate.t -> bool) d (k k' : nat) :
  (k < k')%nat -> P (d + Z.of_nat k') = true ->
  counted P d k < counted P d k'.
Proof.
  intros Hlt Hc. destruct k' as [|k']; [lia|].
  rewrite (counted_last P d k'), Hc.
  pose proof (counted_mono P d k k' ltac:(lia)). lia.
Qed.

Lemma counted_all (P : JSDate.t -> bool) d k :
  (forall i, P i = true) -> counted P d k = Z.of_nat k.
Proof.
  intros H. revert d. induction k as [|k IH]; intros d; [reflexivity|].
  cbn [counted]. rewrite H, IH. lia.
Qed.

Lemma nthDayAfter_ext (P Q : JSDate.t -> bool) d leadTime r :
  (forall x, P x = Q x) ->
  nthDayAfter P d leadTime r -> nthDayAfter Q d leadTime r.
Proof.
  intros E (k & K & R & C & N). exists k. repeat split; try assumption.
  - now rewrite <- E.
  - rewrite <- N. apply Z.le_antisymm; apply counted_le; intros x;
      now rewrite E.
Qed.

Lemma nthDayAfter_steps (P : JSDate.t -> bool) d leadTime r :
  nthDayAfter P d leadTime r -> d + leadTime <= r.
Proof.
  intros (k & K & -> & C & N). pose proof (counted_range P d k). lia.
Qed.

(** The holiday-aware result is never after the business result. *)
Lemma results_ordered d leadTime rb rh :
  nthDayAfter isBusinessDay d leadTime rb ->
  nthDayAfter isNonHoliday d leadTime rh -> rh <= rb.
Proof.
  intros (kb & Kb & -> & Cb & Nb) (kh & Kh & -> & Ch & Nh).
  destruct (Nat.le_gt_cases kh kb) as [L|G]; [lia|]. exfalso.
  pose proof (counted_day_lt isNonHoliday d kb kh G Ch) as S.
  assert (counted isBusinessDay d kb <= counted isNonHoliday d kb).
  { apply counted_le. intros x. unfold isBusinessDay, isNonHoliday.
    intros B. apply andb_true_iff in B as [_ B]. exact B. }
  lia.
Qed.

(** *** The order date *)

Lemma atMidnight_clipped tz day :
  inRange tz day -> clipped (atMidnight tz day).
Proof. intros H. exact H. Qed.

Lemma fromFields_cases tz y m d :
  (inRange tz (JSDate.make y m d)
   /\ DateObject.fromFields tz y m d = atMidnight tz (JSDate.make y m d))
  \/ (~ inRange tz (JSDate.make y m d)
      /\ DateObject.fromFields tz y m d = DateObject.InvalidDate).
Proof.
  unfold DateObject.fromFields, DateObject.UTC, DateObject.MakeDate, inRange,
    atMidnight. rewrite Z.add_0_r.
  destruct (TimeClip_cases (JSDate.make y m d * DateObject.msPerDay - tz))
    as [[H ->]|[H ->]]; [left | right]; split; (lia || reflexivity).
Qed.

Lemma fromFields_clipped tz y m d : clipped (DateObject.fromFields tz y m d).
Proof. apply clipped_TimeClip. Qed.

Lemma afterDays_midnight tz day j :
  (inRange tz (day + j)
   /\ afterDays (atMidnight tz day) j = atMidnight tz (day + j))
  \/ (~ inRange tz (day + j)
      /\ afterDays (atMidnight tz day) j = DateObject.InvalidDate).
Proof.
  unfold atMidnight, inRange. cbn [afterDays].
  replace (day * DateObject.msPerDay - tz + j * DateObject.msPerDay)
    with ((day + j) * DateObject.msPerDay - tz) by ring.
  destruct (TimeClip_cases ((day + j) * DateObject.msPerDay - tz))
    as [[H ->]|[H ->]]; [left | right]; split; (lia || reflexivity).
Qed.

Lemma formatResult_midnight tz day :
  formatResult tz (atMidnight tz day) = dayText day.
Proof.
  unfold atMidnight. now rewrite formatResult_valid, localDay_midnight.
Qed.

Lemma formatResult_invalid tz :
  formatResult tz DateObject.InvalidDate = "NaN/NaN（undefined）"%string.
Proof. reflexivity. Qed.

Lemma businessCounts_midnight tz day :
  businessCounts tz (atMidnight tz day) = isBusinessDay day.
Proof.
  unfold atMidnight. now rewrite businessCounts_valid, localDay_midnight.
Qed.

Lemma holidayAwareCounts_midnight tz day :
  holidayAwareCounts tz (atMidnight tz day) = isNonHoliday day.
Proof.
  unfold atMidnight. now rewrite holidayAwareCounts_valid, localDay_midnight.
Qed.

Lemma isHolidayOn_midnight tz day :
  isHolidayOn tz (atMidnight tz day) = holidayAt day.
Proof.
  unfold atMidnight. now rewrite isHolidayOn_valid, localDay_midnight.
Qed.

(** *** Enough counted candidates *)

Lemma candidate_window tz counts dayCounts start leadTime K :
  (forall t, counts (DateObject.TimeValue t) = dayCounts (localDay tz t)) ->
  counts DateObject.InvalidDate = true ->
  (forall d, leadTime <= counted dayCounts d K) ->
  leadTime <= Z.of_nat K ->
  leadTime <= counted (candidate counts start) 0 K.
Proof.
  intros V I W HK. destruct start as [|t0].
  - rewrite counted_all; [exact HK|]. intros i. exact I.
  - etransitivity; [apply (W (localDay tz t0))|].
    now apply counted_candidate_ge.
Qed.

Lemma business_candidates tz start leadTime :
  0 <= leadTime ->
  leadTime
  <= counted (candidate (businessCounts tz) start) 0
       (7 * Z.to_nat (leadTime + 70)).
Proof.
  intros H. apply (candidate_window tz _ isBusinessDay).
  - apply businessCounts_valid.
  - apply businessCounts_invalid.
  - intros d. now apply business_window.
  - lia.
Qed.

Lemma holidayAware_candidates tz start leadTime :
  0 <= leadTime ->
  leadTime
  <= counted (candidate (holidayAwareCounts tz) start) 0
       (Z.to_nat (leadTime + 70)).
Proof.
  intros H. apply (candidate_window tz _ isNonHoliday).
  - apply holidayAwareCounts_valid.
  - apply holidayAwareCounts_invalid.
  - intros d. now apply nonHoliday_window.
  - lia.
Qed.

(** *** The two loops from a valid order date *)

Lemma range_between tz a b c :
  inRange tz a -> inRange tz c -> a <= b <= c -> inRange tz b.
Proof. range. Qed.

Lemma businessLoop_result tz day leadTime :
  inRange tz day -> 1 <= leadTime ->
  exists n : nat,
    (n <= 7 * Z.to_nat (leadTime + 70))%nat /\ (1 <= n)%nat
    /\ nthDayAfter isBusinessDay day leadTime (day + Z.of_nat n)
    /\ Z.of_nat n = leadTime + skipped isBusinessDay day n
    /\ (inRange tz (day + Z.of_nat n) ->
        leadTime <= 9007199254740992
        /\ (forall fuel, (n <= fuel)%nat ->
              businessLoop tz fuel (atMidnight tz day) 0 leadTime
              = Some (atMidnight tz (day + Z.of_nat n)))
        /\ (forall fuel, (fuel < n)%nat ->
              businessLoop tz fuel (atMidnight tz day) 0 leadTime = None))
    /\ (~ inRange tz (day + Z.of_nat n) -> leadTime <= 9007199254740992 ->
        exists n' : nat,
          (n' <= n)%nat
          /\ (forall fuel, (n' <= fuel)%nat ->
                businessLoop tz fuel (atMidnight tz day) 0 leadTime
                = Some DateObject.InvalidDate)
          /\ (forall fuel, (fuel < n')%nat ->
                businessLoop tz fuel (atMidnight tz day) 0 leadTime = None)).
Proof.
  intros R L.
  destruct (dateLoop_result tz (businessCounts tz) isBusinessDay
              (businessCounts_valid tz) (businessCounts_invalid tz)
              (day * DateObject.msPerDay - tz) R leadTime
              (7 * Z.to_nat (leadTime + 70)) L)
    as (n & A & B & C & D & E & F).
  { rewrite localDay_midnight. apply business_window. lia. }
  rewrite localDay_midnight in C, D.
  exists n. split; [exact A|]. split; [exact B|]. split; [exact C|].
  split; [exact D|]. split.
  - intros In. destruct E as (E1 & E2 & E3); [range|].
    split; [exact E1|].
    split; intros fuel Hf; rewrite businessLoop_dateLoop;
      [|now apply E3]. unfold atMidnight at 1. rewrite (E2 fuel Hf).
    unfold atMidnight. do 2 f_equal. ring.
  - intros Out L2. destruct F as (n' & F1 & F2 & F3); [range | exact L2 |].
    exists n'. split; [exact F1|].
    split; intros fuel Hf; rewrite businessLoop_dateLoop;
      [now apply F2 | now apply F3].
Qed.

Lemma holidayAwareLoop_result tz day leadTime :
  inRange tz day -> 1 <= leadTime ->
  exists n : nat,
    (n <= Z.to_nat (leadTime + 70))%nat /\ (1 <= n)%nat
    /\ nthDayAfter isNonHoliday day leadTime (day + Z.of_nat n)
    /\ Z.of_nat n = leadTime + skipped isNonHoliday day n
    /\ (inRange tz (day + Z.of_nat n) ->
        leadTime <= 9007199254740992
        /\ (forall fuel, (n <= fuel)%nat ->
              holidayAwareLoop tz fuel (atMidnight tz day) 0 leadTime
              = Some (atMidnight tz (day + Z.of_nat n)))
        /\ (forall fuel, (fuel < n)%nat ->
              holidayAwareLoop tz fuel (atMidnight tz day) 0 leadTime
              = None))
    /\ (~ inRange tz (day + Z.of_nat n) -> leadTime <= 9007199254740992 ->
        exists n' : nat,
          (n' <= n)%nat
          /\ (forall fuel, (n' <= fuel)%nat ->
                holidayAwareLoop tz fuel (atMidnight tz day) 0 leadTime
                = Some DateObject.InvalidDate)
          /\ (forall fuel, (fuel < n')%nat ->
                holidayAwareLoop tz fuel (atMidnight tz day) 0 leadTime
                = None)).
Proof.
  intros R L.
  destruct (dateLoop_result tz (holidayAwareCounts tz) isNonHoliday
              (holidayAwareCounts_valid tz) (holidayAwareCounts_invalid tz)
              (day * DateObject.msPerDay - tz) R leadTime
              (Z.to_nat (leadTime + 70)) L)
    as (n & A & B & C & D & E & F).
  { rewrite localDay_midnight. apply nonHoliday_window. lia. }
  rewrite localDay_midnight in C, D.
  exists n. split; [exact A|]. split; [exact B|]. split; [exact C|].
  split; [exact D|]. split.
  - intros In. destruct E as (E1 & E2 & E3); [range|].
    split; [exact E1|].
    split; intros fuel Hf; rewrite holidayAwareLoop_dateLoop;
      [|now apply E3]. unfold atMidnight at 1. rewrite (E2 fuel Hf).
    unfold atMidnight. do 2 f_equal. ring.
  - intros Out L2. destruct F as (n' & F1 & F2 & F3); [range | exact L2 |].
    exists n'. split; [exact F1|].
    split; intros fuel Hf; rewrite holidayAwareLoop_dateLoop;
      [now apply F2 | now apply F3].
Qed.

(** Both loops end, whatever the order date, for a lead time from 1 to
    2^53. *)
Lemma businessLoop_terminates tz start leadTime :
  clipped start -> 1 <= leadTime <= 9007199254740992 ->
  exists n : nat,
    (n <= 7 * Z.to_nat (leadTime + 70))%nat /\ (1 <= n)%nat
    /\ (forall fuel, (n <= fuel)%nat ->
          businessLoop tz fuel start 0 leadTime
          = Some (afterDays start (Z.of_nat n)))
    /\ (forall fuel, (fuel < n)%nat ->
          businessLoop tz fuel start 0 leadTime = None)
    /\ Z.of_nat n
       = leadTime + skipped (candidate (businessCounts tz) start) 0 n.
Proof.
  intros C L.
  destruct (dateLoop_terminates tz (businessCounts tz) start leadTime
              (7 * Z.to_nat (leadTime + 70)) C L
              (business_candidates tz start leadTime ltac:(lia)))
    as (n & A & B & _ & _ & S1 & S2 & E).
  exists n. repeat split; try assumption;
    intros fuel Hf; rewrite businessLoop_dateLoop; auto.
Qed.

Lemma holidayAwareLoop_terminates tz start leadTime :
  clipped start -> 1 <= leadTime <= 9007199254740992 ->
  exists n : nat,
    (n <= Z.to_nat (leadTime + 70))%nat /\ (1 <= n)%nat
    /\ (forall fuel, (n <= fuel)%nat ->
          holidayAwareLoop tz fuel start 0 leadTime
          = Some (afterDays start (Z.of_nat n)))
    /\ (forall fuel, (fuel < n)%nat ->
          holidayAwareLoop tz fuel start 0 leadTime = None)
    /\ Z.of_nat n
       = leadTime + skipped (candidate (holidayAwareCounts tz) start) 0 n.
Proof.
  intros C L.
  destruct (dateLoop_terminates tz (holidayAwareCounts tz) start leadTime
              (Z.to_nat (leadTime + 70)) C L
              (holidayAware_candidates tz start leadTime ltac:(lia)))
    as (n & A & B & _ & _ & S1 & S2 & E).
  exists n. repeat split; try assumption;
    intros fuel Hf; rewrite holidayAwareLoop_dateLoop; auto.
Qed.

(** *** The calendar step *)

Lemma calendarStep_afterDays tz date leadTime :
  calendarStep tz date leadTime = afterDays date leadTime.
Proof. apply setDate_plus. Qed.

(** *** [calculateDelivery] *)

Lemma leadTime_accepted leadTime :
  1 <= leadTime -> (leadTime =? 0) || (leadTime <? 1) = false.
Proof.
  intros H. destruct (Z.eqb_spec leadTime 0), (Z.ltb_spec leadTime 1);
    (lia || reflexivity).
Qed.

(** Some result is shown whenever the lead time is from 1 to 2^53. *)
Lemma calculateDelivery_total tz y m d leadTime fuel :
  1 <= leadTime <= 9007199254740992 ->
  (7 * Z.to_nat (leadTime + 70) <= fuel)%nat ->
  exists b h,
    calculateDelivery tz fuel (Some (y, m, d)) (Some leadTime)
    = Some (shown b h
              (formatResult tz
                 (afterDays (DateObject.fromFields tz y (m - 1) d)
                    leadTime))).
Proof.
  intros L Hf. unfold calculateDelivery, deliveryDates.
  rewrite leadTime_accepted by lia.
  pose proof (fromFields_clipped tz y (m - 1) d) as C.
  destruct (businessLoop_terminates tz _ leadTime C L) as (n & A & _ & S & _).
  destruct (holidayAwareLoop_terminates tz _ leadTime C L)
    as (n' & A' & _ & S' & _).
  cbv zeta. rewrite (S fuel), (S' fuel) by lia.
  cbn [businessDate holidayAwareDate calendarDate].
  rewrite calendarStep_afterDays. eexists _, _. reflexivity.
Qed.

(** All three results, when the business result is within the range. *)
Lemma calculateDelivery_shown tz y m d leadTime rb rh fuel :
  1 <= leadTime ->
  inRange tz (JSDate.make y (m - 1) d) ->
  nthDayAfter isBusinessDay (JSDate.make y (m - 1) d) leadTime rb ->
  nthDayAfter isNonHoliday (JSDate.make y (m - 1) d) leadTime rh ->
  inRange tz rb ->
  (Z.to_nat (rb - JSDate.make y (m - 1) d) <= fuel)%nat ->
  calculateDelivery tz fuel (Some (y, m, d)) (Some leadTime)
  = Some (shown (dayText rb) (dayText rh)
            (dayText (JSDate.make y (m - 1) d + leadTime))).
Proof.
  intros L R0 Nb Nh Rb Hf. set (day := JSDate.make y (m - 1) d) in *.
  pose proof (results_ordered day leadTime rb rh Nb Nh) as O.
  pose proof (nthDayAfter_steps _ _ _ _ Nh) as O'.
  destruct (businessLoop_result tz day leadTime R0 L)
    as (n & _ & _ & Nb' & _ & Eb & _).
  destruct (holidayAwareLoop_result tz day leadTime R0 L)
    as (n' & _ & _ & Nh' & _ & Eh & _).
  pose proof (nthDayAfter_unique _ _ _ _ _ Nb Nb') as Ub.
  pose proof (nthDayAfter_unique _ _ _ _ _ Nh Nh') as Uh.
  rewrite <- Ub in Eb. rewrite <- Uh in Eh.
  destruct (Eb Rb) as (_ & Sb & _).
  destruct (Eh (range_between tz day rh rb R0 Rb ltac:(lia)))
    as (_ & Sh & _).
  unfold calculateDelivery, deliveryDates. rewrite leadTime_accepted by lia.
  cbv zeta. fold day.
  destruct (fromFields_cases tz y (m - 1) d) as [[_ ->]|[N _]];
    [|contradiction]. fold day.
  rewrite (Sb fuel), (Sh fuel) by lia.
  cbn [businessDate holidayAwareDate calendarDate].
  rewrite calendarStep_afterDays.
  destruct (afterDays_midnight tz day leadTime) as [[_ ->]|[N _]].
  - now rewrite !formatResult_midnight.
  - exfalso. apply N. apply (range_between tz day _ rb R0 Rb). lia.
Qed.

(** *** What is shown *)

Lemma shownText_inRange tz day : inRange tz day -> shownText tz day = dayText day.
Proof.
  unfold inRange, shownText. intros H.
  destruct (Z.leb_spec (Z.abs (day * DateObject.msPerDay - tz))
              8640000000000000); [reflexivity | lia].
Qed.

Lemma shownText_outside tz day :
  ~ inRange tz day -> shownText tz day = "NaN/NaN（undefined）"%string.
Proof.
  unfold inRange, shownText. intros H.
  destruct (Z.leb_spec (Z.abs (day * DateObject.msPerDay - tz))
              8640000000000000); [contradiction | reflexivity].
Qed.

Lemma inRange_dec tz day : inRange tz day \/ ~ inRange tz day.
Proof. unfold inRange. lia. Qed.

Lemma nthDayAfter_offset (P : JSDate.t -> bool) d leadTime r (n : nat) :
  nthDayAfter P d leadTime r -> nthDayAfter P d leadTime (d + Z.of_nat n) ->
  n = Z.to_nat (r - d) /\ d + 1 <= r.
Proof.
  intros N N'. pose proof (nthDayAfter_unique _ _ _ _ _ N N') as U.
  destruct N as (k & K & -> & _). lia.
Qed.

(** The business result, as a [Date] and as text. *)
Lemma businessLoop_shown tz day leadTime rb fuel :
  inRange tz day -> 1 <= leadTime <= 9007199254740992 ->
  nthDayAfter isBusinessDay day leadTime rb ->
  (Z.to_nat (rb - day) <= fuel)%nat ->
  exists b,
    businessLoop tz fuel (atMidnight tz day) 0 leadTime = Some b
    /\ formatResult tz b = shownText tz rb
    /\ (inRange tz rb -> b = atMidnight tz rb)
    /\ (~ inRange tz rb -> b = DateObject.InvalidDate).
Proof.
  intros R0 L N Hf.
  destruct (businessLoop_result tz day leadTime R0 ltac:(lia))
    as (n & _ & _ & N' & _ & In & Out).
  destruct (nthDayAfter_offset _ _ _ _ _ N N') as [En _].
  pose proof (nthDayAfter_unique _ _ _ _ _ N N') as U. rewrite <- U in In, Out.
  destruct (inRange_dec tz rb) as [R|R].
  - destruct (In R) as (_ & S & _). exists (atMidnight tz rb).
    split; [apply S; lia|].
    split; [now rewrite formatResult_midnight, shownText_inRange|].
    split; [reflexivity | contradiction].
  - destruct (Out R ltac:(lia)) as (n' & Le & S & _).
    exists DateObject.InvalidDate. split; [apply S; lia|].
    split; [now rewrite formatResult_invalid, shownText_outside|].
    split; [contradiction | reflexivity].
Qed.

(** The holiday-aware result, as a [Date] and as text. *)
Lemma holidayAwareLoop_shown tz day leadTime rh fuel :
  inRange tz day -> 1 <= leadTime <= 9007199254740992 ->
  nthDayAfter isNonHoliday day leadTime rh ->
  (Z.to_nat (rh - day) <= fuel)%nat ->
  exists h,
    holidayAwareLoop tz fuel (atMidnight tz day) 0 leadTime = Some h
    /\ formatResult tz h = shownText tz rh
    /\ (inRange tz rh -> h = atMidnight tz rh)
    /\ (~ inRange tz rh -> h = DateObject.InvalidDate).
Proof.
  intros R0 L N Hf.
  destruct (holidayAwareLoop_result tz day leadTime R0 ltac:(lia))
    as (n & _ & _ & N' & _ & In & Out).
  destruct (nthDayAfter_offset _ _ _ _ _ N N') as [En _].
  pose proof (nthDayAfter_unique _ _ _ _ _ N N') as U. rewrite <- U in In, Out.
  destruct (inRange_dec tz rh) as [R|R].
  - destruct (In R) as (_ & S & _). exists (atMidnight tz rh).
    split; [apply S; lia|].
    split; [now rewrite formatResult_midnight, shownText_inRange|].
    split; [reflexivity | contradiction].
  - destruct (Out R ltac:(lia)) as (n' & Le & S & _).
    exists DateObject.InvalidDate. split; [apply S; lia|].
    split; [now rewrite formatResult_invalid, shownText_outside|].
    split; [contradiction | reflexivity].
Qed.

(** The calendar result, as text. *)
Lemma calendarStep_shown tz day leadTime :
  formatResult tz (calendarStep tz (atMidnight tz day) leadTime)
  = shownText tz (day + leadTime).
Proof.
  rewrite calendarStep_afterDays.
  destruct (afterDays_midnight tz day leadTime) as [[R ->]|[R ->]].
  - now rewrite formatResult_midnight, shownText_inRange.
  - now rewrite formatResult_invalid, shownText_outside.
Qed.

(** All three results for a lead time from 1 to 2^53. *)
Lemma calculateDelivery_result tz y m d leadTime rb rh fuel :
  1 <= leadTime <= 9007199254740992 ->
  inRange tz (JSDate.make y (m - 1) d) ->
  nthDayAfter isBusinessDay (JSDate.make y (m - 1) d) leadTime rb ->
  nthDayAfter isNonHoliday (JSDate.make y (m - 1) d) leadTime rh ->
  (Z.to_nat (rb - JSDate.make y (m - 1) d) <= fuel)%nat ->
  calculateDelivery tz fuel (Some (y, m, d)) (Some leadTime)
  = Some (shown (shownText tz rb) (shownText tz rh)
            (shownText tz (JSDate.make y (m - 1) d + leadTime))).
Proof.
  intros L R0 Nb Nh Hf. set (day := JSDate.make y (m - 1) d) in *.
  pose proof (results_ordered day leadTime rb rh Nb Nh) as O.
  destruct (businessLoop_shown tz day leadTime rb fuel R0 L Nb Hf)
    as (b & Sb & Tb & _).
  destruct (holidayAwareLoop_shown tz day leadTime rh fuel R0 L Nh
              ltac:(lia)) as (h & Sh & Th & _).
  unfold calculateDelivery, deliveryDates. rewrite leadTime_accepted by lia.
  cbv zeta. fold day.
  destruct (fromFields_cases tz y (m - 1) d) as [[_ ->]|[N _]];
    [|contradiction]. fold day.
  rewrite Sb, Sh. cbn [businessDate holidayAwareDate calendarDate].
  now rewrite Tb, Th, calendarStep_shown.
Qed.

(** An order date outside the range: every candidate is invalid and
    counted, and all three results are invalid. *)
Lemma loops_invalid tz leadTime fuel :
  1 <= leadTime <= 9007199254740992 -> (Z.to_nat leadTime <= fuel)%nat ->
  businessLoop tz fuel DateObject.InvalidDate 0 leadTime
  = Some DateObject.InvalidDate
  /\ holidayAwareLoop tz fuel DateObject.InvalidDate 0 leadTime
     = Some DateObject.InvalidDate.
Proof.
  intros L Hf. split.
  - destruct (businessLoop_terminates tz DateObject.InvalidDate leadTime I L)
      as (n & _ & _ & S & _ & E).
    unfold skipped in E. rewrite counted_all in E
      by (intros i; apply businessCounts_invalid).
    now rewrite (S fuel) by lia.
  - destruct (holidayAwareLoop_terminates tz DateObject.InvalidDate leadTime
                I L) as (n & _ & _ & S & _ & E).
    unfold skipped in E. rewrite counted_all in E
      by (intros i; apply holidayAwareCounts_invalid).
    now rewrite (S fuel) by lia.
Qed.

Lemma calculateDelivery_invalid tz y m d leadTime fuel :
  ~ inRange tz (JSDate.make y (m - 1) d) ->
  1 <= leadTime <= 9007199254740992 -> (Z.to_nat leadTime <= fuel)%nat ->
  DateObject.fromFields tz y (m - 1) d = DateObject.InvalidDate
  /\ calculateDelivery tz fuel (Some (y, m, d)) (Some leadTime)
     = Some (shown "NaN/NaN（undefined）" "NaN/NaN（undefined）"
               "NaN/NaN（undefined）").
Proof.
  intros R L Hf.
  assert (F : DateObject.fromFields tz y (m - 1) d = DateObject.InvalidDate).
  { destruct (fromFields_cases tz y (m - 1) d) as [[In _]|[_ E]];
      [contradiction | exact E]. }
  split; [exact F|].
  destruct (loops_invalid tz leadTime fuel L Hf) as [B H].
  unfold calculateDelivery, deliveryDates. rewrite leadTime_accepted by lia.
  cbv zeta. rewrite F, B, H. reflexivity.
Qed.

(** *** One iteration *)

Lemma businessLoop_step tz fuel date n leadTime :
  n < leadTime ->
  businessLoop tz (S fuel) date n leadTime
  = businessLoop tz fuel (afterDays date 1)
      (if businessCounts tz (afterDays date 1) then increment n else n)
      leadTime.
Proof.
  intros H. rewrite !businessLoop_dateLoop. now apply dateLoop_step.
Qed.

Lemma holidayAwareLoop_step tz fuel date n leadTime :
  n < leadTime ->
  holidayAwareLoop tz (S fuel) date n leadTime
  = holidayAwareLoop tz fuel (afterDays date 1)
      (if holidayAwareCounts tz (afterDays date 1) then increment n else n)
      leadTime.
Proof.
  intros H. rewrite !holidayAwareLoop_dateLoop. now apply dateLoop_step.
Qed.

Lemma businessLoop_exit tz fuel date n leadTime :
  leadTime <= n -> businessLoop tz fuel date n leadTime = Some date.
Proof.
  intros H. destruct fuel; cbn [businessLoop];
    destruct (Z.ltb_spec n leadTime); (lia || reflexivity).
Qed.

Lemma holidayAwareLoop_exit tz fuel date n leadTime :
  leadTime <= n -> holidayAwareLoop tz fuel date n leadTime = Some date.
Proof.
  intros H. destruct fuel; cbn [holidayAwareLoop];
    destruct (Z.ltb_spec n leadTime); (lia || reflexivity).
Qed.

(** *** The tests, in terms of the table *)

Lemma isNonHoliday_unlisted day : isNonHoliday day = unlisted holidays day.
Proof.
  pose proof (isNonHoliday_iff day) as I. unfold listedInTable in I.
  unfold unlisted. destruct (holidayOfDate _ _ _ _) as [v|].
  - destruct (isNonHoliday day); [|reflexivity].
    exfalso. apply (proj1 I eq_refl). discriminate.
  - apply I. intros C. now apply C.
Qed.

Lemma isBusinessDay_unlisted day :
  isBusinessDay day = isWeekday day && unlisted holidays day.
Proof.
  rewrite <- isNonHoliday_unlisted. reflexivity.
Qed.

Lemma counted_window (P : JSDate.t -> bool) d (k : nat) :
  (forall i, 1 <= i <= Z.of_nat k -> P (d + i) = true) ->
  counted P d k = Z.of_nat k.
Proof.
  revert d. induction k as [|k IH]; intros d H; [reflexivity|].
  cbn [counted]. rewrite (H 1) by lia. rewrite IH; [lia|].
  intros i Hi. replace (d + 1 + i) with (d + (1 + i)) by ring. apply H. lia.
Qed.

Lemma nthDayAfter_window (P : JSDate.t -> bool) d leadTime :
  1 <= leadTime ->
  (forall i, 1 <= i <= leadTime -> P (d + i) = true) ->
  nthDayAfter P d leadTime (d + leadTime).
Proof.
  intros L H. exists (Z.to_nat leadTime). split; [lia|].
  split; [lia|]. split; [apply H; lia|].
  rewrite counted_window; [lia|]. intros i Hi. apply H. lia.
Qed.

End CalculatorFacts.

(** ** The earlier calculator agrees with the current one *)

Module LegacyFacts.
Import JSDateFacts HolidayFacts WindowFacts DeliveryFacts DateFacts
  CalendarDayFacts CalculatorFacts.

Lemma legacy_holidays_prefix : Legacy.holidays = firstn 37 holidays.
Proof. reflexivity. Qed.

Lemma legacy_holidays_canonical : forallb canonicalEntry Legacy.holidays = true.
Proof. vm_compute. reflexivity. Qed.

Lemma legacy_names_nonempty :
  forallb (fun e : string * string => negb (snd e =? "")%string)
    Legacy.holidays = true.
Proof. vm_compute. reflexivity. Qed.

Lemma legacy_ownProperty_firstn (o : object) n key v :
  ownProperty (firstn n o) key = Some v -> ownProperty o key = Some v.
Proof.
  revert n. induction o as [|[k w] o IH]; intros [|n]; cbn; try discriminate.
  destruct (String.eqb k key); [trivial | apply IH].
Qed.

Lemma legacy_holidayAt_calendar date :
  Legacy.holidayAt date
  = ofName (holidayOfDate Legacy.holidays (getFullYear date)
              (getMonth date + 1) (getDate date)).
Proof.
  unfold Legacy.holidayAt, Legacy.isHoliday. rewrite getProperty_dateStr.
  now rewrite (ownProperty_canonical Legacy.holidays _ _ _ legacy_holidays_canonical
                 (MonthFromTime_range date) (DateFromTime_range date)).
Qed.

(** A day the earlier table lists is listed by the current one. *)
Lemma legacy_listed_current date :
  truthy (Legacy.holidayAt date) = true -> isListedHoliday date = true.
Proof.
  unfold Legacy.holidayAt, Legacy.isHoliday, isListedHoliday, holidayAt.
  rewrite isHoliday_own, getProperty_dateStr, legacy_holidays_prefix.
  destruct (ownProperty (firstn 37 holidays) _) as [v|] eqn:E; [|discriminate].
  now rewrite (legacy_ownProperty_firstn _ _ _ _ E).
Qed.

Lemma legacy_isBusinessDay_iff date :
  Legacy.isBusinessDay date = true
  <-> getDay date <> 6 /\ getDay date <> 0 /\ ~ Legacy.listedInTable date.
Proof.
  unfold Legacy.isBusinessDay, Legacy.listedInTable.
  rewrite legacy_holidayAt_calendar.
  destruct (holidayOfDate _ _ _ _) as [v|] eqn:E; cbn [ofName truthy].
  - apply holidayOfDate_entry in E as (k & I & _).
    pose proof (proj1 (forallb_forall _ _) legacy_names_nonempty _ I) as N.
    cbn [snd] in N. rewrite N, andb_false_r.
    split; [discriminate|]. intros (_ & _ & C). exfalso. apply C. discriminate.
  - destruct (Z.eqb_spec (getDay date) 0), (Z.eqb_spec (getDay date) 6);
      cbn; intuition congruence.
Qed.

Lemma legacy_business_window d leadTime :
  0 <= leadTime ->
  leadTime <= counted Legacy.isBusinessDay d (7 * Z.to_nat (leadTime + 70)).
Proof.
  intros H. etransitivity; [apply (WindowFacts.business_window d _ H)|].
  apply counted_le. intros x. unfold isBusinessDay, Legacy.isBusinessDay.
  fold (isListedHoliday x).
  destruct (truthy (Legacy.holidayAt x)) eqn:T.
  - now rewrite (legacy_listed_current x T), andb_false_r.
  - intros B. apply andb_true_iff in B as [B _]. now rewrite B.
Qed.

Lemma calendarDate4_day y m d :
  calendarDate4 y m d ->
  -719528 <= MakeDay y (m - 1) d <= 2932897.
Proof.
  intros (Hy & Hm & Hd). unfold MakeDay. cbv zeta.
  replace ((m - 1) / 12) with 0 by zdiv.
  replace ((m - 1) mod 12) with (m - 1) by zdiv.
  rewrite Z.add_0_r. revert Hd. generalize (DaysInYear y =? 366).
  intros leap Hd.
  assert (M : 0 <= monthStart leap (m - 1) /\
              monthStart leap (m - 1) + DaysInMonth leap (m - 1) <= 366).
  { assert (C : m - 1 = 0 \/ m - 1 = 1 \/ m - 1 = 2 \/ m - 1 = 3 \/ m - 1 = 4
                \/ m - 1 = 5 \/ m - 1 = 6 \/ m - 1 = 7 \/ m - 1 = 8
                \/ m - 1 = 9 \/ m - 1 = 10 \/ m - 1 = 11) by lia.
    destruct leap;
      destruct C as [E|[E|[E|[E|[E|[E|[E|[E|[E|[E|[E|E]]]]]]]]]]];
      rewrite E; cbn; lia. }
  unfold DayFromYear. zdiv.
Qed.

Lemma fromDateOnly_valid y m d :
  calendarDate4 y m d ->
  DateObject.fromDateOnly y m d
  = DateObject.TimeValue (MakeDay y (m - 1) d * DateObject.msPerDay).
Proof.
  intros H. pose proof (calendarDate4_day y m d H) as R.
  unfold DateObject.fromDateOnly, DateObject.MakeDate. rewrite Z.add_0_r.
  destruct (TimeClip_cases (MakeDay y (m - 1) d * DateObject.msPerDay))
    as [[_ ->]|[G _]]; [reflexivity|]. unfold DateObject.msPerDay in G. lia.
Qed.

(** The business loop of the earlier script, from midnight in UTC, in a
    time zone at or east of UTC. *)
Lemma legacy_businessLoop_result tz day leadTime :
  0 <= tz < DateObject.msPerDay ->
  -100000000 <= day <= 100000000 -> 1 <= leadTime ->
  exists n : nat,
    (1 <= n)%nat
    /\ nthDayAfter Legacy.isBusinessDay day leadTime (day + Z.of_nat n)
    /\ (day + Z.of_nat n <= 100000000 ->
        (forall fuel, (n <= fuel)%nat ->
           Legacy.businessLoop tz fuel
             (DateObject.TimeValue (day * DateObject.msPerDay)) 0 leadTime
           = Some (DateObject.TimeValue
                     ((day + Z.of_nat n) * DateObject.msPerDay)))
        /\ (forall fuel, (fuel < n)%nat ->
              Legacy.businessLoop tz fuel
                (DateObject.TimeValue (day * DateObject.msPerDay)) 0 leadTime
              = None)).
Proof.
  intros T R L.
  destruct (dateLoop_result tz (legacyCounts tz) Legacy.isBusinessDay
              (legacyCounts_valid tz) (legacyCounts_invalid tz)
              (day * DateObject.msPerDay)
              ltac:(unfold DateObject.msPerDay; lia) leadTime
              (7 * Z.to_nat (leadTime + 70)) L)
    as (n & _ & B & C & _ & E & _).
  { rewrite localDay_utc by exact T. apply legacy_business_window. lia. }
  rewrite localDay_utc in C by exact T.
  exists n. split; [exact B|]. split; [exact C|].
  intros In. destruct E as (_ & E2 & E3);
    [unfold DateObject.msPerDay; lia|].
  split; intros fuel Hf; rewrite legacyLoop_dateLoop; [|now apply E3].
  rewrite (E2 fuel Hf). do 2 f_equal. ring.
Qed.

Lemma legacy_text tz t day :
  localDay tz t = day ->
  match DateObject.getMonth tz (DateObject.TimeValue t),
        DateObject.getDate tz (DateObject.TimeValue t),
        DateObject.getDay tz (DateObject.TimeValue t)
  with
  | Some month, Some date, Some wd =>
      Some (Legacy.shown ("→ " ++ ToString (month + 1) ++ "/"
                            ++ ToString date ++ "（"
                            ++ nth (Z.to_nat wd) dayNames "undefined"
                            ++ "）")%string)
  | _, _, _ => Some (Legacy.shown "→ NaN/NaN（undefined）")
  end
  = Some (Legacy.shown ("→ " ++ dayText day)%string).
Proof.
  intros <-. unfold DateObject.getMonth, DateObject.getDate,
    DateObject.getDay, dayText, localDay. cbn [DateObject.field].
  reflexivity.
Qed.

(** In business mode the earlier calculator shows the [leadTime]-th business
    day after the order date, in a time zone at or east of UTC. *)
Lemma legacy_business_mode tz y m d leadTime :
  0 <= tz < DateObject.msPerDay -> calendarDate4 y m d -> 1 <= leadTime ->
  exists result,
    MakeDay y (m - 1) d + 1 <= result
    /\ nthDayAfter Legacy.isBusinessDay (MakeDay y (m - 1) d) leadTime result
    /\ (result <= 100000000 ->
        forall fuel, (Z.to_nat (result - MakeDay y (m - 1) d) <= fuel)%nat ->
          Legacy.calculateDelivery tz fuel (Some (y, m, d)) (Some leadTime)
            "business"
          = Some (Legacy.shown ("→ " ++ dayText result)%string)).
Proof.
  intros T V L. pose proof (calendarDate4_day y m d V) as R.
  destruct (legacy_businessLoop_result tz (MakeDay y (m - 1) d) leadTime T
              ltac:(lia) L) as (n & B & C & E).
  exists (MakeDay y (m - 1) d + Z.of_nat n). split; [lia|].
  split; [exact C|]. intros In fuel Hf. destruct (E In) as [E1 _].
  unfold Legacy.calculateDelivery, Legacy.deliveryDate.
  rewrite leadTime_accepted by exact L. cbv zeta.
  rewrite (fromDateOnly_valid y m d V). cbn [String.eqb Ascii.eqb Bool.eqb].
  rewrite (E1 fuel) by lia. apply legacy_text. now apply localDay_utc.
Qed.

(** In any other mode it shows the day [leadTime] days after the order date,
    or an invalid date past the range. *)
Lemma legacy_calendar_mode tz y m d leadTime mode fuel :
  0 <= tz < DateObject.msPerDay -> calendarDate4 y m d -> 1 <= leadTime ->
  mode <> "business"%string ->
  (MakeDay y (m - 1) d + leadTime <= 100000000 ->
   Legacy.calculateDelivery tz fuel (Some (y, m, d)) (Some leadTime) mode
   = Some (Legacy.shown
             ("→ " ++ dayText (MakeDay y (m - 1) d + leadTime))%string))
  /\ (100000000 < MakeDay y (m - 1) d + leadTime ->
      Legacy.calculateDelivery tz fuel (Some (y, m, d)) (Some leadTime) mode
      = Some (Legacy.shown "→ NaN/NaN（undefined）")).
Proof.
  intros T V L M. pose proof (calendarDate4_day y m d V) as R.
  unfold Legacy.calculateDelivery, Legacy.deliveryDate.
  rewrite leadTime_accepted by exact L. cbv zeta.
  rewrite (fromDateOnly_valid y m d V).
  destruct (String.eqb_spec mode "business"); [contradiction|].
  rewrite setDate_plus. cbn [afterDays].
  replace (MakeDay y (m - 1) d * DateObject.msPerDay
           + leadTime * DateObject.msPerDay)
    with ((MakeDay y (m - 1) d + leadTime) * DateObject.msPerDay) by ring.
  destruct (TimeClip_cases
              ((MakeDay y (m - 1) d + leadTime) * DateObject.msPerDay))
    as [[H ->]|[H ->]]; split; intros In;
    try (unfold DateObject.msPerDay in H; lia).
  - apply legacy_text. now apply localDay_utc.
  - reflexivity.
Qed.

(** West of UTC the same text is read as the evening before: the earlier
    calculator then counts from the day before the order date. *)
Lemma legacy_west_of_utc tz y m d leadTime mode fuel :
  - DateObject.msPerDay <= tz < 0 -> calendarDate4 y m d -> 1 <= leadTime ->
  mode <> "business"%string ->
  Legacy.calculateDelivery tz fuel (Some (y, m, d)) (Some leadTime) mode
  = Some (Legacy.shown
            (if MakeDay y (m - 1) d + leadTime <=? 100000000
             then ("→ " ++ dayText (MakeDay y (m - 1) d - 1 + leadTime))%string
             else "→ NaN/NaN（undefined）"%string)).
Proof.
  intros T V L M. pose proof (calendarDate4_day y m d V) as R.
  unfold Legacy.calculateDelivery, Legacy.deliveryDate.
  rewrite leadTime_accepted by exact L. cbv zeta.
  rewrite (fromDateOnly_valid y m d V).
  destruct (String.eqb_spec mode "business"); [contradiction|].
  rewrite setDate_plus. cbn [afterDays].
  replace (MakeDay y (m - 1) d * DateObject.msPerDay
           + leadTime * DateObject.msPerDay)
    with ((MakeDay y (m - 1) d + leadTime) * DateObject.msPerDay) by ring.
  destruct (TimeClip_cases
              ((MakeDay y (m - 1) d + leadTime) * DateObject.msPerDay))
    as [[H ->]|[H ->]];
    destruct (Z.leb_spec (MakeDay y (m - 1) d + leadTime) 100000000);
    try (unfold DateObject.msPerDay in H; lia); [|reflexivity].
  apply legacy_text.
  unfold localDay, DateObject.Day, DateObject.LocalTime, DateObject.msPerDay
    in *. zdiv.
Qed.

End LegacyFacts.

(** ** Worked examples of the specification *)

Module ExampleFacts.
Import DateFacts CalendarDayFacts CalculatorFacts.

Lemma inRange_near tz day :
  - DateObject.msPerDay < tz < DateObject.msPerDay ->
  -99999999 <= day <= 99999999 -> inRange tz day.
Proof. intros T D. range. Qed.

Lemma fifth_business_day :
  nthDayAfter isBusinessDay (JSDate.make 2025 0 1) 5 (JSDate.make 2025 0 8).
Proof.
  exists 7%nat. split; [lia|]. repeat split; vm_compute; reflexivity.
Qed.

Lemma fifth_unlisted_day :
  nthDayAfter isNonHoliday (JSDate.make 2025 0 1) 5 (JSDate.make 2025 0 6).
Proof.
  exists 5%nat. split; [lia|]. repeat split; vm_compute; reflexivity.
Qed.

Lemma third_business_day :
  nthDayAfter isBusinessDay (JSDate.make 2025 0 10) 3 (JSDate.make 2025 0 16).
Proof.
  exists 6%nat. split; [lia|]. repeat split; vm_compute; reflexivity.
Qed.

Lemma third_unlisted_day :
  nthDayAfter isNonHoliday (JSDate.make 2025 0 10) 3 (JSDate.make 2025 0 14).
Proof.
  exists 4%nat. split; [lia|]. repeat split; vm_compute; reflexivity.
Qed.

(** 2025-01-01 with a lead time of 5, in every time zone. *)
Lemma new_year_order tz fuel :
  - DateObject.msPerDay < tz < DateObject.msPerDay -> (7 <= fuel)%nat ->
  calculateDelivery tz fuel (Some (2025, 1, 1)) (Some 5)
  = Some (shown "1/8（水）" "1/6（月）" "1/6（月）").
Proof.
  intros T F.
  rewrite (calculateDelivery_shown tz 2025 1 1 5 (JSDate.make 2025 0 8)
             (JSDate.make 2025 0 6) fuel ltac:(lia)).
  - reflexivity.
  - apply inRange_near; [exact T | vm_compute; split; discriminate].
  - exact fifth_business_day.
  - exact fifth_unlisted_day.
  - apply inRange_near; [exact T | vm_compute; split; discriminate].
  - exact F.
Qed.

(** 2025-01-10 with a lead time of 3, in every time zone. *)
Lemma january_tenth_order tz fuel :
  - DateObject.msPerDay < tz < DateObject.msPerDay -> (6 <= fuel)%nat ->
  calculateDelivery tz fuel (Some (2025, 1, 10)) (Some 3)
  = Some (shown "1/16（木）" "1/14（火）" "1/13（月）").
Proof.
  intros T F.
  rewrite (calculateDelivery_shown tz 2025 1 10 3 (JSDate.make 2025 0 16)
             (JSDate.make 2025 0 14) fuel ltac:(lia)).
  - reflexivity.
  - apply inRange_near; [exact T | vm_compute; split; discriminate].
  - exact third_business_day.
  - exact third_unlisted_day.
  - apply inRange_near; [exact T | vm_compute; split; discriminate].
  - exact F.
Qed.

(** The last days of the range of [Date], at UTC: the order date
    275760-09-12 is within it, the days from 275760-09-14 on are not. *)
Lemma last_order_day : inRange 0 (JSDate.make 275760 8 12).
Proof. unfold inRange. apply Z.leb_le. vm_compute. reflexivity. Qed.

Lemma last_business_day :
  nthDayAfter isBusinessDay (JSDate.make 275760 8 12) 5
    (JSDate.make 275760 8 19).
Proof.
  exists 7%nat. split; [lia|]. repeat split; vm_compute; reflexivity.
Qed.

Lemma last_unlisted_day :
  nthDayAfter isNonHoliday (JSDate.make 275760 8 12) 5
    (JSDate.make 275760 8 17).
Proof.
  exists 5%nat. split; [lia|]. repeat split; vm_compute; reflexivity.
Qed.

Lemma last_order fuel :
  (7 <= fuel)%nat ->
  calculateDelivery 0 fuel (Some (275760, 9, 12)) (Some 5)
  = Some (shown "NaN/NaN（undefined）" "NaN/NaN（undefined）"
            "NaN/NaN（undefined）").
Proof.
  intros F.
  rewrite (calculateDelivery_result 0 275760 9 12 5 (JSDate.make 275760 8 19)
             (JSDate.make 275760 8 17) fuel ltac:(lia)).
  - reflexivity.
  - exact last_order_day.
  - exact last_business_day.
  - exact last_unlisted_day.
  - exact F.
Qed.

End ExampleFacts.

(** ** The delivery-date calculator: main results *)

(** C1. Business mode.  Each iteration moves the candidate one day forward,
    starting from the day after the order date, and increments the counter
    exactly when the candidate is not a Saturday (6), not a Sunday (0) and not
    listed in the holiday table; an invalid candidate is counted as well.
    For an order date within the range of [Date] and a lead time of at least
    one, the loop stops on the [leadTime]-th such day after the order date.
    When that day is within the range of [Date] it is the business result, and
    its text is what is shown; when it is not, or the order date is not, and
    the lead time is at most 2^53, the result is an invalid [Date], shown as
    [NaN/NaN（undefined）].  With
    the repository's table, the order date 2025-01-01 and a lead time of 5
    give 2025-01-08.  The earlier calculator (mode [business]) does the same
    over its own table in the zones at or east of UTC; west of them it reads
    the order date as UTC midnight, which is the local day before
    ([LegacyFacts.legacy_west_of_utc]). *)
Theorem business_mode_delivery (LocalTZA year month day leadTime : Z) :
  - DateObject.msPerDay < LocalTZA < DateObject.msPerDay ->
  1 <= leadTime ->
  (forall fuel date n, n < leadTime ->
        businessLoop LocalTZA (S fuel) date n leadTime
        = businessLoop LocalTZA fuel (afterDays date 1)
            (if businessCounts LocalTZA (afterDays date 1)
             then increment n else n) leadTime)
  /\ (forall fuel date n, leadTime <= n ->
        businessLoop LocalTZA fuel date n leadTime = Some date)
  /\ (forall date,
        businessCounts LocalTZA (atMidnight LocalTZA date) = true
        <-> getDay date <> 6 /\ getDay date <> 0 /\ ~ listedInTable date)
  /\ businessCounts LocalTZA DateObject.InvalidDate = true
  /\ (inRange LocalTZA (JSDate.make year (month - 1) day) ->
      DateObject.fromFields LocalTZA year (month - 1) day
      = atMidnight LocalTZA (JSDate.make year (month - 1) day)
      /\ exists result,
        JSDate.make year (month - 1) day + 1 <= result
        /\ nthDayAfter isBusinessDay (JSDate.make year (month - 1) day)
             leadTime result
        /\ (inRange LocalTZA result ->
            forall fuel,
              (Z.to_nat (result - JSDate.make year (month - 1) day) <= fuel)%nat ->
              businessLoop LocalTZA fuel
                (DateObject.fromFields LocalTZA year (month - 1) day) 0 leadTime
              = Some (atMidnight LocalTZA result)
              /\ exists h c,
                   calculateDelivery LocalTZA fuel (Some (year, month, day))
                     (Some leadTime)
                   = Some (shown (dayText result) h c))
        /\ (~ inRange LocalTZA result -> leadTime <= 9007199254740992 ->
            forall fuel,
              (Z.to_nat (result - JSDate.make year (month - 1) day) <= fuel)%nat ->
              businessLoop LocalTZA fuel
                (DateObject.fromFields LocalTZA year (month - 1) day) 0 leadTime
              = Some DateObject.InvalidDate
              /\ exists h c,
                   calculateDelivery LocalTZA fuel (Some (year, month, day))
                     (Some leadTime)
                   = Some (shown "NaN/NaN（undefined）" h c)))
  /\ (~ inRange LocalTZA (JSDate.make year (month - 1) day) ->
      leadTime <= 9007199254740992 ->
      forall fuel, (Z.to_nat leadTime <= fuel)%nat ->
        DateObject.fromFields LocalTZA year (month - 1) day
        = DateObject.InvalidDate
        /\ businessLoop LocalTZA fuel DateObject.InvalidDate 0 leadTime
           = Some DateObject.InvalidDate
        /\ calculateDelivery LocalTZA fuel (Some (year, month, day))
             (Some leadTime)
           = Some (shown "NaN/NaN（undefined）" "NaN/NaN（undefined）"
                     "NaN/NaN（undefined）"))
  /\ (nthDayAfter isBusinessDay (JSDate.make 2025 0 1) 5 (JSDate.make 2025 0 8)
      /\ calculateDelivery LocalTZA 7 (Some (2025, 1, 1)) (Some 5)
         = Some (shown "1/8（水）" "1/6（月）" "1/6（月）"))
  /\ (forall date,
        Legacy.isBusinessDay date = true
        <-> getDay date <> 6 /\ getDay date <> 0
            /\ ~ Legacy.listedInTable date)
  /\ (0 <= LocalTZA -> calendarDate4 year month day ->
      exists result,
        MakeDay year (month - 1) day + 1 <= result
        /\ nthDayAfter Legacy.isBusinessDay (MakeDay year (month - 1) day)
             leadTime result
        /\ (result <= 100000000 ->
            forall fuel,
              (Z.to_nat (result - MakeDay year (month - 1) day) <= fuel)%nat ->
              Legacy.calculateDelivery LocalTZA fuel (Some (year, month, day))
                (Some leadTime) "business"
              = Some (Legacy.shown ("→ " ++ dayText result)%string))).
Proof.
  intros T L. set (orderDay := JSDate.make year (month - 1) day) in *.
  split; [intros fuel date n Hn; now apply CalculatorFacts.businessLoop_step|].
  split; [intros fuel date n Hn; now apply CalculatorFacts.businessLoop_exit|].
  split; [intros date; rewrite CalculatorFacts.businessCounts_midnight;
          apply DeliveryFacts.isBusinessDay_iff|].
  split; [apply CalendarDayFacts.businessCounts_invalid|].
  split; [|split; [|split; [|split]]].
  - intros R0.
    assert (F : DateObject.fromFields LocalTZA year (month - 1) day
                = atMidnight LocalTZA orderDay).
    { destruct (CalculatorFacts.fromFields_cases LocalTZA year (month - 1) day)
        as [[_ E]|[N _]]; [exact E | contradiction]. }
    split; [exact F|].
    destruct (CalculatorFacts.businessLoop_result LocalTZA orderDay leadTime
                R0 L) as (n & _ & N1 & Nb & _ & In & _).
    destruct (CalculatorFacts.holidayAwareLoop_result LocalTZA orderDay
                leadTime R0 L) as (n' & _ & _ & Nh & _).
    exists (orderDay + Z.of_nat n). split; [lia|]. split; [exact Nb|].
    rewrite F. split.
    + intros R fuel Hf. destruct (In R) as (L2 & S & _).
      split; [apply S; lia|].
      rewrite (CalculatorFacts.calculateDelivery_result LocalTZA year month
                 day leadTime _ _ fuel ltac:(lia) R0 Nb Nh Hf).
      rewrite (CalculatorFacts.shownText_inRange _ _ R).
      eexists _, _. reflexivity.
    + intros R L2 fuel Hf.
      destruct (CalculatorFacts.businessLoop_shown LocalTZA orderDay leadTime
                  _ fuel R0 ltac:(lia) Nb Hf) as (b & S & _ & _ & O).
      split; [now rewrite S, (O R)|].
      rewrite (CalculatorFacts.calculateDelivery_result LocalTZA year month
                 day leadTime _ _ fuel ltac:(lia) R0 Nb Nh Hf).
      rewrite (CalculatorFacts.shownText_outside _ _ R).
      eexists _, _. reflexivity.
  - intros R0 L2 fuel Hf.
    destruct (CalculatorFacts.calculateDelivery_invalid LocalTZA year month
                day leadTime fuel R0 ltac:(lia) Hf) as [F E].
    split; [exact F|]. split; [|exact E].
    exact (proj1 (CalculatorFacts.loops_invalid LocalTZA leadTime fuel
                    ltac:(lia) Hf)).
  - split; [exact ExampleFacts.fifth_business_day|].
    apply ExampleFacts.new_year_order; [exact T | lia].
  - apply LegacyFacts.legacy_isBusinessDay_iff.
  - intros T0 C.
    destruct (LegacyFacts.legacy_business_mode LocalTZA year month day
                leadTime ltac:(lia) C L) as (result & A & B & S).
    exists result. split; [exact A|]. split; [exact B|]. exact S.
Qed.

Lemma business_mode_delivery_witness :
  (- DateObject.msPerDay < 32400000 < DateObject.msPerDay /\ 1 <= 5)
  /\ DateObject.fromFields 32400000 2025 (1 - 1) 1
     = atMidnight 32400000 (JSDate.make 2025 (1 - 1) 1)
  /\ calculateDelivery 32400000 7 (Some (2025, 1, 1)) (Some 5)
     = Some (shown "1/8（水）" "1/6（月）" "1/6（月）").
Proof.
  assert (H : - DateObject.msPerDay < 32400000 < DateObject.msPerDay
              /\ 1 <= 5).
  { split; [unfold DateObject.msPerDay; lia | lia]. }
  assert (R : inRange 32400000 (JSDate.make 2025 (1 - 1) 1)).
  { unfold inRange. apply Z.leb_le. vm_compute. reflexivity. }
  split; [exact H|]. destruct H as (T & L).
  pose proof (business_mode_delivery 32400000 2025 1 1 5 T L) as B.
  split; [exact (proj1 (proj1 (proj2 (proj2 (proj2 (proj2 B)))) R))|].
  exact (proj2 (proj1 (proj2 (proj2 (proj2 (proj2 (proj2 (proj2 B)))))))).
Defined.

(** The claim C1 as written fails past the range of [Date].  At UTC, for the
    order date 275760-09-12 and a lead time of 5, the fifth business day
    after the order date is 275760-09-19, a Friday; the loop returns an
    invalid [Date] and the calculator shows [NaN/NaN（undefined）]. *)
Lemma business_mode_past_the_range :
  inRange 0 (JSDate.make 275760 8 12)
  /\ nthDayAfter isBusinessDay (JSDate.make 275760 8 12) 5
       (JSDate.make 275760 8 19)
  /\ dayText (JSDate.make 275760 8 19) = "9/19（金）"%string
  /\ businessLoop 0 7 (DateObject.fromFields 0 275760 8 12) 0 5
     = Some DateObject.InvalidDate
  /\ (forall fuel, (7 <= fuel)%nat ->
        calculateDelivery 0 fuel (Some (275760, 9, 12)) (Some 5)
        = Some (shown "NaN/NaN（undefined）" "NaN/NaN（undefined）"
                  "NaN/NaN（undefined）")).
Proof.
  split; [exact ExampleFacts.last_order_day|].
  split; [exact ExampleFacts.last_business_day|].
  split; [vm_compute; reflexivity|].
  split; [vm_compute; reflexivity|].
  exact ExampleFacts.last_order.
Qed.

(** C2. Holiday-aware mode.  The same day-by-day advance from the day after
    the order date, with the counter incremented on every candidate that the
    holiday table does not list, whatever its weekday; an invalid candidate is
    counted as well.  For an order date within the range of [Date] and a lead
    time of at least one, the loop stops on the [leadTime]-th unlisted day
    after the order date.  When that day is within the range of [Date] it is
    the holiday-aware result, and its text is what is shown; when it is not,
    or the order date is not, and the lead time is at most 2^53, the result
    is an invalid [Date], shown as [NaN/NaN（undefined）].  The order date
    2025-01-10 with a lead time of 3
    gives 2025-01-14: Saturday the 11th and Sunday the 12th count, Monday the
    13th is listed and does not. *)
Theorem holiday_aware_mode_delivery (LocalTZA year month day leadTime : Z) :
  - DateObject.msPerDay < LocalTZA < DateObject.msPerDay ->
  1 <= leadTime ->
  (forall fuel date n, n < leadTime ->
        holidayAwareLoop LocalTZA (S fuel) date n leadTime
        = holidayAwareLoop LocalTZA fuel (afterDays date 1)
            (if holidayAwareCounts LocalTZA (afterDays date 1)
             then increment n else n) leadTime)
  /\ (forall fuel date n, leadTime <= n ->
        holidayAwareLoop LocalTZA fuel date n leadTime = Some date)
  /\ (forall date,
        (holidayAwareCounts LocalTZA (atMidnight LocalTZA date) = true
         <-> ~ listedInTable date)
        /\ (isWeekday date = false -> ~ listedInTable date ->
            holidayAwareCounts LocalTZA (atMidnight LocalTZA date) = true))
  /\ holidayAwareCounts LocalTZA DateObject.InvalidDate = true
  /\ (inRange LocalTZA (JSDate.make year (month - 1) day) ->
      DateObject.fromFields LocalTZA year (month - 1) day
      = atMidnight LocalTZA (JSDate.make year (month - 1) day)
      /\ exists result,
        JSDate.make year (month - 1) day + 1 <= result
        /\ nthDayAfter isNonHoliday (JSDate.make year (month - 1) day)
             leadTime result
        /\ (inRange LocalTZA result ->
            forall fuel,
              (Z.to_nat (result - JSDate.make year (month - 1) day) <= fuel)%nat ->
              holidayAwareLoop LocalTZA fuel
                (DateObject.fromFields LocalTZA year (month - 1) day) 0 leadTime
              = Some (atMidnight LocalTZA result))
        /\ (~ inRange LocalTZA result -> leadTime <= 9007199254740992 ->
            forall fuel,
              (Z.to_nat (result - JSDate.make year (month - 1) day) <= fuel)%nat ->
              holidayAwareLoop LocalTZA fuel
                (DateObject.fromFields LocalTZA year (month - 1) day) 0 leadTime
              = Some DateObject.InvalidDate)
        /\ (leadTime <= 9007199254740992 ->
            forall fuel, (7 * Z.to_nat (leadTime + 70) <= fuel)%nat ->
              exists b c,
                calculateDelivery LocalTZA fuel (Some (year, month, day))
                  (Some leadTime)
                = Some (shown b (shownText LocalTZA result) c))
        /\ (inRange LocalTZA result -> shownText LocalTZA result = dayText result)
        /\ (~ inRange LocalTZA result ->
            shownText LocalTZA result = "NaN/NaN（undefined）"%string))
  /\ (~ inRange LocalTZA (JSDate.make year (month - 1) day) ->
      leadTime <= 9007199254740992 ->
      forall fuel, (Z.to_nat leadTime <= fuel)%nat ->
        DateObject.fromFields LocalTZA year (month - 1) day
        = DateObject.InvalidDate
        /\ holidayAwareLoop LocalTZA fuel DateObject.InvalidDate 0 leadTime
           = Some DateObject.InvalidDate
        /\ calculateDelivery LocalTZA fuel (Some (year, month, day))
             (Some leadTime)
           = Some (shown "NaN/NaN（undefined）" "NaN/NaN（undefined）"
                     "NaN/NaN（undefined）"))
  /\ (nthDayAfter isNonHoliday (JSDate.make 2025 0 10) 3 (JSDate.make 2025 0 14)
      /\ isNonHoliday (JSDate.make 2025 0 11) = true
      /\ isNonHoliday (JSDate.make 2025 0 12) = true
      /\ isNonHoliday (JSDate.make 2025 0 13) = false
      /\ calculateDelivery LocalTZA 6 (Some (2025, 1, 10)) (Some 3)
         = Some (shown "1/16（木）" "1/14（火）" "1/13（月）")).
Proof.
  intros T L. set (orderDay := JSDate.make year (month - 1) day) in *.
  split; [intros fuel date n Hn;
          now apply CalculatorFacts.holidayAwareLoop_step|].
  split; [intros fuel date n Hn;
          now apply CalculatorFacts.holidayAwareLoop_exit|].
  split.
  { intros date. rewrite CalculatorFacts.holidayAwareCounts_midnight.
    split; [apply DeliveryFacts.isNonHoliday_iff|].
    intros _ N. now apply DeliveryFacts.isNonHoliday_iff. }
  split; [apply CalendarDayFacts.holidayAwareCounts_invalid|].
  split; [|split].
  - intros R0.
    assert (F : DateObject.fromFields LocalTZA year (month - 1) day
                = atMidnight LocalTZA orderDay).
    { destruct (CalculatorFacts.fromFields_cases LocalTZA year (month - 1) day)
        as [[_ E]|[N _]]; [exact E | contradiction]. }
    split; [exact F|].
    destruct (CalculatorFacts.holidayAwareLoop_result LocalTZA orderDay
                leadTime R0 L) as (n & Le & N1 & Nh & _ & In & _).
    destruct (CalculatorFacts.businessLoop_result LocalTZA orderDay leadTime
                R0 L) as (n' & Le' & _ & Nb & _).
    exists (orderDay + Z.of_nat n). split; [lia|]. split; [exact Nh|].
    rewrite F. split; [|split; [|split; [|split]]].
    + intros R fuel Hf. destruct (In R) as (L2 & S & _). apply S. lia.
    + intros R L2 fuel Hf.
      destruct (CalculatorFacts.holidayAwareLoop_shown LocalTZA orderDay
                  leadTime _ fuel R0 ltac:(lia) Nh Hf) as (h & S & _ & _ & O).
      now rewrite S, (O R).
    + intros L2 fuel Hf.
      rewrite (CalculatorFacts.calculateDelivery_result LocalTZA year month
                 day leadTime _ _ fuel ltac:(lia) R0 Nb Nh).
      * eexists _, _. reflexivity.
      * fold orderDay. lia.
    + apply CalculatorFacts.shownText_inRange.
    + apply CalculatorFacts.shownText_outside.
  - intros R0 L2 fuel Hf.
    destruct (CalculatorFacts.calculateDelivery_invalid LocalTZA year month
                day leadTime fuel R0 ltac:(lia) Hf) as [F E].
    split; [exact F|]. split; [|exact E].
    exact (proj2 (CalculatorFacts.loops_invalid LocalTZA leadTime fuel
                    ltac:(lia) Hf)).
  - split; [exact ExampleFacts.third_unlisted_day|].
    split; [vm_compute; reflexivity|].
    split; [vm_compute; reflexivity|].
    split; [vm_compute; reflexivity|].
    apply ExampleFacts.january_tenth_order; [exact T | lia].
Qed.

Lemma holiday_aware_mode_delivery_witness :
  (- DateObject.msPerDay < 32400000 < DateObject.msPerDay /\ 1 <= 3)
  /\ DateObject.fromFields 32400000 2025 (1 - 1) 10
     = atMidnight 32400000 (JSDate.make 2025 (1 - 1) 10)
  /\ calculateDelivery 32400000 6 (Some (2025, 1, 10)) (Some 3)
     = Some (shown "1/16（木）" "1/14（火）" "1/13（月）").
Proof.
  assert (H : - DateObject.msPerDay < 32400000 < DateObject.msPerDay
              /\ 1 <= 3).
  { split; [unfold DateObject.msPerDay; lia | lia]. }
  assert (R : inRange 32400000 (JSDate.make 2025 (1 - 1) 10)).
  { unfold inRange. apply Z.leb_le. vm_compute. reflexivity. }
  split; [exact H|]. destruct H as (T & L).
  pose proof (holiday_aware_mode_delivery 32400000 2025 1 10 3 T L) as B.
  split; [exact (proj1 (proj1 (proj2 (proj2 (proj2 (proj2 B)))) R))|].
  exact (proj2 (proj2 (proj2 (proj2
           (proj2 (proj2 (proj2 (proj2 (proj2 (proj2 B)))))))))).
Defined.

(** The claim C2 as written fails past the range of [Date].  At UTC, for the
    order date 275760-09-12 and a lead time of 5, the fifth unlisted day after
    the order date is 275760-09-17, a Wednesday; the loop returns an invalid
    [Date] and the calculator shows [NaN/NaN（undefined）]. *)
Lemma holiday_aware_mode_past_the_range :
  inRange 0 (JSDate.make 275760 8 12)
  /\ nthDayAfter isNonHoliday (JSDate.make 275760 8 12) 5
       (JSDate.make 275760 8 17)
  /\ dayText (JSDate.make 275760 8 17) = "9/17（水）"%string
  /\ holidayAwareLoop 0 5 (DateObject.fromFields 0 275760 8 12) 0 5
     = Some DateObject.InvalidDate
  /\ (forall fuel, (7 <= fuel)%nat ->
        exists b c,
          calculateDelivery 0 fuel (Some (275760, 9, 12)) (Some 5)
          = Some (shown b "NaN/NaN（undefined）" c)).
Proof.
  split; [exact ExampleFacts.last_order_day|].
  split; [exact ExampleFacts.last_unlisted_day|].
  split; [vm_compute; reflexivity|].
  split; [vm_compute; reflexivity|].
  intros fuel Hf. rewrite (ExampleFacts.last_order fuel Hf).
  eexists _, _. reflexivity.
Qed.




(** C7. Termination of the day-stepping loops.  An iteration moves a valid
    candidate one day on (or makes it invalid, when that day is outside the
    range of [Date]), leaves an invalid candidate invalid, and never lowers
    the counter.  For every order date and every lead time from 1 to 2^53
    both loops terminate, after exactly [leadTime] plus the number of skipped
    candidates iterations; there are at most [6 * leadTime + 490] skipped
    candidates in the business loop and at most 70 in the holiday-aware one,
    and [calculateDelivery] shows its results.  The counters being doubles,
    [++] leaves 2^53 unchanged: for a lead time above 2^53 neither loop ever
    exits. *)
Theorem day_stepping_terminates (LocalTZA year month day leadTime : Z) :
  1 <= leadTime ->
  (leadTime <= 9007199254740992 ->
   (exists n : nat,
      (1 <= n)%nat /\ (n <= 7 * Z.to_nat (leadTime + 70))%nat
      /\ Z.of_nat n
         = leadTime
           + skipped (candidate (businessCounts LocalTZA)
                        (DateObject.fromFields LocalTZA year (month - 1) day))
               0 n
      /\ (forall fuel, (n <= fuel)%nat ->
            businessLoop LocalTZA fuel
              (DateObject.fromFields LocalTZA year (month - 1) day) 0 leadTime
            = Some (afterDays
                      (DateObject.fromFields LocalTZA year (month - 1) day)
                      (Z.of_nat n)))
      /\ (forall fuel, (fuel < n)%nat ->
            businessLoop LocalTZA fuel
              (DateObject.fromFields LocalTZA year (month - 1) day) 0 leadTime
            = None))
   /\ (exists n : nat,
         (1 <= n)%nat /\ (n <= Z.to_nat (leadTime + 70))%nat
         /\ Z.of_nat n
            = leadTime
              + skipped (candidate (holidayAwareCounts LocalTZA)
                           (DateObject.fromFields LocalTZA year (month - 1) day))
                  0 n
         /\ (forall fuel, (n <= fuel)%nat ->
               holidayAwareLoop LocalTZA fuel
                 (DateObject.fromFields LocalTZA year (month - 1) day) 0
                 leadTime
               = Some (afterDays
                         (DateObject.fromFields LocalTZA year (month - 1) day)
                         (Z.of_nat n)))
         /\ (forall fuel, (fuel < n)%nat ->
               holidayAwareLoop LocalTZA fuel
                 (DateObject.fromFields LocalTZA year (month - 1) day) 0
                 leadTime
               = None))
   /\ (forall fuel, (7 * Z.to_nat (leadTime + 70) <= fuel)%nat ->
         exists b h c,
           calculateDelivery LocalTZA fuel (Some (year, month, day))
             (Some leadTime)
           = Some (shown b h c)))
  /\ (9007199254740992 < leadTime ->
      forall fuel,
        businessLoop LocalTZA fuel
          (DateObject.fromFields LocalTZA year (month - 1) day) 0 leadTime
        = None
        /\ holidayAwareLoop LocalTZA fuel
             (DateObject.fromFields LocalTZA year (month - 1) day) 0 leadTime
           = None
        /\ calculateDelivery LocalTZA fuel (Some (year, month, day))
             (Some leadTime)
           = None)
  /\ (forall date,
        DateObject.setDate LocalTZA date
          (plus (DateObject.getDate LocalTZA date) 1)
        = afterDays date 1)
  /\ (forall t,
        Z.abs (t + DateObject.msPerDay) <= 8640000000000000 ->
        afterDays (DateObject.TimeValue t) 1
        = DateObject.TimeValue (t + DateObject.msPerDay))
  /\ (forall t,
        8640000000000000 < Z.abs (t + DateObject.msPerDay) ->
        afterDays (DateObject.TimeValue t) 1 = DateObject.InvalidDate)
  /\ afterDays DateObject.InvalidDate 1 = DateObject.InvalidDate
  /\ (forall n, n <= increment n <= n + 1)
  /\ (forall n, n < 9007199254740992 -> increment n = n + 1)
  /\ increment 9007199254740992 = 9007199254740992.
Proof.
  intros L.
  pose proof (CalculatorFacts.fromFields_clipped LocalTZA year (month - 1) day)
    as C.
  set (start := DateObject.fromFields LocalTZA year (month - 1) day) in *.
  split; [|split].
  - intros L2. split; [|split].
    + destruct (CalculatorFacts.businessLoop_terminates LocalTZA start
                  leadTime C ltac:(lia)) as (n & A & B & S & N & E).
      exists n. repeat split; assumption.
    + destruct (CalculatorFacts.holidayAwareLoop_terminates LocalTZA start
                  leadTime C ltac:(lia)) as (n & A & B & S & N & E).
      exists n. repeat split; assumption.
    + intros fuel Hf.
      destruct (CalculatorFacts.calculateDelivery_total LocalTZA year month
                  day leadTime fuel ltac:(lia) Hf) as (b & h & E).
      eexists b, h, _. exact E.
  - intros L2 fuel.
    assert (B : businessLoop LocalTZA fuel start 0 leadTime = None).
    { rewrite DateFacts.businessLoop_dateLoop.
      apply DateFacts.dateLoop_stalls; lia. }
    split; [exact B|]. split.
    + rewrite DateFacts.holidayAwareLoop_dateLoop.
      apply DateFacts.dateLoop_stalls; lia.
    + unfold calculateDelivery, deliveryDates.
      rewrite CalculatorFacts.leadTime_accepted by lia. cbv zeta.
      fold start. now rewrite B.
  - split; [intros date; apply DateFacts.setDate_plus|].
    split; [|split; [|split; [reflexivity|]]].
    + intros t H. cbn [afterDays]. rewrite Z.mul_1_l.
      unfold DateObject.TimeClip.
      destruct (Z.leb_spec (Z.abs (t + DateObject.msPerDay))
                  8640000000000000); [reflexivity | lia].
    + intros t H. cbn [afterDays]. rewrite Z.mul_1_l.
      unfold DateObject.TimeClip.
      destruct (Z.leb_spec (Z.abs (t + DateObject.msPerDay))
                  8640000000000000); [lia | reflexivity].
    + split; [apply DateFacts.increment_range|].
      split; [apply DateFacts.increment_exact | reflexivity].
Qed.

Lemma day_stepping_terminates_witness :
  1 <= 10000
  /\ forall fuel, (7 * Z.to_nat (10000 + 70) <= fuel)%nat ->
       exists b h c,
         calculateDelivery 32400000 fuel (Some (2025, 1, 1)) (Some 10000)
         = Some (shown b h c).
Proof.
  assert (L : 1 <= 10000) by lia.
  split; [exact L|].
  exact (proj2 (proj2 (proj1 (day_stepping_terminates 32400000 2025 1 1 10000
                                L)
                         ltac:(lia)))).
Defined.

(** The claim C7 as written fails above 2^53.  At UTC, for the order date
    2025-01-01 and the lead time 9007199254740994, which [parseInt] returns
    for that text, neither loop returns, whatever the number of iterations
    allowed, and so neither does [calculateDelivery]; the counter stays at
    2^53. *)
Lemma day_stepping_stalls :
  1 <= 9007199254740994
  /\ (forall fuel,
        businessLoop 0 fuel (DateObject.fromFields 0 2025 0 1) 0
          9007199254740994
        = None)
  /\ (forall fuel,
        holidayAwareLoop 0 fuel (DateObject.fromFields 0 2025 0 1) 0
          9007199254740994
        = None)
  /\ (forall fuel,
        calculateDelivery 0 fuel (Some (2025, 1, 1)) (Some 9007199254740994)
        = None)
  /\ increment 9007199254740992 = 9007199254740992.
Proof.
  split; [lia|].
  assert (B : forall fuel,
            businessLoop 0 fuel (DateObject.fromFields 0 2025 0 1) 0
              9007199254740994 = None).
  { intros fuel. rewrite DateFacts.businessLoop_dateLoop.
    apply DateFacts.dateLoop_stalls; lia. }
  split; [exact B|]. split; [|split; [|reflexivity]].
  - intros fuel. rewrite DateFacts.holidayAwareLoop_dateLoop.
    apply DateFacts.dateLoop_stalls; lia.
  - intros fuel. unfold calculateDelivery, deliveryDates.
    rewrite CalculatorFacts.leadTime_accepted by lia. cbv zeta.
    change (1 - 1) with 0. now rewrite B.
Qed.

(** C8. A lookup that misses is not an error.  For every year, month and day
    whose key is not a key of the table, [isHoliday] returns [undefined],
    which is falsy.  A candidate with those fields is read as no holiday: the
    holiday-aware loop counts it, the business loop counts it unless it is a
    Saturday or a Sunday, and a loop one short of its lead time returns that
    candidate.  The key of an invalid candidate misses too.  Over a stretch
    of days none of which has a key in the table, the holiday-aware result is
    the order date plus the lead time. *)
Theorem holiday_lookup_miss (LocalTZA year month day : Z) :
  ~ In (dateStr year month day) (map fst holidays) ->
  isHoliday year month day = Undefined
  /\ truthy (isHoliday year month day) = false
  /\ (forall date,
        DateObject.getFullYear LocalTZA date = Some year ->
        DateObject.getMonth LocalTZA date = Some month ->
        DateObject.getDate LocalTZA date = Some day ->
        isHolidayOn LocalTZA date = Undefined
        /\ holidayAwareCounts LocalTZA date = true
        /\ businessCounts LocalTZA date
           = differs (DateObject.getDay LocalTZA date) 0
             && differs (DateObject.getDay LocalTZA date) 6)
  /\ (forall prev n fuel,
        DateObject.getFullYear LocalTZA (afterDays prev 1) = Some year ->
        DateObject.getMonth LocalTZA (afterDays prev 1) = Some month ->
        DateObject.getDate LocalTZA (afterDays prev 1) = Some day ->
        0 <= n < 9007199254740992 ->
        holidayAwareLoop LocalTZA (S fuel) prev n (n + 1)
        = Some (afterDays prev 1)
        /\ (differs (DateObject.getDay LocalTZA (afterDays prev 1)) 0
            && differs (DateObject.getDay LocalTZA (afterDays prev 1)) 6
            = true ->
            businessLoop LocalTZA (S fuel) prev n (n + 1)
            = Some (afterDays prev 1)))
  /\ isHolidayOn LocalTZA DateObject.InvalidDate = Undefined
  /\ (forall orderDay leadTime,
        1 <= leadTime ->
        inRange LocalTZA orderDay -> inRange LocalTZA (orderDay + leadTime) ->
        (forall i, 1 <= i <= leadTime ->
           ~ In (dateStr (getFullYear (orderDay + i)) (getMonth (orderDay + i))
                   (getDate (orderDay + i)))
               (map fst holidays)) ->
        forall fuel, (Z.to_nat leadTime <= fuel)%nat ->
          holidayAwareLoop LocalTZA fuel (atMidnight LocalTZA orderDay) 0
            leadTime
          = Some (atMidnight LocalTZA (orderDay + leadTime))).
Proof.
  intros Miss.
  assert (U : forall y m d, ~ In (dateStr y m d) (map fst holidays) ->
            isHoliday y m d = Undefined).
  { intros y m d M. rewrite HolidayFacts.isHoliday_own.
    now rewrite (HolidayFacts.ownProperty_None holidays _ M). }
  assert (D : forall date,
            DateObject.getFullYear LocalTZA date = Some year ->
            DateObject.getMonth LocalTZA date = Some month ->
            DateObject.getDate LocalTZA date = Some day ->
            isHolidayOn LocalTZA date = Undefined).
  { intros date Y M Dt. unfold isHolidayOn. rewrite Y, M, Dt. now apply U. }
  split; [now apply U|]. split; [now rewrite U|].
  split; [|split; [|split]].
  - intros date Y M Dt. split; [now apply D|].
    unfold holidayAwareCounts, businessCounts. rewrite (D date Y M Dt).
    cbn [truthy negb]. split; [reflexivity | apply andb_true_r].
  - intros prev n fuel Y M Dt Hn. split.
    + rewrite CalculatorFacts.holidayAwareLoop_step by lia.
      unfold holidayAwareCounts. rewrite (D _ Y M Dt). cbn [truthy negb].
      rewrite DateFacts.increment_exact by lia.
      apply CalculatorFacts.holidayAwareLoop_exit. lia.
    + intros W. rewrite CalculatorFacts.businessLoop_step by lia.
      unfold businessCounts. rewrite (D _ Y M Dt), W. cbn [truthy negb andb].
      rewrite DateFacts.increment_exact by lia.
      apply CalculatorFacts.businessLoop_exit. lia.
  - apply CalendarDayFacts.isHolidayOn_invalid.
  - intros orderDay leadTime L R0 R Free fuel Hf.
    assert (N : nthDayAfter isNonHoliday orderDay leadTime
                  (orderDay + leadTime)).
    { apply CalculatorFacts.nthDayAfter_window; [exact L|].
      intros i Hi. unfold isNonHoliday, holidayAt.
      now rewrite (U _ _ _ (Free i Hi)). }
    destruct (CalculatorFacts.holidayAwareLoop_result LocalTZA orderDay
                leadTime R0 L) as (n & _ & _ & N' & _ & In & _).
    pose proof (DeliveryFacts.nthDayAfter_unique _ _ _ _ _ N N') as E.
    rewrite <- E in In. destruct (In R) as (_ & S & _). apply S. lia.
Qed.

Lemma holiday_lookup_miss_witness :
  ~ In (dateStr 2025 0 2) (map fst holidays)
  /\ isHoliday 2025 0 2 = Undefined
  /\ holidayAwareLoop 32400000 1 (atMidnight 32400000 (JSDate.make 2025 0 1))
       0 (0 + 1)
     = Some (afterDays (atMidnight 32400000 (JSDate.make 2025 0 1)) 1)
  /\ businessLoop 32400000 1 (atMidnight 32400000 (JSDate.make 2025 0 1))
       0 (0 + 1)
     = Some (afterDays (atMidnight 32400000 (JSDate.make 2025 0 1)) 1).
Proof.
  assert (M : ~ In (dateStr 2025 0 2) (map fst holidays)).
  { intros I. apply (in_map (String.eqb (dateStr 2025 0 2))) in I.
    vm_compute in I. repeat (destruct I as [I|I]; [discriminate I|]).
    exact I. }
  split; [exact M|].
  pose proof (holiday_lookup_miss 32400000 2025 0 2 M) as T.
  split; [exact (proj1 T)|].
  destruct (proj1 (proj2 (proj2 (proj2 T)))
              (atMidnight 32400000 (JSDate.make 2025 0 1)) 0 0%nat)
    as [H B]; [vm_compute; reflexivity.. | lia |].
  split; [exact H|]. apply B. vm_compute. reflexivity.
Defined.

(** C9. The month convention of the lookup is consistent.  [isHoliday] takes
    a month counted from zero and builds its key with [month + 1]; the keys of
    the table count months from one.  So for every year, every month [m] in
    0..11 and every day in 1..31, [isHoliday year m day] is the name the table
    gives to that calendar date, or [undefined] when it gives none, and the
    same holds of the earlier [isHoliday] over its own table.  Both loops
    pass [getFullYear], [getMonth] and [getDate] of the candidate, so what
    they look up is the entry of the candidate's own calendar date: the
    business loop counts the weekdays the table has no entry for, the
    holiday-aware loop the days it has no entry for, and their results are
    the [leadTime]-th such days after the order date. *)
Theorem isHoliday_month_convention (LocalTZA year m day : Z) :
  0 <= m <= 11 -> 1 <= day <= 31 ->
  isHoliday year m day = ofName (holidayOfDate holidays year (m + 1) day)
  /\ Legacy.isHoliday year m day
     = ofName (holidayOfDate Legacy.holidays year (m + 1) day)
  /\ (forall t,
        (0 <= getMonth (localDay LocalTZA t) <= 11
         /\ 1 <= getDate (localDay LocalTZA t) <= 31)
        /\ DateObject.getFullYear LocalTZA (DateObject.TimeValue t)
           = Some (getFullYear (localDay LocalTZA t))
        /\ DateObject.getMonth LocalTZA (DateObject.TimeValue t)
           = Some (getMonth (localDay LocalTZA t))
        /\ DateObject.getDate LocalTZA (DateObject.TimeValue t)
           = Some (getDate (localDay LocalTZA t))
        /\ isHolidayOn LocalTZA (DateObject.TimeValue t)
           = ofName (holidayOfDate holidays
                       (getFullYear (localDay LocalTZA t))
                       (getMonth (localDay LocalTZA t) + 1)
                       (getDate (localDay LocalTZA t)))
        /\ Legacy.isHolidayOn LocalTZA (DateObject.TimeValue t)
           = ofName (holidayOfDate Legacy.holidays
                       (getFullYear (localDay LocalTZA t))
                       (getMonth (localDay LocalTZA t) + 1)
                       (getDate (localDay LocalTZA t)))
        /\ businessCounts LocalTZA (DateObject.TimeValue t)
           = isWeekday (localDay LocalTZA t)
             && unlisted holidays (localDay LocalTZA t)
        /\ holidayAwareCounts LocalTZA (DateObject.TimeValue t)
           = unlisted holidays (localDay LocalTZA t))
  /\ (forall orderDay leadTime,
        1 <= leadTime -> inRange LocalTZA orderDay ->
        exists rb rh,
          nthDayAfter (fun x => isWeekday x && unlisted holidays x) orderDay
            leadTime rb
          /\ nthDayAfter (unlisted holidays) orderDay leadTime rh
          /\ (inRange LocalTZA rb ->
              forall fuel, (Z.to_nat (rb - orderDay) <= fuel)%nat ->
                businessLoop LocalTZA fuel (atMidnight LocalTZA orderDay) 0
                  leadTime
                = Some (atMidnight LocalTZA rb)
                /\ holidayAwareLoop LocalTZA fuel
                     (atMidnight LocalTZA orderDay) 0 leadTime
                   = Some (atMidnight LocalTZA rh)))
  /\ isHoliday 2025 0 13 = Str "成人の日"
  /\ isHoliday 2025 1 13 = Undefined
  /\ isHoliday 2025 1 11 = Str "建国記念の日"
  /\ Legacy.isHoliday 2025 0 13 = Str "成人の日"
  /\ Legacy.isHoliday 2025 1 13 = Undefined.
Proof.
  intros Hm Hd. split; [now apply HolidayFacts.isHoliday_calendar|].
  split.
  { unfold Legacy.isHoliday. rewrite HolidayFacts.getProperty_dateStr.
    now rewrite (HolidayFacts.ownProperty_canonical Legacy.holidays _ _ _
                   LegacyFacts.legacy_holidays_canonical Hm Hd). }
  split; [|split; [|repeat split; vm_compute; reflexivity]].
  - intros t.
    split; [split; [apply JSDateFacts.MonthFromTime_range
                   | apply JSDateFacts.DateFromTime_range]|].
    split; [reflexivity|]. split; [reflexivity|]. split; [reflexivity|].
    split; [rewrite CalendarDayFacts.isHolidayOn_valid;
            apply WindowFacts.holidayAt_calendar|].
    split; [rewrite CalendarDayFacts.legacy_isHolidayOn_valid;
            apply LegacyFacts.legacy_holidayAt_calendar|].
    split.
    + rewrite CalendarDayFacts.businessCounts_valid.
      apply CalculatorFacts.isBusinessDay_unlisted.
    + rewrite CalendarDayFacts.holidayAwareCounts_valid.
      apply CalculatorFacts.isNonHoliday_unlisted.
  - intros orderDay leadTime L R0.
    destruct (CalculatorFacts.businessLoop_result LocalTZA orderDay leadTime
                R0 L) as (n & _ & _ & Nb & _ & In & _).
    destruct (CalculatorFacts.holidayAwareLoop_result LocalTZA orderDay
                leadTime R0 L) as (n' & _ & _ & Nh & _ & In' & _).
    pose proof (CalculatorFacts.results_ordered _ _ _ _ Nb Nh) as O.
    exists (orderDay + Z.of_nat n), (orderDay + Z.of_nat n').
    split; [apply (CalculatorFacts.nthDayAfter_ext isBusinessDay);
            [apply CalculatorFacts.isBusinessDay_unlisted | exact Nb]|].
    split; [apply (CalculatorFacts.nthDayAfter_ext isNonHoliday);
            [apply CalculatorFacts.isNonHoliday_unlisted | exact Nh]|].
    intros R fuel Hf. destruct (In R) as (_ & S & _).
    assert (R' : inRange LocalTZA (orderDay + Z.of_nat n')).
    { apply (CalculatorFacts.range_between LocalTZA orderDay _
               (orderDay + Z.of_nat n) R0 R). lia. }
    destruct (In' R') as (_ & S' & _).
    split; [apply S; lia | apply S'; lia].
Qed.

Lemma isHoliday_month_convention_witness :
  (0 <= 0 <= 11 /\ 1 <= 13 <= 31)
  /\ isHoliday 2025 0 13 = ofName (holidayOfDate holidays 2025 (0 + 1) 13)
  /\ Legacy.isHoliday 2025 0 13
     = ofName (holidayOfDate Legacy.holidays 2025 (0 + 1) 13).
Proof.
  assert (H : 0 <= 0 <= 11 /\ 1 <= 13 <= 31) by lia.
  split; [exact H|]. destruct H as [Hm Hd].
  pose proof (isHoliday_month_convention 32400000 2025 0 13 Hm Hd) as T.
  split; [exact (proj1 T) | exact (proj1 (proj2 T))].
Defined.

(** ** The hourglass sand model *)

Module SandFacts.
Import SandPhysicsEngine.
Local Open Scope R_scope.

Lemma lowerVolume_clamp progress :
  lowerVolume (calculateSandHeights progress) = clamp01 progress.
Proof.
  cbn [calculateSandHeights lowerVolume]. unfold clamp01, Rmax, Rmin.
  destruct (Rlt_dec progress 0), (Rlt_dec 1 progress), (Rle_dec 1 progress);
    try lra; destruct (Rle_dec 0 _); lra.
Qed.

Lemma clamp01_range progress : 0 <= clamp01 progress <= 1.
Proof.
  unfold clamp01.
  destruct (Rlt_dec progress 0), (Rlt_dec 1 progress); lra.
Qed.

Lemma volumeToHeight_cases volume type :
  volumeToHeight volume type
  = if Rle_dec volume 0 then 0
    else if Rge_dec volume 1 then 1
    else Rpower volume VOLUME_CURVE_EXPONENT.
Proof.
  unfold volumeToHeight.
  destruct (Rle_dec volume 0), (Rge_dec volume 1),
    (String.eqb type "lower"); reflexivity.
Qed.

Lemma volumeToHeight_power volume type :
  0 < volume < 1 ->
  volumeToHeight volume type = Rpower volume (7 / 10).
Proof.
  intros H. rewrite volumeToHeight_cases.
  destruct (Rle_dec volume 0), (Rge_dec volume 1); try lra. reflexivity.
Qed.

Lemma ln_neg x : 0 < x < 1 -> ln x < 0.
Proof. intros H. rewrite <- ln_1. apply ln_increasing; lra. Qed.

(** Below one, raising to the power 0.7 increases a volume. *)
Lemma power_above x : 0 < x < 1 -> x < Rpower x (7 / 10) < 1.
Proof.
  intros H. pose proof (ln_neg x H) as L. unfold Rpower. split.
  - rewrite <- (exp_ln x) at 1 by lra. apply exp_increasing. lra.
  - rewrite <- exp_0. apply exp_increasing. lra.
Qed.

Lemma volumeToHeight_range volume type :
  0 <= volumeToHeight volume type <= 1.
Proof.
  rewrite volumeToHeight_cases.
  destruct (Rle_dec volume 0), (Rge_dec volume 1); try lra.
  pose proof (power_above volume ltac:(lra)).
  unfold VOLUME_CURVE_EXPONENT. lra.
Qed.

Lemma volumeToHeight_mono v w type type' :
  v <= w -> volumeToHeight v type <= volumeToHeight w type'.
Proof.
  intros H. rewrite !volumeToHeight_cases.
  destruct (Rle_dec v 0), (Rge_dec v 1), (Rle_dec w 0), (Rge_dec w 1);
    try lra.
  - pose proof (power_above w ltac:(lra)). unfold VOLUME_CURVE_EXPONENT. lra.
  - pose proof (power_above v ltac:(lra)). unfold VOLUME_CURVE_EXPONENT. lra.
  - apply Rle_Rpower_l; unfold VOLUME_CURVE_EXPONENT; lra.
Qed.

(** A volume outside the open interval keeps its value as a height. *)
Lemma volumeToHeight_ends volume type :
  volume = 0 \/ volume = 1 -> volumeToHeight volume type = volume.
Proof.
  intros H. rewrite volumeToHeight_cases.
  destruct (Rle_dec volume 0), (Rge_dec volume 1); lra.
Qed.

End SandFacts.

(** C4. Conservation of volume.  For every real progress, the lower volume is
    the progress clamped to [0,1], the upper volume is one minus the lower
    volume, the two add up to exactly one, and the conservation warning is
    never raised. *)
Theorem volumes_sum_to_one (progress : R) :
  let r := SandPhysicsEngine.calculateSandHeights progress in
  (SandPhysicsEngine.lowerVolume r = clamp01 progress
   /\ SandPhysicsEngine.upperVolume r = 1 - SandPhysicsEngine.lowerVolume r
   /\ SandPhysicsEngine.upperVolume r + SandPhysicsEngine.lowerVolume r = 1
   /\ 0 <= SandPhysicsEngine.lowerVolume r <= 1
   /\ ~ SandPhysicsEngine.conservationWarning progress)%R.
Proof.
  intros r. pose proof (SandFacts.lowerVolume_clamp progress) as L.
  pose proof (SandFacts.clamp01_range progress) as C. fold r in L.
  assert (U : (SandPhysicsEngine.upperVolume r
               = 1 - SandPhysicsEngine.lowerVolume r)%R) by reflexivity.
  repeat split; try lra.
  unfold SandPhysicsEngine.conservationWarning. fold r. cbv zeta.
  replace (SandPhysicsEngine.upperVolume r + SandPhysicsEngine.lowerVolume r - 1)%R
    with 0%R by lra.
  rewrite Rabs_R0. unfold SandPhysicsEngine.EPSILON.
  assert (0 < / 10 ^ 10)%R by (apply Rinv_0_lt_compat, pow_lt; lra). lra.
Qed.

(** C6. Reference points.  At progress 0 the upper height is 1 and the lower
    height is 0; at progress 1 the upper height is 0 and the lower height is
    1; at progress 0.5 both heights are 0.5 raised to the power 0.7. *)
Theorem heights_at_reference_points :
  (SandPhysicsEngine.upperHeight (SandPhysicsEngine.calculateSandHeights 0) = 1
   /\ SandPhysicsEngine.lowerHeight (SandPhysicsEngine.calculateSandHeights 0) = 0
   /\ SandPhysicsEngine.upperHeight (SandPhysicsEngine.calculateSandHeights 1) = 0
   /\ SandPhysicsEngine.lowerHeight (SandPhysicsEngine.calculateSandHeights 1) = 1
   /\ SandPhysicsEngine.upperHeight (SandPhysicsEngine.calculateSandHeights (1 / 2))
      = Rpower (1 / 2) (7 / 10)
   /\ SandPhysicsEngine.lowerHeight (SandPhysicsEngine.calculateSandHeights (1 / 2))
      = Rpower (1 / 2) (7 / 10))%R.
Proof.
  assert (V : forall p : R,
            SandPhysicsEngine.lowerVolume (SandPhysicsEngine.calculateSandHeights p)
            = clamp01 p) by apply SandFacts.lowerVolume_clamp.
  cbn [SandPhysicsEngine.calculateSandHeights SandPhysicsEngine.lowerVolume
       SandPhysicsEngine.upperHeight SandPhysicsEngine.lowerHeight] in *.
  rewrite !V. unfold clamp01.
  destruct (Rlt_dec 0 0), (Rlt_dec 1 0), (Rlt_dec 1 1), (Rlt_dec (1 / 2) 0),
    (Rlt_dec 1 (1 / 2)); try lra.
  replace (1 - 0)%R with 1%R by lra. replace (1 - 1)%R with 0%R by lra.
  replace (1 - 1 / 2)%R with (1 / 2)%R by lra.
  rewrite !SandFacts.volumeToHeight_ends by lra.
  rewrite !SandFacts.volumeToHeight_power by lra.
  repeat split; reflexivity.
Qed.

(** C5. Monotonicity.  For progress values [p1 < p2] in [0,1] the lower
    height does not decrease and the upper height does not increase; a
    height is its volume raised to the power 0.7. *)
Theorem heights_monotone (p1 p2 : R) :
  (0 <= p1 -> p1 < p2 -> p2 <= 1 ->
   let r1 := SandPhysicsEngine.calculateSandHeights p1 in
   let r2 := SandPhysicsEngine.calculateSandHeights p2 in
   SandPhysicsEngine.lowerHeight r1 <= SandPhysicsEngine.lowerHeight r2
   /\ SandPhysicsEngine.upperHeight r1 >= SandPhysicsEngine.upperHeight r2
   /\ (0 < p1 ->
       SandPhysicsEngine.lowerHeight r1 = Rpower p1 (7 / 10)
       /\ SandPhysicsEngine.upperHeight r1 = Rpower (1 - p1) (7 / 10))
   /\ (p2 < 1 ->
       SandPhysicsEngine.lowerHeight r2 = Rpower p2 (7 / 10)
       /\ SandPhysicsEngine.upperHeight r2 = Rpower (1 - p2) (7 / 10)))%R.
Proof.
  intros H0 H H1 r1 r2.
  pose proof (SandFacts.lowerVolume_clamp p1) as L1.
  pose proof (SandFacts.lowerVolume_clamp p2) as L2.
  assert (C1 : clamp01 p1 = p1).
  { unfold clamp01. destruct (Rlt_dec p1 0), (Rlt_dec 1 p1); lra. }
  assert (C2 : clamp01 p2 = p2).
  { unfold clamp01. destruct (Rlt_dec p2 0), (Rlt_dec 1 p2); lra. }
  subst r1 r2.
  cbn [SandPhysicsEngine.calculateSandHeights SandPhysicsEngine.lowerVolume
       SandPhysicsEngine.upperHeight SandPhysicsEngine.lowerHeight] in *.
  rewrite L1, L2, C1, C2. split; [|split; [|split]].
  - apply SandFacts.volumeToHeight_mono. lra.
  - apply Rle_ge, SandFacts.volumeToHeight_mono. lra.
  - intros P. split; apply SandFacts.volumeToHeight_power; lra.
  - intros P. split; apply SandFacts.volumeToHeight_power; lra.
Qed.

Lemma heights_monotone_witness :
  (0 <= 1 / 4 /\ 1 / 4 < 3 / 4 /\ 3 / 4 <= 1)%R
  /\ (SandPhysicsEngine.lowerHeight (SandPhysicsEngine.calculateSandHeights (1 / 4))
      <= SandPhysicsEngine.lowerHeight (SandPhysicsEngine.calculateSandHeights (3 / 4)))%R.
Proof.
  split; [lra|].
  apply (heights_monotone (1 / 4) (3 / 4)); lra.
Defined.

(** C10. Heights are not conserved.  For every progress strictly between 0
    and 1 the two heights are [progress ^ 0.7] and [(1 - progress) ^ 0.7] and
    their sum is strictly greater than 1; on [0,1] the sum is 1 only at
    progress 0 and progress 1 (an input outside [0,1] is clamped to one of
    them); and for every real progress both heights lie in [0,1]. *)
Theorem heights_sum_exceeds_one (progress : R) :
  let r := SandPhysicsEngine.calculateSandHeights progress in
  ((0 < progress < 1 ->
    SandPhysicsEngine.upperHeight r + SandPhysicsEngine.lowerHeight r
    = Rpower progress (7 / 10) + Rpower (1 - progress) (7 / 10)
    /\ SandPhysicsEngine.upperHeight r + SandPhysicsEngine.lowerHeight r > 1)
   /\ (0 <= progress <= 1 ->
       (SandPhysicsEngine.upperHeight r + SandPhysicsEngine.lowerHeight r = 1
        <-> progress = 0 \/ progress = 1))
   /\ (progress <= 0 \/ 1 <= progress ->
       SandPhysicsEngine.upperHeight r + SandPhysicsEngine.lowerHeight r = 1)
   /\ 0 <= SandPhysicsEngine.upperHeight r <= 1
   /\ 0 <= SandPhysicsEngine.lowerHeight r <= 1)%R.
Proof.
  intros r. pose proof (SandFacts.lowerVolume_clamp progress) as L.
  subst r.
  cbn [SandPhysicsEngine.calculateSandHeights SandPhysicsEngine.lowerVolume
       SandPhysicsEngine.upperHeight SandPhysicsEngine.lowerHeight] in *.
  rewrite L.
  assert (In01 : (0 < progress < 1)%R ->
     (SandPhysicsEngine.volumeToHeight (1 - progress) "upper"
      = Rpower (1 - progress) (7 / 10)
      /\ SandPhysicsEngine.volumeToHeight progress "lower"
         = Rpower progress (7 / 10)
      /\ progress < Rpower progress (7 / 10)
      /\ 1 - progress < Rpower (1 - progress) (7 / 10))%R).
  { intros P. repeat split;
      try (apply SandFacts.volumeToHeight_power; lra);
      apply SandFacts.power_above; lra. }
  split; [|split; [|split; [|split; apply SandFacts.volumeToHeight_range]]].
  - intros P. destruct (In01 P) as (U & Lo & A & B).
    replace (clamp01 progress) with progress
      by (unfold clamp01; destruct (Rlt_dec progress 0), (Rlt_dec 1 progress); lra).
    rewrite U, Lo. split; lra.
  - intros P.
    replace (clamp01 progress) with progress
      by (unfold clamp01; destruct (Rlt_dec progress 0), (Rlt_dec 1 progress); lra).
    split.
    + intros S.
      destruct (Req_dec progress 0) as [|N0]; [now left|].
      destruct (Req_dec progress 1) as [|N1]; [now right|].
      exfalso. destruct (In01 ltac:(lra)) as (U & Lo & A & B).
      rewrite U, Lo in S. lra.
    + intros [-> | ->].
      * replace (1 - 0)%R with 1%R by lra.
        rewrite !SandFacts.volumeToHeight_ends by lra. lra.
      * replace (1 - 1)%R with 0%R by lra.
        rewrite !SandFacts.volumeToHeight_ends by lra. lra.
  - intros P. pose proof (SandFacts.clamp01_range progress) as R.
    assert (C : clamp01 progress = 0%R \/ clamp01 progress = 1%R).
    { unfold clamp01.
      destruct (Rlt_dec progress 0), (Rlt_dec 1 progress); lra. }
    destruct C as [C|C]; rewrite C.
    + replace (1 - 0)%R with 1%R by lra.
      rewrite !SandFacts.volumeToHeight_ends by lra. lra.
    + replace (1 - 1)%R with 0%R by lra.
      rewrite !SandFacts.volumeToHeight_ends by lra. lra.
Qed.

Lemma heights_sum_exceeds_one_witness :
  (0 < 1 / 2 < 1)%R
  /\ (SandPhysicsEngine.upperHeight (SandPhysicsEngine.calculateSandHeights (1 / 2))
      + SandPhysicsEngine.lowerHeight (SandPhysicsEngine.calculateSandHeights (1 / 2))
      > 1)%R.
Proof.
  split; [lra|].
  apply (heights_sum_exceeds_one (1 / 2)). lra.
Defined.


(** ** HTML escaping *)

Module EscapeFacts.

Local Open Scope string_scope.

Lemma append_assoc (a b c : string) : (a ++ b) ++ c = a ++ (b ++ c).
Proof. induction a as [|x a IH]; cbn; [reflexivity | now rewrite IH]. Qed.

Lemma append_nil_r (a : string) : a ++ EmptyString = a.
Proof. induction a as [|x a IH]; cbn; [reflexivity | now rewrite IH]. Qed.

Lemma replaceAll_app c rep a b :
  replaceAll c rep (a ++ b) = replaceAll c rep a ++ replaceAll c rep b.
Proof.
  induction a as [|x a IH]; [reflexivity|]. cbn [String.append replaceAll].
  destruct (Ascii.eqb x c); rewrite IH; [|reflexivity].
  now rewrite append_assoc.
Qed.

Lemma escapeHtml_app a b : escapeHtml (a ++ b) = escapeHtml a ++ escapeHtml b.
Proof. unfold escapeHtml. now rewrite !replaceAll_app. Qed.

Lemma escapeHtml_char c : escapeHtml (String c EmptyString) = entity c.
Proof.
  unfold entity.
  destruct (Ascii.eqb_spec c "&") as [->|N1]; [reflexivity|].
  destruct (Ascii.eqb_spec c "<") as [->|N2]; [reflexivity|].
  destruct (Ascii.eqb_spec c ">") as [->|N3]; [reflexivity|].
  destruct (Ascii.eqb_spec c dquote) as [->|N4]; [reflexivity|].
  destruct (Ascii.eqb_spec c "'") as [->|N5]; [reflexivity|].
  unfold escapeHtml. cbn [replaceAll].
  rewrite (proj2 (Ascii.eqb_neq _ _) N1). cbn [replaceAll].
  rewrite (proj2 (Ascii.eqb_neq _ _) N2). cbn [replaceAll].
  rewrite (proj2 (Ascii.eqb_neq _ _) N3). cbn [replaceAll].
  rewrite (proj2 (Ascii.eqb_neq _ _) N4). cbn [replaceAll].
  now rewrite (proj2 (Ascii.eqb_neq _ _) N5).
Qed.

Lemma escapeHtml_escapeEach s : escapeHtml s = escapeEach s.
Proof.
  induction s as [|c s IH]; [reflexivity|].
  change (String c s) with (String c EmptyString ++ s).
  rewrite escapeHtml_app, escapeHtml_char, IH. reflexivity.
Qed.

Lemma entity_cases c :
  (isSpecial c = true
   /\ (entity c = "&amp;" \/ entity c = "&lt;" \/ entity c = "&gt;"
       \/ entity c = "&quot;" \/ entity c = "&#39;"))
  \/ (isSpecial c = false /\ entity c = String c EmptyString).
Proof.
  unfold entity, isSpecial.
  destruct (Ascii.eqb c "&"); [left; split; auto|].
  destruct (Ascii.eqb c "<"); [left; split; auto|].
  destruct (Ascii.eqb c ">"); [left; split; auto|].
  destruct (Ascii.eqb c dquote); [left; split; auto 6|].
  destruct (Ascii.eqb c "'"); [left; split; auto 6|].
  right. split; reflexivity.
Qed.

Lemma length_escapeEach s :
  (String.length s <= String.length (escapeEach s))%nat
  /\ (hasSpecial s = true ->
      (String.length s < String.length (escapeEach s))%nat).
Proof.
  induction s as [|c s [IH1 IH2]]; [split; [reflexivity | discriminate]|].
  cbn [escapeEach hasSpecial]. rewrite StringFacts.length_app.
  destruct (entity_cases c) as [[S [E|[E|[E|[E|E]]]]]|[S E]];
    rewrite E, S; cbn [String.length orb]; split; try lia;
    intros H; specialize (IH2 H); lia.
Qed.

Lemma escapeEach_plain s : hasSpecial s = false -> escapeEach s = s.
Proof.
  induction s as [|c s IH]; [reflexivity|]. cbn [hasSpecial escapeEach].
  intros H. apply orb_false_iff in H as [Hc Hs].
  destruct (entity_cases c) as [[S _]|[_ E]]; [congruence|].
  now rewrite E, IH.
Qed.

Lemma hasMarkup_app a b : hasMarkup (a ++ b) = hasMarkup a || hasMarkup b.
Proof.
  induction a as [|c a IH]; [reflexivity|]. cbn [String.append hasMarkup].
  rewrite IH. now rewrite !orb_assoc.
Qed.

Lemma hasMarkup_entity c : hasMarkup (entity c) = false.
Proof.
  destruct (entity_cases c) as [[_ [E|[E|[E|[E|E]]]]]|[S E]];
    rewrite E; try reflexivity.
  unfold isSpecial in S. cbn [hasMarkup].
  destruct (Ascii.eqb c "&"), (Ascii.eqb c "<"), (Ascii.eqb c ">"),
    (Ascii.eqb c dquote), (Ascii.eqb c "'"); try discriminate; reflexivity.
Qed.

Lemma ampersandsEscaped_entity c rest :
  ampersandsEscaped (entity c ++ rest) = ampersandsEscaped rest.
Proof.
  destruct (entity_cases c) as [[_ [E|[E|[E|[E|E]]]]]|[S E]];
    rewrite E; try reflexivity.
  unfold isSpecial in S. cbn [String.append ampersandsEscaped].
  destruct (Ascii.eqb c "&"); [discriminate | reflexivity].
Qed.

Lemma decodeEntities_entity fuel c rest :
  decodeEntities (S fuel) (entity c ++ rest)
  = String c (decodeEntities fuel rest).
Proof.
  unfold entity.
  destruct (Ascii.eqb_spec c "&") as [->|N1]; [reflexivity|].
  destruct (Ascii.eqb_spec c "<") as [->|N2]; [reflexivity|].
  destruct (Ascii.eqb_spec c ">") as [->|N3]; [reflexivity|].
  destruct (Ascii.eqb_spec c dquote) as [->|N4]; [reflexivity|].
  destruct (Ascii.eqb_spec c "'") as [->|N5]; [reflexivity|].
  cbn [String.append decodeEntities stripPrefix].
  assert (E : Ascii.eqb "&" c = false)
    by (apply Ascii.eqb_neq; congruence).
  now rewrite E.
Qed.

Lemma decodeEntities_escapeEach s :
  forall fuel, (String.length s <= fuel)%nat ->
  decodeEntities fuel (escapeEach s) = s.
Proof.
  induction s as [|c s IH]; intros fuel Hf.
  - destruct fuel; reflexivity.
  - destruct fuel as [|fuel]; [cbn in Hf; lia|]. cbn [escapeEach].
    rewrite decodeEntities_entity.
    rewrite IH; [reflexivity | cbn in Hf; lia].
Qed.

End EscapeFacts.

(** X1. The five replacements of [escapeHtml], made one after the other, come
    to replacing each character once: an ampersand written by a later pass is
    never escaped again.  So escaping distributes over concatenation, and a
    text is returned unchanged exactly when it holds none of the five
    characters. *)
Theorem escapeHtml_one_pass (a b : string) :
  escapeHtml a = escapeEach a
  /\ escapeHtml (a ++ b) = (escapeHtml a ++ escapeHtml b)%string
  /\ (escapeHtml a = a <-> hasSpecial a = false)
  /\ (String.length a <= String.length (escapeHtml a))%nat.
Proof.
  split; [apply EscapeFacts.escapeHtml_escapeEach|].
  split; [apply EscapeFacts.escapeHtml_app|].
  rewrite EscapeFacts.escapeHtml_escapeEach.
  destruct (EscapeFacts.length_escapeEach a) as [L1 L2].
  split; [|exact L1]. split.
  - intros E. destruct (hasSpecial a); [|reflexivity].
    specialize (L2 eq_refl). rewrite E in L2. lia.
  - apply EscapeFacts.escapeEach_plain.
Qed.

(** X2. The text [escapeHtml] returns holds no [<], [>], double quote or
    single quote, and each of its ampersands starts one of the references
    [&amp;], [&lt;], [&gt;], [&quot;], [&#39;]. *)
Theorem escapeHtml_output_safe (s : string) :
  hasMarkup (escapeHtml s) = false
  /\ ampersandsEscaped (escapeHtml s) = true.
Proof.
  rewrite EscapeFacts.escapeHtml_escapeEach.
  induction s as [|c s [IH1 IH2]]; [split; reflexivity|].
  cbn [escapeEach]. split.
  - now rewrite EscapeFacts.hasMarkup_app, EscapeFacts.hasMarkup_entity, IH1.
  - now rewrite EscapeFacts.ampersandsEscaped_entity.
Qed.

(** X3. Escaping loses nothing: reading the five references back returns the
    original text, so two different texts never escape to the same one. *)
Theorem escapeHtml_round_trip (s t : string) :
  unescapeHtml (escapeHtml s) = s
  /\ (escapeHtml s = escapeHtml t -> s = t).
Proof.
  assert (R : forall u, unescapeHtml (escapeHtml u) = u).
  { intros u. unfold unescapeHtml. rewrite EscapeFacts.escapeHtml_escapeEach.
    apply EscapeFacts.decodeEntities_escapeEach.
    apply EscapeFacts.length_escapeEach. }
  split; [apply R|]. intros E. rewrite <- (R s), <- (R t). now rewrite E.
Qed.

(** ** Date strings *)

Module DateStringFacts.
Import EscapeFacts.

Local Open Scope string_scope.

Lemma spanDigits_app d r :
  allDigits d = true -> digitsEnd r -> spanDigits (d ++ r) = (d, r).
Proof.
  intros Hd Hr. induction d as [|c d IH].
  - destruct r as [|c r]; [reflexivity|]. cbn in *. now rewrite Hr.
  - cbn in Hd. apply andb_true_iff in Hd as [Hc Hd].
    cbn [String.append spanDigits]. now rewrite Hc, (IH Hd).
Qed.

Lemma spanDigits_all d : allDigits d = true -> spanDigits d = (d, "").
Proof.
  intros H. rewrite <- (append_nil_r d) at 1. now apply spanDigits_app.
Qed.

Lemma spanDigits_spec s d r :
  spanDigits s = (d, r) -> s = d ++ r /\ allDigits d = true /\ digitsEnd r.
Proof.
  revert d r. induction s as [|c s IH]; intros d r E.
  - injection E as <- <-. repeat split.
  - cbn [spanDigits] in E. destruct (isDigit c) eqn:Hc.
    + destruct (spanDigits s) as [d' r'] eqn:S. injection E as <- <-.
      destruct (IH _ _ eq_refl) as (-> & Hd & Hr).
      repeat split; [cbn; now rewrite Hc | exact Hr].
    + injection E as <- <-. repeat split. exact Hc.
Qed.

Lemma splitOn_digits sep d rest cur :
  allDigits d = true -> isDigit sep = false ->
  splitOn sep (d ++ rest) cur = splitOn sep rest (cur ++ d).
Proof.
  intros Hd Hs. revert cur. induction d as [|c d IH]; intros cur.
  - now rewrite append_nil_r.
  - cbn in Hd. apply andb_true_iff in Hd as [Hc Hd].
    cbn [String.append splitOn].
    destruct (Ascii.eqb_spec c sep) as [->|_]; [congruence|].
    rewrite (IH Hd), append_assoc. reflexivity.
Qed.

Lemma split_three sep y m d :
  isDigit sep = false ->
  allDigits y = true -> allDigits m = true -> allDigits d = true ->
  split (y ++ String sep (m ++ String sep d)) sep = [y; m; d].
Proof.
  intros Hs Hy Hm Hd. unfold split.
  rewrite splitOn_digits by assumption. cbn [splitOn String.append].
  rewrite Ascii.eqb_refl, splitOn_digits by assumption.
  cbn [splitOn String.append]. rewrite Ascii.eqb_refl.
  rewrite <- (append_nil_r d) at 1. rewrite splitOn_digits by assumption.
  reflexivity.
Qed.

Lemma testDate_fields sep y m d :
  isDigit sep = false -> dateFields y m d ->
  testDate sep (y ++ String sep (m ++ String sep d)) = true.
Proof.
  intros Hs (Hy & Hm & Hd & Ly & Lm & Ld). unfold testDate.
  rewrite spanDigits_app by (cbn; assumption). rewrite Ly. cbn [Nat.eqb andb].
  rewrite Ascii.eqb_refl. cbn [andb].
  rewrite spanDigits_app by (cbn; assumption).
  rewrite Ascii.eqb_refl, spanDigits_all by assumption. cbn [String.eqb].
  replace (1 <=? String.length m)%nat with true
    by (symmetry; apply Nat.leb_le; lia).
  replace (String.length m <=? 2)%nat with true
    by (symmetry; apply Nat.leb_le; lia).
  replace (1 <=? String.length d)%nat with true
    by (symmetry; apply Nat.leb_le; lia).
  replace (String.length d <=? 2)%nat with true
    by (symmetry; apply Nat.leb_le; lia).
  reflexivity.
Qed.

Lemma testDate_inv sep s :
  testDate sep s = true ->
  exists y m d, s = y ++ String sep (m ++ String sep d) /\ dateFields y m d.
Proof.
  unfold testDate. destruct (spanDigits s) as [y r1] eqn:S1.
  apply spanDigits_spec in S1 as (-> & Hy & _).
  intros H. apply andb_true_iff in H as [Ly H]. apply Nat.eqb_eq in Ly.
  destruct r1 as [|c1 r1]; [discriminate|].
  apply andb_true_iff in H as [E1 H]. apply Ascii.eqb_eq in E1. subst c1.
  destruct (spanDigits r1) as [m r2] eqn:S2.
  apply spanDigits_spec in S2 as (-> & Hm & _).
  apply andb_true_iff in H as [H H2]. apply andb_true_iff in H as [Lm1 Lm2].
  apply Nat.leb_le in Lm1, Lm2.
  destruct r2 as [|c2 r2]; [discriminate|].
  apply andb_true_iff in H2 as [E2 H]. apply Ascii.eqb_eq in E2. subst c2.
  destruct (spanDigits r2) as [d r3] eqn:S3.
  apply spanDigits_spec in S3 as (-> & Hd & _).
  apply andb_true_iff in H as [H E3]. apply andb_true_iff in H as [Ld1 Ld2].
  apply Nat.leb_le in Ld1, Ld2. apply String.eqb_eq in E3. subst r3.
  exists y, m, d. rewrite append_nil_r. repeat split; assumption.
Qed.

Lemma testDate_other sep sep' y rest :
  allDigits y = true -> isDigit sep = false -> sep <> sep' ->
  testDate sep' (y ++ String sep rest) = false.
Proof.
  intros Hy Hs N. unfold testDate.
  rewrite spanDigits_app by (cbn; assumption).
  destruct (Ascii.eqb_spec sep sep') as [|_]; [contradiction|].
  cbn [andb]. apply andb_false_r.
Qed.

(** Padding a field of one or two digits gives two digits. *)
Lemma padStart_field m :
  allDigits m = true -> (1 <= String.length m <= 2)%nat ->
  allDigits (padStart m 2 "0") = true
  /\ String.length (padStart m 2 "0") = 2%nat
  /\ padStart (padStart m 2 "0") 2 "0" = padStart m 2 "0".
Proof.
  intros Hm Lm. destruct m as [|a [|b [|c m]]]; cbn in Lm; try lia.
  - cbn in *. now rewrite Hm.
  - cbn in *. now rewrite Hm.
Qed.

Lemma normalizeDateString_fields sep y m d :
  sep = "/"%char \/ sep = "-"%char -> dateFields y m d ->
  normalizeDateString (y ++ String sep (m ++ String sep d))
  = y ++ "/" ++ padStart m 2 "0" ++ "/" ++ padStart d 2 "0".
Proof.
  intros Hsep F. pose proof F as (Hy & Hm & Hd & Ly & _).
  assert (Hs : isDigit sep = false) by (destruct Hsep; subst; reflexivity).
  unfold normalizeDateString.
  destruct y as [|y0 y]; [discriminate|]. cbn [String.append String.eqb].
  change (String y0 (y ++ String sep (m ++ String sep d)))
    with (String y0 y ++ String sep (m ++ String sep d)).
  destruct Hsep; subst sep.
  - rewrite (testDate_fields _ _ _ _ Hs F), split_three by assumption.
    reflexivity.
  - rewrite (testDate_other "-" "/") by (try assumption; discriminate).
    rewrite (testDate_fields _ _ _ _ Hs F), split_three by assumption.
    reflexivity.
Qed.

End DateStringFacts.

(** X4. [normalizeDateString] settles in one step: normalising a text it has
    already normalised changes nothing, whatever the text. *)
Theorem normalizeDateString_idempotent (dateStr : string) :
  normalizeDateString (normalizeDateString dateStr)
  = normalizeDateString dateStr.
Proof.
  assert (N : forall y m d, dateFields y m d ->
    normalizeDateString
      (y ++ "/" ++ padStart m 2 "0" ++ "/" ++ padStart d 2 "0")%string
    = (y ++ "/" ++ padStart m 2 "0" ++ "/" ++ padStart d 2 "0")%string).
  { intros y m d (Hy & Hm & Hd & Ly & Lm & Ld).
    destruct (DateStringFacts.padStart_field m Hm Lm) as (Pm & Qm & Rm).
    destruct (DateStringFacts.padStart_field d Hd Ld) as (Pd & Qd & Rd).
    change (y ++ "/" ++ padStart m 2 "0" ++ "/" ++ padStart d 2 "0")%string
      with (y ++ String "/" (padStart m 2 "0"
                               ++ String "/" (padStart d 2 "0")))%string.
    rewrite DateStringFacts.normalizeDateString_fields.
    - now rewrite Rm, Rd.
    - now left.
    - repeat split; try assumption; lia. }
  destruct (String.eqb_spec dateStr "") as [->|Ne]; [reflexivity|].
  destruct (testDate "/" dateStr) eqn:T1.
  - apply DateStringFacts.testDate_inv in T1 as (y & m & d & -> & F).
    rewrite DateStringFacts.normalizeDateString_fields by (auto; now left).
    apply (N y m d F).
  - destruct (testDate "-" dateStr) eqn:T2.
    + apply DateStringFacts.testDate_inv in T2 as (y & m & d & -> & F).
      rewrite DateStringFacts.normalizeDateString_fields by (auto; now right).
      apply (N y m d F).
    + assert (E : normalizeDateString dateStr = dateStr).
      { unfold normalizeDateString. rewrite T1, T2.
        destruct (String.eqb_spec dateStr ""); [contradiction | reflexivity]. }
      now rewrite !E.
Qed.

Module DateKeyFacts.
Import DateStringFacts.

Local Open Scope string_scope.

Lemma forallb_seq2 (f : nat -> nat -> bool) n m :
  forallb (fun a => forallb (f a) (seq 0 m)) (seq 0 n) = true ->
  forall a b, (a < n)%nat -> (b < m)%nat -> f a b = true.
Proof.
  intros T a b Ha Hb. rewrite forallb_forall in T.
  specialize (T a ltac:(apply in_seq; lia)). rewrite forallb_forall in T.
  apply T. apply in_seq. lia.
Qed.

Lemma year_table :
  forallb (fun a => forallb (fun b => yearDigitsOk (yearOf a b)) (seq 0 100))
    (seq 0 90) = true.
Proof. vm_compute. reflexivity. Qed.

Lemma field_table : forallb fieldDigitsOk (seq 0 100) = true.
Proof. vm_compute. reflexivity. Qed.

Lemma ToString_year y :
  (1000 <= y <= 9999)%Z ->
  allDigits (ToString y) = true /\ String.length (ToString y) = 4%nat.
Proof.
  intros H.
  pose proof (forallb_seq2 (fun a b => yearDigitsOk (yearOf a b)) 90 100
                year_table (Z.to_nat ((y - 1000) / 100))
                (Z.to_nat ((y - 1000) mod 100))) as T.
  cbv beta in T. unfold yearOf in T.
  rewrite !Z2Nat.id in T by (Z.to_euclidean_division_equations; lia).
  replace (1000 + 100 * ((y - 1000) / 100) + (y - 1000) mod 100)%Z with y in T
    by (Z.to_euclidean_division_equations; lia).
  assert (A : (Z.to_nat ((y - 1000) / 100) < 90)%nat)
    by (Z.to_euclidean_division_equations; lia).
  assert (B : (Z.to_nat ((y - 1000) mod 100) < 100)%nat)
    by (Z.to_euclidean_division_equations; lia).
  specialize (T A B). unfold yearDigitsOk in T.
  apply andb_true_iff in T as [T1 T2]. now apply Nat.eqb_eq in T2.
Qed.

Lemma ToString_field n :
  (0 <= n <= 99)%Z ->
  allDigits (ToString n) = true
  /\ (1 <= String.length (ToString n) <= 2)%nat.
Proof.
  intros H.
  pose proof (proj1 (forallb_forall _ _) field_table (Z.to_nat n)) as T.
  unfold fieldDigitsOk in T. rewrite Z2Nat.id in T by lia.
  specialize (T ltac:(apply in_seq; lia)).
  apply andb_true_iff in T as [T T3]. apply andb_true_iff in T as [T1 T2].
  apply Nat.leb_le in T2, T3. auto.
Qed.

Lemma date_fields year month day :
  (1000 <= year <= 9999)%Z -> (0 <= month <= 11)%Z -> (1 <= day <= 31)%Z ->
  dateFields (ToString year) (ToString (month + 1)) (ToString day).
Proof.
  intros Hy Hm Hd.
  destruct (ToString_year year Hy) as [Y1 Y2].
  destruct (ToString_field (month + 1) ltac:(lia)) as [M1 M2].
  destruct (ToString_field day ltac:(lia)) as [D1 D2].
  repeat split; assumption || lia.
Qed.

Lemma padded_fields y m d :
  dateFields y m d -> dateFields y (padStart m 2 "0") (padStart d 2 "0").
Proof.
  intros (Hy & Hm & Hd & Ly & Lm & Ld).
  destruct (padStart_field m Hm Lm) as (Pm & Qm & _).
  destruct (padStart_field d Hd Ld) as (Pd & Qd & _).
  repeat split; try assumption; lia.
Qed.

End DateKeyFacts.

(** X5. A date text of four digits, one or two digits and one or two digits,
    separated by two slashes or by two hyphens, is rewritten with slashes and
    two-digit fields, ten characters in all; a text that passes neither
    pattern is returned as it is. *)
Theorem normalizeDateString_pads_fields (y m d : string) (sep : ascii) :
  dateFields y m d -> sep = "/"%char \/ sep = "-"%char ->
  normalizeDateString (y ++ String sep (m ++ String sep d))
  = (y ++ "/" ++ padStart m 2 "0" ++ "/" ++ padStart d 2 "0")%string
  /\ String.length
       (normalizeDateString (y ++ String sep (m ++ String sep d))) = 10%nat
  /\ (forall other,
        testDate "/" other = false -> testDate "-" other = false ->
        normalizeDateString other = other).
Proof.
  intros F Hsep.
  rewrite DateStringFacts.normalizeDateString_fields by assumption.
  split; [reflexivity|]. split.
  - destruct F as (Hy & Hm & Hd & Ly & Lm & Ld).
    destruct (DateStringFacts.padStart_field m Hm Lm) as (_ & Qm & _).
    destruct (DateStringFacts.padStart_field d Hd Ld) as (_ & Qd & _).
    rewrite !StringFacts.length_app, Ly, Qm, Qd. reflexivity.
  - intros other T1 T2. unfold normalizeDateString. rewrite T1, T2.
    destruct (String.eqb_spec other ""); [now subst | reflexivity].
Qed.

Lemma normalizeDateString_pads_fields_witness :
  (dateFields "2025" "1" "5" /\ ("-"%char = "/"%char \/ "-"%char = "-"%char))
  /\ normalizeDateString "2025-1-5" = "2025/01/05"%string.
Proof.
  assert (F : dateFields "2025" "1" "5")
    by (repeat split; cbn; try reflexivity; lia).
  split; [split; [exact F | now right]|].
  apply (normalizeDateString_pads_fields "2025" "1" "5" "-" F). now right.
Defined.

(** X6. For a calendar day with a four-digit year, every usual spelling of
    its date (slashes or hyphens, fields padded or not) normalises to the key
    the calendar builds for that day, and the key itself is left unchanged;
    [getTodayDate] writes today's key. *)
Theorem normalizeDateString_calendar_key (year month day : Z) (now : JSDate.t) :
  1000 <= year <= 9999 -> 0 <= month <= 11 -> 1 <= day <= 31 ->
  let key := targetDate year month day in
  normalizeDateString
    (ToString year ++ "/" ++ ToString (month + 1) ++ "/" ++ ToString day)
  = key
  /\ normalizeDateString
       (ToString year ++ "-" ++ ToString (month + 1) ++ "-" ++ ToString day)
     = key
  /\ normalizeDateString
       (ToString year ++ "-" ++ padStart (ToString (month + 1)) 2 "0"
          ++ "-" ++ padStart (ToString day) 2 "0")
     = key
  /\ normalizeDateString key = key
  /\ getTodayDate now
     = targetDate (getFullYear now) (getMonth now) (getDate now).
Proof.
  intros Hy Hm Hd key.
  pose proof (DateKeyFacts.date_fields year month day Hy Hm Hd) as F.
  pose proof (DateKeyFacts.padded_fields _ _ _ F) as P.
  pose proof F as (_ & M1 & D1 & _ & M2 & D2).
  destruct (DateStringFacts.padStart_field _ M1 M2) as (_ & _ & Rm).
  destruct (DateStringFacts.padStart_field _ D1 D2) as (_ & _ & Rd).
  pose proof (DateStringFacts.normalizeDateString_fields "/" _ _ _
                (or_introl eq_refl) F) as E1.
  pose proof (DateStringFacts.normalizeDateString_fields "-" _ _ _
                (or_intror eq_refl) F) as E2.
  pose proof (DateStringFacts.normalizeDateString_fields "-" _ _ _
                (or_intror eq_refl) P) as E3.
  pose proof (DateStringFacts.normalizeDateString_fields "/" _ _ _
                (or_introl eq_refl) P) as E4.
  rewrite Rm, Rd in E3, E4.
  repeat split; assumption.
Qed.

Lemma normalizeDateString_calendar_key_witness :
  (1000 <= 2025 <= 9999 /\ 0 <= 0 <= 11 /\ 1 <= 5 <= 31)
  /\ normalizeDateString
       (ToString 2025 ++ "-" ++ ToString (0 + 1) ++ "-" ++ ToString 5)
     = targetDate 2025 0 5.
Proof.
  split; [lia|].
  apply (normalizeDateString_calendar_key 2025 0 5 0); lia.
Defined.

(** ** Numbers as decimal text *)

Module NumberTextFacts.
Import EscapeFacts DateStringFacts.

Local Open Scope string_scope.

Lemma allDigits_string_of_uint u :
  allDigits (NilEmpty.string_of_uint u) = true.
Proof. induction u; cbn; auto. Qed.

Lemma allDigits_ToString n : (0 <= n)%Z -> allDigits (ToString n) = true.
Proof.
  intros H. unfold ToString. destruct n as [|p|p]; [reflexivity | | lia].
  cbn [Z.to_int NilZero.string_of_int]. unfold NilZero.string_of_uint.
  destruct (Pos.to_uint p) eqn:E; try apply allDigits_string_of_uint.
  reflexivity.
Qed.

Lemma decimalField_ToString n :
  (0 <= n)%Z -> decimalField (ToString n) = Some n.
Proof.
  intros H. unfold ToString, decimalField.
  destruct n as [|p|p]; [reflexivity | | lia].
  cbn [Z.to_int NilZero.string_of_int].
  rewrite NilZero.usu by apply DecimalPos.Unsigned.to_uint_nonnil.
  cbn [option_map]. unfold Z.of_uint.
  now rewrite DecimalPos.Unsigned.of_to.
Qed.

Lemma one_digit_value c v :
  decimalField (String c EmptyString) = Some v -> (0 <= v <= 9)%Z.
Proof.
  destruct c as [[] [] [] [] [] [] [] []]; cbn; intros E;
    try discriminate; injection E as <-; lia.
Qed.

Lemma ToString_long n : (10 <= n)%Z -> (2 <= String.length (ToString n))%nat.
Proof.
  intros H. pose proof (decimalField_ToString n ltac:(lia)) as D.
  destruct (ToString n) as [|c [|c' s]]; [discriminate | | cbn; lia].
  apply one_digit_value in D. lia.
Qed.

Lemma padStart_long s :
  (2 <= String.length s)%nat -> padStart s 2 "0" = s.
Proof.
  intros H. unfold padStart.
  replace (2 - String.length s)%nat with 0%nat by lia. reflexivity.
Qed.

Lemma pad_table : forallb padDigitsOk (seq 0 100) = true.
Proof. vm_compute. reflexivity. Qed.

(** A padded number is made of digits and reads back as the number. *)
Lemma pad_number n :
  (0 <= n)%Z ->
  allDigits (padStart (ToString n) 2 "0") = true
  /\ decimalField (padStart (ToString n) 2 "0") = Some n
  /\ (2 <= String.length (padStart (ToString n) 2 "0"))%nat
  /\ (n <= 99 -> String.length (padStart (ToString n) 2 "0") = 2%nat)%Z.
Proof.
  intros H. destruct (Z_le_gt_dec n 99) as [L|G].
  - destruct (StringFacts.pad2_spec n ltac:(lia)) as [Len Dec].
    unfold pad2 in *.
    pose proof (proj1 (forallb_forall _ _) pad_table (Z.to_nat n)) as T.
    unfold padDigitsOk in T. rewrite Z2Nat.id in T by lia.
    specialize (T ltac:(apply in_seq; lia)).
    repeat split; try assumption; lia.
  - rewrite padStart_long by (apply ToString_long; lia).
    pose proof (ToString_long n ltac:(lia)).
    repeat split; [now apply allDigits_ToString
                  | now apply decimalField_ToString | assumption | lia].
Qed.

End NumberTextFacts.

(** ** Durations *)

Module DurationFacts.

Lemma clock_fields elapsed :
  0 <= elapsed ->
  let hours := elapsed / 3600 in
  let minutes := Z.rem elapsed 3600 / 60 in
  let seconds := Z.rem elapsed 60 in
  0 <= hours /\ 0 <= minutes <= 59 /\ 0 <= seconds <= 59
  /\ hours * 3600 + minutes * 60 + seconds = elapsed.
Proof.
  intros H. cbv zeta. rewrite !Z.rem_mod_nonneg by lia.
  Z.to_euclidean_division_equations. lia.
Qed.

End DurationFacts.

(** X7. For a task that has run [elapsed] whole seconds, zero or more, the
    text [updateTaskTimer] shows reads back to exactly [elapsed] (hours,
    minutes and seconds separated by colons), so two different running times
    never show the same text; below 100 hours the text has eight
    characters. *)
Theorem taskTimerText_round_trip (elapsed : Z) :
  0 <= elapsed ->
  clockSeconds (taskTimerText elapsed) = Some elapsed
  /\ (forall other, 0 <= other ->
        taskTimerText other = taskTimerText elapsed -> other = elapsed)
  /\ (elapsed < 360000 -> String.length (taskTimerText elapsed) = 8%nat).
Proof.
  intros H.
  assert (R : forall e, 0 <= e -> clockSeconds (taskTimerText e) = Some e).
  { intros e He. destruct (DurationFacts.clock_fields e He) as (Hh & Hm & Hs & E).
    destruct (NumberTextFacts.pad_number (e / 3600) Hh) as (A1 & A2 & _).
    destruct (NumberTextFacts.pad_number (Z.rem e 3600 / 60) ltac:(lia))
      as (B1 & B2 & _).
    destruct (NumberTextFacts.pad_number (Z.rem e 60) ltac:(lia))
      as (C1 & C2 & _).
    unfold clockSeconds, taskTimerText.
    change (?a ++ ":" ++ ?b ++ ":" ++ ?c)%string
      with (a ++ String ":" (b ++ String ":" c))%string.
    rewrite DateStringFacts.split_three by (assumption || reflexivity).
    cbn [map]. rewrite A2, B2, C2. now rewrite E. }
  split; [now apply R|]. split.
  - intros other Ho E. pose proof (R other Ho) as Ro.
    rewrite E, (R elapsed H) in Ro. now injection Ro.
  - intros Lt. destruct (DurationFacts.clock_fields elapsed H)
      as (Hh & Hm & Hs & E).
    destruct (NumberTextFacts.pad_number (elapsed / 3600) Hh) as (_ & _ & _ & A).
    destruct (NumberTextFacts.pad_number (Z.rem elapsed 3600 / 60) ltac:(lia))
      as (_ & _ & _ & B).
    destruct (NumberTextFacts.pad_number (Z.rem elapsed 60) ltac:(lia))
      as (_ & _ & _ & C).
    unfold taskTimerText. rewrite !StringFacts.length_app.
    rewrite A, B, C by lia. reflexivity.
Qed.

Lemma taskTimerText_round_trip_witness :
  0 <= 3661 /\ clockSeconds (taskTimerText 3661) = Some 3661.
Proof.
  split; [lia|]. apply (taskTimerText_round_trip 3661). lia.
Defined.

(** X8. [formatDuration] of a duration of zero or more seconds: below a
    minute it shows the seconds; from a minute to an hour the minutes and
    seconds, which add up to the duration exactly; from an hour on the hours
    and minutes only, leaving out less than a minute. *)
Theorem formatDuration_units (seconds : Z) :
  0 <= seconds ->
  (seconds < 60 /\ formatDuration seconds = (ToString seconds ++ "秒")%string)
  \/ (60 <= seconds < 3600
      /\ exists m s, 1 <= m <= 59 /\ 0 <= s <= 59 /\ 60 * m + s = seconds
           /\ formatDuration seconds
              = (ToString m ++ "分" ++ ToString s ++ "秒")%string)
  \/ (3600 <= seconds
      /\ exists h m, 1 <= h /\ 0 <= m <= 59
           /\ 0 <= seconds - (3600 * h + 60 * m) <= 59
           /\ formatDuration seconds
              = (ToString h ++ "時間" ++ ToString m ++ "分")%string).
Proof.
  intros H. destruct (DurationFacts.clock_fields seconds H) as (Hh & Hm & Hs & E).
  unfold formatDuration.
  destruct (Z.ltb_spec 0 (seconds / 3600)) as [P|P].
  - right. right. split; [lia|].
    exists (seconds / 3600), (Z.rem seconds 3600 / 60).
    repeat split; try lia.
  - destruct (Z.ltb_spec 0 (Z.rem seconds 3600 / 60)) as [Q|Q].
    + right. left. split; [lia|].
      exists (Z.rem seconds 3600 / 60), (Z.rem seconds 60).
      repeat split; try lia.
    + left. split; [lia|].
      replace (Z.rem seconds 60) with seconds by lia. reflexivity.
Qed.

Lemma formatDuration_units_witness :
  0 <= 3725
  /\ ((3725 < 60 /\ formatDuration 3725 = (ToString 3725 ++ "秒")%string)
      \/ (60 <= 3725 < 3600
          /\ exists m s, 1 <= m <= 59 /\ 0 <= s <= 59 /\ 60 * m + s = 3725
               /\ formatDuration 3725
                  = (ToString m ++ "分" ++ ToString s ++ "秒")%string)
      \/ (3600 <= 3725
          /\ exists h m, 1 <= h /\ 0 <= m <= 59
               /\ 0 <= 3725 - (3600 * h + 60 * m) <= 59
               /\ formatDuration 3725
                  = (ToString h ++ "時間" ++ ToString m ++ "分")%string)).
Proof.
  split; [lia|]. apply (formatDuration_units 3725). lia.
Defined.

(** ** Shipment rows per day *)

Module ShipmentFacts.

Local Open Scope string_scope.

Lemma fold_count cw target rows acc :
  fold_left
    (fun totalQuantity row =>
       let dateStr := column row "出荷希望日" in
       let warehouse := column row "倉庫名" in
       if dateStr =? target then
         if notSelected cw || isCurrent warehouse cw
         then (totalQuantity + 1)%Z
         else totalQuantity
       else totalQuantity)
    rows acc
  = (acc + Z.of_nat (List.length (filter (rowCounts cw target) rows)))%Z.
Proof.
  revert acc. induction rows as [|row rows IH]; intros acc; [cbn; lia|].
  cbn [fold_left filter]. rewrite IH. unfold rowCounts at 2. cbv zeta.
  destruct (column row "出荷希望日" =? target);
    [destruct (notSelected cw || isCurrent (column row "倉庫名") cw)|];
    cbn [andb List.length]; lia.
Qed.

Lemma quantity_count rows cw year month day :
  getShipmentQuantityForDate (Some rows) cw year month day
  = Z.of_nat (List.length
                (filter (rowCounts cw (targetDate year month day)) rows)).
Proof.
  unfold getShipmentQuantityForDate. cbv zeta. now rewrite fold_count.
Qed.

Lemma targetDate_inj y m d y' m' d' :
  (0 <= m + 1 <= 99)%Z -> (0 <= d <= 99)%Z ->
  (0 <= m' + 1 <= 99)%Z -> (0 <= d' <= 99)%Z ->
  targetDate y m d = targetDate y' m' d' -> y = y' /\ m = m' /\ d = d'.
Proof.
  intros Hm Hd Hm' Hd' E. unfold targetDate in E.
  fold (pad2 (m + 1)) (pad2 d) (pad2 (m' + 1)) (pad2 d') in E.
  destruct (StringFacts.pad2_spec _ Hm) as [Lm _],
    (StringFacts.pad2_spec _ Hd) as [Ld _],
    (StringFacts.pad2_spec _ Hm') as [Lm' _],
    (StringFacts.pad2_spec _ Hd') as [Ld' _].
  apply StringFacts.app_inv_tail_length in E as [Ey Et].
  2:{ cbn [String.length String.append]. rewrite !StringFacts.length_app.
      cbn [String.length]. lia. }
  apply StringFacts.ToString_inj in Ey. cbn [String.append] in Et.
  injection Et as Et.
  apply StringFacts.app_inv_tail_length in Et as [Em Et].
  2:{ cbn [String.length]. lia. }
  injection Et as Et.
  apply StringFacts.pad2_inj in Em; [|assumption..].
  apply StringFacts.pad2_inj in Et; [|assumption..].
  repeat split; lia.
Qed.

Lemma filter_disjoint {A} (p q : A -> bool) (l : list A) :
  (forall x, p x = true -> q x = true -> False) ->
  (List.length (filter p l) + List.length (filter q l) <= List.length l)%nat.
Proof.
  intros D. induction l as [|x l IH]; [cbn; lia|]. cbn [filter List.length].
  specialize (D x).
  destruct (p x), (q x); cbn [List.length]; first [lia | exfalso; now apply D].
Qed.

Lemma filter_weaker {A} (p q : A -> bool) (l : list A) :
  (forall x, p x = true -> q x = true) ->
  (List.length (filter p l) <= List.length (filter q l))%nat.
Proof.
  intros W. induction l as [|x l IH]; [cbn; lia|]. cbn [filter].
  specialize (W x).
  destruct (p x), (q x); cbn [List.length];
    first [lia | discriminate (W eq_refl)].
Qed.

End ShipmentFacts.

(** X9. The shipment count of a day is a count of rows: it is zero without
    data, never negative and never more than the number of rows; the counts
    of two files add up when the files are joined; and selecting a warehouse
    can only lower the count of a day. *)
Theorem getShipmentQuantityForDate_counts_rows
    (rows more : list object) (currentWarehouse : option string)
    (year month day : Z) :
  getShipmentQuantityForDate None currentWarehouse year month day = 0
  /\ 0 <= getShipmentQuantityForDate (Some rows) currentWarehouse year month day
       <= Z.of_nat (List.length rows)
  /\ getShipmentQuantityForDate (Some (rows ++ more)%list) currentWarehouse
       year month day
     = getShipmentQuantityForDate (Some rows) currentWarehouse year month day
       + getShipmentQuantityForDate (Some more) currentWarehouse year month day
  /\ getShipmentQuantityForDate (Some rows) currentWarehouse year month day
     <= getShipmentQuantityForDate (Some rows) None year month day.
Proof.
  rewrite !ShipmentFacts.quantity_count. split; [reflexivity|].
  split; [|split].
  - pose proof (filter_length_le
                  (rowCounts currentWarehouse (targetDate year month day)) rows).
    lia.
  - rewrite filter_app, length_app. lia.
  - apply inj_le, ShipmentFacts.filter_weaker. intros row.
    unfold rowCounts. cbn [notSelected orb].
    intros C. apply andb_true_iff in C as [C _]. now rewrite C.
Qed.

(** X10. No row is counted on two days: for two different calendar days the
    shipment counts together never exceed the number of rows. *)
Theorem getShipmentQuantityForDate_days_disjoint
    (rows : list object) (currentWarehouse : option string)
    (year month day year' month' day' : Z) :
  0 <= month <= 11 -> 1 <= day <= 31 ->
  0 <= month' <= 11 -> 1 <= day' <= 31 ->
  (year, month, day) <> (year', month', day') ->
  getShipmentQuantityForDate (Some rows) currentWarehouse year month day
  + getShipmentQuantityForDate (Some rows) currentWarehouse year' month' day'
  <= Z.of_nat (List.length rows).
Proof.
  intros Hm Hd Hm' Hd' N. rewrite !ShipmentFacts.quantity_count.
  rewrite <- Nat2Z.inj_add. apply inj_le, ShipmentFacts.filter_disjoint.
  intros row C C'. unfold rowCounts in C, C'.
  apply andb_true_iff in C as [C _]. apply andb_true_iff in C' as [C' _].
  apply String.eqb_eq in C, C'. rewrite C in C'.
  apply ShipmentFacts.targetDate_inj in C' as (-> & -> & ->); try lia.
  now apply N.
Qed.

Lemma getShipmentQuantityForDate_days_disjoint_witness :
  (0 <= 0 <= 11 /\ 1 <= 5 <= 31 /\ 0 <= 0 <= 11 /\ 1 <= 6 <= 31
   /\ (2025, 0, 5) <> (2025, 0, 6))
  /\ getShipmentQuantityForDate
       (Some [[("出荷希望日", "2025/01/05")]; [("出荷希望日", "2025/01/06")]]%string)
       None 2025 0 5
     + getShipmentQuantityForDate
         (Some [[("出荷希望日", "2025/01/05")]; [("出荷希望日", "2025/01/06")]]%string)
         None 2025 0 6
     <= Z.of_nat 2.
Proof.
  split; [repeat split; try lia; discriminate|].
  apply (getShipmentQuantityForDate_days_disjoint
           [[("出荷希望日", "2025/01/05")]; [("出荷希望日", "2025/01/06")]]%string
           None 2025 0 5 2025 0 6); try lia; discriminate.
Defined.

(** ** Working hours *)

Module WorkTimeFacts.

Local Open Scope R_scope.

Lemma div_le_compat a b t : 0 < t -> a <= b -> a / t <= b / t.
Proof.
  intros Ht H. unfold Rdiv. apply Rmult_le_compat_r; [|exact H].
  left. now apply Rinv_0_lt_compat.
Qed.

Lemma div_lt_compat a b t : 0 < t -> a < b -> a / t < b / t.
Proof.
  intros Ht H. unfold Rdiv. apply Rmult_lt_compat_r; [|exact H].
  now apply Rinv_0_lt_compat.
Qed.

Lemma div_same t : 0 < t -> t / t = 1.
Proof. intros Ht. unfold Rdiv. apply Rinv_r. lra. Qed.

Lemma div_zero t : 0 / t = 0.
Proof. unfold Rdiv. apply Rmult_0_l. Qed.

(** The ratio of two whole numbers of seconds. *)
Lemma ratio_bounds (e t : Z) :
  (0 <= e <= t)%Z -> (0 < t)%Z -> 0 <= IZR e / IZR t <= 1.
Proof.
  intros [H0 H1] Ht. apply IZR_le in H0, H1. apply IZR_lt in Ht.
  pose proof (div_le_compat _ _ _ Ht H0) as A.
  pose proof (div_le_compat _ _ _ Ht H1) as B.
  rewrite div_zero in A. rewrite div_same in B by assumption. lra.
Qed.

Lemma ratio_mono (e e' t : Z) :
  (e <= e')%Z -> (0 < t)%Z -> IZR e / IZR t <= IZR e' / IZR t.
Proof.
  intros H Ht. apply div_le_compat; [now apply IZR_lt in Ht | now apply IZR_le].
Qed.

(** Everything [workProgress] returns, by the place of the current second. *)
Lemma workProgress_cases w hours minutes seconds :
  startsBeforeEnd w ->
  let current := (hours * 3600 + minutes * 60 + seconds)%Z in
  let start := (WORK_START_HOUR w * 3600 + WORK_START_MINUTE w * 60)%Z in
  let stop := (WORK_END_HOUR w * 3600 + WORK_END_MINUTE w * 60)%Z in
  let p := workProgress w hours minutes seconds in
  (0 < stop - start)%Z
  /\ elapsedSeconds p = Z.max 0 (Z.min (current - start) (stop - start))
  /\ remainingSeconds p = (stop - start - elapsedSeconds p)%Z
  /\ progressPercent p = IZR (elapsedSeconds p) / IZR (stop - start) * 100.
Proof.
  intros S. unfold startsBeforeEnd in S. cbv zeta. unfold workProgress.
  set (current := (hours * 3600 + minutes * 60 + seconds)%Z).
  set (start := (WORK_START_HOUR w * 3600 + WORK_START_MINUTE w * 60)%Z).
  set (stop := (WORK_END_HOUR w * 3600 + WORK_END_MINUTE w * 60)%Z).
  assert (T : (0 < stop - start)%Z) by (subst start stop; lia).
  assert (Tr : 0 < IZR (stop - start)) by now apply IZR_lt in T.
  split; [exact T|].
  destruct (Z.ltb_spec current start) as [B|B].
  - cbn [elapsedSeconds remainingSeconds progressPercent].
    repeat split; try lia. rewrite div_zero. lra.
  - destruct (Z.ltb_spec stop current) as [A|A].
    + cbn [elapsedSeconds remainingSeconds progressPercent].
      repeat split; try lia. rewrite div_same by assumption. lra.
    + cbn [elapsedSeconds remainingSeconds progressPercent].
      repeat split; try lia.
Qed.

End WorkTimeFacts.

(** X11. With a start time before the end time, at every second of the day
    the elapsed and the remaining working time are both at least zero and add
    up to the length of the working day, the progress is the elapsed share of
    it in percent, between 0 and 100, and the hourglass is paused exactly
    before the start and after the end. *)
Theorem workProgress_invariants (w : WorkTime) (hours minutes seconds : Z) :
  startsBeforeEnd w ->
  let current := hours * 3600 + minutes * 60 + seconds in
  let start := WORK_START_HOUR w * 3600 + WORK_START_MINUTE w * 60 in
  let stop := WORK_END_HOUR w * 3600 + WORK_END_MINUTE w * 60 in
  let p := workProgress w hours minutes seconds in
  elapsedSeconds p + remainingSeconds p = stop - start
  /\ 0 <= elapsedSeconds p /\ 0 <= remainingSeconds p
  /\ (progressPercent p
      = IZR (elapsedSeconds p) / IZR (stop - start) * 100)%R
  /\ (0 <= progressPercent p <= 100)%R
  /\ (paused p = true <-> current < start \/ stop < current).
Proof.
  intros S current start stop p.
  destruct (WorkTimeFacts.workProgress_cases w hours minutes seconds S)
    as (T & E & R & P).
  fold current start stop p in T, E, R, P.
  split; [lia|]. split; [lia|]. split; [lia|]. split; [exact P|]. split.
  - rewrite P.
    pose proof (WorkTimeFacts.ratio_bounds (elapsedSeconds p) (stop - start)
                  ltac:(lia) T). lra.
  - subst p. unfold workProgress. fold current start stop.
    destruct (Z.ltb_spec current start), (Z.ltb_spec stop current);
      cbn [paused orb]; split; intros; try discriminate; try reflexivity; lia.
Qed.

Lemma workProgress_invariants_witness :
  startsBeforeEnd defaultWorkTime
  /\ elapsedSeconds (workProgress defaultWorkTime 12 0 0)
     + remainingSeconds (workProgress defaultWorkTime 12 0 0)
     = (17 * 3600 + 30 * 60) - (8 * 3600 + 30 * 60).
Proof.
  assert (S : startsBeforeEnd defaultWorkTime) by (unfold startsBeforeEnd; cbn; lia).
  split; [exact S|].
  apply (workProgress_invariants defaultWorkTime 12 0 0 S).
Defined.

(** X12. The settings dialog saves only working hours whose start is before
    their end, and with such hours the hourglass of the day is fed a progress
    in [0,1], which the sand engine never has to clamp: it is full above
    until the start, full below from the end on, and between two moments of
    the day the lower sand never sinks and the upper sand never rises. *)
Theorem dayHourglass_follows_the_day
    (startTime endTime : option (Z * Z)) (w : WorkTime)
    (h m s h' m' s' : Z) :
  updateWorkTimeSettings startTime endTime = settingsSaved w ->
  h * 3600 + m * 60 + s <= h' * 3600 + m' * 60 + s' ->
  startsBeforeEnd w
  /\ (SandPhysicsEngine.lowerVolume (dayHourglass w h m s)
      = progressPercent (workProgress w h m s) / 100)%R
  /\ (h * 3600 + m * 60 + s
      <= WORK_START_HOUR w * 3600 + WORK_START_MINUTE w * 60 ->
      SandPhysicsEngine.upperHeight (dayHourglass w h m s) = 1%R
      /\ SandPhysicsEngine.lowerHeight (dayHourglass w h m s) = 0%R)
  /\ (WORK_END_HOUR w * 3600 + WORK_END_MINUTE w * 60
      <= h * 3600 + m * 60 + s ->
      SandPhysicsEngine.upperHeight (dayHourglass w h m s) = 0%R
      /\ SandPhysicsEngine.lowerHeight (dayHourglass w h m s) = 1%R)
  /\ (SandPhysicsEngine.lowerHeight (dayHourglass w h m s)
      <= SandPhysicsEngine.lowerHeight (dayHourglass w h' m' s'))%R
  /\ (SandPhysicsEngine.upperHeight (dayHourglass w h' m' s')
      <= SandPhysicsEngine.upperHeight (dayHourglass w h m s))%R.
Proof.
  intros U Le.
  assert (S : startsBeforeEnd w).
  { unfold updateWorkTimeSettings in U.
    destruct startTime as [[sh sm]|]; [|discriminate].
    destruct endTime as [[eh em]|]; [|discriminate].
    destruct (Z.leb_spec (eh * 60 + em) (sh * 60 + sm)); [discriminate|].
    injection U as <-. unfold startsBeforeEnd. cbn. lia. }
  split; [exact S|].
  destruct (WorkTimeFacts.workProgress_cases w h m s S) as (T & E & _ & P).
  destruct (WorkTimeFacts.workProgress_cases w h' m' s' S) as (_ & E' & _ & P').
  cbv zeta in *.
  set (total := WORK_END_HOUR w * 3600 + WORK_END_MINUTE w * 60
                - (WORK_START_HOUR w * 3600 + WORK_START_MINUTE w * 60)) in *.
  set (e := elapsedSeconds (workProgress w h m s)) in *.
  set (e' := elapsedSeconds (workProgress w h' m' s')) in *.
  pose proof (WorkTimeFacts.ratio_bounds e total ltac:(lia) T) as B.
  pose proof (WorkTimeFacts.ratio_bounds e' total ltac:(lia) T) as B'.
  pose proof (WorkTimeFacts.ratio_mono e e' total ltac:(lia) T) as M.
  assert (Q : (progressPercent (workProgress w h m s) / 100
               = IZR e / IZR total)%R) by (rewrite P; lra).
  assert (Q' : (progressPercent (workProgress w h' m' s') / 100
                = IZR e' / IZR total)%R) by (rewrite P'; lra).
  assert (C : forall x : R, (0 <= x <= 1)%R -> clamp01 x = x).
  { intros x Hx. unfold clamp01.
    destruct (Rlt_dec x 0), (Rlt_dec 1 x); lra. }
  assert (V : forall hh mm ss,
            SandPhysicsEngine.lowerVolume (dayHourglass w hh mm ss)
            = clamp01 (progressPercent (workProgress w hh mm ss) / 100)).
  { intros. apply SandFacts.lowerVolume_clamp. }
  unfold dayHourglass in *.
  cbn [SandPhysicsEngine.calculateSandHeights SandPhysicsEngine.lowerVolume
       SandPhysicsEngine.upperHeight SandPhysicsEngine.lowerHeight] in *.
  rewrite !V, Q, Q', !C by assumption.
  split; [reflexivity|]. split; [|split; [|split]].
  - intros Before. replace e with 0 by lia.
    rewrite WorkTimeFacts.div_zero. replace (1 - 0)%R with 1%R by lra.
    rewrite !SandFacts.volumeToHeight_ends by lra. split; reflexivity.
  - intros After. replace e with total by lia.
    rewrite WorkTimeFacts.div_same by (now apply IZR_lt in T).
    replace (1 - 1)%R with 0%R by lra.
    rewrite !SandFacts.volumeToHeight_ends by lra. split; reflexivity.
  - apply SandFacts.volumeToHeight_mono. exact M.
  - apply SandFacts.volumeToHeight_mono. lra.
Qed.

Lemma dayHourglass_follows_the_day_witness :
  (updateWorkTimeSettings (Some (8, 30)) (Some (17, 30))
   = settingsSaved defaultWorkTime
   /\ 9 * 3600 + 0 * 60 + 0 <= 12 * 3600 + 0 * 60 + 0)
  /\ (SandPhysicsEngine.lowerHeight (dayHourglass defaultWorkTime 9 0 0)
      <= SandPhysicsEngine.lowerHeight (dayHourglass defaultWorkTime 12 0 0))%R.
Proof.
  split; [split; [reflexivity | lia]|].
  apply (dayHourglass_follows_the_day (Some (8, 30)) (Some (17, 30))
           defaultWorkTime 9 0 0 12 0 0); [reflexivity | lia].
Defined.

(** ** The countdown timer *)

Module CountdownFacts.

Lemma ceilDiv_spec r :
  0 < r ->
  (ceilDiv r 1000 - 1) * 1000 < r <= ceilDiv r 1000 * 1000
  /\ 1 <= ceilDiv r 1000.
Proof.
  intros H. unfold ceilDiv. Z.to_euclidean_division_equations. lia.
Qed.

Lemma text_not_zero mm ss :
  0 <= ss <= 59 -> (mm, ss) <> (0, 0) ->
  (ToString mm ++ ":" ++ padStart (ToString ss) 2 "0")%string
  <> "0:00"%string.
Proof.
  intros Hs N E. apply N.
  change "0:00"%string
    with (ToString 0 ++ ":" ++ padStart (ToString 0) 2 "0")%string in E.
  fold (pad2 ss) (pad2 0) in E.
  destruct (StringFacts.pad2_spec ss ltac:(lia)) as [L _].
  apply StringFacts.app_inv_tail_length in E as [E1 E2].
  - apply StringFacts.ToString_inj in E1. cbn [String.append] in E2.
    injection E2 as E2. apply StringFacts.pad2_inj in E2; [|lia..].
    now subst.
  - cbn [String.append String.length]. rewrite L. reflexivity.
Qed.

End CountdownFacts.

(** X13. A countdown of [minutes] minutes, one or more, started at [start]:
    it is over exactly when the whole time has passed; until then it shows
    the remaining time rounded up to whole seconds, as minutes and seconds
    below 60, at least one second and at most the whole time, so it never
    shows 0:00 while it runs; its progress lies in [0,1); and at the moment
    it starts it shows the minutes with 00 seconds. *)
Theorem countdown_display (minutes start now : Z) :
  1 <= minutes -> start <> 0 -> start <= now ->
  let total := minutes * 60 in
  startCountdownTimer (Some minutes) = countdownSet total
  /\ (total * 1000 <= now - start ->
      updateCountdownTimer (Some start) total now = countdownFinished)
  /\ (now - start < total * 1000 ->
      exists mm ss ratio,
        updateCountdownTimer (Some start) total now
        = countdownRunning
            (ToString mm ++ ":" ++ padStart (ToString ss) 2 "0")%string ratio
        /\ 0 <= mm /\ 0 <= ss <= 59
        /\ 1 <= mm * 60 + ss <= total
        /\ (mm * 60 + ss - 1) * 1000 < total * 1000 - (now - start)
           <= (mm * 60 + ss) * 1000
        /\ (0 <= ratio < 1)%R
        /\ (ToString mm ++ ":" ++ padStart (ToString ss) 2 "0")%string
           <> "0:00"%string)
  /\ updateCountdownTimer (Some start) total start
     = countdownRunning (ToString minutes ++ ":00")%string 0%R.
Proof.
  intros Hm Hs Hn total.
  assert (Z0 : (start =? 0) = false) by now apply Z.eqb_neq.
  split; [|split; [|split]].
  - unfold startCountdownTimer.
    destruct (Z.eqb_spec minutes 0); [lia|].
    destruct (Z.ltb_spec minutes 1); [lia | reflexivity].
  - intros Over. unfold updateCountdownTimer. rewrite Z0.
    destruct (Z.leb_spec (total * 1000 - (now - start)) 0); [reflexivity | lia].
  - intros Run. unfold updateCountdownTimer. rewrite Z0.
    set (r := total * 1000 - (now - start)).
    destruct (Z.leb_spec r 0); [subst r; lia|].
    destruct (CountdownFacts.ceilDiv_spec r ltac:(lia)) as [C1 C2].
    set (rs := ceilDiv r 1000) in *.
    assert (F : 0 <= rs / 60 /\ 0 <= Z.rem rs 60 <= 59
                /\ rs / 60 * 60 + Z.rem rs 60 = rs).
    { rewrite Z.rem_mod_nonneg by lia.
      Z.to_euclidean_division_equations. lia. }
    destruct F as (F1 & F2 & F3).
    exists (rs / 60), (Z.rem rs 60), (IZR (now - start) / IZR (total * 1000))%R.
    split; [reflexivity|]. split; [exact F1|]. split; [exact F2|].
    rewrite F3. split; [subst r; lia|]. split; [exact C1|]. split.
    + assert (T : 0 < total * 1000) by lia.
      apply IZR_lt in T.
      assert (A : (0 <= IZR (now - start))%R) by (apply IZR_le; lia).
      assert (B : (IZR (now - start) < IZR (total * 1000))%R)
        by (apply IZR_lt; lia).
      pose proof (WorkTimeFacts.div_le_compat _ _ _ T A) as A'.
      pose proof (WorkTimeFacts.div_lt_compat _ _ _ T B) as B'.
      rewrite WorkTimeFacts.div_zero in A'.
      rewrite WorkTimeFacts.div_same in B' by assumption. lra.
    + apply CountdownFacts.text_not_zero; [exact F2|].
      intros E. injection E as E1 E2. lia.
  - unfold updateCountdownTimer. rewrite Z0.
    replace (start - start) with 0 by lia. rewrite Z.sub_0_r.
    destruct (Z.leb_spec (total * 1000) 0); [subst total; lia|].
    assert (E : ceilDiv (total * 1000) 1000 = minutes * 60).
    { unfold ceilDiv, total. Z.to_euclidean_division_equations. lia. }
    rewrite E.
    replace (minutes * 60 / 60) with minutes
      by (Z.to_euclidean_division_equations; lia).
    replace (Z.rem (minutes * 60) 60) with 0
      by (rewrite Z.rem_mod_nonneg by lia;
          Z.to_euclidean_division_equations; lia).
    f_equal. apply WorkTimeFacts.div_zero.
Qed.

Lemma countdown_display_witness :
  (1 <= 2 /\ 1000 <> 0 /\ 1000 <= 1001)
  /\ updateCountdownTimer (Some 1000) (2 * 60) 1000
     = countdownRunning (ToString 2 ++ ":00")%string 0%R.
Proof.
  split; [repeat split; lia|].
  apply (countdown_display 2 1000 1001); lia.
Defined.

(** ** The shape of the sand pile *)

Module SandPileFacts.
Import SandPile.

Local Open Scope R_scope.

Lemma pow_zero y : pow 0 y = 0.
Proof. unfold pow. destruct (Req_dec_T 0 0); [reflexivity | lra]. Qed.

Lemma pow_one y : pow 1 y = 1.
Proof.
  unfold pow. destruct (Req_dec_T 1 0); [lra|].
  unfold Rpower. rewrite ln_1, Rmult_0_r. apply exp_0.
Qed.

Lemma pow_nonneg x y : 0 <= pow x y.
Proof.
  unfold pow. destruct (Req_dec_T x 0); [lra|].
  left. unfold Rpower. apply exp_pos.
Qed.

Lemma pow_mono x x' y : 0 <= y -> 0 <= x <= x' -> pow x y <= pow x' y.
Proof.
  intros Hy [H0 H]. unfold pow.
  destruct (Req_dec_T x 0), (Req_dec_T x' 0); try lra.
  - left. unfold Rpower. apply exp_pos.
  - apply Rle_Rpower_l; lra.
Qed.

Lemma pow_strict x x' y : 0 < y -> 0 <= x < x' -> pow x y < pow x' y.
Proof.
  intros Hy [H0 H]. unfold pow.
  destruct (Req_dec_T x 0), (Req_dec_T x' 0); try lra.
  - unfold Rpower. apply exp_pos.
  - apply Rlt_Rpower_l; lra.
Qed.

(** The distance from the centre, as a share of the half width. *)
Lemma distance_cases x :
  0 <= Rabs (x - 50) / 50
  /\ (0 <= x <= 100 -> Rabs (x - 50) / 50 <= 1)
  /\ Rabs (100 - x - 50) / 50 = Rabs (x - 50) / 50
  /\ (x < 0 \/ 100 < x -> 1 < Rabs (x - 50) / 50).
Proof.
  unfold Rabs.
  destruct (Rcase_abs (x - 50)), (Rcase_abs (100 - x - 50)); repeat split;
    intros; lra.
Qed.

End SandPileFacts.

(** X14. The glass profile: across the width of the glass, 0 to 100, its
    height lies between 0 and 1, it is 1 at the centre and 0 at both walls,
    the two halves mirror each other, it falls towards a wall, and outside
    the glass it is negative. *)
Theorem getGlassHeightAtPosition_profile (x x' : R) :
  (0 <= x <= 100 ->
   0 <= SandPile.getGlassHeightAtPosition x <= 1)%R
  /\ SandPile.getGlassHeightAtPosition 50 = 1%R
  /\ SandPile.getGlassHeightAtPosition 0 = 0%R
  /\ SandPile.getGlassHeightAtPosition 100 = 0%R
  /\ SandPile.getGlassHeightAtPosition (100 - x)
     = SandPile.getGlassHeightAtPosition x
  /\ (50 <= x <= x' ->
      SandPile.getGlassHeightAtPosition x'
      <= SandPile.getGlassHeightAtPosition x)%R
  /\ (x < 0 \/ 100 < x -> SandPile.getGlassHeightAtPosition x < 0)%R.
Proof.
  unfold SandPile.getGlassHeightAtPosition. cbv zeta.
  destruct (SandPileFacts.distance_cases x) as (D0 & D1 & Dm & Dout).
  split; [|split; [|split; [|split; [|split; [|split]]]]].
  - intros H. specialize (D1 H).
    pose proof (SandPileFacts.pow_nonneg (Rabs (x - 50) / 50) (3 / 2)).
    pose proof (SandPileFacts.pow_mono (Rabs (x - 50) / 50) 1 (3 / 2)
                  ltac:(lra) ltac:(lra)) as M.
    rewrite SandPileFacts.pow_one in M. lra.
  - replace (50 - 50)%R with 0%R by lra. rewrite Rabs_R0.
    replace (0 / 50)%R with 0%R by lra. rewrite SandPileFacts.pow_zero. lra.
  - replace (Rabs (0 - 50) / 50)%R with 1%R
      by (unfold Rabs; destruct (Rcase_abs (0 - 50)); lra).
    rewrite SandPileFacts.pow_one. lra.
  - replace (Rabs (100 - 50) / 50)%R with 1%R
      by (unfold Rabs; destruct (Rcase_abs (100 - 50)); lra).
    rewrite SandPileFacts.pow_one. lra.
  - now rewrite Dm.
  - intros H.
    pose proof (SandPileFacts.pow_mono (Rabs (x - 50) / 50)
                  (Rabs (x' - 50) / 50) (3 / 2) ltac:(lra)) as M.
    assert (0 <= Rabs (x - 50) / 50 <= Rabs (x' - 50) / 50)%R.
    { unfold Rabs. destruct (Rcase_abs (x - 50)), (Rcase_abs (x' - 50)); lra. }
    specialize (M ltac:(assumption)). lra.
  - intros H. specialize (Dout H).
    pose proof (SandPileFacts.pow_strict 1 (Rabs (x - 50) / 50) (3 / 2)
                  ltac:(lra) ltac:(lra)) as M.
    rewrite SandPileFacts.pow_one in M. lra.
Qed.

(** X15. The sand surface at a position: it never rises above the limit
    given, above the glass profile, or more than 3% above the average height;
    it peaks at the centre, mirrors itself, ignores the glass width passed to
    it, and touches zero at the walls when the average and the limit are not
    negative. *)
Theorem getSandHeightAtPosition_bounds
    (x averageHeight maxHeight glassWidth glassWidth' : R) :
  let h := SandPile.getSandHeightAtPosition x averageHeight maxHeight glassWidth in
  (h <= maxHeight /\ h <= SandPile.getGlassHeightAtPosition x
   /\ h <= averageHeight + 3 / 100
   /\ h <= SandPile.getSandHeightAtPosition 50 averageHeight maxHeight glassWidth
   /\ SandPile.getSandHeightAtPosition (100 - x) averageHeight maxHeight glassWidth
      = h
   /\ SandPile.getSandHeightAtPosition x averageHeight maxHeight glassWidth' = h
   /\ (0 <= averageHeight -> 0 <= maxHeight ->
       SandPile.getSandHeightAtPosition 0 averageHeight maxHeight glassWidth = 0
       /\ SandPile.getSandHeightAtPosition 100 averageHeight maxHeight glassWidth
          = 0))%R.
Proof.
  intros h. subst h. unfold SandPile.getSandHeightAtPosition. cbv zeta.
  destruct (getGlassHeightAtPosition_profile x x)
    as (_ & G50 & G0 & G100 & Gm & _ & _).
  destruct (SandPileFacts.distance_cases x) as (D0 & _ & Dm & _).
  rewrite Gm, Dm, G50, G0, G100.
  unfold SandPile.min3, SandPile.MAX_PILE_HEIGHT.
  set (g := SandPile.getGlassHeightAtPosition x).
  assert (Gle : (g <= 1)%R).
  { subst g. unfold SandPile.getGlassHeightAtPosition. cbv zeta.
    pose proof (SandPileFacts.pow_nonneg (Rabs (x - 50) / 50) (3 / 2)). lra. }
  replace (Rabs (50 - 50) / 50)%R with 0%R
    by (replace (50 - 50)%R with 0%R by lra; rewrite Rabs_R0; lra).
  replace (Rabs (0 - 50) / 50)%R with 1%R
    by (unfold Rabs; destruct (Rcase_abs (0 - 50)); lra).
  replace (Rabs (100 - 50) / 50)%R with 1%R
    by (unfold Rabs; destruct (Rcase_abs (100 - 50)); lra).
  set (d := (Rabs (x - 50) / 50)%R) in *.
  set (slope := (averageHeight + 3 / 100 * (1 - d))%R).
  assert (H1 : (Rmin (Rmin slope g) maxHeight <= slope)%R)
    by (etransitivity; [apply Rmin_l | apply Rmin_l]).
  assert (H2 : (Rmin (Rmin slope g) maxHeight <= g)%R)
    by (etransitivity; [apply Rmin_l | apply Rmin_r]).
  assert (H3 : (Rmin (Rmin slope g) maxHeight <= maxHeight)%R)
    by apply Rmin_r.
  assert (S : (slope <= averageHeight + 3 / 100)%R) by (subst slope; lra).
  split; [exact H3|]. split; [exact H2|]. split; [lra|].
  split; [|split; [reflexivity|split; [reflexivity|]]].
  - repeat apply Rmin_glb; lra.
  - intros A M.
    replace (averageHeight + 3 / 100 * (1 - 1))%R with averageHeight by lra.
    assert (Z : Rmin (Rmin averageHeight 0) maxHeight = 0%R).
    { rewrite (Rmin_right averageHeight 0) by lra. apply Rmin_left. lra. }
    split; exact Z.
Qed.

(** ** The calendar grid *)

Module CalendarFacts.
Import JSDate JSDateFacts.

Lemma MakeDay_day y m d : MakeDay y m d = MakeDay y m 1 + (d - 1).
Proof. unfold MakeDay. lia. Qed.

Lemma monthStart_next leap m :
  0 <= m <= 10 -> monthStart leap (m + 1) = monthStart leap m + DaysInMonth leap m.
Proof.
  intros H.
  assert (C : m = 0 \/ m = 1 \/ m = 2 \/ m = 3 \/ m = 4 \/ m = 5 \/ m = 6
              \/ m = 7 \/ m = 8 \/ m = 9 \/ m = 10) by lia.
  destruct leap; repeat (destruct C as [C|C]; [subst m; reflexivity|]);
    subst m; reflexivity.
Qed.

Lemma MakeDay_next_month y m :
  0 <= m <= 11 ->
  MakeDay y (m + 1) 1 = MakeDay y m 1 + DaysInMonth (DaysInYear y =? 366) m.
Proof.
  intros H. destruct (Z.eq_dec m 11) as [->|N].
  - unfold MakeDay. replace (11 + 1) with 12 by lia.
    change (12 / 12) with 1. change (12 mod 12) with 0. change (11 / 12) with 0.
    change (11 mod 12) with 11. replace (y + 0) with y by lia.
    rewrite DayFromYear_succ. pose proof (DaysInYear_range y).
    change (monthStart (DaysInYear (y + 1) =? 366) 0) with 0.
    destruct (Z.eqb_spec (DaysInYear y) 366); cbn; lia.
  - unfold MakeDay.
    replace ((m + 1) / 12) with 0 by zdiv. replace (m / 12) with 0 by zdiv.
    replace ((m + 1) mod 12) with (m + 1) by zdiv.
    replace (m mod 12) with m by zdiv. rewrite Z.add_0_r.
    rewrite monthStart_next by lia. lia.
Qed.

Lemma DaysInMonth_range leap m : 28 <= DaysInMonth leap m <= 31.
Proof.
  unfold DaysInMonth. destruct (m =? 1); [destruct leap; lia|].
  destruct ((m =? 3) || (m =? 5) || (m =? 8) || (m =? 10)); lia.
Qed.

(** The fields of the [k]-th day of a month. *)
Lemma month_day y m k :
  0 <= m <= 11 -> 0 <= k < DaysInMonth (DaysInYear y =? 366) m ->
  getFullYear (MakeDay y m 1 + k) = y /\ getMonth (MakeDay y m 1 + k) = m
  /\ getDate (MakeDay y m 1 + k) = k + 1.
Proof.
  intros Hm Hk. replace (MakeDay y m 1 + k) with (MakeDay y m (k + 1))
    by (rewrite (MakeDay_day y m (k + 1)); lia).
  apply fields_MakeDay; lia.
Qed.

Lemma DateFromTime_le d :
  DateFromTime d <= DaysInMonth (InLeapYear d) (MonthFromTime d).
Proof.
  pose proof (DayWithinYear_range d) as W.
  unfold DateFromTime, MonthFromTime, monthStart, DaysInMonth, InLeapYear in *.
  destruct (Z.eqb_spec (DaysInYear (YearFromTime d)) 366) as [E|E];
    [rewrite E in W | pose proof (DaysInYear_range (YearFromTime d))];
    repeat match goal with
      | |- context [if (?a <? ?b) then _ else _] => destruct (Z.ltb_spec a b)
      end; cbn; lia.
Qed.

(** Going back [i] days inside a month. *)
Lemma date_back d i :
  0 <= i < getDate d ->
  getFullYear (d - i) = getFullYear d /\ getMonth (d - i) = getMonth d
  /\ getDate (d - i) = getDate d - i.
Proof.
  intros H. unfold getFullYear, getMonth, getDate in *.
  pose proof (MakeDay_fields d (- i)) as F.
  replace (d + - i) with (d - i) in F by lia. rewrite <- F.
  pose proof (DateFromTime_le d). pose proof (MonthFromTime_range d).
  replace (DateFromTime d + - i) with (DateFromTime d - i) by lia.
  apply fields_MakeDay; [assumption|]. unfold InLeapYear in *. lia.
Qed.

(** The month before and the month after, as [new Date] normalises them. *)
Lemma MakeDay_carry y m d :
  MakeDay y m d = MakeDay (y + m / 12) (m mod 12) d.
Proof.
  unfold MakeDay.
  replace (m mod 12 / 12) with 0 by zdiv.
  replace (m mod 12 mod 12) with (m mod 12) by zdiv.
  now rewrite Z.add_0_r.
Qed.

Lemma month_first y m :
  getFullYear (MakeDay y m 1) = y + m / 12
  /\ getMonth (MakeDay y m 1) = m mod 12
  /\ getDate (MakeDay y m 1) = 1.
Proof.
  rewrite MakeDay_carry. apply fields_MakeDay; [zdiv|].
  pose proof (DaysInMonth_range (DaysInYear (y + m / 12) =? 366) (m mod 12)).
  lia.
Qed.

(** The last day of the month before [m]. *)
Lemma month_before y m :
  let p := MakeDay y m 1 - 1 in
  28 <= getDate p /\ getMonth p = (m - 1) mod 12.
Proof.
  cbv zeta.
  assert (E : MakeDay y m 1 = MakeDay y (m - 1) 1
              + DaysInMonth (DaysInYear (y + (m - 1) / 12) =? 366)
                  ((m - 1) mod 12)).
  { rewrite (MakeDay_carry y (m - 1)).
    rewrite <- MakeDay_next_month by zdiv.
    rewrite (MakeDay_carry y m), (MakeDay_carry _ ((m - 1) mod 12 + 1)).
    f_equal; zdiv. }
  set (dim := DaysInMonth (DaysInYear (y + (m - 1) / 12) =? 366)
                ((m - 1) mod 12)) in *.
  pose proof (DaysInMonth_range (DaysInYear (y + (m - 1) / 12) =? 366)
                ((m - 1) mod 12)) as R. fold dim in R.
  rewrite E, (MakeDay_carry y (m - 1)).
  replace (MakeDay (y + (m - 1) / 12) ((m - 1) mod 12) 1 + dim - 1)
    with (MakeDay (y + (m - 1) / 12) ((m - 1) mod 12) 1 + (dim - 1)) by lia.
  destruct (month_day (y + (m - 1) / 12) ((m - 1) mod 12) (dim - 1))
    as (_ & M & D); [zdiv | fold dim; lia |].
  rewrite M, D. lia.
Qed.

Lemma map_seq_shift {A} (f : nat -> A) a b n :
  map f (seq (a + b) n) = map (fun k => f (a + k)%nat) (seq b n).
Proof.
  revert b. induction n as [|n IH]; intros b; [reflexivity|].
  cbn [seq map]. f_equal. replace (S (a + b)) with (a + S b)%nat by lia.
  apply IH.
Qed.

Lemma rev_seq n :
  rev (seq 0 n) = map (fun j => (n - 1 - j)%nat) (seq 0 n).
Proof.
  induction n as [|n IH]; [reflexivity|].
  rewrite seq_S at 1. rewrite rev_app_distr. cbn [rev app Nat.add].
  rewrite IH. cbn [seq map]. f_equal; [lia|].
  change 1%nat with (1 + 0)%nat. rewrite map_seq_shift.
  apply map_ext_in. intros j Hj. apply in_seq in Hj. lia.
Qed.

Lemma make_plain year m d :
  100 <= year -> JSDate.make year m d = MakeDay year m d.
Proof.
  intros H. unfold JSDate.make.
  destruct (Z.leb_spec 0 year), (Z.leb_spec year 99);
    cbn [andb]; try lia; reflexivity.
Qed.

Section Grid.

Variable dataOf : Z -> DayData.
Variable today : JSDate.t.
Variables year month : Z.
Hypothesis Hyear : 100 <= year.
Hypothesis Hmonth : 0 <= month <= 11.

Let first := MakeDay year month 1.
Let dim := DaysInMonth (DaysInYear year =? 366) month.
Let fdw := getDay first.

Lemma lastDay_date : getDate (JSDate.make year (month + 1) 0) = dim.
Proof.
  rewrite make_plain by assumption. rewrite (MakeDay_day year (month + 1) 0).
  rewrite MakeDay_next_month by assumption. fold first dim.
  pose proof (DaysInMonth_range (DaysInYear year =? 366) month) as R.
  fold dim in R.
  replace (first + dim + (0 - 1)) with (first + (dim - 1)) by lia.
  destruct (month_day year month (dim - 1) Hmonth) as (_ & _ & D);
    [fold dim; lia|]. fold first in D. rewrite D. lia.
Qed.

Lemma grid_cells :
  let cells := renderSingleMonth dataOf today year month in
  let r := if Z.rem (fdw + dim) 7 =? 0 then 0 else 7 - Z.rem (fdw + dim) 7 in
  0 <= fdw <= 6 /\ 0 <= r <= 6 /\ (fdw + dim + r) mod 7 = 0
  /\ List.length cells = Z.to_nat (fdw + dim + r)
  /\ map cellDay cells
     = map (fun j => getDate (first - fdw + Z.of_nat j))
         (seq 0 (List.length cells))
  /\ map isDayCell cells
     = map (fun j => (getMonth (first - fdw + Z.of_nat j) =? month))
         (seq 0 (List.length cells)).
Proof.
  cbv zeta. unfold renderSingleMonth. cbv zeta.
  rewrite lastDay_date, !make_plain by assumption. fold first fdw.
  pose proof (WeekDay_range first) as W. fold (getDay first) in W. fold fdw in W.
  pose proof (DaysInMonth_range (DaysInYear year =? 366) month) as R.
  fold dim in R.
  set (r := if Z.rem (fdw + dim) 7 =? 0 then 0 else 7 - Z.rem (fdw + dim) 7).
  assert (Hr : 0 <= r <= 6 /\ (fdw + dim + r) mod 7 = 0).
  { subst r. rewrite Z.rem_mod_nonneg by lia.
    destruct (Z.eqb_spec ((fdw + dim) mod 7) 0); zdiv. }
  destruct Hr as [Hr Hmod].
  split; [exact W|]. split; [exact Hr|]. split; [exact Hmod|].
  assert (Len : List.length
    (map (fun i => otherMonthCell (getDate (MakeDay year month 0) - Z.of_nat i))
       (rev (seq 0 (Z.to_nat fdw)))
     ++ map (fun k => dayCell
               (dayClassName year month (Z.of_nat k) today (dataOf (Z.of_nat k)))
               (dayTitle year month (Z.of_nat k)) (Z.of_nat k))
          (seq 1 (Z.to_nat dim))
     ++ map (fun k => otherMonthCell (Z.of_nat k)) (seq 1 (Z.to_nat r)))
    = (Z.to_nat fdw + (Z.to_nat dim + Z.to_nat r))%nat).
  { rewrite !length_app, !length_map, length_rev, !length_seq. reflexivity. }
  split; [rewrite Len; lia|]. rewrite Len.
  rewrite !seq_app, !map_app, !map_map. cbn [cellDay isDayCell Nat.add].
  assert (P : MakeDay year month 0 = first - 1)
    by (rewrite (MakeDay_day year month 0); fold first; lia).
  destruct (month_before year month) as [P28 Pm]. cbv zeta in P28, Pm.
  fold first in P28, Pm.
  assert (Pm' : (month - 1) mod 12 <> month) by zdiv.
  assert (Nx : MakeDay year (month + 1) 1 = first + dim)
    by (rewrite MakeDay_next_month by assumption; reflexivity).
  assert (Nm : (month + 1) mod 12 <> month) by zdiv.
  split.
  - f_equal; [|f_equal].
    + rewrite rev_seq, map_map. apply map_ext_in. intros j Hj.
      apply in_seq in Hj. rewrite P.
      destruct (date_back (first - 1) (Z.of_nat (Z.to_nat fdw - 1 - j)))
        as (_ & _ & D); [lia|].
      rewrite <- D. f_equal. lia.
    + change 1%nat with (1 + 0)%nat at 1.
      replace (Z.to_nat fdw) with (Z.to_nat fdw + 0)%nat at 1 by lia.
      rewrite !map_seq_shift. apply map_ext_in. intros k Hk.
      apply in_seq in Hk.
      destruct (month_day year month (Z.of_nat k) Hmonth) as (_ & _ & D);
        [fold dim; lia|]. fold first in D.
      replace (first - fdw + Z.of_nat (Z.to_nat fdw + k))
        with (first + Z.of_nat k) by lia. rewrite D. lia.
    + change 1%nat with (1 + 0)%nat at 1.
      replace (Z.to_nat fdw + Z.to_nat dim)%nat
        with (Z.to_nat fdw + Z.to_nat dim + 0)%nat by lia.
      rewrite !map_seq_shift. apply map_ext_in. intros k Hk.
      apply in_seq in Hk.
      replace (first - fdw + Z.of_nat (Z.to_nat fdw + Z.to_nat dim + k))
        with (MakeDay year (month + 1) 1 + Z.of_nat k) by lia.
      rewrite (MakeDay_carry year (month + 1)).
      destruct (month_day (year + (month + 1) / 12) ((month + 1) mod 12)
                  (Z.of_nat k)) as (_ & _ & D); [zdiv | |].
      * pose proof (DaysInMonth_range
                      (DaysInYear (year + (month + 1) / 12) =? 366)
                      ((month + 1) mod 12)). lia.
      * rewrite D. lia.
  - f_equal; [|f_equal].
    + rewrite rev_seq, map_map. apply map_ext_in. intros j Hj.
      apply in_seq in Hj.
      destruct (date_back (first - 1) (Z.of_nat (Z.to_nat fdw - 1 - j)))
        as (_ & M & _); [lia|].
      replace (first - fdw + Z.of_nat j)
        with (first - 1 - Z.of_nat (Z.to_nat fdw - 1 - j)) by lia.
      rewrite M, Pm. symmetry. now apply Z.eqb_neq.
    + replace (Z.to_nat fdw) with (Z.to_nat fdw + 0)%nat at 1 by lia.
      rewrite map_seq_shift.
      change (seq 1 (Z.to_nat dim)) with (seq (1 + 0) (Z.to_nat dim)).
      rewrite (map_seq_shift (fun _ => true)).
      apply map_ext_in. intros k Hk. apply in_seq in Hk.
      destruct (month_day year month (Z.of_nat k) Hmonth) as (_ & M & _);
        [fold dim; lia|]. fold first in M.
      replace (first - fdw + Z.of_nat (Z.to_nat fdw + k))
        with (first + Z.of_nat k) by lia. rewrite M.
      symmetry. apply Z.eqb_refl.
    + replace (Z.to_nat fdw + Z.to_nat dim)%nat
        with (Z.to_nat fdw + Z.to_nat dim + 0)%nat by lia.
      rewrite map_seq_shift.
      change (seq 1 (Z.to_nat r)) with (seq (1 + 0) (Z.to_nat r)).
      rewrite (map_seq_shift (fun _ => false)).
      apply map_ext_in. intros k Hk. apply in_seq in Hk.
      replace (first - fdw + Z.of_nat (Z.to_nat fdw + Z.to_nat dim + k))
        with (MakeDay year (month + 1) 1 + Z.of_nat k) by lia.
      rewrite (MakeDay_carry year (month + 1)).
      destruct (month_day (year + (month + 1) / 12) ((month + 1) mod 12)
                  (Z.of_nat k)) as (_ & M & _); [zdiv | |].
      * pose proof (DaysInMonth_range
                      (DaysInYear (year + (month + 1) / 12) =? 366)
                      ((month + 1) mod 12)). lia.
      * rewrite M. symmetry. now apply Z.eqb_neq.
Qed.
End Grid.

Lemma classOf_weekday h s0 s6 t d :
  styledWeekday (classOf h s0 s6 t d) = negb s0 && negb s6 && negb h.
Proof. destruct h, s0, s6, t, d; reflexivity. Qed.

Lemma classOf_holiday s0 s6 t d :
  exists rest,
    classOf true s0 s6 t d = ("calendar-day holiday" ++ rest)%string.
Proof. destruct t, d; eexists; reflexivity. Qed.

Lemma listed_truthy date :
  listedInTable date -> truthy (holidayAt date) = true.
Proof.
  intros L. apply DeliveryFacts.isListedHoliday_iff in L. exact L.
Qed.

Lemma dayClassName_classOf year month day today data :
  dayClassName year month day today data
  = classOf (truthy (isHoliday year month day))
      (getDay (JSDate.make year month day) =? 0)
      (getDay (JSDate.make year month day) =? 6)
      ((getFullYear today =? year) && (getMonth today =? month)
       && (getDate today =? day))
      (hasWork data || (0 <? shipmentQty data) || (0 <? arrivalQty data)).
Proof. reflexivity. Qed.

End CalendarFacts.

(** X16. For a month of a year from 100 on, the grid [renderSingleMonth]
    builds is made of whole weeks, four to six of them; its cells show
    consecutive calendar dates beginning on a Sunday, so every date stands in
    the column of its weekday; and the cells of the month itself are exactly
    the dates that fall in that month, the others being the end of the month
    before and the start of the month after. *)
Theorem renderSingleMonth_grid (dataOf : Z -> DayData) (today : JSDate.t)
    (year month : Z) :
  100 <= year -> 0 <= month <= 11 ->
  let cells := renderSingleMonth dataOf today year month in
  let start := JSDate.make year month 1 - getDay (JSDate.make year month 1) in
  getDay start = 0
  /\ (List.length cells mod 7 = 0)%nat
  /\ (28 <= List.length cells <= 42)%nat
  /\ map cellDay cells
     = map (fun j => getDate (start + Z.of_nat j)) (seq 0 (List.length cells))
  /\ map isDayCell cells
     = map (fun j => getMonth (start + Z.of_nat j) =? month)
         (seq 0 (List.length cells))
  /\ (forall j, (j < List.length cells)%nat ->
        getDay (start + Z.of_nat j) = Z.of_nat (j mod 7)).
Proof.
  intros Hy Hm. cbv zeta.
  rewrite (CalendarFacts.make_plain year month 1 Hy).
  destruct (CalendarFacts.grid_cells dataOf today year month Hy Hm)
    as (W & R & M & L & D & I).
  cbv zeta in *.
  set (cells := renderSingleMonth dataOf today year month) in *.
  set (start := JSDate.MakeDay year month 1
                - getDay (JSDate.MakeDay year month 1)) in *.
  pose proof (CalendarFacts.DaysInMonth_range
                (JSDate.DaysInYear year =? 366) month) as Dim.
  match type of R with 0 <= ?t <= 6 => set (r := t) in * end.
  clearbody r.
  set (dim := JSDate.DaysInMonth (JSDate.DaysInYear year =? 366) month) in *.
  set (fdw := getDay (JSDate.MakeDay year month 1)) in *.
  assert (Bound : 28 <= fdw + dim + r <= 42)
    by (Z.to_euclidean_division_equations; lia).
  assert (S0 : getDay start = 0).
  { subst start fdw. unfold getDay, JSDate.WeekDay.
    Z.to_euclidean_division_equations. lia. }
  split; [exact S0|]. split.
  - rewrite L. apply Nat2Z.inj. rewrite Nat2Z.inj_mod, Z2Nat.id by lia.
    exact M.
  - split; [rewrite L; lia|]. split; [exact D|]. split; [exact I|].
    intros j Hj. rewrite Nat2Z.inj_mod. clear - S0.
    unfold getDay, JSDate.WeekDay in *.
    Z.to_euclidean_division_equations. lia.
Qed.

Lemma renderSingleMonth_grid_witness :
  (100 <= 2025 /\ 0 <= 0 <= 11)
  /\ getDay (JSDate.make 2025 0 1 - getDay (JSDate.make 2025 0 1)) = 0.
Proof.
  split; [lia|].
  apply (renderSingleMonth_grid (fun _ => mkDayData false 0 0) 0 2025 0); lia.
Defined.

(** X17. The calendar and the delivery calculator agree on what a working
    day is: a day of a month is styled ['calendar-day weekday'] exactly when
    [calculateDelivery] counts it as a business day, whatever else is added
    to its class, and its tooltip is the name the holiday table gives to that
    date (a listed holiday is styled as a holiday even on a weekend). *)
Theorem calendar_style_matches_business_day
    (year month day : Z) (today : JSDate.t) (data : DayData) :
  100 <= year -> 0 <= month <= 11 ->
  1 <= day <= JSDate.DaysInMonth (JSDate.DaysInYear year =? 366) month ->
  styledWeekday (dayClassName year month day today data)
  = isBusinessDay (JSDate.make year month day)
  /\ dayTitle year month day = holidayOfDate holidays year (month + 1) day
  /\ (listedInTable (JSDate.make year month day) ->
      exists rest,
        dayClassName year month day today data
        = ("calendar-day holiday" ++ rest)%string).
Proof.
  intros Hy Hm Hd.
  destruct (JSDateFacts.make_fields year month day Hy Hm Hd) as (FY & FM & FD).
  assert (HA : holidayAt (JSDate.make year month day)
               = isHoliday year month day)
    by (unfold holidayAt; now rewrite FY, FM, FD).
  assert (Dr : 1 <= day <= 31).
  { pose proof (CalendarFacts.DaysInMonth_range
                  (JSDate.DaysInYear year =? 366) month). lia. }
  pose proof (HolidayFacts.isHoliday_calendar year month day Hm Dr) as HC.
  split; [|split].
  - rewrite CalendarFacts.dayClassName_classOf, CalendarFacts.classOf_weekday.
    unfold isBusinessDay. now rewrite HA.
  - unfold dayTitle. rewrite HC.
    destruct (holidayOfDate holidays year (month + 1) day) as [name|] eqn:E;
      [|reflexivity].
    cbn [ofName]. apply WindowFacts.holidayOfDate_entry in E as (k & I & _).
    pose proof (proj1 (forallb_forall _ _) DeliveryFacts.names_nonempty _ I)
      as N. cbn [snd] in N. cbn [truthy]. now rewrite N.
  - intros Listed. apply CalendarFacts.listed_truthy in Listed.
    rewrite HA in Listed.
    rewrite CalendarFacts.dayClassName_classOf, Listed.
    apply CalendarFacts.classOf_holiday.
Qed.

Lemma calendar_style_matches_business_day_witness :
  (100 <= 2025 /\ 0 <= 0 <= 11
   /\ 1 <= 13 <= JSDate.DaysInMonth (JSDate.DaysInYear 2025 =? 366) 0)
  /\ styledWeekday (dayClassName 2025 0 13 0 (mkDayData false 0 0))
     = isBusinessDay (JSDate.make 2025 0 13).
Proof.
  assert (D : 1 <= 13 <= JSDate.DaysInMonth (JSDate.DaysInYear 2025 =? 366) 0)
    by (change (JSDate.DaysInMonth (JSDate.DaysInYear 2025 =? 366) 0) with 31;
        lia).
  split; [repeat split; try lia; apply D|].
  apply (calendar_style_matches_business_day 2025 0 13 0 (mkDayData false 0 0));
    [lia | lia | exact D].
Defined.

(** X18. [renderSixMonthCalendar] shows six months in a row, whatever the
    recorded data: it renders exactly six months, and for every [i] below six
    its [i]-th month is the grid [renderSingleMonth] builds for the month
    [calendarStartOffset + i] months after the current one, carried into the
    right year, with a month number in 0..11.  With an offset of zero the
    first month is the current one, and moving the offset by six shows the
    six months that follow. *)
Theorem sixMonthCalendar_consecutive
    (dataOf : Z -> Z -> Z -> DayData) (today : JSDate.t)
    (calendarStartOffset : Z) :
  100 <= getFullYear today ->
  List.length (renderSixMonthCalendar dataOf today calendarStartOffset) = 6%nat
  /\ (forall i : nat, (i < 6)%nat ->
        let index :=
          12 * getFullYear today + getMonth today + calendarStartOffset
          + Z.of_nat i in
        nth_error (renderSixMonthCalendar dataOf today calendarStartOffset) i
        = Some (index / 12, index mod 12,
                renderSingleMonth (dataOf (index / 12) (index mod 12)) today
                  (index / 12) (index mod 12)))
  /\ nth_error (renderSixMonthCalendar dataOf today 0) 0
     = Some (getFullYear today, getMonth today,
             renderSingleMonth (dataOf (getFullYear today) (getMonth today))
               today (getFullYear today) (getMonth today))
  /\ (forall i : nat, (i < 6)%nat ->
        let index :=
          12 * getFullYear today + getMonth today + calendarStartOffset
          + 6 + Z.of_nat i in
        nth_error
          (renderSixMonthCalendar dataOf today (calendarStartOffset + 6)) i
        = Some (index / 12, index mod 12,
                renderSingleMonth (dataOf (index / 12) (index mod 12)) today
                  (index / 12) (index mod 12)))
  /\ (forall i : Z,
        let ym := sixMonthCalendarMonth today calendarStartOffset i in
        0 <= snd ym <= 11
        /\ 12 * fst ym + snd ym
           = 12 * getFullYear today + getMonth today + calendarStartOffset + i
        /\ sixMonthCalendarMonth today (calendarStartOffset + 6) i
           = sixMonthCalendarMonth today calendarStartOffset (i + 6))
  /\ sixMonthCalendarMonth today 0 0 = (getFullYear today, getMonth today).
Proof.
  intros Hy. cbv zeta.
  assert (F : forall o k,
            sixMonthCalendarMonth today o k
            = (getFullYear today + (getMonth today + o + k) / 12,
               (getMonth today + o + k) mod 12)).
  { intros o k. unfold sixMonthCalendarMonth. cbv zeta.
    rewrite CalendarFacts.make_plain by assumption.
    destruct (CalendarFacts.month_first (getFullYear today)
                (getMonth today + o + k)) as (A & B & _).
    now rewrite A, B. }
  assert (G : forall o k,
            sixMonthCalendarMonth today o k
            = ((12 * getFullYear today + getMonth today + o + k) / 12,
               (12 * getFullYear today + getMonth today + o + k) mod 12)).
  { intros o k. rewrite F.
    f_equal; Z.to_euclidean_division_equations; lia. }
  assert (N : forall o (i : nat), (i < 6)%nat ->
            nth_error (renderSixMonthCalendar dataOf today o) i
            = Some ((12 * getFullYear today + getMonth today + o + Z.of_nat i)
                    / 12,
                    (12 * getFullYear today + getMonth today + o + Z.of_nat i)
                    mod 12,
                    renderSingleMonth
                      (dataOf
                         ((12 * getFullYear today + getMonth today + o
                           + Z.of_nat i) / 12)
                         ((12 * getFullYear today + getMonth today + o
                           + Z.of_nat i) mod 12))
                      today
                      ((12 * getFullYear today + getMonth today + o
                        + Z.of_nat i) / 12)
                      ((12 * getFullYear today + getMonth today + o
                        + Z.of_nat i) mod 12))).
  { intros o i Hi. unfold renderSixMonthCalendar.
    rewrite nth_error_map, (nth_error_nth' _ 0%nat)
      by (rewrite length_seq; exact Hi).
    rewrite seq_nth by exact Hi. cbn [option_map Nat.add].
    now rewrite G. }
  pose proof (JSDateFacts.MonthFromTime_range today) as M.
  fold (getMonth today) in M.
  split; [unfold renderSixMonthCalendar; now rewrite length_map, length_seq|].
  split; [intros i Hi; now apply N|].
  split.
  { rewrite (N 0 0%nat) by lia.
    replace ((12 * getFullYear today + getMonth today + 0 + Z.of_nat 0) / 12)
      with (getFullYear today)
      by (Z.to_euclidean_division_equations; lia).
    replace ((12 * getFullYear today + getMonth today + 0 + Z.of_nat 0)
             mod 12)
      with (getMonth today)
      by (Z.to_euclidean_division_equations; lia).
    reflexivity. }
  split.
  { intros i Hi. rewrite (N (calendarStartOffset + 6) i Hi).
    replace (12 * getFullYear today + getMonth today
             + (calendarStartOffset + 6) + Z.of_nat i)
      with (12 * getFullYear today + getMonth today + calendarStartOffset
            + 6 + Z.of_nat i) by lia.
    reflexivity. }
  split.
  - intros i. rewrite !F. cbn [fst snd].
    split; [Z.to_euclidean_division_equations; lia|].
    split; [Z.to_euclidean_division_equations; lia|].
    replace (getMonth today + (calendarStartOffset + 6) + i)
      with (getMonth today + calendarStartOffset + (i + 6)) by lia.
    reflexivity.
  - rewrite F. f_equal; Z.to_euclidean_division_equations; lia.
Qed.

Lemma sixMonthCalendar_consecutive_witness :
  100 <= getFullYear (JSDate.make 2025 10 13)
  /\ List.length
       (renderSixMonthCalendar (fun _ _ _ => mkDayData false 0 0)
          (JSDate.make 2025 10 13) 0) = 6%nat
  /\ nth_error
       (renderSixMonthCalendar (fun _ _ _ => mkDayData false 0 0)
          (JSDate.make 2025 10 13) 0) 3
     = Some (2026, 1,
             renderSingleMonth (fun _ => mkDayData false 0 0)
               (JSDate.make 2025 10 13) 2026 1).
Proof.
  assert (H : 100 <= getFullYear (JSDate.make 2025 10 13))
    by (apply Z.leb_le; vm_compute; reflexivity).
  split; [exact H|].
  pose proof (sixMonthCalendar_consecutive (fun _ _ _ => mkDayData false 0 0)
                (JSDate.make 2025 10 13) 0 H) as T.
  split; [exact (proj1 T)|].
  exact (proj1 (proj2 T) 3%nat ltac:(lia)).
Defined.

(** ** Task recording *)

Module TaskLogFacts.

Import TaskLog.

Lemma chain_weaken t t' rs : t <= t' -> chain t rs -> chain t' rs.
Proof. destruct rs as [|r rs]; cbn; [tauto|]. intros; intuition lia. Qed.

Lemma nameTruthy_named name : name <> EmptyString -> nameTruthy (Some name) = true.
Proof. destruct name; [congruence | reflexivity]. Qed.

Lemma clear_own h : clearInterval (Some h) [h] = [].
Proof. cbn. now rewrite Z.eqb_refl. Qed.

Lemma stopTask_running t0 t old st now name s h new :
  taskRecords st = (new ++ old)%list ->
  Forall (fun r => t0 <= startTime r) new ->
  currentTask st = Some name -> name <> EmptyString ->
  taskStartTime st = Some s -> t0 <= s <= t -> t <= now ->
  taskTimerInterval st = Some h -> intervals st = [h] -> chain s new ->
  exists st',
    stopTask now st = Some st'
    /\ taskRecords st'
       = mkTaskRecord name s now ((now - s) / 1000) :: taskRecords st
    /\ nextInterval st' = nextInterval st
    /\ Inv t0 now old st'.
Proof.
  intros R F C N S B T H L Ch. unfold stopTask.
  rewrite C, S, H, L, (nameTruthy_named _ N), clear_own. cbn [negb].
  eexists. split; [reflexivity|]. cbn [taskRecords nextInterval].
  split; [reflexivity|]. split; [reflexivity|].
  exists (mkTaskRecord name s now ((now - s) / 1000) :: new).
  cbn [taskRecords currentTask taskStartTime taskTimerInterval intervals].
  split; [now rewrite R|]. split; [constructor; [cbn; lia | exact F]|].
  left. repeat split; cbn; try lia. exact Ch.
Qed.

Lemma stopTask_idle st now :
  nameTruthy (currentTask st) = false -> stopTask now st = Some st.
Proof. intros H. unfold stopTask. now rewrite H. Qed.

Lemma start_idle t0 t old st now taskName :
  taskName <> EmptyString -> t0 <= t <= now ->
  currentTask st = None -> taskTimerInterval st = None ->
  intervals st = [] ->
  (exists new, taskRecords st = (new ++ old)%list
               /\ Forall (fun r => t0 <= startTime r) new /\ chain t new) ->
  Inv t0 now old (startTaskWithName taskName now st)
  /\ taskRecords (startTaskWithName taskName now st) = taskRecords st.
Proof.
  intros N T C H L (new & R & F & Ch). split; [|reflexivity].
  exists new. unfold startTaskWithName. rewrite H, L.
  cbn [handleTruthy taskRecords currentTask taskStartTime taskTimerInterval
       intervals].
  split; [exact R|]. split; [exact F|]. right.
  exists taskName, now, (nextInterval st).
  repeat split; try assumption; try lia.
  apply chain_weaken with t; [lia | exact Ch].
Qed.

Lemma Inv_weaken t0 t t' old st : t <= t' -> Inv t0 t old st -> Inv t0 t' old st.
Proof.
  intros T (new & R & F & [(C & S & H & L & Ch)|(n & s & h & C & N & S & B & H & L & Ch)]);
    exists new; (split; [exact R|]); (split; [exact F|]).
  - left. repeat split; try assumption. now apply chain_weaken with t.
  - right. exists n, s, h. repeat split; try assumption; lia.
Qed.

(** One event keeps the invariant and files at most one record. *)
Lemma step_Inv t0 t old st e :
  Inv t0 t old st -> named e -> clockOk t [e] -> t0 <= t ->
  exists st' t',
    step e st = Some st' /\ t <= t' /\ Inv t0 t' old st'
    /\ t' = match e with QuickStart _ _ now' => now' | Stop now => now end
    /\ (exists more, taskRecords st' = (more ++ taskRecords st)%list
                     /\ (List.length more <= 1)%nat).
Proof.
  intros I N Ck T0. pose proof I as I0.
  destruct I as (new & R & F & [(C & S & H & L & Ch)|(n & s & h & C & Nn & S & B & H & L & Ch)]).
  - (* idle *)
    destruct e as [taskName now now'|now]; cbn in Ck, N |- *.
    + unfold quickStartTask. rewrite C. cbn [sameTask nameTruthy].
      destruct (start_idle t0 t old st now' taskName N ltac:(lia) C H L)
        as (I' & R').
      { exists new. auto. }
      eexists _, now'. split; [reflexivity|]. split; [lia|].
      split; [exact I'|]. split; [reflexivity|].
      exists []. rewrite R'. split; [reflexivity | cbn; lia].
    + rewrite stopTask_idle by now rewrite C.
      exists st, now. split; [reflexivity|]. split; [lia|].
      split; [apply Inv_weaken with t; [lia | exact I0]|].
      split; [reflexivity|]. exists []. split; [reflexivity | cbn; lia].
  - (* a task is running *)
    destruct e as [taskName now now'|now]; cbn in Ck, N |- *.
    + destruct (stopTask_running t0 t old st now n s h new R F C Nn S B
                  ltac:(lia) H L Ch) as (st1 & E1 & R1 & _ & I1).
      unfold quickStartTask. rewrite C. cbn [sameTask].
      rewrite (nameTruthy_named _ Nn), E1.
      destruct (String.eqb n taskName).
      * exists st1, now'. split; [reflexivity|]. split; [lia|].
        split; [apply Inv_weaken with now; [lia | exact I1]|].
        split; [reflexivity|]. eexists [_]. rewrite R1.
        split; [reflexivity | cbn; lia].
      * destruct I1 as (new1 & R1' & F1 & [(C1 & S1 & H1 & L1 & Ch1)|(? & ? & ? & C1 & _)]).
        2:{ pose proof E1 as E1'. unfold stopTask in E1'.
            rewrite C, S, (nameTruthy_named _ Nn) in E1'. cbn in E1'.
            injection E1' as <-. discriminate C1. }
        destruct (start_idle t0 now old st1 now' taskName N ltac:(lia) C1 H1 L1)
          as (I' & R').
        { exists new1. auto. }
        eexists _, now'. split; [reflexivity|]. split; [lia|].
        split; [exact I'|]. split; [reflexivity|].
        eexists [_]. rewrite R', R1. split; [reflexivity | cbn; lia].
    + destruct (stopTask_running t0 t old st now n s h new R F C Nn S B
                  ltac:(lia) H L Ch) as (st1 & E1 & R1 & _ & I1).
      exists st1, now. split; [exact E1|]. split; [lia|].
      split; [exact I1|]. split; [reflexivity|]. eexists [_]. rewrite R1.
      split; [reflexivity | cbn; lia].
Qed.

Lemma clockOk_head t e events :
  clockOk t (e :: events)
  -> clockOk t [e]
     /\ clockOk (match e with QuickStart _ _ now' => now' | Stop now => now end)
          events.
Proof. destruct e; cbn; tauto. Qed.

Lemma run_Inv events : forall t0 t old st,
  Inv t0 t old st -> Forall named events -> clockOk t events -> t0 <= t ->
  exists st' t',
    run events st = Some st' /\ t <= t' /\ Inv t0 t' old st'
    /\ (exists more, taskRecords st' = (more ++ taskRecords st)%list
                     /\ (List.length more <= List.length events)%nat).
Proof.
  induction events as [|e events IH]; intros t0 t old st I N Ck T0.
  - exists st, t. split; [reflexivity|]. split; [lia|]. split; [exact I|].
    exists []. split; [reflexivity | cbn; lia].
  - inversion N as [|? ? Ne Nes]; subst.
    apply clockOk_head in Ck as (Ce & Ces).
    destruct (step_Inv t0 t old st e I Ne Ce T0)
      as (st1 & t1 & E1 & T1 & I1 & -> & more1 & R1 & L1).
    destruct (IH t0 _ old st1 I1 Nes Ces ltac:(lia))
      as (st2 & t2 & E2 & T2 & I2 & more2 & R2 & L2).
    exists st2, t2. cbn [run]. rewrite E1. split; [exact E2|].
    split; [lia|]. split; [exact I2|]. exists (more2 ++ more1)%list.
    rewrite R2, R1, app_assoc. split; [reflexivity|].
    rewrite length_app. cbn [List.length]. lia.
Qed.

End TaskLogFacts.

(** X19. Whatever buttons are clicked, as long as the task names are not
    empty and the clock does not go back: no call fails, the records filed
    are put in front of the stored ones, at most one per click, each with a
    start not after its end and its length in whole seconds, none
    overlapping another or the task still running; and a timer is running
    exactly when a task is being recorded, never more than one. *)
Theorem task_records_never_overlap
    (events : list TaskLog.event) (saved : list TaskLog.TaskRecord)
    (next t0 : Z) :
  TaskLog.clockOk t0 events -> Forall TaskLog.named events ->
  exists st new,
    TaskLog.run events (TaskLog.idle saved next) = Some st
    /\ TaskLog.taskRecords st = (new ++ saved)%list
    /\ (List.length new <= List.length events)%nat
    /\ Forall (fun r => t0 <= TaskLog.startTime r) new
    /\ (exists t, TaskLog.chain t new)
    /\ (forall s, TaskLog.taskStartTime st = Some s -> TaskLog.chain s new)
    /\ TaskLog.intervals st
       = match TaskLog.taskTimerInterval st with
         | Some h => [h]
         | None => []
         end
    /\ (TaskLog.taskTimerInterval st = None
        <-> TaskLog.currentTask st = None)
    /\ (TaskLog.taskStartTime st = None
        <-> TaskLog.currentTask st = None).
Proof.
  intros Ck N.
  assert (I : TaskLog.Inv t0 t0 saved (TaskLog.idle saved next)).
  { exists []. split; [reflexivity|]. split; [constructor|]. left.
    cbn. tauto. }
  destruct (TaskLogFacts.run_Inv events t0 t0 saved _ I N Ck ltac:(lia))
    as (st & t & E & T & (new & R & F & D) & more & R' & L).
  exists st, new. split; [exact E|]. split; [exact R|].
  assert (new = more) as ->.
  { cbn [TaskLog.taskRecords TaskLog.idle] in R'. rewrite R in R'.
    now apply app_inv_tail in R'. }
  split; [exact L|]. split; [exact F|].
  destruct D as [(C & S & H & Li & Ch)|(n & s & h & C & Nn & S & B & H & Li & Ch)].
  - rewrite C, S, H, Li. split; [now exists t|].
    split; [discriminate|]. split; [reflexivity|]. tauto.
  - rewrite C, S, H, Li. split; [now exists s|].
    split; [now intros ? [= <-]|]. split; [reflexivity|].
    split; split; discriminate.
Qed.

Lemma task_records_never_overlap_witness :
  exists st new,
    TaskLog.run
      [TaskLog.QuickStart "A" 1000 1001; TaskLog.QuickStart "B" 5000 5002;
       TaskLog.Stop 9000]
      (TaskLog.idle [] 1) = Some st
    /\ TaskLog.taskRecords st = (new ++ [])%list.
Proof.
  destruct (task_records_never_overlap
              [TaskLog.QuickStart "A" 1000 1001;
               TaskLog.QuickStart "B" 5000 5002; TaskLog.Stop 9000]
              [] 1 0) as (st & new & E & R & _).
  - cbn. lia.
  - repeat constructor; cbn; discriminate.
  - exists st, new. split; [exact E | exact R].
Defined.

(** X20. A task with the empty name cannot be ended: once it is started,
    the stop button and a second click on its own button change nothing and
    its timer keeps running; a click on another task then starts that task
    with a new timer in place of the old one, and no record of the time
    spent is filed. *)
Theorem unnamed_task_is_never_recorded
    (saved : list TaskLog.TaskRecord) (next t1 t2 t3 t4 : Z)
    (other : string) :
  other <> EmptyString ->
  let st := TaskLog.startTaskWithName EmptyString t1 (TaskLog.idle saved next) in
  TaskLog.quickStartTask EmptyString t1 t1 (TaskLog.idle saved next) = Some st
  /\ TaskLog.stopTask t2 st = Some st
  /\ TaskLog.quickStartTask EmptyString t2 t2 st = Some st
  /\ TaskLog.intervals st = [next]
  /\ exists st',
       TaskLog.quickStartTask other t3 t4 st = Some st'
       /\ TaskLog.taskRecords st' = saved
       /\ TaskLog.currentTask st' = Some other
       /\ TaskLog.taskStartTime st' = Some t4
       /\ (next <> 0 -> TaskLog.intervals st' = [next + 1]).
Proof.
  intros N st. split; [reflexivity|]. split; [reflexivity|].
  split; [reflexivity|]. split; [reflexivity|].
  eexists. split.
  - unfold TaskLog.quickStartTask. subst st. cbn.
    destruct other; [congruence|]. reflexivity.
  - cbn. split; [reflexivity|]. split; [reflexivity|]. split; [reflexivity|].
    intros Z0. destruct (Z.eqb_spec next 0); [contradiction|]. cbn.
    now rewrite Z.eqb_refl.
Qed.

Lemma unnamed_task_is_never_recorded_witness :
  TaskLog.stopTask 2000
    (TaskLog.startTaskWithName EmptyString 1000 (TaskLog.idle [] 1))
  = Some (TaskLog.startTaskWithName EmptyString 1000 (TaskLog.idle [] 1)).
Proof.
  apply (unnamed_task_is_never_recorded [] 1 1000 2000 3000 3001 "A").
  discriminate.
Defined.

(** ** The range of the holiday table *)

Module HolidayRangeFacts.

Lemma warnings_shown years : warningsWritten years true = 0.
Proof.
  induction years as [|y years IH]; [reflexivity|].
  cbn [warningsWritten]. unfold checkHolidayDataRange.
  rewrite andb_false_r. exact IH.
Qed.

Lemma outside_range (o : object) y m d :
  forallb yearInRange o = true ->
  y < HOLIDAY_DATA_MIN_YEAR \/ HOLIDAY_DATA_MAX_YEAR < y ->
  holidayOfDate o y m d = None.
Proof.
  intros F Y. induction o as [|[k v] o IH]; [reflexivity|].
  cbn [forallb] in F. apply andb_true_iff in F as [F1 F2].
  cbn [holidayOfDate]. unfold yearInRange in F1. cbn [fst] in F1.
  destruct (keyDate k) as [[[y' m'] d']|]; [|discriminate].
  apply andb_true_iff in F1 as [A B]. apply Z.leb_le in A, B.
  destruct (Z.eqb_spec y' y); [lia|]. cbn [andb]. now apply IH.
Qed.

Lemma holidays_in_range : forallb yearInRange holidays = true.
Proof. vm_compute. reflexivity. Qed.

Lemma range_ends_listed :
  (exists m d name,
     holidayOfDate holidays HOLIDAY_DATA_MIN_YEAR m d = Some name)
  /\ (exists m d name,
        holidayOfDate holidays HOLIDAY_DATA_MAX_YEAR m d = Some name).
Proof.
  split; exists 1, 1; eexists; vm_compute; reflexivity.
Qed.

End HolidayRangeFacts.

(** X21. [checkHolidayDataRange] writes its warning at most once, at the
    first call made in a year after [HOLIDAY_DATA_MAX_YEAR]; and that is when
    it is due: the table lists holidays in the first and in the last year of
    the range the two constants give, and for no day of a year outside that
    range does [isHoliday] find a name. *)
Theorem holiday_warning_matches_table (years : list Z) (year month day : Z) :
  warningsWritten years false
  = (if existsb (fun y => HOLIDAY_DATA_MAX_YEAR <? y) years then 1 else 0)
  /\ (exists m d name,
        holidayOfDate holidays HOLIDAY_DATA_MIN_YEAR m d = Some name)
  /\ (exists m d name,
        holidayOfDate holidays HOLIDAY_DATA_MAX_YEAR m d = Some name)
  /\ (year < HOLIDAY_DATA_MIN_YEAR \/ HOLIDAY_DATA_MAX_YEAR < year ->
      0 <= month <= 11 -> 1 <= day <= 31 ->
      isHoliday year month day = Undefined).
Proof.
  split; [|split; [|split]].
  - induction years as [|y years IH]; [reflexivity|].
    cbn [warningsWritten existsb]. unfold checkHolidayDataRange.
    cbn [negb]. rewrite andb_true_r.
    destruct (HOLIDAY_DATA_MAX_YEAR <? y); cbn [orb].
    + now rewrite HolidayRangeFacts.warnings_shown.
    + rewrite IH. reflexivity.
  - exact (proj1 HolidayRangeFacts.range_ends_listed).
  - exact (proj2 HolidayRangeFacts.range_ends_listed).
  - intros Y Hm Hd. rewrite (HolidayFacts.isHoliday_calendar year month day Hm Hd).
    now rewrite (HolidayRangeFacts.outside_range holidays year (month + 1) day
                   HolidayRangeFacts.holidays_in_range Y).
Qed.

(** ** The analysis page *)

Module PeriodFacts.

Import JSDate Analysis.

Lemma make_today d :
  100 <= getFullYear d ->
  JSDate.make (getFullYear d) (getMonth d) (getDate d) = d.
Proof.
  intros H. rewrite CalendarFacts.make_plain by exact H.
  pose proof (JSDateFacts.MakeDay_fields d 0) as F.
  rewrite !Z.add_0_r in F. exact F.
Qed.

Lemma make_monthStart d :
  100 <= getFullYear d ->
  JSDate.make (getFullYear d) (getMonth d) 1 = d - (getDate d - 1).
Proof.
  intros H. rewrite CalendarFacts.make_plain by exact H.
  pose proof (JSDateFacts.MakeDay_fields d (1 - getDate d)) as F.
  unfold getFullYear, getMonth, getDate in *.
  replace (DateFromTime d + (1 - DateFromTime d)) with 1 in F by lia.
  rewrite F. lia.
Qed.

Lemma filter_incl {A : Type} (p q : A -> bool) (l : list A) :
  (forall x, p x = true -> q x = true) -> incl (filter p l) (filter q l).
Proof.
  intros H x I. apply filter_In in I as [I P]. apply filter_In. auto.
Qed.

Lemma totalDuration_from records : forall start,
  fold_left (fun sum r => sum + TaskLog.duration r) records start
  = start + totalDuration records.
Proof.
  unfold totalDuration. induction records as [|r records IH]; intros start.
  - cbn. lia.
  - cbn [fold_left]. rewrite (IH (start + _)), (IH (0 + _)). lia.
Qed.

Lemma totalDuration_cons r records :
  totalDuration (r :: records) = TaskLog.duration r + totalDuration records.
Proof. unfold totalDuration at 1. cbn [fold_left]. now rewrite totalDuration_from. Qed.

Lemma totalDuration_filter (p q : TaskLog.TaskRecord -> bool) records :
  (forall x, p x = true -> q x = true) ->
  Forall (fun r => 0 <= TaskLog.duration r) records ->
  0 <= totalDuration (filter p records) <= totalDuration (filter q records).
Proof.
  intros H F. induction F as [|r records Hr F IH]; [cbn; lia|].
  cbn [filter]. destruct (p r) eqn:P.
  - rewrite (H r P), !totalDuration_cons. lia.
  - destruct (q r); rewrite ?totalDuration_cons; lia.
Qed.

End PeriodFacts.

(** X22. [filterRecordsByPeriod] in a year from 100 on: ['today'] keeps the
    records that start at or after today's midnight, ['week'] those from the
    midnight seven days before, ['month'] those from the first of the month,
    any other period keeps them all, and none has an upper limit.  So today's
    records are among the week's and the month's, the month's are among the
    week's up to the 8th and the other way round from the 8th on, and with
    durations that are not negative the total of today never exceeds the
    total of the week. *)
Theorem filterRecordsByPeriod_nested
    (now : Z) (records : list TaskLog.TaskRecord) (period : string) :
  100 <= JSDate.getFullYear (Analysis.Day now) ->
  let pick := Analysis.filterRecordsByPeriod now records in
  let today := Analysis.midnight (Analysis.Day now) in
  let date := JSDate.getDate (Analysis.Day now) in
  (forall r, In r (pick "today"%string)
             <-> In r records /\ today <= TaskLog.startTime r)
  /\ (forall r, In r (pick "week"%string)
                <-> In r records
                    /\ today - 7 * Analysis.msPerDay <= TaskLog.startTime r)
  /\ (forall r, In r (pick "month"%string)
                <-> In r records
                    /\ today - (date - 1) * Analysis.msPerDay
                       <= TaskLog.startTime r)
  /\ (period <> "today"%string -> period <> "week"%string ->
      period <> "month"%string -> pick period = records)
  /\ incl (pick period) records
  /\ incl (pick "today"%string) (pick "week"%string)
  /\ incl (pick "today"%string) (pick "month"%string)
  /\ (date <= 8 -> incl (pick "month"%string) (pick "week"%string))
  /\ (8 <= date -> incl (pick "week"%string) (pick "month"%string))
  /\ (Forall (fun r => 0 <= TaskLog.duration r) records ->
      0 <= Analysis.totalDuration (pick "today"%string)
        <= Analysis.totalDuration (pick "week"%string)).
Proof.
  intros Hy pick today date.
  pose proof (JSDateFacts.DateFromTime_range (Analysis.Day now)) as Dr.
  fold (JSDate.getDate (Analysis.Day now)) in Dr. fold date in Dr.
  assert (T : pick "today"%string
              = filter (fun r => today <=? TaskLog.startTime r) records).
  { subst pick today. unfold Analysis.filterRecordsByPeriod.
    rewrite (PeriodFacts.make_today _ Hy). reflexivity. }
  assert (W : pick "week"%string
              = filter (fun r => today - 7 * Analysis.msPerDay
                                 <=? TaskLog.startTime r) records).
  { subst pick today. unfold Analysis.filterRecordsByPeriod.
    rewrite (PeriodFacts.make_today _ Hy).
    replace (JSDate.getDate (Analysis.Day now) - 7)
      with (JSDate.getDate (Analysis.Day now) + -7) by lia.
    rewrite JSDateFacts.setDate_getDate_plus. cbn [String.eqb Ascii.eqb].
    unfold Analysis.midnight.
    replace ((Analysis.Day now + -7) * Analysis.msPerDay)
      with (Analysis.Day now * Analysis.msPerDay - 7 * Analysis.msPerDay)
      by lia.
    reflexivity. }
  assert (M : pick "month"%string
              = filter (fun r => today - (date - 1) * Analysis.msPerDay
                                 <=? TaskLog.startTime r) records).
  { subst pick today date. unfold Analysis.filterRecordsByPeriod.
    rewrite (PeriodFacts.make_monthStart _ Hy). cbn [String.eqb Ascii.eqb].
    unfold Analysis.midnight.
    replace ((Analysis.Day now - (JSDate.getDate (Analysis.Day now) - 1))
             * Analysis.msPerDay)
      with (Analysis.Day now * Analysis.msPerDay
            - (JSDate.getDate (Analysis.Day now) - 1) * Analysis.msPerDay)
      by lia.
    reflexivity. }
  assert (P : 0 < Analysis.msPerDay) by (unfold Analysis.msPerDay; lia).
  rewrite T, W, M.
  split; [intros r; rewrite filter_In, Z.leb_le; reflexivity|].
  split; [intros r; rewrite filter_In, Z.leb_le; reflexivity|].
  split; [intros r; rewrite filter_In, Z.leb_le; reflexivity|].
  split.
  { intros N1 N2 N3. subst pick. unfold Analysis.filterRecordsByPeriod.
    apply String.eqb_neq in N1, N2, N3. now rewrite N1, N2, N3. }
  split.
  { subst pick. unfold Analysis.filterRecordsByPeriod.
    repeat match goal with
           | |- context [if ?b then _ else _] => destruct b
           end; try apply incl_filter. apply incl_refl. }
  split; [apply PeriodFacts.filter_incl; intros x; rewrite !Z.leb_le; lia|].
  split; [apply PeriodFacts.filter_incl; intros x; rewrite !Z.leb_le; nia|].
  split; [intros D; apply PeriodFacts.filter_incl; intros x;
          rewrite !Z.leb_le; nia|].
  split; [intros D; apply PeriodFacts.filter_incl; intros x;
          rewrite !Z.leb_le; nia|].
  intros F. apply PeriodFacts.totalDuration_filter; [|exact F].
  intros x. rewrite !Z.leb_le. lia.
Qed.

Lemma filterRecordsByPeriod_nested_witness :
  100 <= JSDate.getFullYear (Analysis.Day 1760000000000)
  /\ incl (Analysis.filterRecordsByPeriod 1760000000000
             [TaskLog.mkTaskRecord "A" 1759990000000 1759990060000 60] "today")
          [TaskLog.mkTaskRecord "A" 1759990000000 1759990060000 60].
Proof.
  assert (H : 100 <= JSDate.getFullYear (Analysis.Day 1760000000000))
    by (apply Z.leb_le; vm_compute; reflexivity).
  split; [exact H|].
  exact (proj1 (proj2 (proj2 (proj2 (proj2
    (filterRecordsByPeriod_nested 1760000000000
       [TaskLog.mkTaskRecord "A" 1759990000000 1759990060000 60] "today"
       H)))))).
Defined.

Module ObjectFacts.

Import Analysis.

Lemma uint_of_char_digit c d u :
  DecimalString.uint_of_char c d = Some u -> isDigit c = true.
Proof.
  destruct d as [d|]; [|discriminate].
  destruct c as [[] [] [] [] [] [] [] []]; cbn; first [discriminate | reflexivity].
Qed.

Lemma uint_of_string_digits s : forall u,
  NilEmpty.uint_of_string s = Some u -> allDigits s = true.
Proof.
  induction s as [|c s IH]; intros u E; [reflexivity|].
  cbn [NilEmpty.uint_of_string] in E. cbn [allDigits].
  rewrite (uint_of_char_digit _ _ _ E).
  destruct (NilEmpty.uint_of_string s) as [v|] eqn:V.
  - now rewrite (IH v).
  - destruct c as [[] [] [] [] [] [] [] []]; discriminate.
Qed.

Lemma arrayIndex_digits key n : arrayIndex key = Some n -> allDigits key = true.
Proof.
  unfold arrayIndex, decimalField, NilZero.uint_of_string.
  destruct key as [|c key]; [discriminate|].
  destruct (NilEmpty.uint_of_string (String c key)) as [u|] eqn:U;
    [|discriminate].
  intros _. exact (uint_of_string_digits _ _ U).
Qed.

Lemma allDigits_app a b : allDigits (a ++ b) = allDigits a && allDigits b.
Proof.
  induction a as [|c a IH]; [reflexivity|]. cbn [String.append allDigits].
  now rewrite IH, andb_assoc.
Qed.

Section Maps.

Context {A : Type}.

Implicit Types (o : list (string * A)) (key k : string).

Lemma own_None o key : own o key = None <-> ~ In key (map fst o).
Proof.
  induction o as [|[k v] o IH]; cbn [own map fst In]; [tauto|].
  destruct (String.eqb_spec k key) as [E|E].
  - split; [discriminate | tauto].
  - rewrite IH. tauto.
Qed.

Lemma own_In o key v : own o key = Some v -> In (key, v) o.
Proof.
  induction o as [|[k w] o IH]; cbn [own In]; [discriminate|].
  destruct (String.eqb_spec k key) as [E|E].
  - intros [= ->]. left. now rewrite E.
  - intros H. right. now apply IH.
Qed.

Lemma define_plain key v o :
  arrayIndex key = None -> define key v o = (o ++ [(key, v)])%list.
Proof.
  intros N. induction o as [|[k w] o IH]; cbn [define app]; [reflexivity|].
  rewrite N. now rewrite IH.
Qed.

Lemma define_perm key v o : Permutation ((key, v) :: o) (define key v o).
Proof.
  induction o as [|[k w] o IH]; cbn [define]; [reflexivity|].
  destruct (arrayIndex key), (arrayIndex k);
    try reflexivity;
    try (rewrite perm_swap; now apply perm_skip).
  destruct (_ <? _); [reflexivity|]. rewrite perm_swap. now apply perm_skip.
Qed.

Lemma own_define key v o k :
  own o key = None ->
  own (define key v o) k = if (key =? k)%string then Some v else own o k.
Proof.
  intros Hn. induction o as [|[k0 w] o IH]; cbn [define own]; [reflexivity|].
  cbn [own] in Hn. destruct (String.eqb_spec k0 key) as [E0|E0];
    [discriminate|]. specialize (IH Hn).
  assert (Skip : own ((k0, w) :: define key v o) k
                 = if (key =? k)%string then Some v
                   else if (k0 =? k)%string then Some w else own o k).
  { cbn [own]. rewrite IH. destruct (String.eqb_spec k0 k) as [E|E];
      [|reflexivity]. destruct (String.eqb_spec key k); [congruence|].
    reflexivity. }
  destruct (arrayIndex key), (arrayIndex k0); try exact Skip;
    try reflexivity.
  destruct (_ <? _); [reflexivity | exact Skip].
Qed.

Lemma own_update key f o k :
  own (update key f o) k
  = if (key =? k)%string then option_map f (own o k) else own o k.
Proof.
  induction o as [|[k0 w] o IH]; cbn [update own option_map].
  - now destruct (key =? k)%string.
  - destruct (String.eqb_spec k0 key) as [E0|E0].
    + subst k0. cbn [own]. destruct (String.eqb_spec key k); reflexivity.
    + cbn [own]. rewrite IH. destruct (String.eqb_spec k0 k) as [E|E];
        [|reflexivity]. subst k0.
      destruct (String.eqb_spec key k); [congruence | reflexivity].
Qed.

Lemma keys_update key f o : map fst (update key f o) = map fst o.
Proof.
  induction o as [|[k0 w] o IH]; cbn [update map fst]; [reflexivity|].
  destruct (k0 =? key)%string; cbn [map fst]; [reflexivity|]. now rewrite IH.
Qed.

End Maps.

End ObjectFacts.

Module DayFacts.

Import JSDate Analysis.

Lemma dateKey_fields a b :
  dateKey a = dateKey b <-> getMonth a = getMonth b /\ getDate a = getDate b.
Proof.
  split; [|intros [M D]; unfold dateKey; now rewrite M, D].
  unfold dateKey. intros E.
  pose proof (JSDateFacts.MonthFromTime_range a) as Ma.
  pose proof (JSDateFacts.MonthFromTime_range b) as Mb.
  fold (getMonth a) in Ma. fold (getMonth b) in Mb.
  assert (S : forall m d, 0 <= m ->
            spanDigits (ToString m ++ "/" ++ ToString d)
            = (ToString m, String "/" (ToString d))).
  { intros m d Hm. apply DateStringFacts.spanDigits_app;
      [apply NumberTextFacts.allDigits_ToString; lia | reflexivity]. }
  pose proof (S (getMonth a + 1) (getDate a) ltac:(lia)) as Sa.
  rewrite E, S in Sa by lia. injection Sa as E1 E2.
  apply StringFacts.ToString_inj in E1, E2. lia.
Qed.

Lemma dateKey_plain d : arrayIndex (dateKey d) = None.
Proof.
  destruct (arrayIndex (dateKey d)) as [n|] eqn:E; [|reflexivity].
  apply ObjectFacts.arrayIndex_digits in E. unfold dateKey in E.
  rewrite ObjectFacts.allDigits_app in E. cbn in E.
  now rewrite andb_false_r in E.
Qed.

(** Within a week no two days have the same month and day of the month. *)
Lemma week_fields_distinct b k :
  1 <= k <= 6 ->
  getMonth (b - k) = getMonth b -> getDate (b - k) = getDate b -> False.
Proof.
  intros Hk M D.
  pose proof (JSDateFacts.DateFromTime_range b) as Dr. fold (getDate b) in Dr.
  destruct (Z_lt_le_dec k (getDate b)) as [L|L].
  - destruct (CalendarFacts.date_back b k ltac:(lia)) as (_ & _ & D'). lia.
  - pose proof (JSDateFacts.MakeDay_fields b (1 - getDate b)) as F.
    unfold getDate in F at 1.
    replace (DateFromTime b + (1 - DateFromTime b)) with 1 in F by lia.
    pose proof (CalendarFacts.month_before (YearFromTime b) (MonthFromTime b))
      as P. cbv zeta in P. rewrite F in P. destruct P as [P1 P2].
    set (p := b + (1 - getDate b) - 1) in *.
    destruct (CalendarFacts.date_back p (k - getDate b) ltac:(lia))
      as (_ & M' & _).
    replace (p - (k - getDate b)) with (b - k) in M' by (subst p; lia).
    pose proof (JSDateFacts.MonthFromTime_range b) as Mr.
    fold (getMonth b) in Mr, P2. rewrite M', P2 in M.
    clear - M Mr. Z.to_euclidean_division_equations. lia.
Qed.

Lemma week_keys_distinct today i j :
  0 <= i <= 6 -> 0 <= j <= 6 ->
  dateKey (today - i) = dateKey (today - j) -> i = j.
Proof.
  intros Hi Hj E. apply dateKey_fields in E as [M D].
  destruct (Z.lt_trichotomy i j) as [L|[L|L]]; [|exact L|]; exfalso.
  - apply (week_fields_distinct (today - i) (j - i)); [lia| |];
      replace (today - i - (j - i)) with (today - j) by lia; congruence.
  - apply (week_fields_distinct (today - j) (i - j)); [lia| |];
      replace (today - j - (i - j)) with (today - i) by lia; congruence.
Qed.

Lemma week_keys_NoDup today :
  NoDup (map (fun i => dateKey (today - i)) [6; 5; 4; 3; 2; 1; 0]).
Proof.
  cbn [map]. repeat constructor; cbn [In]; intros H;
    repeat (destruct H as [H|H]; [apply week_keys_distinct in H; lia|]);
    exact H.
Qed.

Lemma fold_left_same {A B : Type} (f g : A -> B -> A) l : forall a,
  (forall a b, f a b = g a b) -> fold_left f l a = fold_left g l a.
Proof.
  induction l as [|b l IH]; intros a E; [reflexivity|]. cbn [fold_left].
  rewrite E. now apply IH.
Qed.

Lemma init_days (f : Z -> string) days : forall m : list (string * Z),
  NoDup (map fst m ++ map f days) ->
  (forall i, In i days -> arrayIndex (f i) = None) ->
  fold_left (fun dailyMap i => assign (f i) 0 dailyMap) days m
  = (m ++ map (fun i => (f i, 0)) days)%list.
Proof.
  induction days as [|i days IH]; intros m N P; cbn [fold_left map].
  - now rewrite app_nil_r.
  - assert (O : own m (f i) = None).
    { apply ObjectFacts.own_None. intros I.
      cbn [map] in N. apply NoDup_remove_2 in N. apply N.
      apply in_or_app. now left. }
    unfold assign at 2. rewrite O, ObjectFacts.define_plain
      by (apply P; now left).
    rewrite IH.
    + now rewrite <- app_assoc.
    + rewrite map_app, <- app_assoc. exact N.
    + intros j J. apply P. now right.
Qed.

Lemma own_listed (f : Z -> string) (days : list Z) i :
  NoDup (map f days) -> In i days ->
  own (map (fun i => (f i, 0)) days) (f i) = Some 0.
Proof.
  induction days as [|j days IH]; intros N I; [destruct I|].
  cbn [map own]. destruct (String.eqb_spec (f j) (f i)) as [E|E];
    [reflexivity|]. inversion N; subst. destruct I as [->|I];
    [contradiction | now apply IH].
Qed.

Lemma sum_records (keyOf : TaskLog.TaskRecord -> string) records :
  forall (m : list (string * Z)),
  let result :=
    fold_left
      (fun dailyMap record =>
         match own dailyMap (keyOf record) with
         | Some _ =>
             update (keyOf record) (fun v => v + TaskLog.duration record)
               dailyMap
         | None => dailyMap
         end) records m in
  map fst result = map fst m
  /\ forall k,
       own result k
       = option_map
           (fun v => v + sumDurations
                           (filter (fun r => (keyOf r =? k)%string) records))
           (own m k).
Proof.
  induction records as [|r records IH]; intros m; cbn [fold_left].
  - split; [reflexivity|]. intros k. cbn [filter sumDurations fold_right].
    destruct (own m k); cbn; [f_equal; lia | reflexivity].
  - cbv zeta in IH |- *.
    set (m' := match own m (keyOf r) with Some _ => _ | None => m end).
    destruct (IH m') as [K V]. rewrite K. split.
    + subst m'. destruct (own m (keyOf r));
        [apply ObjectFacts.keys_update | reflexivity].
    + intros k. rewrite V. cbn [filter]. subst m'.
      destruct (String.eqb_spec (keyOf r) k) as [E|E].
      * subst k. destruct (own m (keyOf r)) as [v|] eqn:O.
        -- rewrite ObjectFacts.own_update, String.eqb_refl, O.
           cbn [option_map sumDurations fold_right]. f_equal.
           fold (sumDurations
                   (filter (fun r0 => (keyOf r0 =? keyOf r)%string) records)).
           lia.
        -- rewrite O. reflexivity.
      * destruct (own m (keyOf r)) as [v|] eqn:O; [|reflexivity].
        rewrite ObjectFacts.own_update.
        destruct (String.eqb_spec (keyOf r) k); [contradiction | reflexivity].
Qed.

End DayFacts.

(** X23. [aggregateByDay] returns seven entries, one for each of the last
    seven days up to today, oldest first and under seven different keys; the
    value of a day is the sum of the durations of all records whose start has
    that month and that day of the month, in whatever year they lie. *)
Theorem aggregateByDay_last_seven_days
    (now : Z) (records : list TaskLog.TaskRecord) :
  let today := Analysis.Day now in
  let result := Analysis.aggregateByDay now records in
  map fst result
  = map (fun i => Analysis.dateKey (today - i)) [6; 5; 4; 3; 2; 1; 0]
  /\ NoDup (map fst result)
  /\ (forall i, 0 <= i <= 6 ->
        Analysis.own result (Analysis.dateKey (today - i))
        = Some (Analysis.sumDurations
                  (filter (Analysis.sameMonthDay (today - i)) records))).
Proof.
  intros today result.
  pose proof (DayFacts.week_keys_NoDup today) as N.
  assert (I : fold_left
                (fun dailyMap i =>
                   Analysis.assign
                     (Analysis.dateKey
                        (JSDate.setDate today (JSDate.getDate today - i)))
                     0 dailyMap)
                [6; 5; 4; 3; 2; 1; 0] []
              = map (fun i => (Analysis.dateKey (today - i), 0))
                  [6; 5; 4; 3; 2; 1; 0]).
  { transitivity
      (fold_left
         (fun dailyMap i =>
            Analysis.assign (Analysis.dateKey (today - i)) 0 dailyMap)
         [6; 5; 4; 3; 2; 1; 0] []).
    - apply DayFacts.fold_left_same. intros m i. cbv zeta.
      replace (JSDate.getDate today - i) with (JSDate.getDate today + - i)
        by lia.
      rewrite JSDateFacts.setDate_getDate_plus.
      now replace (today + - i) with (today - i) by lia.
    - refine (DayFacts.init_days
                (fun i => Analysis.dateKey (today - i))
                [6; 5; 4; 3; 2; 1; 0] [] _ _).
      + exact N.
      + intros i _. apply DayFacts.dateKey_plain. }
  destruct (DayFacts.sum_records
              (fun record =>
                 Analysis.dateKey (Analysis.Day (TaskLog.startTime record)))
              records
              (map (fun i => (Analysis.dateKey (today - i), 0))
                 [6; 5; 4; 3; 2; 1; 0])) as [K V].
  assert (R : map fst result
              = map (fun i => Analysis.dateKey (today - i))
                  [6; 5; 4; 3; 2; 1; 0]).
  { subst result. unfold Analysis.aggregateByDay. cbv zeta. fold today.
    rewrite I. cbv zeta in K. rewrite K. now rewrite map_map. }
  split; [exact R|]. split; [rewrite R; exact N|].
  intros i Hi. subst result. unfold Analysis.aggregateByDay. cbv zeta.
  fold today. rewrite I. cbv zeta in V. rewrite V.
  assert (O : Analysis.own
                (map (fun i => (Analysis.dateKey (today - i), 0))
                   [6; 5; 4; 3; 2; 1; 0])
                (Analysis.dateKey (today - i)) = Some 0).
  { apply (DayFacts.own_listed (fun i => Analysis.dateKey (today - i)));
      [exact N | cbn [In]; lia]. }
  rewrite O. cbn [option_map]. f_equal. rewrite Z.add_0_l. f_equal.
  apply filter_ext. intros r. unfold Analysis.sameMonthDay.
  destruct (String.eqb_spec
              (Analysis.dateKey (Analysis.Day (TaskLog.startTime r)))
              (Analysis.dateKey (today - i))) as [E|E].
  - apply DayFacts.dateKey_fields in E as [-> ->]. now rewrite !Z.eqb_refl.
  - destruct (Z.eqb_spec (JSDate.getMonth (Analysis.Day (TaskLog.startTime r)))
                (JSDate.getMonth (today - i))) as [M|M]; [|reflexivity].
    destruct (Z.eqb_spec (JSDate.getDate (Analysis.Day (TaskLog.startTime r)))
                (JSDate.getDate (today - i))) as [D|D]; [|reflexivity].
    exfalso. apply E. apply DayFacts.dateKey_fields. now split.
Qed.

Module TaskTotalFacts.

Import Analysis.

Lemma insertSorted_perm a l : Permutation (a :: l) (insertSorted a l).
Proof.
  induction l as [|b l IH]; cbn [insertSorted]; [reflexivity|].
  destruct (_ <=? _); [reflexivity|]. rewrite perm_swap. now apply perm_skip.
Qed.

Lemma sort_perm l : Permutation l (sort l).
Proof.
  induction l as [|a l IH]; [reflexivity|]. cbn [sort fold_right].
  rewrite <- insertSorted_perm. now apply perm_skip.
Qed.

Lemma insertSorted_sorted a l :
  StronglySorted descending l -> StronglySorted descending (insertSorted a l).
Proof.
  induction 1 as [|b l S IH F]; cbn [insertSorted].
  - repeat constructor.
  - destruct (Z.leb_spec (totalSeconds b) (totalSeconds a)) as [L|L].
    + constructor; [now constructor|]. constructor; [exact L|].
      eapply Forall_impl; [|exact F]. intros c. unfold descending. lia.
    + constructor; [exact IH|].
      apply (Permutation_Forall (insertSorted_perm a l)).
      constructor; [unfold descending; lia | exact F].
Qed.

Lemma sort_sorted l : StronglySorted descending (sort l).
Proof.
  induction l as [|a l IH]; [constructor|]. cbn [sort fold_right].
  now apply insertSorted_sorted.
Qed.

Lemma Forall_update {A : Type} (P : string * A -> Prop) key f
    (o : list (string * A)) :
  (forall k v, P (k, v) -> P (k, f v)) ->
  Forall P o -> Forall P (update key f o).
Proof.
  intros H F. induction F as [|[k v] o Pk F IH]; cbn [update]; [constructor|].
  destruct (k =? key)%string; constructor; auto.
Qed.

Lemma own_entry {A : Type} (o : list (string * A)) k v :
  NoDup (map fst o) -> In (k, v) o -> own o k = Some v.
Proof.
  induction o as [|[k0 w] o IH]; intros N I; [destruct I|].
  cbn [map fst] in N. inversion N as [|? ? N1 N2]; subst. cbn [own].
  destruct I as [[= -> ->]|I].
  - now rewrite String.eqb_refl.
  - destruct (String.eqb_spec k0 k) as [->|_]; [|now apply IH].
    exfalso. apply N1. now apply (in_map fst) in I.
Qed.

Lemma addRecord_wellKeyed m r : wellKeyed m -> wellKeyed (addRecord m r).
Proof.
  intros [N F]. unfold addRecord.
  assert (U : forall o, wellKeyed o ->
              wellKeyed
                (update (TaskLog.task r)
                   (fun t => mkTaskTotal (task t) (count t + 1)
                               (totalSeconds t + TaskLog.duration r)) o)).
  { intros o [No Fo]. split; [now rewrite ObjectFacts.keys_update|].
    apply Forall_update; [|exact Fo]. intros k v. cbn. tauto. }
  destruct (own m (TaskLog.task r)) eqn:O; [now apply U|].
  destruct (inherited (TaskLog.task r)) eqn:I; [now split|].
  apply U. split.
  - apply (Permutation_NoDup
             (Permutation_map fst (ObjectFacts.define_perm _ _ m))).
    cbn [map fst]. constructor; [|exact N]. now apply ObjectFacts.own_None.
  - apply (Permutation_Forall (ObjectFacts.define_perm _ _ m)).
    constructor; [cbn; auto | exact F].
Qed.

Lemma fold_wellKeyed records : forall m,
  wellKeyed m -> wellKeyed (fold_left addRecord records m).
Proof.
  induction records as [|r records IH]; intros m W; [exact W|].
  cbn [fold_left]. apply IH. now apply addRecord_wellKeyed.
Qed.

Lemma own_addRecord m r key :
  own (addRecord m r) key
  = if (TaskLog.task r =? key)%string then
      match own m key with
      | Some t =>
          Some (mkTaskTotal (task t) (count t + 1)
                  (totalSeconds t + TaskLog.duration r))
      | None =>
          if inherited key then None
          else Some (mkTaskTotal key 1 (TaskLog.duration r))
      end
    else own m key.
Proof.
  unfold addRecord. destruct (String.eqb_spec (TaskLog.task r) key) as [E|E].
  - subst key. destruct (own m (TaskLog.task r)) as [t|] eqn:O.
    + now rewrite ObjectFacts.own_update, String.eqb_refl, O.
    + destruct (inherited (TaskLog.task r)); [exact O|].
      rewrite ObjectFacts.own_update, String.eqb_refl.
      rewrite ObjectFacts.own_define by exact O.
      now rewrite String.eqb_refl.
  - destruct (own m (TaskLog.task r)) as [t|] eqn:O.
    + rewrite ObjectFacts.own_update.
      now destruct (String.eqb_spec (TaskLog.task r) key).
    + destruct (inherited (TaskLog.task r)); [reflexivity|].
      rewrite ObjectFacts.own_update.
      destruct (String.eqb_spec (TaskLog.task r) key); [contradiction|].
      rewrite ObjectFacts.own_define by exact O.
      now destruct (String.eqb_spec (TaskLog.task r) key).
Qed.

Lemma own_fold records key : forall m,
  own (fold_left addRecord records m) key
  = match own m key with
    | Some t =>
        Some (mkTaskTotal (task t)
                (count t + Z.of_nat (List.length (recordsOf key records)))
                (totalSeconds t + sumDurations (recordsOf key records)))
    | None =>
        match recordsOf key records with
        | [] => None
        | _ :: _ =>
            if inherited key then None
            else Some (mkTaskTotal key
                         (Z.of_nat (List.length (recordsOf key records)))
                         (sumDurations (recordsOf key records)))
        end
    end.
Proof.
  induction records as [|r records IH]; intros m.
  - cbn. destruct (own m key) as [[t c s]|]; [|reflexivity]. cbn.
    now rewrite !Z.add_0_r.
  - cbn [fold_left]. rewrite IH, own_addRecord. unfold recordsOf.
    cbn [filter]. fold (recordsOf key records).
    destruct (String.eqb_spec (TaskLog.task r) key) as [E|E].
    + cbn [List.length sumDurations fold_right].
      fold (sumDurations (recordsOf key records)).
      destruct (own m key) as [t|]; cbn [task count totalSeconds].
      * f_equal. f_equal; lia.
      * destruct (inherited key); [now destruct (recordsOf key records)|].
        cbn [task count totalSeconds]. f_equal. f_equal; lia.
    + reflexivity.
Qed.

Lemma total_perm f l l' : Permutation l l' -> total f l = total f l'.
Proof.
  unfold total.
  induction 1 as [|x l l' P IH|x y l|l l' l'' P1 IH1 P2 IH2];
    cbn [fold_right]; lia.
Qed.

Lemma total_update f key g (m : list (string * TaskTotal)) t :
  own m key = Some t ->
  total f (map snd (update key g m)) = total f (map snd m) - f t + f (g t).
Proof.
  unfold total.
  induction m as [|[k w] m IH]; cbn [own update]; [discriminate|].
  destruct (k =? key)%string.
  - intros [= ->]. cbn [map snd fold_right]. lia.
  - intros O. cbn [map snd fold_right]. rewrite (IH O). lia.
Qed.

Lemma total_addRecord m r :
  wellKeyed m ->
  total count (map snd (addRecord m r))
  = total count (map snd m)
    + (if inherited (TaskLog.task r) then 0 else 1)
  /\ total totalSeconds (map snd (addRecord m r))
     = total totalSeconds (map snd m)
       + (if inherited (TaskLog.task r) then 0 else TaskLog.duration r).
Proof.
  intros [N F]. unfold addRecord.
  destruct (own m (TaskLog.task r)) as [t|] eqn:O.
  - assert (I : inherited (TaskLog.task r) = false).
    { apply ObjectFacts.own_In in O.
      exact (proj2 (proj1 (Forall_forall _ _) F _ O)). }
    rewrite I, !(total_update _ _ _ _ _ O). unfold total. cbn. lia.
  - destruct (inherited (TaskLog.task r)); [lia|].
    assert (O' : own (define (TaskLog.task r)
                        (mkTaskTotal (TaskLog.task r) 0 0) m)
                   (TaskLog.task r)
                 = Some (mkTaskTotal (TaskLog.task r) 0 0)).
    { rewrite ObjectFacts.own_define by exact O. now rewrite String.eqb_refl. }
    rewrite !(total_update _ _ _ _ _ O').
    rewrite <- !(total_perm _ _ _
                   (Permutation_map snd (ObjectFacts.define_perm _ _ m))).
    unfold total. cbn. lia.
Qed.

Lemma total_fold records : forall m,
  wellKeyed m ->
  let counted :=
    filter (fun r => negb (inherited (TaskLog.task r))) records in
  total count (map snd (fold_left addRecord records m))
  = total count (map snd m) + Z.of_nat (List.length counted)
  /\ total totalSeconds (map snd (fold_left addRecord records m))
     = total totalSeconds (map snd m) + sumDurations counted.
Proof.
  induction records as [|r records IH]; intros m W; cbv zeta.
  - cbn [fold_left filter List.length sumDurations fold_right]. lia.
  - cbn [fold_left filter].
    destruct (IH _ (addRecord_wellKeyed m r W)) as [C S]. cbv zeta in C, S.
    destruct (total_addRecord m r W) as [C1 S1]. rewrite C, S, C1, S1.
    destruct (inherited (TaskLog.task r));
      cbn [negb List.length sumDurations fold_right];
      fold (sumDurations
              (filter (fun r => negb (inherited (TaskLog.task r))) records));
      lia.
Qed.

End TaskTotalFacts.

(** X24. [aggregateByTask] groups the records by task name: its entries
    come by falling total time, no task appears twice, an entry holds the
    number of records of its task (one at least) and the sum of their
    durations, and the counts add up to the number of records and the totals
    to their whole duration.  Records whose task is named like a member of
    [Object.prototype] are left out of all of this. *)
Theorem aggregateByTask_totals (records : list TaskLog.TaskRecord) :
  let result := Analysis.aggregateByTask records in
  let counted :=
    filter (fun r => negb (Analysis.inherited (TaskLog.task r))) records in
  StronglySorted
    (fun a b => Analysis.totalSeconds b <= Analysis.totalSeconds a) result
  /\ NoDup (map Analysis.task result)
  /\ (forall t,
        In t result
        <-> Analysis.inherited (Analysis.task t) = false
            /\ Analysis.recordsOf (Analysis.task t) records <> []
            /\ t = Analysis.mkTaskTotal (Analysis.task t)
                     (Z.of_nat
                        (List.length
                           (Analysis.recordsOf (Analysis.task t) records)))
                     (Analysis.sumDurations
                        (Analysis.recordsOf (Analysis.task t) records)))
  /\ (forall t, In t result -> 1 <= Analysis.count t)
  /\ fold_right (fun t sum => Analysis.count t + sum) 0 result
     = Z.of_nat (List.length counted)
  /\ fold_right (fun t sum => Analysis.totalSeconds t + sum) 0 result
     = Analysis.sumDurations counted.
Proof.
  intros result counted.
  set (taskMap := fold_left Analysis.addRecord records []).
  assert (W : Analysis.wellKeyed taskMap).
  { apply TaskTotalFacts.fold_wellKeyed. split; constructor. }
  assert (P : Permutation (map snd taskMap) result)
    by apply TaskTotalFacts.sort_perm.
  assert (M : forall t,
            In t result
            <-> Analysis.inherited (Analysis.task t) = false
                /\ Analysis.recordsOf (Analysis.task t) records <> []
                /\ t = Analysis.mkTaskTotal (Analysis.task t)
                         (Z.of_nat
                            (List.length
                               (Analysis.recordsOf (Analysis.task t) records)))
                         (Analysis.sumDurations
                            (Analysis.recordsOf (Analysis.task t) records))).
  { intros t. split.
    - intros I. apply (Permutation_in _ (Permutation_sym P)) in I.
      apply in_map_iff in I as ([k t'] & E & I). cbn [snd] in E. subst t'.
      pose proof (proj1 (Forall_forall _ _) (proj2 W) _ I) as [T _].
      cbn [fst snd] in T. subst k.
      apply (TaskTotalFacts.own_entry _ _ _ (proj1 W)) in I.
      subst taskMap. rewrite TaskTotalFacts.own_fold in I. cbn [Analysis.own] in I.
      destruct (Analysis.recordsOf (Analysis.task t) records) eqn:R;
        [discriminate|].
      destruct (Analysis.inherited (Analysis.task t)); [discriminate|].
      injection I as I. repeat split; [discriminate | now symmetry].
    - intros (I & R & E). apply (Permutation_in _ P).
      apply in_map_iff. exists (Analysis.task t, t). split; [reflexivity|].
      apply ObjectFacts.own_In. subst taskMap.
      rewrite TaskTotalFacts.own_fold. cbn [Analysis.own]. rewrite I.
      destruct (Analysis.recordsOf (Analysis.task t) records) eqn:R';
        [contradiction|]. now rewrite <- E. }
  split; [apply TaskTotalFacts.sort_sorted|].
  split.
  { apply (Permutation_NoDup (Permutation_map Analysis.task P)).
    rewrite map_map.
    replace (map (fun e => Analysis.task (snd e)) taskMap)
      with (map fst taskMap); [exact (proj1 W)|].
    apply map_ext_in. intros e I.
    now destruct (proj1 (Forall_forall _ _) (proj2 W) _ I). }
  split; [exact M|].
  split.
  { intros t I. apply M in I as (_ & R & E). rewrite E. cbn.
    destruct (Analysis.recordsOf (Analysis.task t) records);
      [contradiction | cbn [List.length]; lia]. }
  destruct (TaskTotalFacts.total_fold records [] ltac:(split; constructor))
    as [C S]. cbv zeta in C, S. fold taskMap in C, S. fold counted in C, S.
  split.
  - change (Analysis.total Analysis.count result
            = Z.of_nat (List.length counted)).
    rewrite <- (TaskTotalFacts.total_perm _ _ _ P), C.
    unfold Analysis.total. cbn [map fold_right]. lia.
  - change (Analysis.total Analysis.totalSeconds result
            = Analysis.sumDurations counted).
    rewrite <- (TaskTotalFacts.total_perm _ _ _ P), S.
    unfold Analysis.total. cbn [map fold_right]. lia.
Qed.

(** ** Quick task buttons *)

Module QuickTaskFacts.

Import QuickTasks.

Lemma includes_In tasks taskName : includes tasks taskName = true <-> In taskName tasks.
Proof.
  unfold includes. rewrite existsb_exists. split.
  - intros (x & I & E). apply String.eqb_eq in E. now subst.
  - intros I. exists taskName. split; [exact I | apply String.eqb_refl].
Qed.

Lemma includes_false tasks taskName :
  includes tasks taskName = false <-> ~ In taskName tasks.
Proof.
  rewrite <- includes_In. destruct (includes tasks taskName); split;
    congruence.
Qed.

Lemma spliceFirst_incl taskName tasks x :
  In x (spliceFirst taskName tasks) -> In x tasks.
Proof.
  induction tasks as [|t tasks IH]; cbn [spliceFirst]; [tauto|].
  destruct (String.eqb t taskName); cbn [In]; tauto.
Qed.

Lemma spliceFirst_NoDup taskName tasks :
  NoDup tasks ->
  NoDup (spliceFirst taskName tasks)
  /\ ~ In taskName (spliceFirst taskName tasks).
Proof.
  induction 1 as [|t tasks N1 N IH]; cbn [spliceFirst].
  - split; [constructor | tauto].
  - destruct (String.eqb_spec t taskName) as [E|E].
    + subst. split; assumption.
    + destruct IH as [IH1 IH2]. split.
      * constructor; [|exact IH1]. intros I. apply N1.
        now apply spliceFirst_incl in I.
      * cbn [In]. tauto.
Qed.

Lemma spliceFirst_last taskName tasks :
  ~ In taskName tasks -> spliceFirst taskName (tasks ++ [taskName]) = tasks.
Proof.
  induction tasks as [|t tasks IH]; cbn [spliceFirst app In]; intros N.
  - now rewrite String.eqb_refl.
  - destruct (String.eqb_spec t taskName) as [E|E]; [tauto|].
    rewrite IH; tauto.
Qed.

Lemma spliceFirst_length taskName tasks :
  In taskName tasks ->
  S (List.length (spliceFirst taskName tasks)) = List.length tasks.
Proof.
  induction tasks as [|t tasks IH]; cbn [spliceFirst In]; [tauto|].
  destruct (String.eqb_spec t taskName) as [E|E]; [reflexivity|].
  intros [I|I]; [contradiction|]. cbn [List.length]. now rewrite IH.
Qed.

Lemma shown_mutateAndSave st ref tasks :
  shown (mutateAndSave st ref tasks) = tasks.
Proof. destruct ref; reflexivity. Qed.

Lemma shown_get st :
  shown st = contents (snd (getQuickTasks st)) (fst (getQuickTasks st))
  /\ shown (snd (getQuickTasks st)) = shown st.
Proof.
  unfold shown, getQuickTasks. destruct st as [d [| |tasks]]; split;
    reflexivity.
Qed.

Lemma shown_add taskName st :
  shown (addQuickTaskButton taskName st)
  = if includes (shown st) taskName then shown st
    else match taskName with
         | EmptyString => shown st
         | _ => (shown st ++ [taskName])%list
         end.
Proof.
  destruct (shown_get st) as [S1 S2]. unfold addQuickTaskButton.
  destruct (getQuickTasks st) as [ref st1] eqn:G. cbn [fst snd] in S1, S2.
  rewrite <- S1.
  destruct taskName as [|c name];
    [now destruct (includes (shown st) EmptyString)|].
  destruct (includes (shown st) (String c name)); [exact S2|].
  apply shown_mutateAndSave.
Qed.

Lemma shown_delete taskName confirmed st :
  shown (deleteQuickTaskButton taskName confirmed st)
  = if confirmed && includes (shown st) taskName
    then spliceFirst taskName (shown st)
    else shown st.
Proof.
  destruct (shown_get st) as [S1 S2]. unfold deleteQuickTaskButton.
  destruct confirmed; cbn [negb andb]; [|reflexivity].
  destruct (getQuickTasks st) as [ref st1] eqn:G. cbn [fst snd] in S1, S2.
  rewrite <- S1. destruct (includes (shown st) taskName); [|exact S2].
  apply shown_mutateAndSave.
Qed.

Lemma act_keeps st a :
  NoDup (shown st) -> ~ In EmptyString (shown st) ->
  NoDup (shown (act st a)) /\ ~ In EmptyString (shown (act st a)).
Proof.
  intros N E. destruct a as [taskName|taskName confirmed]; cbn [act].
  - rewrite shown_add. destruct (includes (shown st) taskName) eqn:I;
      [now split|]. apply includes_false in I.
    destruct taskName as [|c name]; [now split|]. split.
    + apply NoDup_app; repeat split; try assumption.
      * repeat constructor. tauto.
      * intros x Ix [<-|[]]. contradiction.
    + rewrite in_app_iff. cbn [In]. intros [H|[H|[]]];
        [contradiction | discriminate].
  - rewrite shown_delete.
    destruct (confirmed && includes (shown st) taskName); [|now split].
    split; [now apply spliceFirst_NoDup|]. intros I. apply E.
    now apply spliceFirst_incl in I.
Qed.

End QuickTaskFacts.

(** X25. The quick task buttons, through any series of additions and
    deletions: if the buttons shown have different names, none of them
    empty, that stays so.  An accepted name is put last and a deleted one is
    gone, so deleting a name just added brings back the buttons as they
    were.  When no list is saved yet, the change is made to the array
    [defaultQuickTasks] itself, which from then on no longer holds the six
    default names. *)
Theorem quick_task_buttons_stay_distinct
    (actions : list QuickTasks.action) (st : QuickTasks.State)
    (taskName : string) :
  NoDup (QuickTasks.shown st) -> ~ In EmptyString (QuickTasks.shown st) ->
  let final := fold_left QuickTasks.act actions st in
  NoDup (QuickTasks.shown final)
  /\ ~ In EmptyString (QuickTasks.shown final)
  /\ (taskName <> EmptyString -> ~ In taskName (QuickTasks.shown st) ->
      QuickTasks.shown (QuickTasks.addQuickTaskButton taskName st)
      = (QuickTasks.shown st ++ [taskName])%list
      /\ QuickTasks.shown
           (QuickTasks.deleteQuickTaskButton taskName true
              (QuickTasks.addQuickTaskButton taskName st))
         = QuickTasks.shown st)
  /\ ~ In taskName
         (QuickTasks.shown (QuickTasks.deleteQuickTaskButton taskName true st))
  /\ ((forall tasks, QuickTasks.quickTasks st <> QuickTasks.Saved tasks) ->
      (taskName <> EmptyString -> ~ In taskName (QuickTasks.shown st) ->
       QuickTasks.defaultQuickTasks
         (QuickTasks.addQuickTaskButton taskName st)
       = (QuickTasks.defaultQuickTasks st ++ [taskName])%list)
      /\ (In taskName (QuickTasks.shown st) ->
          QuickTasks.defaultQuickTasks
            (QuickTasks.deleteQuickTaskButton taskName true st)
          = QuickTasks.spliceFirst taskName
              (QuickTasks.defaultQuickTasks st))).
Proof.
  intros N E final.
  assert (K : NoDup (QuickTasks.shown final)
              /\ ~ In EmptyString (QuickTasks.shown final)).
  { subst final. revert st N E.
    induction actions as [|a actions IH]; intros st N E; [now split|].
    cbn [fold_left]. destruct (QuickTaskFacts.act_keeps st a N E).
    now apply IH. }
  split; [exact (proj1 K)|]. split; [exact (proj2 K)|]. split.
  { intros Ne Ni. apply QuickTaskFacts.includes_false in Ni as Ni'.
    assert (A : QuickTasks.shown (QuickTasks.addQuickTaskButton taskName st)
                = (QuickTasks.shown st ++ [taskName])%list).
    { rewrite QuickTaskFacts.shown_add, Ni'.
      destruct taskName; [contradiction | reflexivity]. }
    split; [exact A|]. rewrite QuickTaskFacts.shown_delete, A.
    replace (QuickTasks.includes (QuickTasks.shown st ++ [taskName]) taskName)
      with true.
    - cbn [andb]. now apply QuickTaskFacts.spliceFirst_last.
    - symmetry. apply QuickTaskFacts.includes_In. rewrite in_app_iff.
      right. now left. }
  split.
  { rewrite QuickTaskFacts.shown_delete. cbn [andb].
    destruct (QuickTasks.includes (QuickTasks.shown st) taskName) eqn:I.
    - now apply QuickTaskFacts.spliceFirst_NoDup.
    - now apply QuickTaskFacts.includes_false. }
  intros U.
  assert (S : QuickTasks.shown st = QuickTasks.defaultQuickTasks st).
  { unfold QuickTasks.shown, QuickTasks.getQuickTasks.
    destruct (QuickTasks.quickTasks st) as [| |tasks] eqn:Q;
      [reflexivity | reflexivity | now destruct (U tasks)]. }
  split.
  - intros Ne Ni. apply QuickTaskFacts.includes_false in Ni.
    rewrite S in Ni. unfold QuickTasks.addQuickTaskButton.
    destruct taskName as [|c name]; [contradiction|].
    unfold QuickTasks.getQuickTasks.
    destruct (QuickTasks.quickTasks st) as [| |tasks] eqn:Q;
      [| |now destruct (U tasks)];
      cbn [QuickTasks.contents QuickTasks.defaultQuickTasks];
      now rewrite Ni.
  - intros I. apply QuickTaskFacts.includes_In in I. rewrite S in I.
    unfold QuickTasks.deleteQuickTaskButton. cbn [negb].
    unfold QuickTasks.getQuickTasks.
    destruct (QuickTasks.quickTasks st) as [| |tasks] eqn:Q;
      [| |now destruct (U tasks)];
      cbn [QuickTasks.contents QuickTasks.defaultQuickTasks];
      now rewrite I.
Qed.

Lemma quick_task_buttons_stay_distinct_witness :
  NoDup
    (QuickTasks.shown
       (fold_left QuickTasks.act
          [QuickTasks.Add "A"; QuickTasks.Delete "A" true]
          (QuickTasks.mkState QuickTasks.initialQuickTasks
             QuickTasks.Absent))).
Proof.
  refine (proj1 (quick_task_buttons_stay_distinct
                   [QuickTasks.Add "A"; QuickTasks.Delete "A" true]
                   (QuickTasks.mkState QuickTasks.initialQuickTasks
                      QuickTasks.Absent) "A" _ _)).
  - cbn. repeat constructor; cbn; intros H;
      repeat (destruct H as [H|H]; [discriminate H|]); exact H.
  - cbn. intros H.
    repeat (destruct H as [H|H]; [discriminate H|]); exact H.
Defined.

(** ** Editing records *)

Module EditingFacts.

Import RecordEditing.

Lemma setAt_length index record records :
  List.length (setAt index record records) = List.length records.
Proof.
  revert index. induction records as [|r records IH]; intros [|index];
    cbn [setAt List.length]; try reflexivity. now rewrite IH.
Qed.

Lemma setAt_nth index record records j :
  (index < List.length records)%nat ->
  nth_error (setAt index record records) j
  = if (j =? index)%nat then Some record else nth_error records j.
Proof.
  revert index j. induction records as [|r records IH]; intros [|index] [|j] L;
    cbn [List.length] in L; cbn [setAt nth_error Nat.eqb]; try lia;
    try reflexivity. apply IH. lia.
Qed.

Lemma minutes_apart (a b : Z) :
  a < b -> b - a = 60000 * ((b - a) / 60000) ->
  60 <= (b - a) / 1000 /\ ((b - a) / 1000) mod 60 = 0
  /\ (b - a) / 1000 * 1000 = b - a.
Proof. intros L E. Z.to_euclidean_division_equations. lia. Qed.

Lemma setHours_apart t t' hour min hour' min' :
  setHours t' hour' min' - setHours t hour min
  = 60000 * ((setHours t' hour' min' - setHours t hour min) / 60000).
Proof.
  unfold setHours, Analysis.msPerDay.
  Z.to_euclidean_division_equations. lia.
Qed.

End EditingFacts.

(** X26. An edit of a record that [saveEditedRecord] accepts replaces that
    record and no other: the new record carries the new name, which is not
    empty, starts before it ends, and lasts a whole number of minutes, one
    at least, its duration in seconds being exactly the time between its
    start and its end; with an hour and a minute of the clock the start
    stays on the day it was on. *)
Theorem saveEditedRecord_whole_minutes
    (index : nat) (newTask : string) (newStart newEnd : option Z * option Z)
    (records result : list TaskLog.TaskRecord) :
  RecordEditing.saveEditedRecord index newTask newStart newEnd records
  = RecordEditing.saved result ->
  exists old edited,
    nth_error records index = Some old
    /\ nth_error result index = Some edited
    /\ List.length result = List.length records
    /\ (forall j, j <> index -> nth_error result j = nth_error records j)
    /\ TaskLog.task edited = newTask /\ newTask <> EmptyString
    /\ TaskLog.startTime edited < TaskLog.endTime edited
    /\ 60 <= TaskLog.duration edited
    /\ TaskLog.duration edited mod 60 = 0
    /\ TaskLog.duration edited * 1000
       = TaskLog.endTime edited - TaskLog.startTime edited
    /\ (forall hour min,
          newStart = (Some hour, Some min) ->
          0 <= hour <= 23 -> 0 <= min <= 59 ->
          Analysis.Day (TaskLog.startTime edited)
          = Analysis.Day (TaskLog.startTime old)).
Proof.
  unfold RecordEditing.saveEditedRecord. intros E.
  destruct newTask as [|c name]; [discriminate|].
  destruct newStart as [[sh|] [sm|]]; try discriminate.
  destruct newEnd as [[eh|] [em|]]; try discriminate.
  destruct (nth_error records index) as [old|] eqn:O; [|discriminate].
  cbv zeta in E.
  set (s := RecordEditing.setHours (TaskLog.startTime old) sh sm) in *.
  set (e := RecordEditing.setHours (TaskLog.endTime old) eh em) in *.
  destruct (Z.leb_spec e s) as [L|L]; [discriminate|].
  injection E as <-.
  assert (I : (index < List.length records)%nat)
    by (apply nth_error_Some; congruence).
  exists old, (TaskLog.mkTaskRecord (String c name) s e ((e - s) / 1000)).
  split; [reflexivity|].
  split; [now rewrite EditingFacts.setAt_nth, Nat.eqb_refl|].
  split; [apply EditingFacts.setAt_length|].
  split.
  { intros j J. rewrite EditingFacts.setAt_nth by exact I.
    now destruct (Nat.eqb_spec j index). }
  cbn [TaskLog.task TaskLog.startTime TaskLog.endTime TaskLog.duration].
  split; [reflexivity|]. split; [discriminate|]. split; [exact L|].
  destruct (EditingFacts.minutes_apart s e L
              (EditingFacts.setHours_apart _ _ _ _ _ _)) as (A & B & C).
  split; [exact A|]. split; [exact B|]. split; [exact C|].
  intros hour min [= <- <-] Hh Hm. subst s.
  unfold RecordEditing.setHours, Analysis.Day, Analysis.msPerDay.
  Z.to_euclidean_division_equations. lia.
Qed.

Lemma saveEditedRecord_whole_minutes_witness :
  exists old edited,
    nth_error [TaskLog.mkTaskRecord "A" 1000 2000 1] 0 = Some old
    /\ nth_error
         [TaskLog.mkTaskRecord "B" 32400000 36000000 3600] 0 = Some edited.
Proof.
  destruct (saveEditedRecord_whole_minutes 0 "B" (Some 9, Some 0)
              (Some 10, Some 0) [TaskLog.mkTaskRecord "A" 1000 2000 1]
              [TaskLog.mkTaskRecord "B" 32400000 36000000 3600] eq_refl)
    as (old & edited & O & R & _).
  exists old, edited. split; [exact O | exact R].
Defined.

(** X27. An edit of the running task that [saveEditedCurrentTask] accepts
    leaves a task with a name that is not empty and a start on a whole
    minute that is not after the present; records and timer stay as they
    are, and when the task is stopped later it is filed under the new name
    with the new start and a duration that is not negative. *)
Theorem saveEditedCurrentTask_can_be_stopped
    (epoch : Z) (newTask : string) (newStart : option Z * option Z)
    (now later : Z) (st st' : TaskLog.State) :
  RecordEditing.saveEditedCurrentTask epoch newTask newStart now st
  = RecordEditing.saved st' ->
  now <= later ->
  exists started,
    TaskLog.currentTask st' = Some newTask
    /\ TaskLog.nameTruthy (TaskLog.currentTask st') = true
    /\ TaskLog.taskStartTime st' = Some started
    /\ started <= now /\ started mod 60000 = 0
    /\ TaskLog.taskRecords st' = TaskLog.taskRecords st
    /\ TaskLog.intervals st' = TaskLog.intervals st
    /\ TaskLog.taskTimerInterval st' = TaskLog.taskTimerInterval st
    /\ exists stopped,
         TaskLog.stopTask later st' = Some stopped
         /\ TaskLog.currentTask stopped = None
         /\ TaskLog.taskRecords stopped
            = TaskLog.mkTaskRecord newTask started later
                ((later - started) / 1000) :: TaskLog.taskRecords st
         /\ 0 <= (later - started) / 1000.
Proof.
  unfold RecordEditing.saveEditedCurrentTask. intros E T.
  destruct newTask as [|c name]; [discriminate|].
  destruct newStart as [[hour|] [min|]]; try discriminate.
  cbv zeta in E.
  set (s := RecordEditing.setHours _ hour min) in *.
  destruct (Z.ltb_spec now s) as [L|L]; [discriminate|].
  injection E as <-. exists s.
  cbn [TaskLog.currentTask TaskLog.taskStartTime TaskLog.taskRecords
       TaskLog.intervals TaskLog.taskTimerInterval TaskLog.nameTruthy].
  repeat (split; [first [reflexivity | exact L]|]).
  split.
  { subst s. unfold RecordEditing.setHours, Analysis.msPerDay.
    Z.to_euclidean_division_equations. lia. }
  repeat (split; [reflexivity|]).
  eexists. unfold TaskLog.stopTask.
  cbn [TaskLog.currentTask TaskLog.taskStartTime TaskLog.nameTruthy negb].
  split; [reflexivity|].
  cbn [TaskLog.currentTask TaskLog.taskRecords].
  split; [reflexivity|]. split; [reflexivity|].
  apply Z.div_pos; lia.
Qed.

Lemma saveEditedCurrentTask_can_be_stopped_witness :
  exists started,
    TaskLog.currentTask
      (TaskLog.mkState (Some "B"%string) (Some 32400000) (Some 1) [] [1] 2)
    = Some "B"%string
    /\ TaskLog.taskStartTime
         (TaskLog.mkState (Some "B"%string) (Some 32400000) (Some 1) [] [1] 2)
       = Some started.
Proof.
  destruct (saveEditedCurrentTask_can_be_stopped 0 "B" (Some 9, Some 0)
              40000000 40000001
              (TaskLog.mkState (Some "A"%string) (Some 36000000) (Some 1)
                 [] [1] 2)
              (TaskLog.mkState (Some "B"%string) (Some 32400000) (Some 1)
                 [] [1] 2) eq_refl ltac:(lia))
    as (started & C & _ & S & _).
  exists started. split; [exact C | exact S].
Defined.

(** ** The order date of the earlier calculator *)

(** X28. The earlier calculator reads the text of the order date with
    [new Date(text)], that is as midnight in UTC.  In calendar mode (any mode
    but [business]) it shows the day [leadTime] days after the order date in
    the zones at or east of UTC, and the day before that one in the zones
    west of UTC, where midnight in UTC is the evening of the day before. *)
Theorem legacy_order_date_utc (LocalTZA year month day leadTime : Z)
    (mode : string) (fuel : nat) :
  - DateObject.msPerDay <= LocalTZA < DateObject.msPerDay ->
  calendarDate4 year month day -> 1 <= leadTime ->
  mode <> "business"%string ->
  JSDate.MakeDay year (month - 1) day + leadTime <= 100000000 ->
  DateObject.fromDateOnly year month day
  = DateObject.TimeValue
      (JSDate.MakeDay year (month - 1) day * DateObject.msPerDay)
  /\ (0 <= LocalTZA ->
      Legacy.calculateDelivery LocalTZA fuel (Some (year, month, day))
        (Some leadTime) mode
      = Some (Legacy.shown
                ("→ " ++ dayText (JSDate.MakeDay year (month - 1) day
                                  + leadTime))%string))
  /\ (LocalTZA < 0 ->
      Legacy.calculateDelivery LocalTZA fuel (Some (year, month, day))
        (Some leadTime) mode
      = Some (Legacy.shown
                ("→ " ++ dayText (JSDate.MakeDay year (month - 1) day - 1
                                  + leadTime))%string)).
Proof.
  intros T V L M R.
  split; [now apply LegacyFacts.fromDateOnly_valid|]. split.
  - intros T0.
    exact (proj1 (LegacyFacts.legacy_calendar_mode LocalTZA year month day
                    leadTime mode fuel ltac:(lia) V L M) R).
  - intros T0.
    rewrite (LegacyFacts.legacy_west_of_utc LocalTZA year month day leadTime
               mode fuel ltac:(lia) V L M).
    destruct (Z.leb_spec (JSDate.MakeDay year (month - 1) day + leadTime)
                100000000); [reflexivity | lia].
Qed.

Lemma legacy_order_date_utc_witness :
  (- DateObject.msPerDay <= -18000000 < DateObject.msPerDay
   /\ calendarDate4 2025 1 1 /\ 1 <= 5 /\ "calendar"%string <> "business"%string
   /\ JSDate.MakeDay 2025 (1 - 1) 1 + 5 <= 100000000)
  /\ Legacy.calculateDelivery (-18000000) 0 (Some (2025, 1, 1)) (Some 5)
       "calendar"
     = Some (Legacy.shown "→ 1/5（日）").
Proof.
  assert (H : - DateObject.msPerDay <= -18000000 < DateObject.msPerDay
              /\ calendarDate4 2025 1 1 /\ 1 <= 5
              /\ "calendar"%string <> "business"%string
              /\ JSDate.MakeDay 2025 (1 - 1) 1 + 5 <= 100000000).
  { split; [unfold DateObject.msPerDay; lia|].
    split; [unfold calendarDate4;
            change (JSDate.DaysInMonth (JSDate.DaysInYear 2025 =? 366) (1 - 1))
              with 31; lia|].
    split; [lia|]. split; [discriminate|].
    apply Z.leb_le. vm_compute. reflexivity. }
  split; [exact H|]. destruct H as (T & V & L & M & R).
  exact (proj2 (proj2 (legacy_order_date_utc (-18000000) 2025 1 1 5
                         "calendar" 0 T V L M R))
           ltac:(lia)).
Defined.
